(** * ozwpan virtual USB host controller (drivers/staging/ozwpan/ozhcd.c)

    A shallow embedding of the endpoint/URB engine of the Ozmo WPAN host
    controller driver: the link pool, URB submission, deferred submission
    processing, endpoint enqueue, the endpoint-0 control path, the ring
    buffer of the IN endpoints and the isochronous part of the heartbeat.

    C [int] values are integers of [Z]; where the C code converts between
    widths the conversion is written out ([to_u8], [to_int], [to_u64]).
    Credits, frame numbers and times, which the environment drives, wrap
    as an [int] does; the ring cursors and the counters do not, they
    stay far inside the [int] range under the invariants of the theorems.
    A byte array is a [list Z] of values in [0, 256).  The links hold
    their URB by value: an URB is changed only by the function that has
    taken it off its queue.  Spinlocks are not modelled: every function
    below runs to completion on the state. *)

From Stdlib Require Import ZArith Lia List Bool.
From stdpp Require Import base option list.

Local Open Scope Z_scope.

(** ** Integer conversions *)

(** [(u8)x] *)
Definition to_u8 (x : Z) : Z := x mod 256.

(** Conversion of an unsigned 64-bit value to [int] (two's complement,
    as gcc defines it). *)
Definition to_int (x : Z) : Z := (x + 2147483648) mod 4294967296 - 2147483648.

(** Conversion to [u64]. *)
Definition to_u64 (x : Z) : Z := x mod 18446744073709551616.

Definition INT_MAX : Z := 2147483647.

Arguments to_u8 _ : simpl never.
Arguments to_int _ : simpl never.
Arguments to_u64 _ : simpl never.

Definition is_u8 (x : Z) : Prop := 0 <= x < 256.

(** ** Constants *)

(** Constants of ozhcd.c itself. *)
Definition OZ_MAX_LINK_POOL_SIZE : Z := 16.
Definition EP0_TIMEOUT_COUNTER : Z := 13.
Definition OZ_F_EP_BUFFERING : Z := 1.
Definition OZ_F_EP_HAVE_STREAM : Z := 2.
Definition OZ_EP_BUFFER_SIZE_ISOC : Z := 1024 * 24.
Definition OZ_EP_BUFFER_SIZE_INT : Z := 512.
Definition OZ_NB_ENDPOINTS : Z := 16.
Definition OZ_PORT_F_PRESENT : Z := 1.
Definition OZ_PORT_F_CHANGED : Z := 2.
Definition OZ_PORT_F_DYING : Z := 4.
Definition OZ_NB_PORTS : Z := 8.
Definition OZ_HDC_F_SUSPENDED : Z := 1.

(** Modelled from the spec: the kernel headers that declare the error
    numbers, the USB chapter 9 constants and the pipe macros are not part
    of the source set.  The spec names the errors ("no device", "out of
    memory", "broken pipe", "no such endpoint", "cancelled"); the numbers
    are those of the kernel's errno-base.h, ch9.h, usb.h and hcd.h. *)
Definition ENOENT : Z := 2.
Definition ENOMEM : Z := 12.
Definition ENODEV : Z := 19.
Definition EINVAL : Z := 22.
Definition EPIPE : Z := 32.
Definition HC_STATE_RUNNING : Z := 1.
Definition USB_DIR_IN : Z := 128.
Definition USB_TYPE_MASK : Z := 96.
Definition USB_TYPE_STANDARD : Z := 0.
Definition USB_REQ_SET_ADDRESS : Z := 5.
Definition USB_REQ_GET_DESCRIPTOR : Z := 6.
Definition USB_REQ_GET_CONFIGURATION : Z := 8.
Definition USB_REQ_SET_CONFIGURATION : Z := 9.
Definition USB_REQ_GET_INTERFACE : Z := 10.
Definition USB_REQ_SET_INTERFACE : Z := 11.
Definition USB_ENDPOINT_NUMBER_MASK : Z := 15.
Definition USB_ENDPOINT_XFERTYPE_MASK : Z := 3.
Definition USB_ENDPOINT_XFER_CONTROL : Z := 0.
Definition USB_ENDPOINT_XFER_ISOC : Z := 1.
Definition USB_ENDPOINT_XFER_BULK : Z := 2.
Definition USB_ENDPOINT_XFER_INT : Z := 3.
Definition PIPE_ISOCHRONOUS : Z := 0.
Definition NSEC_PER_MSEC : Z := 1000000.

(** Modelled from the spec: the pipe macros of the kernel's usb.h (not in
    the source set) that take a URB's pipe apart into "port address,
    endpoint number, direction" and the transfer type. *)
Definition usb_pipedevice (pipe : Z) : Z := Z.land (Z.shiftr pipe 8) 127.
Definition usb_pipeendpoint (pipe : Z) : Z := Z.land (Z.shiftr pipe 15) 15.
Definition usb_pipein (pipe : Z) : Z := Z.land pipe USB_DIR_IN.
Definition usb_pipetype (pipe : Z) : Z := Z.land (Z.shiftr pipe 30) 3.
Definition usb_pipeisoc (pipe : Z) : bool := usb_pipetype pipe =? PIPE_ISOCHRONOUS.

(** ** Data model *)

Record usb_ctrlrequest := mk_setup {
  bRequestType : Z;
  bRequest : Z;
  wValue : Z;
  wIndex : Z;
  wLength : Z
}.

Record usb_iso_packet_descriptor := mk_iso_desc {
  iso_offset : Z;
  iso_actual_length : Z;
  iso_status : Z
}.

(** The fields of [struct urb] the driver reads or writes.  [urb_ptr] is
    the address of the URB: the driver compares URBs by pointer.
    [hcpriv] is the port the URB was submitted to (an index into
    [ports]). *)
Record urb := mk_urb {
  urb_ptr : Z;
  pipe : Z;
  unlinked : Z;
  hcpriv : option nat;
  transfer_buffer : option (list Z);
  transfer_buffer_length : Z;
  actual_length : Z;
  setup_packet : usb_ctrlrequest;
  number_of_packets : Z;
  urb_start_frame : Z;
  error_count : Z;
  iso_frame_desc : list usb_iso_packet_descriptor
}.

Record oz_urb_link := mk_urbl {
  link_urb : urb;
  link_port : option nat;
  req_id : Z;
  link_ep_num : Z;
  submit_counter : Z
}.

(** [timestamp] is the raw monotonic time in nanoseconds. *)
Record oz_endpoint := mk_ep {
  urb_list : list oz_urb_link;
  timestamp : Z;
  credit2 : Z;
  credit : Z;
  credit_ceiling : Z;
  ep_num : Z;
  attrib : Z;
  buffer : option (list Z);
  buffer_size : Z;
  in_ix : Z;
  out_ix : Z;
  buffered_units : Z;
  max_buffer_units : Z;
  ep_flags : Z;
  start_frame : Z
}.

Record oz_interface := mk_iface {
  ep_mask : Z;
  alt : Z
}.

(** The isochronous membership lists of a port link endpoint objects that
    also sit in [out_ep] / [in_ep]; they are kept as lists of endpoint
    numbers into these tables. *)
Record oz_port := mk_port {
  port_flags : Z;
  status : Z;
  hpd : option Z;
  bus_addr : Z;
  next_req_id : Z;
  config_num : Z;
  num_iface : Z;
  iface : option (list oz_interface);
  out_ep : list (option oz_endpoint);
  in_ep : list (option oz_endpoint);
  isoc_out_ep : list nat;
  isoc_in_ep : list nat
}.

Record oz_hcd := mk_hcd {
  urb_pending_list : list oz_urb_link;
  urb_cancel_list : list oz_urb_link;
  orphanage : list oz_urb_link;
  conn_port : Z;
  ports : list oz_port;
  hcd_flags : Z
}.

(** Calls made to the transport (ozusbsvc) and to the USB core, in the
    order the driver makes them. *)
Inductive call :=
  | Giveback (u : urb) (status : Z)
  | ControlReq (hpd : option Z) (req_id : Z) (setup : usb_ctrlrequest)
      (data_len : Z)
  | RequestHeartbeat (hpd : option Z)
  | SendIsoc (hpd : option Z) (ep_num : Z) (u : urb)
  | ScheduleProcessTasklet.

(** The driver's global state: the controller private area of the one
    [usb_hcd], its [state] field, the link pool (the pooled records are
    inert, so only their number is kept) and the global counters. *)
Record world := mk_world {
  hcd_state : Z;
  ozhcd : oz_hcd;
  g_ozhcd : bool;
  g_link_pool_size : Z;
  g_pending_urbs : Z;
  g_usb_frame_number : Z;
  calls : list call
}.

(** ** Field updates *)

Definition set_urb_list (v : list oz_urb_link) (e : oz_endpoint) : oz_endpoint :=
  mk_ep v (timestamp e) (credit2 e) (credit e) (credit_ceiling e) (ep_num e)
    (attrib e) (buffer e) (buffer_size e) (in_ix e) (out_ix e)
    (buffered_units e) (max_buffer_units e) (ep_flags e) (start_frame e).
Definition set_timestamp (v : Z) (e : oz_endpoint) : oz_endpoint :=
  mk_ep (urb_list e) v (credit2 e) (credit e) (credit_ceiling e) (ep_num e)
    (attrib e) (buffer e) (buffer_size e) (in_ix e) (out_ix e)
    (buffered_units e) (max_buffer_units e) (ep_flags e) (start_frame e).
Definition set_credit2 (v : Z) (e : oz_endpoint) : oz_endpoint :=
  mk_ep (urb_list e) (timestamp e) v (credit e) (credit_ceiling e) (ep_num e)
    (attrib e) (buffer e) (buffer_size e) (in_ix e) (out_ix e)
    (buffered_units e) (max_buffer_units e) (ep_flags e) (start_frame e).
Definition set_credit (v : Z) (e : oz_endpoint) : oz_endpoint :=
  mk_ep (urb_list e) (timestamp e) (credit2 e) v (credit_ceiling e) (ep_num e)
    (attrib e) (buffer e) (buffer_size e) (in_ix e) (out_ix e)
    (buffered_units e) (max_buffer_units e) (ep_flags e) (start_frame e).
Definition set_buffer (v : option (list Z)) (e : oz_endpoint) : oz_endpoint :=
  mk_ep (urb_list e) (timestamp e) (credit2 e) (credit e) (credit_ceiling e)
    (ep_num e) (attrib e) v (buffer_size e) (in_ix e) (out_ix e)
    (buffered_units e) (max_buffer_units e) (ep_flags e) (start_frame e).
Definition set_in_ix (v : Z) (e : oz_endpoint) : oz_endpoint :=
  mk_ep (urb_list e) (timestamp e) (credit2 e) (credit e) (credit_ceiling e)
    (ep_num e) (attrib e) (buffer e) (buffer_size e) v (out_ix e)
    (buffered_units e) (max_buffer_units e) (ep_flags e) (start_frame e).
Definition set_out_ix (v : Z) (e : oz_endpoint) : oz_endpoint :=
  mk_ep (urb_list e) (timestamp e) (credit2 e) (credit e) (credit_ceiling e)
    (ep_num e) (attrib e) (buffer e) (buffer_size e) (in_ix e) v
    (buffered_units e) (max_buffer_units e) (ep_flags e) (start_frame e).
Definition set_buffered_units (v : Z) (e : oz_endpoint) : oz_endpoint :=
  mk_ep (urb_list e) (timestamp e) (credit2 e) (credit e) (credit_ceiling e)
    (ep_num e) (attrib e) (buffer e) (buffer_size e) (in_ix e) (out_ix e)
    v (max_buffer_units e) (ep_flags e) (start_frame e).
Definition set_ep_flags (v : Z) (e : oz_endpoint) : oz_endpoint :=
  mk_ep (urb_list e) (timestamp e) (credit2 e) (credit e) (credit_ceiling e)
    (ep_num e) (attrib e) (buffer e) (buffer_size e) (in_ix e) (out_ix e)
    (buffered_units e) (max_buffer_units e) v (start_frame e).
Definition set_start_frame (v : Z) (e : oz_endpoint) : oz_endpoint :=
  mk_ep (urb_list e) (timestamp e) (credit2 e) (credit e) (credit_ceiling e)
    (ep_num e) (attrib e) (buffer e) (buffer_size e) (in_ix e) (out_ix e)
    (buffered_units e) (max_buffer_units e) (ep_flags e) v.

Definition set_hcpriv (v : option nat) (u : urb) : urb :=
  mk_urb (urb_ptr u) (pipe u) (unlinked u) v (transfer_buffer u)
    (transfer_buffer_length u) (actual_length u) (setup_packet u)
    (number_of_packets u) (urb_start_frame u) (error_count u)
    (iso_frame_desc u).
Definition set_transfer_buffer (v : option (list Z)) (u : urb) : urb :=
  mk_urb (urb_ptr u) (pipe u) (unlinked u) (hcpriv u) v
    (transfer_buffer_length u) (actual_length u) (setup_packet u)
    (number_of_packets u) (urb_start_frame u) (error_count u)
    (iso_frame_desc u).
Definition set_transfer_buffer_length (v : Z) (u : urb) : urb :=
  mk_urb (urb_ptr u) (pipe u) (unlinked u) (hcpriv u) (transfer_buffer u)
    v (actual_length u) (setup_packet u)
    (number_of_packets u) (urb_start_frame u) (error_count u)
    (iso_frame_desc u).
Definition set_actual_length (v : Z) (u : urb) : urb :=
  mk_urb (urb_ptr u) (pipe u) (unlinked u) (hcpriv u) (transfer_buffer u)
    (transfer_buffer_length u) v (setup_packet u)
    (number_of_packets u) (urb_start_frame u) (error_count u)
    (iso_frame_desc u).
Definition set_urb_start_frame (v : Z) (u : urb) : urb :=
  mk_urb (urb_ptr u) (pipe u) (unlinked u) (hcpriv u) (transfer_buffer u)
    (transfer_buffer_length u) (actual_length u) (setup_packet u)
    (number_of_packets u) v (error_count u)
    (iso_frame_desc u).
Definition set_error_count (v : Z) (u : urb) : urb :=
  mk_urb (urb_ptr u) (pipe u) (unlinked u) (hcpriv u) (transfer_buffer u)
    (transfer_buffer_length u) (actual_length u) (setup_packet u)
    (number_of_packets u) (urb_start_frame u) v
    (iso_frame_desc u).
Definition set_iso_frame_desc (v : list usb_iso_packet_descriptor) (u : urb) : urb :=
  mk_urb (urb_ptr u) (pipe u) (unlinked u) (hcpriv u) (transfer_buffer u)
    (transfer_buffer_length u) (actual_length u) (setup_packet u)
    (number_of_packets u) (urb_start_frame u) (error_count u) v.

(** ** Byte arrays *)

(** [b[i]].  A read outside the array is undefined in C; it reads 0 here,
    and the theorems below only read inside. *)
Definition rd (b : list Z) (i : Z) : Z := default 0 (b !! Z.to_nat i).

(** [memcpy(dst + doff, src + soff, n)]: the [n] bytes of [src] from
    offset [soff] overwrite [dst] from offset [doff]. *)
Definition memcpy (dst : list Z) (doff : Z) (src : list Z) (soff n : Z) : list Z :=
  list_inserts (Z.to_nat doff) (take (Z.to_nat n) (drop (Z.to_nat soff) src)) dst.

(** The array behind [ep->buffer]; a NULL buffer has no bytes. *)
Definition ep_buf (ep : oz_endpoint) : list Z := default [] (buffer ep).

(** ** The ring buffer of an endpoint *)

(** [oz_hcd_buffer_data]: returns the C return value and the endpoint
    after the call. *)
Definition oz_hcd_buffer_data (ep : oz_endpoint) (data : list Z) (data_len : Z)
    : Z * oz_endpoint :=
  match buffer ep with
  | None => (-1, ep)
  | Some buf =>
    let space := out_ix ep - in_ix ep - 1 in
    let space := if space <? 0 then space + buffer_size ep else space in
    if space <? data_len + 1 then (-1, ep)
    else
      let buf := <[Z.to_nat (in_ix ep) := to_u8 data_len]> buf in
      let ix := if in_ix ep + 1 =? buffer_size ep then 0 else in_ix ep + 1 in
      let copy_len := buffer_size ep - ix in
      let copy_len := if copy_len >? data_len then data_len else copy_len in
      let buf := memcpy buf ix data 0 copy_len in
      let '(buf, ix) :=
        if copy_len <? data_len
        then (memcpy buf 0 data copy_len (data_len - copy_len),
              data_len - copy_len)
        else (buf, ix + copy_len) in
      let ix := if ix =? buffer_size ep then 0 else ix in
      (0, set_buffered_units (buffered_units ep + 1)
            (set_in_ix ix (set_buffer (Some buf) ep)))
  end.

(** The part of [oz_complete_buffered_urb] before its call of
    [oz_complete_urb]: one buffered unit is copied into the URB. *)
Definition oz_complete_buffered_urb_copy (ep : oz_endpoint) (u : urb)
    : oz_endpoint * urb :=
  let buf := ep_buf ep in
  let data_len := rd buf (out_ix ep) in
  let available_space :=
    if data_len <=? transfer_buffer_length u then data_len
    else transfer_buffer_length u in
  let ox := if out_ix ep + 1 =? buffer_size ep then 0 else out_ix ep + 1 in
  let copy_len := buffer_size ep - ox in
  let copy_len := if copy_len >=? available_space then available_space
                  else copy_len in
  let tb := (fun t => memcpy t 0 buf ox copy_len) <$> transfer_buffer u in
  let '(tb, ox) :=
    if copy_len <? available_space
    then ((fun t => memcpy t copy_len buf 0 (available_space - copy_len)) <$> tb,
          available_space - copy_len)
    else (tb, ox + copy_len) in
  let u := set_actual_length available_space (set_transfer_buffer tb u) in
  let ox := if ox =? buffer_size ep then 0 else ox in
  (set_buffered_units (buffered_units ep - 1) (set_out_ix ox ep), u).

(** One round of the discard loop of [oz_hcd_data_ind]: the oldest unit
    is skipped without being copied. *)
Definition discard_unit (ep : oz_endpoint) : oz_endpoint :=
  let len := rd (ep_buf ep) (out_ix ep) in
  let ox := if out_ix ep + 1 =? buffer_size ep then 0 else out_ix ep + 1 in
  let copy_len := buffer_size ep - ox in
  let copy_len := if copy_len >? len then len else copy_len in
  let ox := if copy_len <? len then len - copy_len else ox + copy_len in
  let ox := if ox =? buffer_size ep then 0 else ox in
  set_buffered_units (buffered_units ep - 1) (set_out_ix ox ep).

(** [while (ep->buffered_units > ep->max_buffer_units) ...]: every round
    takes one unit off the count, so [n] rounds are enough when [n] is
    the excess at entry. *)
Fixpoint discard_loop (n : nat) (ep : oz_endpoint) : oz_endpoint :=
  match n with
  | O => ep
  | S n =>
    if buffered_units ep >? max_buffer_units ep
    then discard_loop n (discard_unit ep)
    else ep
  end.

Definition discard_excess (ep : oz_endpoint) : oz_endpoint :=
  discard_loop (Z.to_nat (buffered_units ep - max_buffer_units ep)) ep.

(** ** Ring invariants *)

(** The endpoint has an allocated buffer [buf] of [buffer_size] bytes and
    both cursors are inside it. *)
Record ring_wf (ep : oz_endpoint) (buf : list Z) : Prop := mk_ring_wf {
  wf_buffer : buffer ep = Some buf;
  wf_length : Z.of_nat (length buf) = buffer_size ep;
  wf_in : 0 <= in_ix ep < buffer_size ep;
  wf_out : 0 <= out_ix ep < buffer_size ep
}.

(** The free space as the circular distance from the write cursor to the
    read cursor, less one. *)
Definition free_space (ep : oz_endpoint) : Z :=
  (out_ix ep - in_ix ep - 1) mod buffer_size ep.

(** What [oz_complete_buffered_urb] copies: [avail] is the stored length
    cut down to the URB's buffer length. *)
Definition avail_len (buf : list Z) (ep : oz_endpoint) (u : urb) : Z :=
  if rd buf (out_ix ep) <=? transfer_buffer_length u
  then rd buf (out_ix ep) else transfer_buffer_length u.

(** ** The isochronous IN drain of the heartbeat *)

Definition set_link_urb (v : urb) (l : oz_urb_link) : oz_urb_link :=
  mk_urbl v (link_port l) (req_id l) (link_ep_num l) (submit_counter l).
Definition set_submit_counter (v : Z) (l : oz_urb_link) : oz_urb_link :=
  mk_urbl (link_urb l) (link_port l) (req_id l) (link_ep_num l) v.

(** The body of [for (i = 0; i < urb->number_of_packets; i++)] in
    [oz_hcd_heartbeat]: one buffered unit becomes packet [i] of the URB.
    Both [memcpy] calls write from the start of [urb->transfer_buffer],
    as in the source. *)
Definition heartbeat_in_packet (i : nat) (st : oz_endpoint * urb)
    : oz_endpoint * urb :=
  let '(ep, u) := st in
  let buf := ep_buf ep in
  let len := rd buf (out_ix ep) in
  let ox := if out_ix ep + 1 =? buffer_size ep then 0 else out_ix ep + 1 in
  let copy_len := buffer_size ep - ox in
  let copy_len := if copy_len >? len then len else copy_len in
  let tb := (fun t => memcpy t 0 buf ox copy_len) <$> transfer_buffer u in
  let '(tb, ox) :=
    if copy_len <? len
    then ((fun t => memcpy t copy_len buf 0 (len - copy_len)) <$> tb,
          len - copy_len)
    else (tb, ox + copy_len) in
  let ox := if ox =? buffer_size ep then 0 else ox in
  let desc := mk_iso_desc (actual_length u) len 0 in
  let u := set_iso_frame_desc (<[i := desc]> (iso_frame_desc u))
             (set_actual_length (actual_length u + len)
                (set_transfer_buffer tb u)) in
  (set_out_ix ox ep, u).

Fixpoint heartbeat_in_packets (n : nat) (i : nat) (st : oz_endpoint * urb)
    : oz_endpoint * urb :=
  match n with
  | O => st
  | S n => heartbeat_in_packets n (S i) (heartbeat_in_packet i st)
  end.

(** [while (!list_empty(&ep->urb_list))] of the IN part: [q] is the
    endpoint's queue, [xfr] the transfer list the filled URBs move to. *)
Fixpoint heartbeat_in_drain (q : list oz_urb_link) (ep : oz_endpoint)
    (xfr : list oz_urb_link) : oz_endpoint * list oz_urb_link :=
  match q with
  | [] => (ep, xfr)
  | urbl :: q' =>
    let u := link_urb urbl in
    if buffered_units ep <? number_of_packets u then (ep, xfr)
    else
      let n := number_of_packets u in
      let u := set_actual_length 0 u in
      let '(ep, u) := heartbeat_in_packets (Z.to_nat n) 0 (ep, u) in
      let ep := set_buffered_units (buffered_units ep - n) ep in
      let u := set_error_count 0 u in
      let u := set_urb_start_frame (start_frame ep) u in
      let ep := set_start_frame (to_int (start_frame ep + n)) ep in
      let ep := set_urb_list q' ep in
      let ep := set_credit (to_int (credit ep - n)) ep in
      let ep := set_credit2 (to_int (credit2 ep + n)) ep in
      heartbeat_in_drain q' ep (xfr ++ [set_link_urb u urbl])
  end.

Definition div64_u64 (a b : Z) : Z := a / b.

Arguments div64_u64 _ _ : simpl never.

Definition ep_buffering (ep : oz_endpoint) : bool :=
  negb (Z.land (ep_flags ep) OZ_F_EP_BUFFERING =? 0).

(** The body of [list_for_each(e, &port->isoc_in_ep)] in
    [oz_hcd_heartbeat] for one endpoint, at time [ts].  The trace of the
    [credit2 >= 1000] branch is left out; its [static] variables are
    written and never read. *)
Definition heartbeat_isoc_in_ep (ts : Z) (ep : oz_endpoint)
    (xfr : list oz_urb_link) : oz_endpoint * list oz_urb_link :=
  if ep_buffering ep then
    if buffered_units ep >=? max_buffer_units ep then
      (set_start_frame 0 (set_timestamp ts (set_credit2 0 (set_credit 0
         (set_ep_flags (Z.land (ep_flags ep) (Z.lnot OZ_F_EP_BUFFERING)) ep)))),
       xfr)
    else (ep, xfr)
  else
    let ep := set_credit
      (to_int (to_u64 (to_u64 (credit ep)
         + div64_u64 (to_u64 (ts - timestamp ep + 5000)) NSEC_PER_MSEC))) ep in
    let ep := set_timestamp ts ep in
    let '(ep, xfr) := heartbeat_in_drain (urb_list ep) ep xfr in
    if buffered_units ep =? 0 then
      (set_ep_flags (Z.lor (ep_flags ep) OZ_F_EP_BUFFERING) ep, xfr)
    else if credit2 ep >=? 1000 then (set_credit2 0 ep, xfr)
    else (ep, xfr).

(** ** The isochronous OUT release of the heartbeat *)

(** [while (ep->credit && !list_empty(&ep->urb_list))]. *)
Fixpoint heartbeat_out_release (q : list oz_urb_link) (ep : oz_endpoint)
    (xfr : list oz_urb_link) : oz_endpoint * list oz_urb_link :=
  match q with
  | [] => (ep, xfr)
  | urbl :: q' =>
    if credit ep =? 0 then (ep, xfr)
    else if to_int (credit ep + 1) <? number_of_packets (link_urb urbl)
    then (ep, xfr)
    else
      let ep := set_credit
        (to_int (credit ep - number_of_packets (link_urb urbl))) ep in
      let ep := if credit ep <? 0 then set_credit 0 ep else ep in
      heartbeat_out_release q' (set_urb_list q' ep) (xfr ++ [urbl])
  end.

(** The body of [list_for_each(e, &port->isoc_out_ep)] for one endpoint. *)
Definition heartbeat_isoc_out_ep (ts : Z) (ep : oz_endpoint)
    (xfr : list oz_urb_link) : oz_endpoint * list oz_urb_link :=
  if credit ep <? 0 then (ep, xfr)
  else
    let ep := set_credit
      (to_int (to_u64 (to_u64 (credit ep)
         + div64_u64 (to_u64 (ts - timestamp ep)) NSEC_PER_MSEC))) ep in
    let ep := if credit ep >? credit_ceiling ep
              then set_credit (credit_ceiling ep) ep else ep in
    let ep := set_timestamp ts ep in
    heartbeat_out_release (urb_list ep) ep xfr.

(** ** Data indication on one endpoint *)

(** The [switch] of [oz_hcd_data_ind] on the endpoint found in
    [port->in_ep]: the endpoint after the call and, for an interrupt or
    bulk endpoint with a waiting URB, the URB to complete with status 0. *)
Definition oz_hcd_data_ind_ep (ep : oz_endpoint) (data : list Z) (data_len : Z)
    : oz_endpoint * option urb :=
  let t := Z.land (attrib ep) USB_ENDPOINT_XFERTYPE_MASK in
  if (t =? USB_ENDPOINT_XFER_INT) || (t =? USB_ENDPOINT_XFER_BULK) then
    match urb_list ep with
    | urbl :: q =>
      let u := link_urb urbl in
      let copy_len := if data_len <=? transfer_buffer_length u then data_len
                      else transfer_buffer_length u in
      let tb := (fun t => memcpy t 0 data 0 copy_len) <$> transfer_buffer u in
      (set_urb_list q ep, Some (set_actual_length copy_len (set_transfer_buffer tb u)))
    | [] => (snd (oz_hcd_buffer_data ep data data_len), None)
    end
  else if t =? USB_ENDPOINT_XFER_ISOC then
    let '(rc, ep) := oz_hcd_buffer_data ep data data_len in
    if negb (rc =? 0) then
      let ep := discard_excess ep in
      (set_ep_flags (Z.lor (ep_flags ep) OZ_F_EP_BUFFERING) ep, None)
    else (ep, None)
  else (ep, None).

(** ** Controller state access *)

Definition set_out_ep (v : list (option oz_endpoint)) (p : oz_port) : oz_port :=
  mk_port (port_flags p) (status p) (hpd p) (bus_addr p) (next_req_id p)
    (config_num p) (num_iface p) (iface p) v (in_ep p)
    (isoc_out_ep p) (isoc_in_ep p).
Definition set_in_ep (v : list (option oz_endpoint)) (p : oz_port) : oz_port :=
  mk_port (port_flags p) (status p) (hpd p) (bus_addr p) (next_req_id p)
    (config_num p) (num_iface p) (iface p) (out_ep p) v
    (isoc_out_ep p) (isoc_in_ep p).
Definition set_bus_addr (v : Z) (p : oz_port) : oz_port :=
  mk_port (port_flags p) (status p) (hpd p) v (next_req_id p)
    (config_num p) (num_iface p) (iface p) (out_ep p) (in_ep p)
    (isoc_out_ep p) (isoc_in_ep p).
Definition set_next_req_id (v : Z) (p : oz_port) : oz_port :=
  mk_port (port_flags p) (status p) (hpd p) (bus_addr p) v
    (config_num p) (num_iface p) (iface p) (out_ep p) (in_ep p)
    (isoc_out_ep p) (isoc_in_ep p).

Definition set_urb_pending_list (v : list oz_urb_link) (h : oz_hcd) : oz_hcd :=
  mk_hcd v (urb_cancel_list h) (orphanage h) (conn_port h) (ports h)
    (hcd_flags h).
Definition set_urb_cancel_list (v : list oz_urb_link) (h : oz_hcd) : oz_hcd :=
  mk_hcd (urb_pending_list h) v (orphanage h) (conn_port h) (ports h)
    (hcd_flags h).
Definition set_conn_port (v : Z) (h : oz_hcd) : oz_hcd :=
  mk_hcd (urb_pending_list h) (urb_cancel_list h) (orphanage h) v (ports h)
    (hcd_flags h).
Definition set_ports (v : list oz_port) (h : oz_hcd) : oz_hcd :=
  mk_hcd (urb_pending_list h) (urb_cancel_list h) (orphanage h) (conn_port h)
    v (hcd_flags h).

Definition set_ozhcd (v : oz_hcd) (w : world) : world :=
  mk_world (hcd_state w) v (g_ozhcd w) (g_link_pool_size w)
    (g_pending_urbs w) (g_usb_frame_number w) (calls w).
Definition set_g_link_pool_size (v : Z) (w : world) : world :=
  mk_world (hcd_state w) (ozhcd w) (g_ozhcd w) v
    (g_pending_urbs w) (g_usb_frame_number w) (calls w).
Definition set_g_pending_urbs (v : Z) (w : world) : world :=
  mk_world (hcd_state w) (ozhcd w) (g_ozhcd w) (g_link_pool_size w)
    v (g_usb_frame_number w) (calls w).
Definition set_g_usb_frame_number (v : Z) (w : world) : world :=
  mk_world (hcd_state w) (ozhcd w) (g_ozhcd w) (g_link_pool_size w)
    (g_pending_urbs w) v (calls w).
Definition set_calls (v : list call) (w : world) : world :=
  mk_world (hcd_state w) (ozhcd w) (g_ozhcd w) (g_link_pool_size w)
    (g_pending_urbs w) (g_usb_frame_number w) v.

Definition log (c : call) (w : world) : world := set_calls (calls w ++ [c]) w.

(** A [struct oz_port *] is an index into [ports].  An index outside the
    array is not a port of the driver: it reads as a port with every field
    zero and ignores writes.  The theorems only follow indices inside. *)
Definition null_port : oz_port := mk_port 0 0 None 0 0 0 0 None [] [] [] [].

Definition port_at (h : oz_hcd) (ix : nat) : oz_port :=
  default null_port (ports h !! ix).

Definition upd_port (ix : nat) (f : oz_port -> oz_port) (w : world) : world :=
  set_ozhcd (set_ports (<[ix := f (port_at (ozhcd w) ix)]> (ports (ozhcd w)))
               (ozhcd w)) w.

(** [port->in_ep[ep_addr]] or [port->out_ep[ep_addr]]; NULL is [None]. *)
Definition ep_at (p : oz_port) (in_dir : Z) (ep_addr : Z) : option oz_endpoint :=
  mjoin ((if negb (in_dir =? 0) then in_ep p else out_ep p) !! Z.to_nat ep_addr).

Definition store_ep (in_dir : Z) (ep_addr : Z) (ep : oz_endpoint) (p : oz_port)
    : oz_port :=
  if negb (in_dir =? 0)
  then set_in_ep (<[Z.to_nat ep_addr := Some ep]> (in_ep p)) p
  else set_out_ep (<[Z.to_nat ep_addr := Some ep]> (out_ep p)) p.

(** What the environment answers while one URB is handled: whether
    [kmalloc] of a link succeeds, the return value of
    [usb_hcd_link_urb_to_ep], the return value of [oz_usb_control_req],
    and the raw monotonic clock. *)
Record env := mk_env {
  kmalloc_ok : bool;
  link_rc : Z;
  control_req_rc : Z;
  now : Z
}.

(** ** Port lookup *)

Fixpoint scan_ports (ps : list oz_port) (i : Z) (addr : Z) : Z :=
  match ps with
  | [] => -1
  | p :: ps => if bus_addr p =? addr then i else scan_ports ps (i + 1) addr
  end.

(** [oz_get_port_from_addr]; [ports] holds the [OZ_NB_PORTS] ports. *)
Definition oz_get_port_from_addr (h : oz_hcd) (addr : Z) : Z :=
  if negb (0 =? addr) then scan_ports (ports h) 0 addr
  else conn_port h.

(** ** Link pool *)

(** [oz_alloc_urb_link]: [true] when a link was obtained, from the pool
    or from the heap. *)
Definition oz_alloc_urb_link (e : env) (w : world) : bool * world :=
  if 0 <? g_link_pool_size w
  then (true, set_g_link_pool_size (g_link_pool_size w - 1) w)
  else (kmalloc_ok e, w).

Definition oz_free_urb_link (w : world) : world :=
  if g_link_pool_size w <? OZ_MAX_LINK_POOL_SIZE
  then set_g_link_pool_size (g_link_pool_size w + 1) w
  else w.

(** ** Completion *)

(** [oz_uncancel_urb]: the first link of the cancel list that carries
    the URB is taken off the list. *)
Fixpoint oz_uncancel_urb (l : list oz_urb_link) (u : urb)
    : option oz_urb_link * list oz_urb_link :=
  match l with
  | [] => (None, [])
  | urbl :: l' =>
    if urb_ptr u =? urb_ptr (link_urb urbl) then (Some urbl, l')
    else let '(r, l'') := oz_uncancel_urb l' u in (r, urbl :: l'')
  end.

(** [for (i = 0; i < urb->number_of_packets; i++)] of [oz_complete_urb]. *)
Fixpoint fail_iso_packets (n : nat) (status : Z)
    (ds : list usb_iso_packet_descriptor) : list usb_iso_packet_descriptor :=
  match n, ds with
  | S n, d :: ds => mk_iso_desc (iso_offset d) 0 status :: fail_iso_packets n status ds
  | _, _ => ds
  end.

(** Modelled from the spec: ozurbparanoia.h is not part of the source
    set.  Section 4.7 of the spec has the completion hand every URB back
    to the bus core, so the paranoia check reports the URB as known. *)
Definition oz_forget_urb (u : urb) : Z := 0.

Definition oz_complete_urb (u : urb) (status : Z) (w : world) : world :=
  let u :=
    if usb_pipeisoc (pipe u) then
      if status <? 0 then
        set_iso_frame_desc
          (fail_iso_packets (Z.to_nat (number_of_packets u)) status
             (iso_frame_desc u))
          (set_transfer_buffer_length 0 u)
      else set_transfer_buffer_length (actual_length u) u
    else u in
  let u := set_hcpriv None u in
  let '(cancel_urbl, cl) := oz_uncancel_urb (urb_cancel_list (ozhcd w)) u in
  let w := set_ozhcd (set_urb_cancel_list cl (ozhcd w)) w in
  let w :=
    if negb (oz_forget_urb u =? 0) then w
    else log (Giveback u status)
           (set_g_pending_urbs (g_pending_urbs w - 1) w) in
  match cancel_urbl with
  | Some _ => oz_free_urb_link w
  | None => w
  end.

(** [oz_complete_buffered_urb] for the endpoint [ep] found at
    [port->in_ep[ep_addr]] or [port->out_ep[ep_addr]]. *)
Definition oz_complete_buffered_urb (port : nat) (in_dir ep_addr : Z)
    (ep : oz_endpoint) (u : urb) (w : world) : world :=
  let '(ep, u) := oz_complete_buffered_urb_copy ep u in
  let w := upd_port port (store_ep in_dir ep_addr ep) w in
  oz_complete_urb u 0 w.

(** ** Endpoint enqueue *)

(** The queueing block of [oz_enqueue_ep_urb]: the link goes to the tail
    of the endpoint's queue, and an OUT endpoint other than endpoint 0
    whose credit is unset starts its credit accounting now. *)
Definition ep_queue_urb (e : env) (in_dir ep_addr : Z) (urbl : oz_urb_link)
    (ep : oz_endpoint) : oz_endpoint :=
  let ep := set_urb_list (urb_list ep ++ [urbl]) ep in
  if (in_dir =? 0) && negb (ep_addr =? 0) && (credit ep <? 0)
  then set_credit 0 (set_timestamp (now e) ep)
  else ep.

Definition oz_enqueue_ep_urb (e : env) (port : nat) (ep_addr : Z) (in_dir : Z)
    (u : urb) (rid : Z) (w : world) : Z * world :=
  if ep_addr >=? OZ_NB_ENDPOINTS then (- EINVAL, w)
  else
    let '(got, w) := oz_alloc_urb_link e w in
    if negb got then (- ENOMEM, w)
    else
      let urbl := mk_urbl u None rid ep_addr 0 in
      if negb (unlinked u =? 0) then
        (0, oz_free_urb_link (oz_complete_urb u 0 w))
      else
        let p := port_at (ozhcd w) port in
        match ep_at p in_dir ep_addr with
        | None => (- EINVAL, oz_free_urb_link w)
        | Some ep =>
          if (Z.land (attrib ep) USB_ENDPOINT_XFERTYPE_MASK
                =? USB_ENDPOINT_XFER_INT)
             && (buffered_units ep >? 0)
          then
            (0, oz_complete_buffered_urb port in_dir ep_addr ep u
                  (oz_free_urb_link w))
          else
            match hpd p with
            | Some _ =>
              (0, upd_port port
                    (store_ep in_dir ep_addr
                       (ep_queue_urb e in_dir ep_addr urbl ep)) w)
            | None => (- EPIPE, oz_free_urb_link w)
            end
        end.

(** ** Removing an URB from an endpoint queue *)

Fixpoint take_urb (l : list oz_urb_link) (u : urb)
    : option (oz_urb_link * list oz_urb_link) :=
  match l with
  | [] => None
  | urbl :: l' =>
    if urb_ptr (link_urb urbl) =? urb_ptr u then Some (urbl, l')
    else match take_urb l' u with
         | Some (r, l'') => Some (r, urbl :: l'')
         | None => None
         end
  end.

(** [oz_remove_urb]: the link found, if any, and the endpoint after. *)
Definition oz_remove_urb (ep : option oz_endpoint) (u : urb)
    : option oz_urb_link * option oz_endpoint :=
  match ep with
  | None => (None, None)
  | Some ep =>
    match take_urb (urb_list ep) u with
    | Some (urbl, rest) =>
      let ep := set_urb_list rest ep in
      let ep :=
        if usb_pipeisoc (pipe u) then
          let ep := set_credit (to_int (credit ep - number_of_packets u)) ep in
          if credit ep <? 0 then set_credit 0 ep else ep
        else ep in
      (Some urbl, Some ep)
    | None => (None, Some ep)
    end
  end.

(** ** Endpoint 0 *)

Definition port_has (p : oz_port) (flag : Z) : bool :=
  negb (Z.land (port_flags p) flag =? 0).

Definition is_standard (setup : usb_ctrlrequest) : bool :=
  Z.land (bRequestType setup) USB_TYPE_MASK =? USB_TYPE_STANDARD.

(** The [switch (setup->bRequest)] of the standard requests in
    [oz_process_ep0_urb]: the URB, the world, [rc] and [complete] after
    it. *)
Definition ep0_standard (port : nat) (u : urb) (w : world)
    : urb * world * Z * bool :=
  let setup := setup_packet u in
  let p := port_at (ozhcd w) port in
  if bRequest setup =? USB_REQ_SET_ADDRESS then
    let w :=
      if conn_port (ozhcd w) >=? 0 then
        let w := upd_port (Z.to_nat (conn_port (ozhcd w)))
                   (set_bus_addr (to_u8 (wValue setup))) w in
        set_ozhcd (set_conn_port (-1) (ozhcd w)) w
      else w in
    (u, w, 0, true)
  else if bRequest setup =? USB_REQ_GET_CONFIGURATION then
    if transfer_buffer_length u >=? 1 then
      (set_transfer_buffer (<[0%nat := config_num p]> <$> transfer_buffer u)
         (set_actual_length 1 u), w, 0, true)
    else (u, w, - EPIPE, false)
  else if bRequest setup =? USB_REQ_GET_INTERFACE then
    if transfer_buffer_length u >=? 1 then
      let a := default 0
        (alt <$> (default [] (iface p) !! Z.to_nat (to_u8 (wIndex setup)))) in
      (set_transfer_buffer (<[0%nat := a]> <$> transfer_buffer u)
         (set_actual_length 1 u), w, 0, true)
    else (u, w, - EPIPE, false)
  else (u, w, 0, false).

(** [oz_process_ep0_urb]. *)
Definition oz_process_ep0_urb (e : env) (u : urb) (w : world) : world :=
  let port_ix := oz_get_port_from_addr (ozhcd w) (usb_pipedevice (pipe u)) in
  if port_ix <? 0 then oz_complete_urb u (- EPIPE) w
  else
    let port := Z.to_nat port_ix in
    let p := port_at (ozhcd w) port in
    if negb (port_has p OZ_PORT_F_PRESENT) || port_has p OZ_PORT_F_DYING
    then oz_complete_urb u (- EPIPE) w
    else
      let u := set_hcpriv (Some port) u in
      let setup := setup_packet u in
      let rid := next_req_id p in
      let w := upd_port port (set_next_req_id (to_u8 (rid + 1))) w in
      match hpd (port_at (ozhcd w) port) with
      | None => oz_complete_urb u (- EPIPE) w
      | Some _ =>
        let '(u, w, rc, complete) :=
          if is_standard setup then ep0_standard port u w
          else (u, w, 0, false) in
        let '(u, w, rc) :=
          if (rc =? 0) && negb complete then
            let data_len :=
              if Z.land (bRequestType setup) USB_DIR_IN =? 0
              then wLength setup else 0 in
            let u := set_actual_length data_len u in
            let w := log (ControlReq (hpd (port_at (ozhcd w) port)) rid setup
                            data_len) w in
            if negb (control_req_rc e =? 0) then (u, w, - ENOMEM)
            else
              let '(r, w) := oz_enqueue_ep_urb e port 0 0 u rid w in
              if negb (r =? 0) then (u, w, - ENOMEM) else (u, w, 0)
          else (u, w, rc) in
        if negb (rc =? 0) || complete then oz_complete_urb u rc w
        else log (RequestHeartbeat (hpd (port_at (ozhcd w) port))) w
      end.

(** ** Deferred submission processing *)

(** [oz_urb_process]; [urb->hcpriv] is the port recorded at submission
    (a NULL [hcpriv] is followed like a pointer outside [ports]). *)
Definition oz_urb_process (e : env) (u : urb) (w : world) : Z * world :=
  let port := default (Z.to_nat OZ_NB_PORTS) (hcpriv u) in
  if bool_decide (transfer_buffer u = None)
     && negb (transfer_buffer_length u =? 0)
  then (- EINVAL, w)
  else if negb (port_has (port_at (ozhcd w) port) OZ_PORT_F_PRESENT)
  then (- ENODEV, w)
  else
    let ep_addr := usb_pipeendpoint (pipe u) in
    if negb (ep_addr =? 0) then
      let '(r, w) :=
        oz_enqueue_ep_urb e port ep_addr (usb_pipein (pipe u)) u 0 w in
      if negb (r =? 0) then (- ENOENT, w) else (0, w)
    else (0, oz_process_ep0_urb e u w).

(** The loop of [oz_urb_process_tasklet] over the pending list [l];
    [es k] is the environment while the [k]-th URB is handled. *)
Fixpoint process_pending (es : nat -> env) (k : nat) (l : list oz_urb_link)
    (w : world) : world :=
  match l with
  | [] => w
  | urbl :: l' =>
    let w := set_ozhcd (set_urb_pending_list l' (ozhcd w)) w in
    let u := link_urb urbl in
    let w := oz_free_urb_link w in
    let '(rc, w) := oz_urb_process (es k) u w in
    let w := if negb (rc =? 0) then oz_complete_urb u rc w else w in
    process_pending es (S k) l' w
  end.

Definition oz_urb_process_tasklet (es : nat -> env) (w : world) : world :=
  if negb (g_ozhcd w) then w
  else process_pending es 0 (urb_pending_list (ozhcd w)) w.

(** ** URB submission *)

(** [oz_hcd_urb_enqueue].  [oz_hcd_private(hcd)] is the address of the
    private area inside [hcd], so its NULL test never fires. *)
Definition oz_hcd_urb_enqueue (e : env) (u : urb) (w : world) : Z * world :=
  if negb (hcd_state w =? HC_STATE_RUNNING) then (- ENODEV, w)
  else
    let port_ix := oz_get_port_from_addr (ozhcd w) (usb_pipedevice (pipe u)) in
    if port_ix <? 0 then (- ENODEV, w)
    else
      let port := Z.to_nat port_ix in
      if negb (port_has (port_at (ozhcd w) port) OZ_PORT_F_PRESENT)
      then (- ENODEV, w)
      else
        let u := set_hcpriv (Some port) u in
        let '(got, w) := oz_alloc_urb_link e w in
        if negb got then (- ENOMEM, w)
        else
          let urbl := mk_urbl u None 0 0 0 in
          if negb (link_rc e =? 0) then (link_rc e, oz_free_urb_link w)
          else
            let w := set_ozhcd
              (set_urb_pending_list (urb_pending_list (ozhcd w) ++ [urbl])
                 (ozhcd w)) w in
            let w := log ScheduleProcessTasklet w in
            (0, set_g_pending_urbs (g_pending_urbs w + 1) w).

(** ** Data indication *)

(** [oz_hcd_data_ind] for the port [port]. *)
Definition oz_hcd_data_ind (port : nat) (endpoint : Z) (data : list Z)
    (data_len : Z) (w : world) : world :=
  let n := Z.land endpoint USB_ENDPOINT_NUMBER_MASK in
  match ep_at (port_at (ozhcd w) port) 1 n with
  | None => w
  | Some ep =>
    let '(ep, done) := oz_hcd_data_ind_ep ep data data_len in
    let w := upd_port port (store_ep 1 n ep) w in
    match done with
    | Some u => oz_complete_urb u 0 (oz_free_urb_link w)
    | None => w
    end
  end.

(** ** Building an endpoint *)

(** [oz_ep_alloc] when [kzalloc] succeeds. *)
Definition oz_ep_alloc (size : Z) : oz_endpoint :=
  mk_ep [] 0 0 (-1) 0 0 0
    (if size =? 0 then None else Some (replicate (Z.to_nat size) 0))
    (if size =? 0 then 0 else size) 0 0 0 0 0 0.

(** The endpoint [oz_build_endpoints_for_interface] makes for one
    endpoint descriptor with address [ep_addr] and attributes [attr];
    [units] is what [oz_get_up_max_buffer_units] answers and [stream_rc]
    what [oz_usb_stream_create] returns. *)
Definition oz_build_endpoint (ep_addr attr : Z) (units : Z) (stream_rc : Z)
    : oz_endpoint :=
  let t := Z.land attr USB_ENDPOINT_XFERTYPE_MASK in
  let is_in := negb (Z.land ep_addr USB_DIR_IN =? 0) in
  let size :=
    if is_in then
      if t =? USB_ENDPOINT_XFER_ISOC then OZ_EP_BUFFER_SIZE_ISOC
      else if t =? USB_ENDPOINT_XFER_INT then OZ_EP_BUFFER_SIZE_INT
      else 0
    else 0 in
  let ep := oz_ep_alloc size in
  let ep := mk_ep (urb_list ep) (timestamp ep) (credit2 ep) (credit ep)
              (credit_ceiling ep) (Z.land ep_addr USB_ENDPOINT_NUMBER_MASK)
              (to_u8 attr) (buffer ep) (buffer_size ep) (in_ix ep) (out_ix ep)
              (buffered_units ep) (max_buffer_units ep) (ep_flags ep)
              (start_frame ep) in
  if t =? USB_ENDPOINT_XFER_ISOC then
    let ep := mk_ep (urb_list ep) (timestamp ep) (credit2 ep) (credit ep)
                200 (ep_num ep) (attrib ep) (buffer ep) (buffer_size ep)
                (in_ix ep) (out_ix ep) (buffered_units ep)
                (if is_in then to_u8 units else max_buffer_units ep)
                (ep_flags ep) (start_frame ep) in
    if is_in then set_ep_flags (Z.lor (ep_flags ep) OZ_F_EP_BUFFERING) ep
    else
      let ep := set_ep_flags (Z.lor (ep_flags ep) OZ_F_EP_HAVE_STREAM) ep in
      if negb (stream_rc =? 0)
      then set_ep_flags (Z.land (ep_flags ep) (Z.lnot OZ_F_EP_HAVE_STREAM)) ep
      else ep
  else ep.

(** ** Heartbeat *)

(** One round of a [list_for_each] over an isochronous membership list:
    [f] is the loop body, run on the endpoint number [n] of the table
    chosen by [in_dir]. *)
Definition on_isoc_ep (in_dir : Z)
    (f : oz_endpoint -> list oz_urb_link -> oz_endpoint * list oz_urb_link)
    (st : oz_port * list oz_urb_link) (n : nat) : oz_port * list oz_urb_link :=
  let '(p, xfr) := st in
  match ep_at p in_dir (Z.of_nat n) with
  | Some ep =>
    let '(ep, xfr) := f ep xfr in (store_ep in_dir (Z.of_nat n) ep p, xfr)
  | None => (p, xfr)
  end.

(** "Send to PD and complete URBs." *)
Fixpoint send_isoc_urbs (port : nat) (xfr : list oz_urb_link) (w : world)
    : world :=
  match xfr with
  | [] => w
  | urbl :: xfr =>
    let u := set_error_count 0 (link_urb urbl) in
    let w := set_g_usb_frame_number (to_int (g_usb_frame_number w + 1)) w in
    let u := set_urb_start_frame (g_usb_frame_number w) u in
    let w := log (SendIsoc (hpd (port_at (ozhcd w) port)) (link_ep_num urbl) u) w in
    let w := oz_free_urb_link w in
    send_isoc_urbs port xfr (oz_complete_urb u 0 w)
  end.

(** "Complete the filled URBs." *)
Fixpoint complete_urbs (xfr : list oz_urb_link) (w : world) : world :=
  match xfr with
  | [] => w
  | urbl :: xfr => complete_urbs xfr (oz_complete_urb (link_urb urbl) 0 (oz_free_urb_link w))
  end.

(** The scan of the endpoint 0 queue for requests that timed out: the
    queue that stays and the links moved to the transfer list. *)
Fixpoint ep0_timeouts (q : list oz_urb_link)
    : list oz_urb_link * list oz_urb_link :=
  match q with
  | [] => ([], [])
  | urbl :: q =>
    let '(stay, moved) := ep0_timeouts q in
    if submit_counter urbl >? EP0_TIMEOUT_COUNTER
    then (stay, set_submit_counter 0 urbl :: moved)
    else if negb (submit_counter urbl =? 0)
    then (set_submit_counter (submit_counter urbl + 1) urbl :: stay, moved)
    else (urbl :: stay, moved)
  end.

Fixpoint resend_ep0 (es : nat -> env) (k : nat) (xfr : list oz_urb_link)
    (w : world) : world :=
  match xfr with
  | [] => w
  | urbl :: xfr =>
    resend_ep0 es (S k) xfr
      (oz_free_urb_link (oz_process_ep0_urb (es k) (link_urb urbl) w))
  end.

(** [oz_hcd_heartbeat] on the port [port] at time [ts]. *)
Definition oz_hcd_heartbeat (es : nat -> env) (ts : Z) (port : nat) (w : world)
    : Z * world :=
  let p := port_at (ozhcd w) port in
  let '(p, xfr) :=
    foldl (on_isoc_ep 0 (heartbeat_isoc_out_ep ts)) (p, []) (isoc_out_ep p) in
  let w := upd_port port (fun _ => p) w in
  let w := send_isoc_urbs port xfr w in
  let p := port_at (ozhcd w) port in
  let '(p, xfr) :=
    foldl (on_isoc_ep 1 (heartbeat_isoc_in_ep ts)) (p, []) (isoc_in_ep p) in
  let rc :=
    if negb (bool_decide (isoc_out_ep p = []))
       || negb (bool_decide (isoc_in_ep p = []))
    then 1 else 0 in
  let w := upd_port port (fun _ => p) w in
  let w := complete_urbs xfr w in
  let p := port_at (ozhcd w) port in
  match ep_at p 0 0 with
  | Some ep =>
    let '(stay, moved) := ep0_timeouts (urb_list ep) in
    let w := upd_port port (store_ep 0 0 (set_urb_list stay ep)) w in
    let rc := if bool_decide (stay = []) then rc else 1 in
    (rc, resend_ep0 es 0 moved w)
  | None => (rc, w)
  end.

(** ** The ring as a queue of units *)

(** A unit in the ring: its one-byte length, then its bytes. *)
Definition encode_unit (d : list Z) : list Z := Z.of_nat (length d) :: d.

Definition encode (units : list (list Z)) : list Z :=
  concat (map encode_unit units).

(** The ring of [ep] holds exactly [units], oldest first: read circularly
    from the read cursor the array spells their encoding, which ends at
    the write cursor. *)
Record ring_holds (ep : oz_endpoint) (buf : list Z) (units : list (list Z))
    : Prop := mk_ring_holds {
  rh_wf : ring_wf ep buf;
  rh_units : Forall (fun d : list Z => Z.of_nat (length d) <= 255) units;
  rh_room : Z.of_nat (length (encode units)) < buffer_size ep;
  rh_in : in_ix ep
          = (out_ix ep + Z.of_nat (length (encode units))) mod buffer_size ep;
  rh_bytes : forall k, 0 <= k < Z.of_nat (length (encode units)) ->
    buf !! Z.to_nat ((out_ix ep + k) mod buffer_size ep)
    = encode units !! Z.to_nat k
}.

(** Writing units one after the other with [oz_hcd_buffer_data]; [None]
    as soon as a write reports "full". *)
Fixpoint write_units (ep : oz_endpoint) (units : list (list Z))
    : option oz_endpoint :=
  match units with
  | [] => Some ep
  | d :: ds =>
    let '(rc, ep) := oz_hcd_buffer_data ep d (Z.of_nat (length d)) in
    if rc =? 0 then write_units ep ds else None
  end.

(** Reading units one after the other with [oz_complete_buffered_urb],
    one URB per unit. *)
Fixpoint read_units (ep : oz_endpoint) (urbs : list urb)
    : oz_endpoint * list urb :=
  match urbs with
  | [] => (ep, [])
  | u :: us =>
    let '(ep, u) := oz_complete_buffered_urb_copy ep u in
    let '(ep, us) := read_units ep us in
    (ep, u :: us)
  end.

(** The bytes a completed URB reports: the first [actual_length] bytes of
    its transfer buffer. *)
Definition urb_data (u : urb) : list Z :=
  take (Z.to_nat (actual_length u)) (default [] (transfer_buffer u)).

(** The URB can take a unit of [n] bytes. *)
Definition urb_fits (n : Z) (u : urb) : Prop :=
  n <= transfer_buffer_length u /\
  exists tb, transfer_buffer u = Some tb /\
             transfer_buffer_length u <= Z.of_nat (length tb).

(** ** The cursor invariant *)

(** Both cursors are inside the buffer, for an endpoint with an allocated
    buffer of [buffer_size] bytes.  The bytes are [u8] values and the
    buffer is at least as large as the longest unit a length byte can
    announce; [oz_build_endpoint] allocates 512 or 24576 bytes. *)
Definition ring_inv (ep : oz_endpoint) : Prop :=
  (0 <= in_ix ep < buffer_size ep /\ 0 <= out_ix ep < buffer_size ep) /\
  256 <= buffer_size ep /\
  exists buf, buffer ep = Some buf /\
              Z.of_nat (length buf) = buffer_size ep /\
              Forall is_u8 buf.

(** ** What happens to an isochronous endpoint *)

(** The packets of the URBs of a list of links. *)
Definition packets (l : list oz_urb_link) : Z :=
  foldr (fun urbl n => number_of_packets (link_urb urbl) + n) 0 l.

(** The events that change an isochronous endpoint: a heartbeat at time
    [ts] (the OUT body on an OUT endpoint, the IN body on an IN
    endpoint), a data indication, an URB queued by [oz_enqueue_ep_urb], an
    URB taken out by [oz_remove_urb]. *)
Inductive ep_event :=
  | Tick (ts : Z)
  | DataInd (data : list Z)
  | Queue (e : env) (ep_addr : Z) (urbl : oz_urb_link)
  | Remove (u : urb).

Definition out_step (ev : ep_event) (ep : oz_endpoint) : oz_endpoint :=
  match ev with
  | Tick ts => fst (heartbeat_isoc_out_ep ts ep [])
  | DataInd _ => ep
  | Queue e ep_addr urbl => ep_queue_urb e 0 ep_addr urbl ep
  | Remove u => default ep (snd (oz_remove_urb (Some ep) u))
  end.

Definition in_step (ev : ep_event) (ep : oz_endpoint) : oz_endpoint :=
  match ev with
  | Tick ts => fst (heartbeat_isoc_in_ep ts ep [])
  | DataInd data => fst (oz_hcd_data_ind_ep ep data (Z.of_nat (length data)))
  | Queue e ep_addr urbl => ep_queue_urb e 1 ep_addr urbl ep
  | Remove u => default ep (snd (oz_remove_urb (Some ep) u))
  end.






(** "Only re-enters buffering once buffered units hit zero", as the
    specification words it, for the event [ev] on the endpoint [ep]. *)
Definition rebuffer_claim (ev : ep_event) (ep : oz_endpoint) : Prop :=
  ep_buffering ep = false -> ep_buffering (in_step ev ep) = true ->
  buffered_units (in_step ev ep) = 0.

(** ** Sample states *)

(** A pipe value, as the kernel's [usb_sndctrlpipe] and the like build
    it: transfer type, device address, endpoint number, direction. *)
Definition mk_pipe (type dev ep : Z) (dir_in : bool) : Z :=
  Z.lor (Z.shiftl type 30)
    (Z.lor (Z.shiftl ep 15)
       (Z.lor (Z.shiftl dev 8) (if dir_in then USB_DIR_IN else 0))).

Definition PIPE_INTERRUPT : Z := 1.
Definition PIPE_CONTROL : Z := 2.
Definition PIPE_BULK : Z := 3.

Definition no_setup : usb_ctrlrequest := mk_setup 0 0 0 0 0.

(** An URB of device 5 with a zeroed transfer buffer of [len] bytes. *)
Definition sample_urb (ptr pipe len : Z) : urb :=
  mk_urb ptr pipe 0 None (Some (replicate (Z.to_nat len) 0)) len 0 no_setup
    0 0 0 [].

(** The interrupt IN endpoint 1 and the isochronous IN endpoint 2 as
    [oz_build_endpoints_for_interface] makes them. *)
Definition ep_int_in : oz_endpoint := oz_build_endpoint 129 3 0 0.
Definition ep_isoc_in (units : Z) : oz_endpoint := oz_build_endpoint 130 1 units 0.

(** The cursors of an empty ring moved to [ix]. *)
Definition ring_at (ix : Z) (ep : oz_endpoint) : oz_endpoint :=
  set_in_ix ix (set_out_ix ix ep).

Definition int_urb (ptr len : Z) : urb :=
  sample_urb ptr (mk_pipe PIPE_INTERRUPT 5 1 true) len.

(** ** The round trip as the specification words it *)

(** "Writing units, then reading them back in order, reproduces the
    original bytes and lengths exactly": the units are written to [ep]
    with every write succeeding and read back into [urbs]. *)
Definition round_trip_claim (ep : oz_endpoint) (units : list (list Z))
    (urbs : list urb) : Prop :=
  forall ep1, write_units ep units = Some ep1 ->
    map urb_data (snd (read_units ep1 urbs)) = units /\
    map actual_length (snd (read_units ep1 urbs))
      = map (fun d : list Z => Z.of_nat (length d)) units.

Definition env0 : env := mk_env true 0 0 0.

(** An isochronous OUT URB of device 5, endpoint 3, with [n] packets. *)
Definition isoc_out_urb (ptr n : Z) : urb :=
  mk_urb ptr (mk_pipe PIPE_ISOCHRONOUS 5 3 false) 0 (Some 0%nat)
    (Some (replicate 16 0)) 16 0 no_setup n 0 0
    (replicate (Z.to_nat n) (mk_iso_desc 0 0 0)).

(** The isochronous OUT endpoint 3 as the driver builds it, with one URB
    of two packets queued at time 0. *)
Definition ep_isoc_out : oz_endpoint :=
  ep_queue_urb env0 0 3 (mk_urbl (isoc_out_urb 1 2) None 0 3 0)
    (oz_build_endpoint 3 1 0 0).

(** The isochronous IN endpoint 2 with [max_buffer_units = 10], after
    ten units of 255 bytes arrived, a heartbeat ended the buffering, and
    85 more units arrived with no URB queued: 95 units, 255 bytes free. *)
Definition unit255 : list Z := replicate 255 7.

Definition ep_isoc_in_full : oz_endpoint :=
  foldl (fun ep ev => in_step ev ep) (ep_isoc_in 10)
    (replicate 10 (DataInd unit255) ++ [Tick 1000000]
       ++ replicate 85 (DataInd unit255)).

(** ** Sample controller states *)

(** The controller after [oz_plat_probe] and [oz_hcd_start]: running,
    eight ports, none present, no connection port. *)
Definition probed_port : oz_port :=
  mk_port 0 0 None 255 0 0 0 None (replicate 16 None) (replicate 16 None)
    [] [].

Definition probed_world : world :=
  mk_world HC_STATE_RUNNING (mk_hcd [] [] [] (-1) (replicate 8 probed_port) 0)
    true 0 0 0 [].

(** A port after [oz_hcd_pd_arrived] attached the peer [h] to it
    (present and changed, endpoint 0 allocated), at bus address [addr]. *)
Definition attached_port (h addr : Z) : oz_port :=
  mk_port (Z.lor OZ_PORT_F_PRESENT OZ_PORT_F_CHANGED) 65537 (Some h) addr 0
    0 0 None
    (<[0%nat := Some (oz_ep_alloc 0)]> (replicate 16 None))
    (replicate 16 None) [] [].

(** Port 2 carries a device at address 5; its interrupt IN endpoint 1 is
    built when [with_int_ep] is set. *)
Definition world_dev5 (with_int_ep : bool) : world :=
  upd_port 2
    (fun _ =>
       if with_int_ep then store_ep 1 1 ep_int_in (attached_port 77 5)
       else attached_port 77 5)
    probed_world.

(** As [world_dev5 true], after the peer pushed one unit of three bytes
    to the interrupt endpoint with no URB waiting. *)
Definition world_dev5_buffered : world :=
  oz_hcd_data_ind 2 129 [1; 2; 3] 3 (world_dev5 true).

(** As [world_dev5 false], with a second peer on port 3 mid-enumeration:
    address 0, port 3 is the connection port. *)
Definition world_connecting : world :=
  let w := upd_port 3 (fun _ => attached_port 78 0) (world_dev5 false) in
  set_ozhcd (set_conn_port 3 (ozhcd w)) w.

(** A SET_ADDRESS request for the address [a], sent to the device at
    address [dev]. *)
Definition set_address_urb (ptr dev a : Z) : urb :=
  mk_urb ptr (mk_pipe PIPE_CONTROL dev 0 false) 0 None None 0 0
    (mk_setup 0 USB_REQ_SET_ADDRESS a 0 0) 0 0 0 [].

(** The world with one URB submitted and waiting on the pending list. *)
Definition submitted (u : urb) (w : world) : world :=
  snd (oz_hcd_urb_enqueue env0 u w).

Definition set_isoc_lists (o i : list nat) (p : oz_port) : oz_port :=
  mk_port (port_flags p) (status p) (hpd p) (bus_addr p) (next_req_id p)
    (config_num p) (num_iface p) (iface p) (out_ep p) (in_ep p) o i.

(** Port 2 carries the device at address 5 with its isochronous OUT
    endpoint 3 built and one URB of two packets queued at time 0. *)
Definition world_isoc_out : world :=
  upd_port 2
    (fun _ => set_isoc_lists [3%nat] []
                (store_ep 0 3 ep_isoc_out (attached_port 77 5)))
    probed_world.

(** Port 2 carries the device at address 5 with its isochronous IN
    endpoint 2 built ([max_buffer_units = 2]); two units arrived and an
    URB of two packets waits. *)
Definition isoc_in_urb (ptr n : Z) : urb :=
  mk_urb ptr (mk_pipe PIPE_ISOCHRONOUS 5 2 true) 0 (Some 2%nat)
    (Some (replicate 16 0)) 16 0 no_setup n 0 0
    (replicate (Z.to_nat n) (mk_iso_desc 0 0 0)).

Definition world_isoc_in : world :=
  let ep := foldl (fun ep ev => in_step ev ep) (ep_isoc_in 2)
              [DataInd [1; 2; 3]; DataInd [4; 5];
               Queue env0 2 (mk_urbl (isoc_in_urb 7 2) None 0 2 0)] in
  upd_port 2
    (fun _ => set_isoc_lists [] [2%nat]
                (store_ep 1 2 ep (attached_port 77 5)))
    probed_world.

(** ** Claims of the specification on the controller, as it words them *)

(** "Special case: if the endpoint is interrupt-type and has buffered
    data waiting, immediately drains one buffered unit into the URB":
    the endpoint holds one unit less after the call. *)
Definition drain_on_enqueue_claim (e : env) (port : nat) (ep_addr in_dir : Z)
    (u : urb) (w : world) : Prop :=
  forall ep,
    ep_at (port_at (ozhcd w) port) in_dir ep_addr = Some ep ->
    Z.land (attrib ep) USB_ENDPOINT_XFERTYPE_MASK = USB_ENDPOINT_XFER_INT ->
    0 < buffered_units ep ->
    exists ep',
      ep_at (port_at (ozhcd (snd (oz_enqueue_ep_urb e port ep_addr in_dir u 0 w)))
               port) in_dir ep_addr = Some ep' /\
      buffered_units ep' = buffered_units ep - 1.

(** "On any error returned, complete the URB immediately with that
    error", for a world with one URB on the pending list: the tasklet
    hands the URB back with the error code Endpoint Enqueue returned. *)
Definition same_error_claim (es : nat -> env) (w : world) : Prop :=
  forall urbl, urb_pending_list (ozhcd w) = [urbl] ->
    let u := link_urb urbl in
    let w1 := oz_free_urb_link
                (set_ozhcd (set_urb_pending_list [] (ozhcd w)) w) in
    let r := fst (oz_enqueue_ep_urb (es 0%nat)
                    (default (Z.to_nat OZ_NB_PORTS) (hcpriv u))
                    (usb_pipeendpoint (pipe u)) (usb_pipein (pipe u)) u 0 w1) in
    r <> 0 ->
    exists u', In (Giveback u' r) (calls (oz_urb_process_tasklet es w)).

(** "SET_ADDRESS: if this port is the current connection port, assigns
    the requested address to the port and clears the connection-port
    slot": when the port of the URB is not the connection port, the slot
    and the addresses stay as they are. *)
Definition set_address_claim (e : env) (u : urb) (w : world) : Prop :=
  oz_get_port_from_addr (ozhcd w) (usb_pipedevice (pipe u))
    <> conn_port (ozhcd w) ->
  conn_port (ozhcd (oz_process_ep0_urb e u w)) = conn_port (ozhcd w) /\
  map bus_addr (ports (ozhcd (oz_process_ep0_urb e u w)))
    = map bus_addr (ports (ozhcd w)).

(** ** Proof automation *)


(** Projections of updated endpoints, without touching the arithmetic. *)
Ltac ep_simpl :=
  cbn [fst snd default from_option id
       urb_list timestamp credit2 credit credit_ceiling ep_num attrib buffer
       buffer_size in_ix out_ix buffered_units max_buffer_units ep_flags
       start_frame set_urb_list set_timestamp set_credit2 set_credit
       set_buffer set_in_ix set_out_ix set_buffered_units set_ep_flags
       set_start_frame] in *.

Ltac flag_clash :=
  intros;
  match goal with
  | H : ?x = false, H0 : ?x = true |- _ => rewrite H in H0; discriminate H0
  | H : ?x = true, H0 : ?x = false |- _ => rewrite H in H0; discriminate H0
  end.

(** Projections of updated worlds, controllers, ports and URBs. *)
Ltac w_simpl :=
  cbn [fst snd default from_option id negb andb orb
       hcd_state ozhcd g_ozhcd g_link_pool_size g_pending_urbs
       g_usb_frame_number calls set_ozhcd set_g_link_pool_size
       set_g_pending_urbs set_g_usb_frame_number set_calls log
       urb_pending_list urb_cancel_list orphanage conn_port ports hcd_flags
       set_urb_pending_list set_urb_cancel_list set_conn_port set_ports
       port_flags status hpd bus_addr next_req_id config_num num_iface iface
       out_ep in_ep isoc_out_ep isoc_in_ep set_out_ep set_in_ep set_bus_addr
       set_next_req_id
       urb_ptr pipe unlinked hcpriv transfer_buffer transfer_buffer_length
       actual_length setup_packet number_of_packets urb_start_frame
       error_count iso_frame_desc set_hcpriv set_transfer_buffer
       set_transfer_buffer_length set_actual_length set_urb_start_frame
       set_error_count set_iso_frame_desc] in *.


(** * The rest of the controller: ports, hub, cancellation

    The functions of ozhcd.c around the endpoint/URB engine above: the
    lookups on the endpoint 0 queue, the arrival and departure of a peer,
    the endpoint tables of an interface and of a configuration, the
    confirmations of the control path, cancellation, the orphanage and
    the virtual root hub. *)

(** Constant of the kernel's errno.h that ozhcd.c names.
    Modelled from the spec: the header is not part of the source set;
    section 4.4 of the spec has the removal of an URB that is not queued
    fail, the number is the kernel's. *)
Definition EIDRM : Z := 43.

(** Modelled from the spec: the hub constants of the kernel's ch11.h and
    hcd.h (not in the source set).  Section 4.10 of the spec names the
    port features (reset, power, connection-change) and the 32-bit hub
    status word; the numbers are those of the USB 2.0 hub class. *)
Definition HC_STATE_SUSPENDED : Z := 4.
Definition USB_PORT_FEAT_CONNECTION : Z := 0.
Definition USB_PORT_FEAT_ENABLE : Z := 1.
Definition USB_PORT_FEAT_SUSPEND : Z := 2.
Definition USB_PORT_FEAT_OVER_CURRENT : Z := 3.
Definition USB_PORT_FEAT_RESET : Z := 4.
Definition USB_PORT_FEAT_POWER : Z := 8.
Definition USB_PORT_FEAT_LOWSPEED : Z := 9.
Definition USB_PORT_FEAT_C_CONNECTION : Z := 16.
Definition USB_PORT_FEAT_C_ENABLE : Z := 17.
Definition USB_PORT_FEAT_C_SUSPEND : Z := 18.
Definition USB_PORT_FEAT_C_OVER_CURRENT : Z := 19.
Definition USB_PORT_FEAT_C_RESET : Z := 20.
Definition USB_PORT_FEAT_TEST : Z := 21.
Definition USB_PORT_FEAT_INDICATOR : Z := 22.
Definition USB_PORT_STAT_CONNECTION : Z := 1.
Definition USB_PORT_STAT_ENABLE : Z := 2.
Definition USB_PORT_STAT_RESET : Z := 16.
Definition USB_PORT_STAT_POWER : Z := 256.
Definition USB_PORT_STAT_C_CONNECTION : Z := 1.
Definition USB_PORT_STAT_C_ENABLE : Z := 2.
Definition USB_PORT_STAT_C_RESET : Z := 16.

(** ** Field updates *)

Definition set_port_flags (v : Z) (p : oz_port) : oz_port :=
  mk_port v (status p) (hpd p) (bus_addr p) (next_req_id p)
    (config_num p) (num_iface p) (iface p) (out_ep p) (in_ep p)
    (isoc_out_ep p) (isoc_in_ep p).
Definition set_status (v : Z) (p : oz_port) : oz_port :=
  mk_port (port_flags p) v (hpd p) (bus_addr p) (next_req_id p)
    (config_num p) (num_iface p) (iface p) (out_ep p) (in_ep p)
    (isoc_out_ep p) (isoc_in_ep p).
Definition set_hpd (v : option Z) (p : oz_port) : oz_port :=
  mk_port (port_flags p) (status p) v (bus_addr p) (next_req_id p)
    (config_num p) (num_iface p) (iface p) (out_ep p) (in_ep p)
    (isoc_out_ep p) (isoc_in_ep p).
Definition set_config_num (v : Z) (p : oz_port) : oz_port :=
  mk_port (port_flags p) (status p) (hpd p) (bus_addr p) (next_req_id p)
    v (num_iface p) (iface p) (out_ep p) (in_ep p)
    (isoc_out_ep p) (isoc_in_ep p).
Definition set_num_iface (v : Z) (p : oz_port) : oz_port :=
  mk_port (port_flags p) (status p) (hpd p) (bus_addr p) (next_req_id p)
    (config_num p) v (iface p) (out_ep p) (in_ep p)
    (isoc_out_ep p) (isoc_in_ep p).
Definition set_iface (v : option (list oz_interface)) (p : oz_port) : oz_port :=
  mk_port (port_flags p) (status p) (hpd p) (bus_addr p) (next_req_id p)
    (config_num p) (num_iface p) v (out_ep p) (in_ep p)
    (isoc_out_ep p) (isoc_in_ep p).

Definition set_ep_mask (v : Z) (i : oz_interface) : oz_interface :=
  mk_iface v (alt i).
Definition set_alt (v : Z) (i : oz_interface) : oz_interface :=
  mk_iface (ep_mask i) v.

Definition set_orphanage (v : list oz_urb_link) (h : oz_hcd) : oz_hcd :=
  mk_hcd (urb_pending_list h) (urb_cancel_list h) v (conn_port h) (ports h)
    (hcd_flags h).
Definition set_hcd_flags (v : Z) (h : oz_hcd) : oz_hcd :=
  mk_hcd (urb_pending_list h) (urb_cancel_list h) (orphanage h) (conn_port h)
    (ports h) v.

Definition set_hcd_state (v : Z) (w : world) : world :=
  mk_world v (ozhcd w) (g_ozhcd w) (g_link_pool_size w)
    (g_pending_urbs w) (g_usb_frame_number w) (calls w).
Definition set_g_ozhcd (v : bool) (w : world) : world :=
  mk_world (hcd_state w) (ozhcd w) v (g_link_pool_size w)
    (g_pending_urbs w) (g_usb_frame_number w) (calls w).

Definition set_unlinked (v : Z) (u : urb) : urb :=
  mk_urb (urb_ptr u) (pipe u) v (hcpriv u) (transfer_buffer u)
    (transfer_buffer_length u) (actual_length u) (setup_packet u)
    (number_of_packets u) (urb_start_frame u) (error_count u)
    (iso_frame_desc u).

(** ** The driver with its transport *)

(** The calls to the transport and to the USB core that the functions
    below make besides those of [call].  The reference counts on the
    peer and on the controller ([oz_usb_get], [oz_usb_put],
    [usb_get_hcd], [usb_put_hcd]) are not followed. *)
Inductive ext_call :=
  | StreamCreate (h : option Z) (ep_num : Z)
  | StreamDelete (h : option Z) (ep_num : Z)
  | PollRhStatus
  | ResumeRootHub
  | ResetDevice (h : Z)
  | GetDescReq (h : option Z) (req_id req_type desc_type index windex
                  offset len : Z)
  | ScheduleCancelTasklet.

(** The world, the [static int n] of [oz_hcd_pd_arrived] (the port the
    last peer was given) and the calls above in the order made. *)
Record driver := mk_driver {
  drv_world : world;
  pd_arrived_n : Z;
  ext_calls : list ext_call
}.

Definition on_world (f : world -> world) (m : driver) : driver :=
  mk_driver (f (drv_world m)) (pd_arrived_n m) (ext_calls m).
Definition set_pd_arrived_n (v : Z) (m : driver) : driver :=
  mk_driver (drv_world m) v (ext_calls m).
Definition tell (c : ext_call) (m : driver) : driver :=
  mk_driver (drv_world m) (pd_arrived_n m) (ext_calls m ++ [c]).

(** The driver as loaded: [n] starts at [OZ_NB_PORTS]. *)
Definition boot (w : world) : driver := mk_driver w OZ_NB_PORTS [].

(** ** Link pool *)

Definition oz_empty_link_pool (w : world) : world :=
  set_g_link_pool_size 0 w.

(** ** Freeing an endpoint *)

(** [oz_ep_free(port, ep)] for a port that is not NULL: the URBs still
    queued on the endpoint go to the tail of the orphanage.  With a NULL
    port the endpoint is only released, which changes nothing here. *)
Definition oz_ep_free (port : nat) (ep : oz_endpoint) (m : driver) : driver :=
  let m :=
    if negb (Z.land (ep_flags ep) OZ_F_EP_HAVE_STREAM =? 0)
    then tell (StreamDelete (hpd (port_at (ozhcd (drv_world m)) port))
                 (ep_num ep)) m
    else m in
  on_world
    (fun w => set_ozhcd
       (set_orphanage (orphanage (ozhcd w) ++ urb_list ep) (ozhcd w)) w) m.

(** ** Lookups on an endpoint queue *)

(** [oz_dequeue_ep_urb]. *)
Definition oz_dequeue_ep_urb (port : nat) (ep_addr in_dir : Z) (u : urb)
    (w : world) : Z * world :=
  match ep_at (port_at (ozhcd w) port) in_dir ep_addr with
  | Some ep =>
    match take_urb (urb_list ep) u with
    | Some (_, rest) =>
      (0, oz_free_urb_link
            (upd_port port (store_ep in_dir ep_addr (set_urb_list rest ep)) w))
    | None => (- EIDRM, w)
    end
  | None => (- EIDRM, w)
  end.

(** The first link of a queue with the request id [rid], and the queue
    without it. *)
Fixpoint take_req (l : list oz_urb_link) (rid : Z)
    : option (oz_urb_link * list oz_urb_link) :=
  match l with
  | [] => None
  | urbl :: l' =>
    if req_id urbl =? rid then Some (urbl, l')
    else match take_req l' rid with
         | Some (r, l'') => Some (r, urbl :: l'')
         | None => None
         end
  end.

(** [oz_find_urb_by_id]: the URB found, NULL being [None]. *)
Definition oz_find_urb_by_id (port : nat) (ep_ix : Z) (rid : Z) (w : world)
    : option urb * world :=
  match ep_at (port_at (ozhcd w) port) 0 ep_ix with
  | Some ep =>
    match take_req (urb_list ep) rid with
    | Some (urbl, rest) =>
      (Some (link_urb urbl),
       oz_free_urb_link
         (upd_port port (store_ep 0 ep_ix (set_urb_list rest ep)) w))
    | None => (None, w)
    end
  | None => (None, w)
  end.

(** The loop of [oz_hcd_mark_urb_submitted]. *)
Fixpoint mark_req (l : list oz_urb_link) (rid : Z) : list oz_urb_link :=
  match l with
  | [] => []
  | urbl :: l' =>
    if req_id urbl =? rid then set_submit_counter 1 urbl :: l'
    else urbl :: mark_req l' rid
  end.

Definition oz_hcd_mark_urb_submitted (port : nat) (ep_ix : Z) (rid : Z)
    (w : world) : world :=
  match ep_at (port_at (ozhcd w) port) 0 ep_ix with
  | Some ep =>
    upd_port port (store_ep 0 ep_ix (set_urb_list (mark_req (urb_list ep) rid) ep)) w
  | None => w
  end.

(** ** Arrival and departure of a peer *)

(** [oz_acquire_port]. *)
Definition oz_acquire_port (h : Z) (p : oz_port) : oz_port :=
  let p := set_isoc_lists [] [] p in
  let p := set_port_flags
    (Z.lor (port_flags p) (Z.lor OZ_PORT_F_PRESENT OZ_PORT_F_CHANGED)) p in
  let p := set_status
    (Z.lor (status p)
       (Z.lor USB_PORT_STAT_CONNECTION (Z.shiftl USB_PORT_STAT_C_CONNECTION 16)))
    p in
  set_hpd (Some h) p.

(** The [for] loop of [oz_hcd_pd_arrived]: [i] rounds are left, [j] is
    the port tried last; the first port found without
    [OZ_PORT_F_PRESENT]. *)
Fixpoint pd_scan (i : nat) (j : Z) (h : oz_hcd) : option Z :=
  match i with
  | O => None
  | S i =>
    let j := if j + 1 >=? OZ_NB_PORTS then 0 else j + 1 in
    if port_has (port_at h (Z.to_nat j)) OZ_PORT_F_PRESENT
    then pd_scan i j h
    else Some j
  end.

(** [oz_hcd_pd_arrived] for the peer [h]; [ep_ok] tells whether
    [oz_ep_alloc] obtains the endpoint 0 object.  The port handed out is
    returned, NULL being [None]. *)
Definition oz_hcd_pd_arrived (ep_ok : bool) (h : Z) (m : driver)
    : option nat * driver :=
  let w := drv_world m in
  if negb (g_ozhcd w) then (None, m)
  else if conn_port (ozhcd w) >=? 0 then (None, m)
  else
    match pd_scan (Z.to_nat OZ_NB_PORTS) (pd_arrived_n m) (ozhcd w) with
    | None => (None, m)
    | Some j =>
      let port := Z.to_nat j in
      let ep := if ep_ok then Some (oz_ep_alloc 0) else None in
      let m := on_world
        (upd_port port
           (fun p => set_config_num 0 (set_bus_addr 0 (oz_acquire_port h p))))
        m in
      let m := on_world
        (fun w => set_ozhcd (set_conn_port j (ozhcd w)) w) m in
      let m := on_world
        (upd_port port (fun p => set_out_ep (<[0%nat := ep]> (out_ep p)) p))
        m in
      let m :=
        if negb (Z.land (hcd_flags (ozhcd (drv_world m))) OZ_HDC_F_SUSPENDED
                   =? 0)
        then tell ResumeRootHub m else m in
      let m := set_pd_arrived_n j m in
      (Some port, tell PollRhStatus m)
    end.

(** ** Tearing down the endpoints of an interface *)

(** One round of the gathering loop of [oz_clean_endpoints_for_interface]:
    the OUT endpoint [i], then the IN endpoint [i], leave their table and
    the isochronous list they may be on for the tail of [ep_list]. *)
Definition gather_ep (mask : Z) (st : oz_port * list oz_endpoint) (i : nat)
    : oz_port * list oz_endpoint :=
  let '(p, ep_list) := st in
  let '(p, ep_list) :=
    match mjoin (out_ep p !! i) with
    | Some ep =>
      if negb (Z.land mask (Z.shiftl 1 (Z.of_nat i)) =? 0) then
        (set_isoc_lists (filter (fun n => n <> i) (isoc_out_ep p))
           (isoc_in_ep p) (set_out_ep (<[i := None]> (out_ep p)) p),
         ep_list ++ [ep])
      else (p, ep_list)
    | None => (p, ep_list)
    end in
  match mjoin (in_ep p !! i) with
  | Some ep =>
    if negb (Z.land mask (Z.shiftl 1 (Z.of_nat i + OZ_NB_ENDPOINTS)) =? 0) then
      (set_isoc_lists (isoc_out_ep p)
         (filter (fun n => n <> i) (isoc_in_ep p))
         (set_in_ep (<[i := None]> (in_ep p)) p),
       ep_list ++ [ep])
    else (p, ep_list)
  | None => (p, ep_list)
  end.

(** [oz_clean_endpoints_for_interface]. *)
Definition oz_clean_endpoints_for_interface (port : nat) (if_ix : Z)
    (m : driver) : driver :=
  let p := port_at (ozhcd (drv_world m)) port in
  if if_ix >=? num_iface p then m
  else
    let mask :=
      default 0 (ep_mask <$> (default [] (iface p) !! Z.to_nat if_ix)) in
    let p := set_iface
      (alter (set_ep_mask 0) (Z.to_nat if_ix) <$> iface p) p in
    let '(p, ep_list) :=
      foldl (gather_ep mask) (p, []) (seq 0 (Z.to_nat OZ_NB_ENDPOINTS)) in
    let m := on_world (upd_port port (fun _ => p)) m in
    foldl (fun m ep => oz_ep_free port ep m) m ep_list.

(** [oz_clean_endpoints_for_config]. *)
Definition oz_clean_endpoints_for_config (port : nat) (m : driver) : driver :=
  let n := num_iface (port_at (ozhcd (drv_world m)) port) in
  let m := foldl
    (fun m i => oz_clean_endpoints_for_interface port (Z.of_nat i) m)
    m (seq 0 (Z.to_nat n)) in
  on_world (upd_port port (fun p => set_num_iface 0 (set_iface None p))) m.

(** [oz_hcd_pd_departed]; a NULL [hport] is [None].  The polling bit
    of the bus core's own flags ([HCD_FLAG_POLL_RH]) is not followed. *)
Definition oz_hcd_pd_departed (hport : option nat) (m : driver) : driver :=
  match hport with
  | None => m
  | Some port =>
    let m := on_world
      (fun w =>
         if (conn_port (ozhcd w) >=? 0)
            && (conn_port (ozhcd w) =? Z.of_nat port)
         then set_ozhcd (set_conn_port (-1) (ozhcd w)) w else w) m in
    let m := on_world
      (upd_port port
         (fun p => set_port_flags (Z.lor (port_flags p) OZ_PORT_F_DYING) p))
      m in
    let m := oz_clean_endpoints_for_config port m in
    let ep := mjoin (out_ep (port_at (ozhcd (drv_world m)) port) !! 0%nat) in
    let m := on_world
      (upd_port port
         (fun p =>
            let p := set_hpd None p in
            let p := set_bus_addr 255 p in
            let p := set_config_num 0 p in
            let p := set_port_flags
              (Z.land (port_flags p)
                 (Z.lnot (Z.lor OZ_PORT_F_PRESENT OZ_PORT_F_DYING))) p in
            let p := set_port_flags
              (Z.lor (port_flags p) OZ_PORT_F_CHANGED) p in
            let p := set_status
              (Z.land (status p)
                 (Z.lnot (Z.lor USB_PORT_STAT_CONNECTION USB_PORT_STAT_ENABLE)))
              p in
            let p := set_status
              (Z.lor (status p) (Z.shiftl USB_PORT_STAT_C_CONNECTION 16)) p in
            match ep with
            | Some _ => set_out_ep (<[0%nat := None]> (out_ep p)) p
            | None => p
            end)) m in
    let m := match ep with
             | Some ep => oz_ep_free port ep m
             | None => m
             end in
    tell PollRhStatus m
  end.

(** [oz_hcd_pd_reset]. *)
Definition oz_hcd_pd_reset (port : nat) (m : driver) : driver :=
  let m := on_world
    (upd_port port
       (fun p =>
          let p := set_port_flags (Z.lor (port_flags p) OZ_PORT_F_CHANGED) p in
          let p := set_status (Z.lor (status p) USB_PORT_STAT_RESET) p in
          set_status (Z.lor (status p) (Z.shiftl USB_PORT_STAT_C_RESET 16)) p))
    m in
  tell PollRhStatus (oz_clean_endpoints_for_config port m).

(** ** Building the endpoints of a configuration *)

(** Modelled from the spec: the descriptor tree of the device, owned by
    the USB core (usb.h and ch9.h are not in the source set; section 4.5
    of the spec has the endpoints rebuilt from the descriptor tree).
    Only the fields ozhcd.c reads are kept: of an endpoint descriptor the
    address and the attributes, of an alternate setting the interface
    number and its [bNumEndpoints] endpoint descriptors, of a
    configuration [bNumInterfaces] and, per interface, the array of
    its alternate settings. *)
Record usb_endpoint_descriptor := mk_ep_desc {
  bEndpointAddress : Z;
  bmAttributes : Z
}.

Record usb_host_interface := mk_intf {
  bInterfaceNumber : Z;
  endpoint : list usb_endpoint_descriptor
}.

Record usb_host_config := mk_config {
  bNumInterfaces : Z;
  intf_cache : list (list usb_host_interface)
}.

Definition USB_ENDPOINT_DIR_MASK : Z := 128.

(** [config->intf_cache[i]->altsetting[a]] and [dev->config[ix]].  An
    index outside the arrays reads outside the object, which is
    undefined in C: there is no interface and no configuration there,
    the answer is [None], and a function that reads there has no
    result. *)
Definition intf_at (config : usb_host_config) (i a : nat)
    : option usb_host_interface :=
  match intf_cache config !! i with
  | Some alts => alts !! a
  | None => None
  end.

Definition config_at (configs : list usb_host_config) (ix : Z)
    : option usb_host_config :=
  if ix <? 0 then None else configs !! Z.to_nat ix.

(** What the environment answers while endpoints are built: whether the
    [kmalloc] of the interface array succeeds, whether [oz_ep_alloc]
    succeeds for the endpoint [j] of the [i]-th interface handled, what
    [oz_usb_stream_create] returns for an endpoint number, and what
    [oz_get_up_max_buffer_units] answers. *)
Record build_env := mk_build_env {
  iface_alloc_ok : bool;
  ep_alloc_ok : nat -> nat -> bool;
  stream_create_rc : Z -> Z;
  up_max_buffer_units : Z
}.

(** The direction and the number of the endpoint a descriptor
    describes: [ep_addr & USB_ENDPOINT_DIR_MASK] and
    [ep_addr & USB_ENDPOINT_NUMBER_MASK]. *)
Definition desc_in (d : usb_endpoint_descriptor) : bool :=
  negb (Z.land (bEndpointAddress d) USB_ENDPOINT_DIR_MASK =? 0).
Definition desc_num (d : usb_endpoint_descriptor) : Z :=
  Z.land (bEndpointAddress d) USB_ENDPOINT_NUMBER_MASK.

(** The block of [oz_build_endpoints_for_interface] under the lock: the
    endpoint [ep] built for the descriptor [d] enters the table of its
    direction, the mask of the interface [if_ix] and, when it is
    isochronous, the list of its direction. *)
Definition store_built (if_ix : Z) (d : usb_endpoint_descriptor)
    (ep : oz_endpoint) (p : oz_port) : oz_port :=
  let n := Z.to_nat (desc_num d) in
  let p :=
    if desc_in d then set_in_ep (<[n := Some ep]> (in_ep p)) p
    else set_out_ep (<[n := Some ep]> (out_ep p)) p in
  let bit :=
    Z.shiftl 1 (if desc_in d then desc_num d + OZ_NB_ENDPOINTS
                else desc_num d) in
  let p := set_iface
    (alter (fun f => set_ep_mask (Z.lor (ep_mask f) bit) f)
       (Z.to_nat if_ix) <$> iface p) p in
  if Z.land (attrib ep) USB_ENDPOINT_XFERTYPE_MASK =? USB_ENDPOINT_XFER_ISOC
  then
    if desc_in d
    then set_isoc_lists (isoc_out_ep p) (isoc_in_ep p ++ [n]) p
    else set_isoc_lists (isoc_out_ep p ++ [n]) (isoc_in_ep p) p
  else p.

(** One round of the loop of [oz_build_endpoints_for_interface] once
    [oz_ep_alloc] succeeded, on the driver and the local flag
    [request_heartbeat], which stays set once an isochronous endpoint
    was built. *)
Definition build_ep (be : build_env) (port : nat) (if_ix : Z)
    (d : usb_endpoint_descriptor) (st : driver * bool) : driver * bool :=
  let '(m, request_heartbeat) := st in
  let h := hpd (port_at (ozhcd (drv_world m)) port) in
  let ep := oz_build_endpoint (bEndpointAddress d) (bmAttributes d)
              (up_max_buffer_units be) (stream_create_rc be (desc_num d)) in
  let isoc := Z.land (attrib ep) USB_ENDPOINT_XFERTYPE_MASK
              =? USB_ENDPOINT_XFER_ISOC in
  let m := if isoc && negb (desc_in d)
           then tell (StreamCreate h (desc_num d)) m else m in
  let m := on_world (upd_port port (store_built if_ix d ep)) m in
  let request_heartbeat := request_heartbeat || isoc in
  let m :=
    if request_heartbeat then
      match h with
      | Some _ => on_world (log (RequestHeartbeat h)) m
      | None => m
      end
    else m in
  (m, request_heartbeat).

(** The loop of [oz_build_endpoints_for_interface] from the endpoint
    descriptor [j] on. *)
Fixpoint build_eps (be : build_env) (port : nat) (if_ix : Z) (i j : nat)
    (request_heartbeat : bool) (ds : list usb_endpoint_descriptor)
    (m : driver) : Z * driver :=
  match ds with
  | [] => (0, m)
  | d :: ds' =>
    if negb (ep_alloc_ok be i j)
    then (- ENOMEM, oz_clean_endpoints_for_interface port if_ix m)
    else
      let '(m, request_heartbeat) :=
        build_ep be port if_ix d (m, request_heartbeat) in
      build_eps be port if_ix i (S j) request_heartbeat ds' m
  end.

(** [oz_build_endpoints_for_interface] for the [i]-th interface handled;
    a NULL [intf] is [None]. *)
Definition oz_build_endpoints_for_interface (be : build_env) (port : nat)
    (i : nat) (intf : option usb_host_interface) (m : driver) : Z * driver :=
  match intf with
  | None => (- ENOMEM, m)
  | Some intf =>
    let if_ix := bInterfaceNumber intf in
    let p := port_at (ozhcd (drv_world m)) port in
    if (if_ix >=? num_iface p)
       || match iface p with None => true | Some _ => false end
    then (- ENOMEM, m)
    else build_eps be port if_ix i 0 false (endpoint intf) m
  end.

(** The loop of [oz_build_endpoints_for_config] over the interfaces
    [ixs]: whether an interface failed, and the driver then.  There is
    no result when the configuration has no first alternate setting for
    an interface the loop comes to. *)
Fixpoint build_ifaces (be : build_env) (port : nat) (config : usb_host_config)
    (ixs : list nat) (m : driver) : option (bool * driver) :=
  match ixs with
  | [] => Some (false, m)
  | i :: ixs' =>
    match intf_at config i 0 with
    | None => None
    | Some intf =>
      let '(rc, m) :=
        oz_build_endpoints_for_interface be port i (Some intf) m in
      if negb (rc =? 0) then Some (true, m)
      else build_ifaces be port config ixs' m
    end
  end.

(** [oz_build_endpoints_for_config]; no result as for [build_ifaces]. *)
Definition oz_build_endpoints_for_config (be : build_env) (port : nat)
    (config : usb_host_config) (m : driver) : option (Z * driver) :=
  let n := bNumInterfaces config in
  if negb (n =? 0) && negb (iface_alloc_ok be) then Some (- ENOMEM, m)
  else
    let m :=
      if negb (n =? 0) then
        on_world
          (upd_port port
             (fun p =>
                set_num_iface n
                  (set_iface (Some (replicate (Z.to_nat n) (mk_iface 0 0))) p)))
          m
      else m in
    match build_ifaces be port config (seq 0 (Z.to_nat n)) m with
    | None => None
    | Some (failed, m) =>
      Some (if failed then (-1, oz_clean_endpoints_for_config port m)
            else (0, m))
    end.

(** ** Confirmations from the peer *)

(** [oz_hcd_complete_set_config]; [configs] is [urb->dev->config].
    After a success code the configuration [config_num - 1] of the
    device is read, whatever [config_num] is: there is no result when
    the device has no such configuration, as for [config_num = 0]. *)
Definition oz_hcd_complete_set_config (be : build_env)
    (configs : list usb_host_config) (port : nat) (u : urb)
    (rcode cfg_num : Z) (m : driver) : option driver :=
  if rcode =? 0 then
    let m := on_world (upd_port port (set_config_num cfg_num)) m in
    let m := oz_clean_endpoints_for_config port m in
    let cn := config_num (port_at (ozhcd (drv_world m)) port) in
    match config_at configs (cn - 1) with
    | None => None
    | Some config =>
      match oz_build_endpoints_for_config be port config m with
      | None => None
      | Some (r, m) =>
        Some (on_world
                (oz_complete_urb u (if negb (r =? 0) then - ENOMEM else 0)) m)
      end
    end
  else Some (on_world (oz_complete_urb u (- ENOMEM)) m).

(** [oz_hcd_complete_set_interface].  There is no result when the
    configuration of the port, the interface [if_num] or its alternate
    setting [alt_num] is not in the descriptor tree, nor when
    [port->iface[if_num].alt] is written outside the interface array of
    the port. *)
Definition oz_hcd_complete_set_interface (be : build_env)
    (configs : list usb_host_config) (port : nat) (u : urb)
    (rcode if_num alt_num : Z) (m : driver) : option driver :=
  if rcode =? 0 then
    if config_num (port_at (ozhcd (drv_world m)) port) >? 0 then
      let m := oz_clean_endpoints_for_interface port if_num m in
      let cn := config_num (port_at (ozhcd (drv_world m)) port) in
      match config_at configs (cn - 1) with
      | None => None
      | Some config =>
        match intf_at config (Z.to_nat if_num) (Z.to_nat alt_num) with
        | None => None
        | Some intf =>
          let '(r, m) :=
            oz_build_endpoints_for_interface be port (Z.to_nat if_num)
              (Some intf) m in
          if negb (r =? 0)
          then Some (on_world (oz_complete_urb u (- ENOMEM)) m)
          else
            match default [] (iface (port_at (ozhcd (drv_world m)) port))
                    !! Z.to_nat if_num with
            | None => None
            | Some _ =>
              let m := on_world
                (upd_port port
                   (fun p =>
                      set_iface (alter (set_alt alt_num) (Z.to_nat if_num)
                                   <$> iface p) p)) m in
              Some (on_world (oz_complete_urb u 0) m)
            end
        end
      end
    else Some (on_world (oz_complete_urb u (- ENOMEM)) m)
  else Some (on_world (oz_complete_urb u (- ENOMEM)) m).

(** An [int] read as [unsigned] or stored in a [u32]. *)
Definition to_u32 (x : Z) : Z := x mod 4294967296.

(** The data of a confirmation copied into the URB of a request that is
    not a standard one: [data_len] is compared as unsigned with the
    length of the transfer buffer. *)
Definition control_cnf_copy (data : list Z) (data_len : Z) (u : urb) : urb :=
  if negb (data_len =? 0) then
    let copy_len :=
      if to_u32 data_len <=? transfer_buffer_length u then data_len
      else to_int (transfer_buffer_length u) in
    set_actual_length (to_u32 copy_len)
      (set_transfer_buffer
         ((fun t => memcpy t 0 data 0 copy_len) <$> transfer_buffer u) u)
  else u.

(** [oz_hcd_control_cnf]; no result where
    [oz_hcd_complete_set_config] or [oz_hcd_complete_set_interface] has
    none. *)
Definition oz_hcd_control_cnf (be : build_env) (configs : list usb_host_config)
    (port : nat) (rid rcode : Z) (data : list Z) (data_len : Z) (m : driver)
    : option driver :=
  match oz_find_urb_by_id port 0 rid (drv_world m) with
  | (None, _) => Some m
  | (Some u, w) =>
    let m := on_world (fun _ => w) m in
    let setup := setup_packet u in
    if is_standard setup then
      if bRequest setup =? USB_REQ_SET_CONFIGURATION then
        oz_hcd_complete_set_config be configs port u rcode
          (to_u8 (wValue setup)) m
      else if bRequest setup =? USB_REQ_SET_INTERFACE then
        oz_hcd_complete_set_interface be configs port u rcode
          (to_u8 (wIndex setup)) (to_u8 (wValue setup)) m
      else Some (on_world (oz_complete_urb u 0) m)
    else
      Some (on_world (oz_complete_urb (control_cnf_copy data data_len u) 0) m)
  end.


(** ** Cancellation *)

(** [oz_urb_cancel]: the URB is looked for in the cancel list, in the
    orphanage, then on its endpoint; where it is found its link is taken
    out and the URB is handed back with [-ENOENT]. *)
Definition oz_urb_cancel (port : option nat) (ep_num : Z) (u : urb) (w : world)
    : world :=
  match port with
  | None => w
  | Some port =>
    let '(found, w) :=
      match take_urb (urb_cancel_list (ozhcd w)) u with
      | Some (_, rest) =>
        (true, set_ozhcd (set_urb_cancel_list rest (ozhcd w)) w)
      | None =>
        match take_urb (orphanage (ozhcd w)) u with
        | Some (_, rest) =>
          (true, set_ozhcd (set_orphanage rest (ozhcd w)) w)
        | None =>
          let ix := Z.land ep_num 15 in
          let in_dir :=
            if negb (Z.land ep_num USB_DIR_IN =? 0) && negb (ix =? 0)
            then 1 else 0 in
          let p := port_at (ozhcd w) port in
          match oz_remove_urb (ep_at p in_dir ix) u with
          | (Some _, Some ep) => (true, upd_port port (store_ep in_dir ix ep) w)
          | _ => (false, w)
          end
        end
      end in
    if found
    then oz_complete_urb (set_actual_length 0 u) (- ENOENT) (oz_free_urb_link w)
    else w
  end.

(** The loop of [oz_urb_cancel_tasklet]; every round takes the head off
    the cancel list, which no round extends, so as many rounds as the
    list is long at entry are enough. *)
Fixpoint cancel_loop (n : nat) (w : world) : world :=
  match n with
  | O => w
  | S n =>
    match urb_cancel_list (ozhcd w) with
    | [] => w
    | urbl :: rest =>
      let w := set_ozhcd (set_urb_cancel_list rest (ozhcd w)) w in
      let u := link_urb urbl in
      let w := if negb (unlinked u =? 0)
               then oz_urb_cancel (link_port urbl) (link_ep_num urbl) u w
               else w in
      cancel_loop n (oz_free_urb_link w)
    end
  end.

Definition oz_urb_cancel_tasklet (w : world) : world :=
  if negb (g_ozhcd w) then w
  else cancel_loop (length (urb_cancel_list (ozhcd w))) w.

(** [oz_hcd_urb_dequeue]; [check_rc] is what [usb_hcd_check_unlink_urb]
    returns, which on 0 has set [urb->unlinked] to [st].  Returns the
    URB after the call as well. *)
Definition oz_hcd_urb_dequeue (e : env) (check_rc : Z) (u : urb) (st : Z)
    (m : driver) : Z * urb * driver :=
  let '(got, w) := oz_alloc_urb_link e (drv_world m) in
  let m := on_world (fun _ => w) m in
  if negb got then (- ENOMEM, u, m)
  else
    let u := if check_rc =? 0 then set_unlinked st u else u in
    if (check_rc =? 0) && bool_decide (hcpriv u <> None) then
      let ep_num := usb_pipeendpoint (pipe u) in
      let ep_num := if negb (usb_pipein (pipe u) =? 0)
                    then Z.lor ep_num USB_DIR_IN else ep_num in
      let urbl := mk_urbl u (hcpriv u) 0 ep_num 0 in
      let m := on_world
        (fun w => set_ozhcd
           (set_urb_cancel_list (urb_cancel_list (ozhcd w) ++ [urbl]) (ozhcd w))
           w) m in
      (check_rc, u, tell ScheduleCancelTasklet m)
    else (check_rc, u, on_world oz_free_urb_link m).

(** ** The orphanage *)

(** The loop of [oz_hcd_clear_orphanage] over the orphanage [l]. *)
Fixpoint clear_orphans (l : list oz_urb_link) (st : Z) (w : world) : world :=
  match l with
  | [] => w
  | urbl :: l' =>
    let w := set_ozhcd (set_orphanage l' (ozhcd w)) w in
    clear_orphans l' st
      (oz_free_urb_link (oz_complete_urb (link_urb urbl) st w))
  end.

Definition oz_hcd_clear_orphanage (st : Z) (w : world) : world :=
  clear_orphans (orphanage (ozhcd w)) st w.

(** ** The controller as a whole *)

Definition oz_hcd_start (w : world) : Z * world :=
  (0, set_hcd_state HC_STATE_RUNNING w).

Definition oz_hcd_bus_suspend (w : world) : Z * world :=
  let w := set_hcd_state HC_STATE_SUSPENDED w in
  (0, set_ozhcd
        (set_hcd_flags (Z.lor (hcd_flags (ozhcd w)) OZ_HDC_F_SUSPENDED)
           (ozhcd w)) w).

Definition oz_hcd_bus_resume (w : world) : Z * world :=
  let w := set_ozhcd
    (set_hcd_flags (Z.land (hcd_flags (ozhcd w)) (Z.lnot OZ_HDC_F_SUSPENDED))
       (ozhcd w)) w in
  (0, set_hcd_state HC_STATE_RUNNING w).

(** The private area [oz_plat_probe] sets up: everything zero, no
    connection port, the ports absent with the address 0xff. *)
Definition probe_port : oz_port :=
  mk_port 0 0 None 255 0 0 0 None
    (replicate (Z.to_nat OZ_NB_ENDPOINTS) None)
    (replicate (Z.to_nat OZ_NB_ENDPOINTS) None) [] [].

(** [oz_plat_probe]; [created] tells whether [usb_create_hcd] obtained
    the controller and [add_rc] is what [usb_add_hcd] returns.  When
    [usb_add_hcd] fails the controller just set up is released again
    ([usb_put_hcd]), so nothing of it stays.  What the bus core calls
    back while it adds the controller ([oz_hcd_start]) is a step of its
    own. *)
Definition oz_plat_probe (created : bool) (add_rc : Z) (w : world)
    : Z * world :=
  if negb created then (- ENOMEM, w)
  else if negb (add_rc =? 0) then (-1, w)
  else
    let w := set_ozhcd
      (mk_hcd [] [] [] (-1) (replicate (Z.to_nat OZ_NB_PORTS) probe_port) 0)
      w in
    (0, set_g_ozhcd true w).

(** [oz_plat_remove] for the platform device of the controller;
    [has_hcd] tells whether the device carries the controller as its
    driver data. *)
Definition oz_plat_remove (has_hcd : bool) (w : world) : Z * world :=
  if negb has_hcd then (-1, w)
  else
    let w := set_g_ozhcd false w in
    let w := oz_hcd_clear_orphanage (- ENODEV) w in
    (0, oz_empty_link_pool w).

(** ** The virtual root hub *)

(** The body of the loop of [oz_hcd_hub_status_data] for the port [i]:
    [b] is [(buf[0], buf[1])]. *)
Definition hub_status_bit (h : oz_hcd) (b : Z * Z) (i : nat) : Z * Z :=
  if port_has (port_at h i) OZ_PORT_F_CHANGED then
    if Z.of_nat i <? 7
    then (Z.lor (fst b) (Z.shiftl 1 (Z.of_nat i + 1)), snd b)
    else (fst b, Z.lor (snd b) (Z.shiftl 1 (Z.of_nat i - 7)))
  else b.

(** [oz_hcd_hub_status_data]: the return value and the buffer after. *)
Definition oz_hcd_hub_status_data (h : oz_hcd) (buf : list Z) : Z * list Z :=
  let b := foldl (hub_status_bit h) (0, 0) (seq 0 (Z.to_nat OZ_NB_PORTS)) in
  (if negb (snd b =? 0) || negb (fst b =? 0) then 2 else 0,
   <[1%nat := snd b]> (<[0%nat := fst b]> buf)).

(** [put_unaligned(cpu_to_le32(v), buf)]: the four bytes of [v], the
    lowest first. *)
Definition put_le32 (v : Z) (buf : list Z) : list Z :=
  <[3%nat := to_u8 (Z.shiftr v 24)]>
    (<[2%nat := to_u8 (Z.shiftr v 16)]>
       (<[1%nat := to_u8 (Z.shiftr v 8)]> (<[0%nat := to_u8 v]> buf))).

(** [oz_get_port_status]. *)
Definition oz_get_port_status (windex : Z) (buf : list Z) (w : world)
    : Z * list Z * world :=
  if (windex <? 1) || (windex >? OZ_NB_PORTS) then (- ENODEV, buf, w)
  else
    let port := Z.to_nat (windex - 1) in
    let w := upd_port port
      (fun p => set_port_flags
                  (Z.land (port_flags p) (Z.lnot OZ_PORT_F_CHANGED)) p) w in
    (0, put_le32 (status (port_at (ozhcd w) port)) buf, w).

(** [oz_set_port_feature]. *)
Definition oz_set_port_feature (wvalue windex : Z) (m : driver) : Z * driver :=
  let port_id := to_u8 windex in
  if (port_id <? 1) || (port_id >? OZ_NB_PORTS) then (- ENODEV, m)
  else
    let port := Z.to_nat (port_id - 1) in
    let '(set_bits, clear_bits, m) :=
      if wvalue =? USB_PORT_FEAT_RESET then
        let m := on_world (upd_port port (set_bus_addr 0)) m in
        let m := match hpd (port_at (ozhcd (drv_world m)) port) with
                 | Some h => tell (ResetDevice h) m
                 | None => m
                 end in
        (Z.lor USB_PORT_STAT_ENABLE (Z.shiftl USB_PORT_STAT_C_RESET 16),
         USB_PORT_STAT_RESET, m)
      else if wvalue =? USB_PORT_FEAT_POWER then (USB_PORT_STAT_POWER, 0, m)
      else (0, 0, m) in
    if negb (set_bits =? 0) || negb (clear_bits =? 0) then
      (0, on_world
            (upd_port port
               (fun p =>
                  let p := set_status
                    (Z.land (status p) (Z.lnot clear_bits)) p in
                  set_status (Z.lor (status p) set_bits) p)) m)
    else (0, m).

(** [oz_clear_port_feature].  The [USB_PORT_FEAT_C_RESET] case shifts the
    feature number, as the source does. *)
Definition oz_clear_port_feature (wvalue windex : Z) (w : world) : Z * world :=
  let port_id := to_u8 windex in
  if (port_id <? 1) || (port_id >? OZ_NB_PORTS) then (- ENODEV, w)
  else
    let port := Z.to_nat (port_id - 1) in
    let '(clear_bits, w) :=
      if wvalue =? USB_PORT_FEAT_ENABLE then (USB_PORT_STAT_ENABLE, w)
      else if wvalue =? USB_PORT_FEAT_POWER then (USB_PORT_STAT_POWER, w)
      else if wvalue =? USB_PORT_FEAT_C_CONNECTION then
        (Z.shiftl USB_PORT_STAT_C_CONNECTION 16,
         upd_port port
           (fun p => set_port_flags (Z.lor (port_flags p) OZ_PORT_F_CHANGED) p)
           w)
      else if wvalue =? USB_PORT_FEAT_C_ENABLE then
        (Z.shiftl USB_PORT_STAT_C_ENABLE 16, w)
      else if wvalue =? USB_PORT_FEAT_C_RESET then
        (Z.shiftl USB_PORT_FEAT_C_RESET 16, w)
      else (0, w) in
    if negb (clear_bits =? 0) then
      (0, upd_port port
            (fun p => set_status (Z.land (status p) (Z.lnot clear_bits)) p) w)
    else (0, w).

(** ** More sample states *)

(** A vendor request (host to device, four bytes of data) for the
    device at address [dev]. *)
Definition vendor_urb (ptr dev : Z) : urb :=
  mk_urb ptr (mk_pipe PIPE_CONTROL dev 0 false) 0 None (Some [1; 2; 3; 4]) 4 0
    (mk_setup 64 1 0 0 4) 0 0 0 [].

(** As [world_dev5 true], with the URB [u] queued on the interrupt IN
    endpoint 1 of port 2. *)
Definition world_dev5_queued (u : urb) : world :=
  snd (oz_enqueue_ep_urb env0 2 1 128 u 0 (world_dev5 true)).

(** A configuration of one interface with an interrupt IN endpoint 1
    and a bulk OUT endpoint 2. *)
Definition sample_config : usb_host_config :=
  mk_config 1 [[mk_intf 0 [mk_ep_desc 129 3; mk_ep_desc 2 2]]].

(** [sample_config] with the OUT endpoint 2 isochronous. *)
Definition sample_config_iso : usb_host_config :=
  mk_config 1 [[mk_intf 0 [mk_ep_desc 129 3; mk_ep_desc 2 1]]].

(** An environment in which every allocation succeeds, and one in which
    the second endpoint of an interface cannot be allocated. *)
Definition be_ok : build_env :=
  mk_build_env true (fun _ _ => true) (fun _ => 0) 8.
Definition be_second_fails : build_env :=
  mk_build_env true (fun _ j => (j =? 0)%nat) (fun _ => 0) 8.

(** The driver after the device on port 2 was given
    [sample_config_iso]. *)
Definition configured_driver : driver :=
  default (boot (world_dev5 false))
    (oz_hcd_complete_set_config be_ok [sample_config_iso] 2 (vendor_urb 1 5)
       0 1 (boot (world_dev5 false))).

(** ** Notions for the statements *)

(** The endpoint in slot [i] of an endpoint table, NULL being [None]. *)
Definition slot (t : list (option oz_endpoint)) (i : nat) : option oz_endpoint :=
  mjoin (t !! i).

(** The bits of an interface's endpoint mask: bit [i] names the OUT
    endpoint [i], bit [i + 16] the IN endpoint [i]. *)
Definition names_out (mask : Z) (i : nat) : bool :=
  negb (Z.land mask (Z.shiftl 1 (Z.of_nat i)) =? 0).
Definition names_in (mask : Z) (i : nat) : bool :=
  negb (Z.land mask (Z.shiftl 1 (Z.of_nat i + OZ_NB_ENDPOINTS)) =? 0).

(** The endpoints of number [i] that a mask names and the port [p]
    holds: the OUT one, then the IN one. *)
Definition gathered (mask : Z) (p : oz_port) (i : nat) : list oz_endpoint :=
  (if names_out mask i then option_list (slot (out_ep p) i) else [])
  ++ (if names_in mask i then option_list (slot (in_ep p) i) else []).

(** Whether a mask names the endpoint [i] of a direction. *)
Definition names (in_dir : bool) (mask : Z) (i : nat) : bool :=
  if in_dir then names_in mask i else names_out mask i.

(** The endpoint [i] of a port in one direction. *)
Definition slot_of (p : oz_port) (in_dir : bool) (i : nat) : option oz_endpoint :=
  slot (if in_dir then in_ep p else out_ep p) i.

(** The mask of the interface [k] of a port names the endpoint [n] of
    a direction. *)
Definition named_by (p : oz_port) (k : nat) (in_dir : bool) (n : nat) : Prop :=
  exists f, default [] (iface p) !! k = Some f /\
            Z.of_nat k < num_iface p /\ (n < 16)%nat /\
            names in_dir (ep_mask f) n = true.

(** The endpoint [n] of a direction is a fresh one: in its table under
    its own number, with nothing queued, and named by the mask of an
    interface of the port. *)
Definition fresh_slot (p : oz_port) (in_dir : bool) (n : nat) : Prop :=
  (exists ep, slot_of p in_dir n = Some ep /\
              ep_num ep = Z.of_nat n /\ urb_list ep = []) /\
  exists k, named_by p k in_dir n.

(** The interface array of a port has [num_iface] records. *)
Definition iface_wf (p : oz_port) : Prop :=
  exists ifs, iface p = Some ifs /\ Z.of_nat (length ifs) = num_iface p.

(** Every endpoint of the port [p] is as in [p0], or gone, or named by
    the mask of an interface of [p]. *)
Definition kept_gone_or_named (p0 p : oz_port) : Prop :=
  forall in_dir n,
    slot_of p in_dir n = slot_of p0 in_dir n \/
    slot_of p in_dir n = None \/
    exists k, named_by p k in_dir n.

(** A configuration as the USB core parses it: [bNumInterfaces]
    interfaces, each with at least one alternate setting, whose
    interface numbers are below [bNumInterfaces]. *)
Definition config_wf (c : usb_host_config) : Prop :=
  0 <= bNumInterfaces c /\
  length (intf_cache c) = Z.to_nat (bNumInterfaces c) /\
  Forall (fun alts =>
            alts <> [] /\
            Forall (fun a => 0 <= bInterfaceNumber a < bNumInterfaces c) alts)
    (intf_cache c).

(** The calls that ask the peer for heartbeats. *)
Definition is_heartbeat_request (c : call) : Prop :=
  match c with
  | RequestHeartbeat _ => True
  | _ => False
  end.

(** Between the port [p] and the port [p'] no queued URB was lost: an
    endpoint is as it was, or it is gone and the URBs that were queued on
    it are in the orphanage [orph]. *)
Definition kept_or_orphaned (p p' : oz_port) (orph : list oz_urb_link) : Prop :=
  forall (in_dir : bool) (i : nat),
    slot_of p' in_dir i = slot_of p in_dir i \/
    (slot_of p' in_dir i = None /\
     forall ep x, slot_of p in_dir i = Some ep -> x ∈ urb_list ep -> x ∈ orph).

(** What building and tearing down endpoints of the port [port] leaves
    alone between the driver states [m] and [m']: nothing is handed
    back, the peer is only asked for heartbeats. *)
Definition build_frame (port : nat) (m m' : driver) : Prop :=
  let w := drv_world m in
  let w' := drv_world m' in
  let p := port_at (ozhcd w) port in
  let p' := port_at (ozhcd w') port in
  (exists hb, calls w' = calls w ++ hb /\
              Forall is_heartbeat_request hb) /\
  length (ports (ozhcd w')) = length (ports (ozhcd w)) /\
  (forall j, j <> port -> port_at (ozhcd w') j = port_at (ozhcd w) j) /\
  port_flags p' = port_flags p /\ status p' = status p /\
  hpd p' = hpd p /\ bus_addr p' = bus_addr p /\
  config_num p' = config_num p /\
  length (out_ep p') = length (out_ep p) /\
  length (in_ep p') = length (in_ep p).

(** What the teardown of endpoints of the port [port] leaves alone
    between the driver states [m] and [m']: the orphanage only grows. *)
Definition teardown_frame (port : nat) (m m' : driver) : Prop :=
  let w := drv_world m in
  let w' := drv_world m' in
  let p := port_at (ozhcd w) port in
  let p' := port_at (ozhcd w') port in
  calls w' = calls w /\
  conn_port (ozhcd w') = conn_port (ozhcd w) /\
  urb_pending_list (ozhcd w') = urb_pending_list (ozhcd w) /\
  urb_cancel_list (ozhcd w') = urb_cancel_list (ozhcd w) /\
  hcd_state w' = hcd_state w /\
  g_pending_urbs w' = g_pending_urbs w /\
  length (ports (ozhcd w')) = length (ports (ozhcd w)) /\
  (forall j, j <> port -> port_at (ozhcd w') j = port_at (ozhcd w) j) /\
  port_flags p' = port_flags p /\ status p' = status p /\
  hpd p' = hpd p /\ bus_addr p' = bus_addr p /\
  config_num p' = config_num p /\ num_iface p' = num_iface p /\
  (exists moved,
     orphanage (ozhcd w') = orphanage (ozhcd w) ++ moved) /\
  kept_or_orphaned p p' (orphanage (ozhcd w')).

(** The calls to the transport about the streams of the peer [h]. *)
Definition is_stream_delete (h : option Z) (c : ext_call) : Prop :=
  exists n, c = StreamDelete h n.
Definition is_stream_call (h : option Z) (c : ext_call) : Prop :=
  exists n, c = StreamCreate h n \/ c = StreamDelete h n.

(** The stream created for an endpoint descriptor: one for an
    isochronous OUT endpoint; and the streams created for the endpoint
    descriptors of an alternate setting, and for the first alternate
    settings of the interfaces of a configuration, in the order of the
    descriptors. *)
Definition desc_streams (h : option Z) (d : usb_endpoint_descriptor)
    : list ext_call :=
  if (Z.land (to_u8 (bmAttributes d)) USB_ENDPOINT_XFERTYPE_MASK
      =? USB_ENDPOINT_XFER_ISOC) && negb (desc_in d)
  then [StreamCreate h (desc_num d)] else [].
Definition intf_streams (h : option Z) (intf : usb_host_interface)
    : list ext_call :=
  flat_map (desc_streams h) (endpoint intf).
Definition config_streams (h : option Z) (config : usb_host_config)
    : list ext_call :=
  flat_map (fun i => from_option (intf_streams h) [] (intf_at config i 0))
    (seq 0 (Z.to_nat (bNumInterfaces config))).

(** The calls that release the streams of a list of endpoints. *)
Definition stream_deletes (h : option Z) (eps : list oz_endpoint)
    : list ext_call :=
  map (fun ep => StreamDelete h (ep_num ep))
    (List.filter
       (fun ep => negb (Z.land (ep_flags ep) OZ_F_EP_HAVE_STREAM =? 0)) eps).

(** The port [oz_hcd_pd_arrived] tries after the port [j]. *)
Definition next_port (j : Z) : Z := if j + 1 >=? OZ_NB_PORTS then 0 else j + 1.

(** The port tried in round [t] (from 0) of the scan that starts behind
    the port [j]. *)
Fixpoint port_tried (t : nat) (j : Z) : Z :=
  match t with
  | O => next_port j
  | S t => port_tried t (next_port j)
  end.

(** The 32-bit number that four bytes spell, the lowest byte first. *)
Definition le32 (b : list Z) : Z :=
  rd b 0 + 256 * rd b 1 + 65536 * rd b 2 + 16777216 * rd b 3.

(** The endpoint 0 queue [q] after [k] heartbeats scanned it for
    timeouts (the links a scan moves out are resent, not put back). *)
Fixpoint scan_ep0 (k : nat) (q : list oz_urb_link) : list oz_urb_link :=
  match k with
  | O => q
  | S k => fst (ep0_timeouts (scan_ep0 k q))
  end.

(** The URB as [oz_complete_urb] hands it back. *)
Definition completed (u : urb) (st : Z) : urb :=
  set_hcpriv None
    (if usb_pipeisoc (pipe u) then
       if st <? 0 then
         set_iso_frame_desc
           (fail_iso_packets (Z.to_nat (number_of_packets u)) st
              (iso_frame_desc u))
           (set_transfer_buffer_length 0 u)
       else set_transfer_buffer_length (actual_length u) u
     else u).


Ltac pool_arith :=
  unfold OZ_MAX_LINK_POOL_SIZE in *;
  repeat match goal with
         | |- context [?a <? ?b] => destruct (Z.ltb_spec a b)
         end;
  lia.


(** Case analysis on the condition of the first [if] of the goal. *)
Ltac case_if :=
  match goal with
  | |- context [if ?c then _ else _] => destruct c
  end.

(** Projections of updated worlds, controllers, ports, URBs, links and
    drivers, on the goal. *)
Ltac g_simpl :=
  cbn [fst snd default from_option id negb andb orb
       hcd_state ozhcd g_ozhcd g_link_pool_size g_pending_urbs
       g_usb_frame_number calls set_ozhcd set_g_link_pool_size
       set_g_pending_urbs set_g_usb_frame_number set_calls log
       urb_pending_list urb_cancel_list orphanage conn_port ports hcd_flags
       set_urb_pending_list set_urb_cancel_list set_conn_port set_ports
       port_flags status hpd bus_addr next_req_id config_num num_iface iface
       out_ep in_ep isoc_out_ep isoc_in_ep set_out_ep set_in_ep set_bus_addr
       set_next_req_id
       urb_ptr pipe unlinked hcpriv transfer_buffer transfer_buffer_length
       actual_length setup_packet number_of_packets urb_start_frame
       error_count iso_frame_desc set_hcpriv set_transfer_buffer
       set_transfer_buffer_length set_actual_length set_urb_start_frame
       set_error_count set_iso_frame_desc
       drv_world pd_arrived_n ext_calls on_world set_pd_arrived_n tell
       set_port_flags set_status set_hpd set_config_num set_num_iface
       set_iface set_isoc_lists set_ep_mask set_alt ep_mask alt
       set_orphanage set_hcd_flags set_hcd_state set_g_ozhcd set_unlinked
       link_urb link_port req_id link_ep_num submit_counter set_link_urb
       set_submit_counter].

(** The same everywhere. *)
Ltac d_simpl :=
  cbn [fst snd default from_option id negb andb orb
       hcd_state ozhcd g_ozhcd g_link_pool_size g_pending_urbs
       g_usb_frame_number calls set_ozhcd set_g_link_pool_size
       set_g_pending_urbs set_g_usb_frame_number set_calls log
       urb_pending_list urb_cancel_list orphanage conn_port ports hcd_flags
       set_urb_pending_list set_urb_cancel_list set_conn_port set_ports
       port_flags status hpd bus_addr next_req_id config_num num_iface iface
       out_ep in_ep isoc_out_ep isoc_in_ep set_out_ep set_in_ep set_bus_addr
       set_next_req_id
       urb_ptr pipe unlinked hcpriv transfer_buffer transfer_buffer_length
       actual_length setup_packet number_of_packets urb_start_frame
       error_count iso_frame_desc set_hcpriv set_transfer_buffer
       set_transfer_buffer_length set_actual_length set_urb_start_frame
       set_error_count set_iso_frame_desc
       drv_world pd_arrived_n ext_calls on_world set_pd_arrived_n tell
       set_port_flags set_status set_hpd set_config_num set_num_iface
       set_iface set_isoc_lists set_ep_mask set_alt ep_mask alt
       set_orphanage set_hcd_flags set_hcd_state set_g_ozhcd set_unlinked
       link_urb link_port req_id link_ep_num submit_counter set_link_urb
       set_submit_counter] in *.

(** Case analysis on the integer comparisons of the goal. *)
Ltac cmp_cases :=
  repeat match goal with
         | |- context [?a <=? ?b] => destruct (Z.leb_spec a b)
         | |- context [?a <? ?b] => destruct (Z.ltb_spec a b)
         | |- context [?a =? ?b] => destruct (Z.eqb_spec a b)
         end;
  cbn [andb orb negb].

Ltac bool_done :=
  rewrite ?orb_false_r, ?andb_false_r, ?andb_true_r, ?orb_true_r;
  first [reflexivity | lia | (exfalso; lia)].

(** Evaluates the comparisons of the goal between constants. *)
Ltac eval_const_tests :=
  repeat match goal with
         | |- context [?a =? ?b] =>
           let v := eval vm_compute in (a =? b) in
           match v with
           | true => change (a =? b) with true
           | false => change (a =? b) with false
           end
         end.


(** * Proofs *)

(** ** Arithmetic of the cursors *)

Lemma wrap_mod (x s : Z) :
  0 <= x < 2 * s -> x mod s = if x <? s then x else x - s.
Proof.
  intros H. destruct (Z.ltb_spec x s).
  - apply Z.mod_small; lia.
  - symmetry. apply (Z.mod_unique x s 1 (x - s)); lia.
Qed.

Lemma wrap_mod_neg (x s : Z) :
  - s <= x < s -> x mod s = if x <? 0 then x + s else x.
Proof.
  intros H. destruct (Z.ltb_spec x 0).
  - symmetry. apply (Z.mod_unique x s (-1) (x + s)); lia.
  - apply Z.mod_small; lia.
Qed.

(** ** memcpy *)

Lemma memcpy_length dst doff src soff n :
  length (memcpy dst doff src soff n) = length dst.
Proof. unfold memcpy. apply length_inserts. Qed.

Lemma memcpy_lookup_in dst doff src soff n p :
  0 <= doff -> 0 <= soff -> doff <= p < doff + n ->
  p < Z.of_nat (length dst) -> soff + n <= Z.of_nat (length src) ->
  memcpy dst doff src soff n !! Z.to_nat p = src !! Z.to_nat (soff + (p - doff)).
Proof.
  intros Hd Hs Hp Hl Hsrc. unfold memcpy.
  rewrite list_lookup_inserts.
  - rewrite lookup_take_lt by lia. rewrite lookup_drop. f_equal. lia.
  - rewrite length_take, length_drop. lia.
  - lia.
Qed.

Lemma memcpy_lookup_out dst doff src soff n p :
  0 <= doff -> 0 <= p -> p < doff \/ doff + n <= p ->
  memcpy dst doff src soff n !! Z.to_nat p = dst !! Z.to_nat p.
Proof.
  intros Hd Hp [H|H]; unfold memcpy.
  - apply list_lookup_inserts_lt. lia.
  - destruct (Z.le_gt_cases 0 n).
    + apply list_lookup_inserts_ge. rewrite length_take. lia.
    + replace (Z.to_nat n) with 0%nat by lia. reflexivity.
Qed.

(** ** Writing a unit *)

Lemma free_space_code ep buf :
  ring_wf ep buf ->
  (let space := out_ix ep - in_ix ep - 1 in
   if space <? 0 then space + buffer_size ep else space) = free_space ep.
Proof.
  intros [_ _ Hi Ho]. unfold free_space. cbv zeta.
  rewrite wrap_mod_neg by lia. reflexivity.
Qed.

Lemma free_space_range ep buf :
  ring_wf ep buf -> 0 <= free_space ep < buffer_size ep.
Proof. intros [_ _ Hi Ho]. unfold free_space. apply Z.mod_pos_bound. lia. Qed.

(** The two [memcpy] calls of the write, as one statement on the array. *)
Lemma buffer_data_full ep buf data data_len :
  ring_wf ep buf ->
  free_space ep < data_len + 1 ->
  oz_hcd_buffer_data ep data data_len = (-1, ep).
Proof.
  intros Hwf Hsp. pose proof (free_space_code ep buf Hwf) as Hc.
  unfold oz_hcd_buffer_data. rewrite (wf_buffer _ _ Hwf).
  cbv zeta in *. rewrite Hc.
  destruct (Z.ltb_spec (free_space ep) (data_len + 1)); [reflexivity | lia].
Qed.

Lemma buffer_data_stored ep buf data data_len :
  ring_wf ep buf ->
  data_len = Z.of_nat (length data) ->
  data_len + 1 <= free_space ep ->
  exists buf',
    oz_hcd_buffer_data ep data data_len =
      (0, set_buffered_units (buffered_units ep + 1)
            (set_in_ix ((in_ix ep + 1 + data_len) mod buffer_size ep)
               (set_buffer (Some buf') ep))) /\
    length buf' = length buf /\
    buf' !! Z.to_nat (in_ix ep) = Some (to_u8 data_len) /\
    (forall j, 0 <= j < data_len ->
       buf' !! Z.to_nat ((in_ix ep + 1 + j) mod buffer_size ep)
       = data !! Z.to_nat j) /\
    (forall p, 0 <= p < buffer_size ep ->
       data_len < (p - in_ix ep) mod buffer_size ep ->
       buf' !! Z.to_nat p = buf !! Z.to_nat p).
Proof.
  intros Hwf Hlen Hsp. pose proof (free_space_code ep buf Hwf) as Hc.
  pose proof (free_space_range ep buf Hwf) as Hr.
  destruct Hwf as [Hb Hl Hi Ho].
  unfold oz_hcd_buffer_data. rewrite Hb. cbv zeta in *. rewrite Hc.
  destruct (Z.ltb_spec (free_space ep) (data_len + 1)); [lia|].
  set (s := buffer_size ep) in *. set (i := in_ix ep) in *.
  assert (Hdl : 0 <= data_len) by lia.
  destruct (Z.eqb_spec (i + 1) s) as [Hw|Hw].
  - (* the length byte is the last byte of the array *)
    rewrite Z.sub_0_r.
    destruct (Z.gtb_spec s data_len); [|lia].
    destruct (Z.ltb_spec data_len data_len); [lia|].
    destruct (Z.eqb_spec (0 + data_len) s); [lia|].
    eexists. split; [|split; [|split; [|split]]].
    + simpl. do 3 f_equal. rewrite wrap_mod by lia.
      destruct (Z.ltb_spec (i + 1 + data_len) s); lia.
    + rewrite memcpy_length, length_insert. reflexivity.
    + rewrite memcpy_lookup_out by lia.
      apply list_lookup_insert_eq. lia.
    + intros j Hj. rewrite wrap_mod by lia.
      destruct (Z.ltb_spec (i + 1 + j) s); [lia|].
      rewrite memcpy_lookup_in by (rewrite ?length_insert; lia).
      f_equal. lia.
    + intros p Hp Hd. rewrite wrap_mod_neg in Hd by lia.
      destruct (Z.ltb_spec (p - i) 0); [|lia].
      rewrite memcpy_lookup_out by lia.
      apply list_lookup_insert_ne. lia.
  - destruct (Z.gtb_spec (s - (i + 1)) data_len).
    + (* the data fit before the end of the array *)
      destruct (Z.ltb_spec data_len data_len); [lia|].
      eexists. split; [|split; [|split; [|split]]].
      * simpl. do 3 f_equal. rewrite Z.mod_small by lia.
        destruct (Z.eqb_spec (i + 1 + data_len) s); lia.
      * rewrite memcpy_length, length_insert. reflexivity.
      * rewrite memcpy_lookup_out by lia.
        apply list_lookup_insert_eq. lia.
      * intros j Hj. rewrite Z.mod_small by lia.
        rewrite memcpy_lookup_in by (rewrite ?length_insert; lia).
        f_equal. lia.
      * intros p Hp Hd.
        assert (p < i \/ i + 1 + data_len <= p) as Hq.
        { rewrite wrap_mod_neg in Hd by lia.
          destruct (Z.ltb_spec (p - i) 0); lia. }
        rewrite memcpy_lookup_out by lia.
        apply list_lookup_insert_ne. lia.
    + destruct (Z.ltb_spec (s - (i + 1)) data_len).
      * (* the data wrap *)
        assert (Hout : data_len - (s - (i + 1)) < i).
        { unfold free_space in *. fold s i in Hsp, Hr.
          rewrite wrap_mod_neg in Hsp by lia.
          destruct (Z.ltb_spec (out_ix ep - i - 1) 0); lia. }
        destruct (Z.eqb_spec (data_len - (s - (i + 1))) s); [lia|].
        eexists. split; [|split; [|split; [|split]]].
        -- simpl. do 3 f_equal. rewrite wrap_mod by lia.
           destruct (Z.ltb_spec (i + 1 + data_len) s); lia.
        -- rewrite !memcpy_length, length_insert. reflexivity.
        -- rewrite !memcpy_lookup_out by lia.
           apply list_lookup_insert_eq. lia.
        -- intros j Hj. rewrite wrap_mod by lia.
           destruct (Z.ltb_spec (i + 1 + j) s).
           ++ rewrite memcpy_lookup_out by lia.
              rewrite memcpy_lookup_in by (rewrite ?length_insert; lia).
              f_equal. lia.
           ++ rewrite memcpy_lookup_in
                by (rewrite ?memcpy_length, ?length_insert; lia).
              f_equal. lia.
        -- intros p Hp Hd.
           assert (data_len - (s - (i + 1)) <= p < i) as Hq.
           { rewrite wrap_mod_neg in Hd by lia.
             destruct (Z.ltb_spec (p - i) 0); lia. }
           rewrite !memcpy_lookup_out by lia.
           apply list_lookup_insert_ne. lia.
      * (* the data end exactly at the end of the array *)
        assert (data_len = s - (i + 1)) as Hd by lia.
        destruct (Z.eqb_spec (i + 1 + (s - (i + 1))) s); [|lia].
        eexists. split; [|split; [|split; [|split]]].
        -- simpl. do 3 f_equal. rewrite wrap_mod by lia.
           destruct (Z.ltb_spec (i + 1 + data_len) s); lia.
        -- rewrite memcpy_length, length_insert. reflexivity.
        -- rewrite memcpy_lookup_out by lia.
           apply list_lookup_insert_eq. lia.
        -- intros j Hj. rewrite Z.mod_small by lia.
           rewrite memcpy_lookup_in by (rewrite ?length_insert; lia).
           f_equal. lia.
        -- intros p Hp Hd'.
           assert (p < i) as Hq.
           { rewrite wrap_mod_neg in Hd' by lia.
             destruct (Z.ltb_spec (p - i) 0); lia. }
           rewrite memcpy_lookup_out by lia.
           apply list_lookup_insert_ne. lia.
Qed.


(** ** Reading a unit *)

(** The read cursor after the length byte and [len] bytes. *)
Lemma advance_read (s o len : Z) :
  0 <= o < s -> 0 <= len < s ->
  (let ox := if o + 1 =? s then 0 else o + 1 in
   let copy_len := s - ox in
   let copy_len := if copy_len >? len then len else copy_len in
   let ox := if copy_len <? len then len - copy_len else ox + copy_len in
   if ox =? s then 0 else ox) = (o + 1 + len) mod s.
Proof.
  intros Ho Hl. cbv zeta. rewrite (wrap_mod (o + 1 + len)) by lia.
  destruct (Z.eqb_spec (o + 1) s);
    match goal with |- context [Z.gtb ?a ?b] => destruct (Z.gtb_spec a b) end;
    match goal with |- context [Z.ltb ?a len] => destruct (Z.ltb_spec a len) end;
    match goal with |- context [Z.eqb ?a s] => destruct (Z.eqb_spec a s) end;
    match goal with |- context [Z.ltb ?a s] => destruct (Z.ltb_spec a s) end;
    lia.
Qed.

Lemma discard_unit_eq ep buf :
  ring_wf ep buf ->
  0 <= rd buf (out_ix ep) < buffer_size ep ->
  discard_unit ep =
    set_buffered_units (buffered_units ep - 1)
      (set_out_ix ((out_ix ep + 1 + rd buf (out_ix ep)) mod buffer_size ep) ep).
Proof.
  intros [Hb Hl Hi Ho] Hlen. unfold discard_unit, ep_buf. rewrite Hb. simpl.
  pose proof (advance_read (buffer_size ep) (out_ix ep) (rd buf (out_ix ep)) Ho Hlen) as H.
  cbv zeta in H. rewrite H. reflexivity.
Qed.

Lemma complete_buffered_copy_spec ep buf u tb :
  ring_wf ep buf ->
  transfer_buffer u = Some tb ->
  0 <= avail_len buf ep u < buffer_size ep ->
  avail_len buf ep u <= Z.of_nat (length tb) ->
  exists tb',
    oz_complete_buffered_urb_copy ep u =
      (set_buffered_units (buffered_units ep - 1)
         (set_out_ix ((out_ix ep + 1 + avail_len buf ep u) mod buffer_size ep) ep),
       set_actual_length (avail_len buf ep u)
         (set_transfer_buffer (Some tb') u)) /\
    length tb' = length tb /\
    (forall j, 0 <= j < avail_len buf ep u ->
       tb' !! Z.to_nat j
       = buf !! Z.to_nat ((out_ix ep + 1 + j) mod buffer_size ep)) /\
    (forall j, avail_len buf ep u <= j -> tb' !! Z.to_nat j = tb !! Z.to_nat j).
Proof.
  intros [Hb Hl Hi Ho] Htb Ha Hfit.
  unfold oz_complete_buffered_urb_copy, ep_buf. rewrite Hb, Htb. simpl.
  fold (avail_len buf ep u).
  set (A := avail_len buf ep u) in *. set (s := buffer_size ep) in *.
  set (o := out_ix ep) in *.
  destruct (Z.eqb_spec (o + 1) s) as [Hw|Hw].
  - rewrite Z.sub_0_r.
    destruct (Z.geb_spec s A); [|lia].
    destruct (Z.ltb_spec A A); [lia|].
    eexists. split; [|split; [|split]].
    + f_equal. do 2 f_equal. rewrite wrap_mod by lia.
      destruct (Z.eqb_spec (0 + A) s), (Z.ltb_spec (o + 1 + A) s); lia.
    + apply memcpy_length.
    + intros j Hj. rewrite wrap_mod by lia.
      destruct (Z.ltb_spec (o + 1 + j) s); [lia|].
      rewrite memcpy_lookup_in by lia. f_equal. lia.
    + intros j Hj. apply memcpy_lookup_out; lia.
  - destruct (Z.geb_spec (s - (o + 1)) A).
    + destruct (Z.ltb_spec A A); [lia|].
      eexists. split; [|split; [|split]].
      * f_equal. do 2 f_equal. rewrite wrap_mod by lia.
        destruct (Z.eqb_spec (o + 1 + A) s), (Z.ltb_spec (o + 1 + A) s); lia.
      * apply memcpy_length.
      * intros j Hj. rewrite Z.mod_small by lia.
        rewrite memcpy_lookup_in by lia. f_equal. lia.
      * intros j Hj. apply memcpy_lookup_out; lia.
    + destruct (Z.ltb_spec (s - (o + 1)) A); [|lia].
      eexists. split; [|split; [|split]].
      * f_equal. do 2 f_equal. rewrite wrap_mod by lia.
        destruct (Z.eqb_spec (A - (s - (o + 1))) s),
          (Z.ltb_spec (o + 1 + A) s); lia.
      * rewrite !memcpy_length. reflexivity.
      * intros j Hj. rewrite wrap_mod by lia.
        destruct (Z.ltb_spec (o + 1 + j) s).
        -- rewrite memcpy_lookup_out by lia.
           rewrite memcpy_lookup_in by lia. f_equal. lia.
        -- rewrite memcpy_lookup_in by (rewrite ?memcpy_length; lia).
           f_equal. lia.
      * intros j Hj. rewrite !memcpy_lookup_out by lia. reflexivity.
Qed.

(** The cursor and the count after the copy, whatever the URB's buffer. *)
Lemma complete_buffered_copy_ep ep buf u :
  ring_wf ep buf ->
  0 <= avail_len buf ep u < buffer_size ep ->
  fst (oz_complete_buffered_urb_copy ep u) =
    set_buffered_units (buffered_units ep - 1)
      (set_out_ix ((out_ix ep + 1 + avail_len buf ep u) mod buffer_size ep) ep)
  /\ actual_length (snd (oz_complete_buffered_urb_copy ep u)) = avail_len buf ep u.
Proof.
  intros [Hb Hl Hi Ho] Ha.
  unfold oz_complete_buffered_urb_copy, ep_buf. rewrite Hb. simpl.
  fold (avail_len buf ep u).
  set (A := avail_len buf ep u) in *. set (s := buffer_size ep) in *.
  set (o := out_ix ep) in *.
  rewrite (wrap_mod (o + 1 + A)) by lia.
  destruct (Z.eqb_spec (o + 1) s) as [Hw|Hw].
  - rewrite Z.sub_0_r.
    destruct (Z.geb_spec s A); [|lia].
    destruct (Z.ltb_spec A A); [lia|]. simpl. split; [|reflexivity].
    do 2 f_equal.
    destruct (Z.eqb_spec (0 + A) s), (Z.ltb_spec (o + 1 + A) s); lia.
  - destruct (Z.geb_spec (s - (o + 1)) A).
    + destruct (Z.ltb_spec A A); [lia|]. simpl. split; [|reflexivity].
      do 2 f_equal.
      destruct (Z.eqb_spec (o + 1 + A) s), (Z.ltb_spec (o + 1 + A) s); lia.
    + destruct (Z.ltb_spec (s - (o + 1)) A); [|lia]. simpl.
      split; [|reflexivity]. do 2 f_equal.
      destruct (Z.eqb_spec (A - (s - (o + 1))) s),
        (Z.ltb_spec (o + 1 + A) s); lia.
Qed.


(** ** The ring as a queue: writing *)

Lemma encode_app us vs : encode (us ++ vs) = encode us ++ encode vs.
Proof. unfold encode. rewrite map_app, concat_app. reflexivity. Qed.

Lemma encode_cons d us : encode (d :: us) = Z.of_nat (length d) :: d ++ encode us.
Proof. reflexivity. Qed.

Lemma encode_single d : encode [d] = Z.of_nat (length d) :: d.
Proof. unfold encode. simpl. rewrite app_nil_r. reflexivity. Qed.

Lemma encode_cons_length d us :
  Z.of_nat (length (encode (d :: us)))
  = 1 + Z.of_nat (length d) + Z.of_nat (length (encode us)).
Proof. rewrite encode_cons. simpl. rewrite length_app. lia. Qed.

Lemma encode_snoc_length us d :
  Z.of_nat (length (encode (us ++ [d])))
  = Z.of_nat (length (encode us)) + 1 + Z.of_nat (length d).
Proof.
  rewrite encode_app, length_app. unfold encode at 2. simpl.
  rewrite length_app. simpl. lia.
Qed.

Lemma ring_holds_free_space ep buf us :
  ring_holds ep buf us ->
  free_space ep = buffer_size ep - 1 - Z.of_nat (length (encode us)).
Proof.
  intros [[_ _ Hi Ho] _ Hroom Hin _]. unfold free_space. rewrite Hin.
  set (s := buffer_size ep) in *. set (E := Z.of_nat (length (encode us))) in *.
  replace (out_ix ep - (out_ix ep + E) mod s - 1)
    with (out_ix ep - 1 - (out_ix ep + E) mod s) by lia.
  rewrite Zminus_mod_idemp_r.
  replace (out_ix ep - 1 - (out_ix ep + E)) with (- (E + 1)) by lia.
  rewrite wrap_mod_neg by lia.
  destruct (Z.ltb_spec (- (E + 1)) 0); lia.
Qed.

Lemma ring_holds_write ep buf us d :
  ring_holds ep buf us ->
  Z.of_nat (length d) <= 255 ->
  Z.of_nat (length (encode us)) + 1 + Z.of_nat (length d) < buffer_size ep ->
  exists ep' buf',
    oz_hcd_buffer_data ep d (Z.of_nat (length d)) = (0, ep') /\
    ring_holds ep' buf' (us ++ [d]) /\
    buffered_units ep' = buffered_units ep + 1.
Proof.
  intros Hh Hd Hroom. pose proof (ring_holds_free_space _ _ _ Hh) as Hfs.
  destruct Hh as [Hwf Hus Hr Hin Hbytes].
  destruct (buffer_data_stored ep buf d (Z.of_nat (length d)) Hwf eq_refl)
    as (buf' & Heq & Hlen & Hpre & Hdata & Hrest); [lia|].
  destruct Hwf as [Hb Hl Hi Ho].
  set (s := buffer_size ep) in *. set (E := Z.of_nat (length (encode us))) in *.
  set (n := Z.of_nat (length d)) in *.
  eexists _, buf'. split; [exact Heq|]. split; [|reflexivity].
  assert (Hin' : (in_ix ep + 1 + n) mod s = (out_ix ep + (E + 1 + n)) mod s).
  { rewrite Hin. rewrite <- Z.add_assoc, Z.add_mod_idemp_l by lia.
    f_equal. lia. }
  constructor; simpl; fold s.
  - constructor; simpl; fold s; [reflexivity|lia| |lia].
    apply Z.mod_pos_bound. lia.
  - apply Forall_app. split; [assumption|]. constructor; [assumption|constructor].
  - rewrite encode_snoc_length. fold E n. lia.
  - rewrite encode_snoc_length. fold E n. exact Hin'.
  - intros k Hk. rewrite encode_snoc_length in Hk. fold E n in Hk.
    rewrite encode_app.
    destruct (Z.lt_ge_cases k E) as [Hlt|Hge].
    + (* an older unit: untouched *)
      rewrite lookup_app_l by lia. rewrite <- Hbytes by lia.
      apply Hrest; [apply Z.mod_pos_bound; lia|].
      rewrite Hin, Zminus_mod_idemp_l, Zminus_mod_idemp_r.
      replace (out_ix ep + k - (out_ix ep + E)) with (k - E) by lia.
      rewrite wrap_mod_neg by lia.
      destruct (Z.ltb_spec (k - E) 0); lia.
    + rewrite lookup_app_r by lia. rewrite encode_single.
      replace (Z.to_nat k - length (encode us))%nat with (Z.to_nat (k - E)) by lia.
      destruct (Z.eq_dec k E) as [->|Hne].
      * (* the length byte *)
        rewrite <- Hin, Hpre, Z.sub_diag. simpl. unfold to_u8.
        rewrite Z.mod_small by lia. reflexivity.
      * (* the bytes of the unit *)
        replace ((out_ix ep + k) mod s)
          with ((in_ix ep + 1 + (k - E - 1)) mod s).
        2:{ rewrite Hin. rewrite <- !Z.add_assoc, Z.add_mod_idemp_l by lia.
            f_equal. lia. }
        rewrite Hdata by lia.
        replace (Z.to_nat (k - E)) with (S (Z.to_nat (k - E - 1))) by lia.
        reflexivity.
Qed.

Lemma ring_holds_write_full ep buf us d :
  ring_holds ep buf us ->
  buffer_size ep <= Z.of_nat (length (encode us)) + 1 + Z.of_nat (length d) ->
  oz_hcd_buffer_data ep d (Z.of_nat (length d)) = (-1, ep).
Proof.
  intros Hh Hroom. pose proof (ring_holds_free_space _ _ _ Hh) as Hfs.
  apply (buffer_data_full ep buf); [apply Hh|lia].
Qed.

(** ** The ring as a queue: reading *)

Lemma ring_holds_head ep buf d us :
  ring_holds ep buf (d :: us) -> rd buf (out_ix ep) = Z.of_nat (length d).
Proof.
  intros [[_ _ Hi Ho] _ Hr _ Hbytes]. unfold rd.
  specialize (Hbytes 0). rewrite Z.add_0_r, Z.mod_small in Hbytes by lia.
  rewrite Hbytes; [reflexivity|]. rewrite encode_cons_length. lia.
Qed.

Lemma ring_holds_tail ep buf d us ox :
  ring_holds ep buf (d :: us) ->
  ox = (out_ix ep + 1 + Z.of_nat (length d)) mod buffer_size ep ->
  ring_holds (set_buffered_units (buffered_units ep - 1) (set_out_ix ox ep))
    buf us.
Proof.
  intros [[Hb Hl Hi Ho] Hus Hr Hin Hbytes] ->.
  rewrite encode_cons_length in *.
  set (s := buffer_size ep) in *. set (n := Z.of_nat (length d)) in *.
  set (E := Z.of_nat (length (encode us))) in *.
  constructor; simpl; fold s E.
  - constructor; simpl; [assumption|assumption|lia|].
    apply Z.mod_pos_bound. lia.
  - inversion Hus; assumption.
  - lia.
  - rewrite Hin, Z.add_mod_idemp_l by lia. f_equal. lia.
  - intros k Hk. rewrite Z.add_mod_idemp_l by lia.
    replace (out_ix ep + 1 + n + k) with (out_ix ep + (1 + n + k)) by lia.
    rewrite Hbytes by lia. rewrite encode_cons.
    replace (Z.to_nat (1 + n + k)) with (S (length d + Z.to_nat k)) by lia.
    simpl. rewrite lookup_app_r by lia. f_equal. lia.
Qed.

Lemma ring_holds_read ep buf d us u :
  ring_holds ep buf (d :: us) ->
  urb_fits (Z.of_nat (length d)) u ->
  exists ep' u',
    oz_complete_buffered_urb_copy ep u = (ep', u') /\
    ring_holds ep' buf us /\
    actual_length u' = Z.of_nat (length d) /\
    urb_data u' = d /\
    buffered_units ep' = buffered_units ep - 1.
Proof.
  intros Hh (Hfit & tb & Htb & Htbl).
  pose proof (ring_holds_head _ _ _ _ Hh) as Hhead.
  assert (Ha : avail_len buf ep u = Z.of_nat (length d)).
  { unfold avail_len. rewrite Hhead.
    destruct (Z.leb_spec (Z.of_nat (length d)) (transfer_buffer_length u)); lia. }
  pose proof (rh_room _ _ _ Hh) as Hroom. rewrite encode_cons_length in Hroom.
  destruct (complete_buffered_copy_spec ep buf u tb (rh_wf _ _ _ Hh) Htb)
    as (tb' & Heq & Hlen & Hcopy & _); [lia|lia|].
  rewrite Ha in *.
  eexists _, _. split; [exact Heq|]. split; [|split; [|split]].
  - eapply ring_holds_tail; [exact Hh|reflexivity].
  - reflexivity.
  - unfold urb_data. simpl. apply list_eq. intros i.
    destruct (decide (i < length d)%nat) as [Hi|Hi].
    + rewrite lookup_take_lt by lia.
      specialize (Hcopy (Z.of_nat i)). rewrite Nat2Z.id in Hcopy.
      rewrite Hcopy by lia.
      replace (out_ix ep + 1 + Z.of_nat i) with (out_ix ep + (1 + Z.of_nat i)) by lia.
      rewrite (rh_bytes _ _ _ Hh) by (rewrite encode_cons_length; lia).
      rewrite encode_cons.
      replace (Z.to_nat (1 + Z.of_nat i)) with (S i) by lia. simpl.
      apply lookup_app_l. lia.
    + rewrite lookup_take_ge by lia. symmetry. apply lookup_ge_None. lia.
  - reflexivity.
Qed.


(** ** Sequences of writes and reads *)

Lemma ring_holds_fields ep ep' buf us :
  buffer ep' = buffer ep -> buffer_size ep' = buffer_size ep ->
  in_ix ep' = in_ix ep -> out_ix ep' = out_ix ep ->
  ring_holds ep buf us -> ring_holds ep' buf us.
Proof.
  intros Hb Hs Hi Ho [[? ? ? ?] ? ? ? ?].
  constructor; [constructor|..]; rewrite ?Hb, ?Hs, ?Hi, ?Ho; assumption.
Qed.

Lemma ring_holds_empty ep buf :
  ring_wf ep buf -> in_ix ep = out_ix ep -> ring_holds ep buf [].
Proof.
  intros Hwf Hio. pose proof (wf_out _ _ Hwf).
  constructor; simpl; [assumption|constructor|lia| |intros; lia].
  rewrite Z.add_0_r, Z.mod_small by lia. assumption.
Qed.

Lemma ring_holds_nil ep buf : ring_holds ep buf [] -> in_ix ep = out_ix ep.
Proof.
  intros [[_ _ _ Ho] _ _ Hin _]. simpl in Hin.
  rewrite Z.add_0_r, Z.mod_small in Hin by lia. assumption.
Qed.

Lemma write_units_holds units : forall ep buf us0 ep1,
  ring_holds ep buf us0 ->
  Forall (fun d : list Z => Z.of_nat (length d) <= 255) units ->
  write_units ep units = Some ep1 ->
  exists buf1, ring_holds ep1 buf1 (us0 ++ units) /\
    buffered_units ep1 = buffered_units ep + Z.of_nat (length units).
Proof.
  induction units as [|d ds IH]; intros ep buf us0 ep1 Hh Hu Hw.
  - simpl in Hw. injection Hw as <-. exists buf. rewrite app_nil_r.
    split; [assumption|simpl; lia].
  - inversion Hu as [|? ? Hd Hds]; subst. simpl in Hw.
    destruct (Z.lt_ge_cases
      (Z.of_nat (length (encode us0)) + 1 + Z.of_nat (length d))
      (buffer_size ep)) as [Hroom|Hfull].
    + destruct (ring_holds_write ep buf us0 d Hh Hd Hroom)
        as (ep' & buf' & Heq & Hh' & Hbu).
      rewrite Heq in Hw. simpl in Hw.
      destruct (IH ep' buf' (us0 ++ [d]) ep1 Hh' Hds Hw) as (buf1 & H1 & H2).
      exists buf1. rewrite <- app_assoc in H1. split; [exact H1|].
      rewrite H2, Hbu. simpl length. lia.
    + rewrite (ring_holds_write_full ep buf us0 d Hh Hfull) in Hw.
      discriminate Hw.
Qed.

(** The writes all succeed when the encoded units stay under capacity. *)
Lemma write_units_succeeds units : forall ep buf us0,
  ring_holds ep buf us0 ->
  Forall (fun d : list Z => Z.of_nat (length d) <= 255) units ->
  Z.of_nat (length (encode (us0 ++ units))) < buffer_size ep ->
  exists ep1, write_units ep units = Some ep1.
Proof.
  induction units as [|d ds IH]; intros ep buf us0 Hh Hu Hroom.
  - eexists; reflexivity.
  - inversion Hu as [|? ? Hd Hds]; subst. simpl.
    assert (Hr : Z.of_nat (length (encode us0)) + 1 + Z.of_nat (length d)
                 < buffer_size ep).
    { rewrite encode_app, length_app, Nat2Z.inj_add, encode_cons_length in Hroom.
      lia. }
    destruct (ring_holds_write ep buf us0 d Hh Hd Hr)
      as (ep' & buf' & Heq & Hh' & _).
    rewrite Heq. simpl. apply (IH ep' buf' (us0 ++ [d])); [assumption..|].
    rewrite <- app_assoc.
    replace (buffer_size ep') with (buffer_size ep); [exact Hroom|].
    unfold oz_hcd_buffer_data in Heq.
    destruct (buffer ep); [|discriminate].
    destruct (_ <? _); [discriminate|].
    destruct (if _ <? _ then _ else _). injection Heq as <-. reflexivity.
Qed.

Lemma read_units_holds units : forall ep buf urbs,
  ring_holds ep buf units ->
  Forall2 (fun (d : list Z) u => urb_fits (Z.of_nat (length d)) u) units urbs ->
  exists ep2 urbs',
    read_units ep urbs = (ep2, urbs') /\
    ring_holds ep2 buf [] /\
    map urb_data urbs' = units /\
    map actual_length urbs' = map (fun d : list Z => Z.of_nat (length d)) units /\
    buffered_units ep2 = buffered_units ep - Z.of_nat (length units).
Proof.
  induction units as [|d ds IH]; intros ep buf urbs Hh Hf.
  - inversion Hf; subst. exists ep, []. simpl.
    split; [reflexivity|]. split; [assumption|].
    split; [reflexivity|]. split; [reflexivity|lia].
  - inversion Hf as [|? u ? us Hu Hus]; subst.
    destruct (ring_holds_read ep buf d ds u Hh Hu)
      as (ep' & u' & Heq & Hh' & Hal & Hdat & Hbu).
    destruct (IH ep' buf us Hh' Hus) as (ep2 & urbs' & Heq2 & Hh2 & Hd2 & Hl2 & Hb2).
    exists ep2, (u' :: urbs'). simpl. rewrite Heq, Heq2.
    split; [reflexivity|]. split; [assumption|].
    split; [congruence|]. split; [congruence|].
    rewrite Hb2, Hbu. lia.
Qed.

(** ** The packets of an isochronous IN URB *)

Lemma heartbeat_in_packet_eq ep buf u i :
  ring_wf ep buf ->
  0 <= rd buf (out_ix ep) < buffer_size ep ->
  exists tb,
    heartbeat_in_packet i (ep, u) =
      (set_out_ix ((out_ix ep + 1 + rd buf (out_ix ep)) mod buffer_size ep) ep,
       set_iso_frame_desc
         (<[i := mk_iso_desc (actual_length u) (rd buf (out_ix ep)) 0]>
            (iso_frame_desc u))
         (set_actual_length (actual_length u + rd buf (out_ix ep))
            (set_transfer_buffer tb u))).
Proof.
  intros [Hb Hl Hi Ho] Hlen. unfold heartbeat_in_packet, ep_buf.
  rewrite Hb. simpl.
  pose proof (advance_read (buffer_size ep) (out_ix ep) (rd buf (out_ix ep)) Ho Hlen) as H.
  cbv zeta in H. rewrite <- H.
  destruct (_ <? rd buf (out_ix ep)); eexists; reflexivity.
Qed.

Lemma heartbeat_in_packets_spec units : forall ep buf rest u i,
  ring_holds ep buf (units ++ rest) ->
  (i + length units <= length (iso_frame_desc u))%nat ->
  exists ep' u',
    heartbeat_in_packets (length units) i (ep, u) = (ep', u') /\
    ring_holds ep' buf rest /\
    buffered_units ep' = buffered_units ep /\
    length (iso_frame_desc u') = length (iso_frame_desc u) /\
    (forall j, (j < i)%nat -> iso_frame_desc u' !! j = iso_frame_desc u !! j) /\
    map iso_actual_length (take (length units) (drop i (iso_frame_desc u')))
      = map (fun d : list Z => Z.of_nat (length d)) units /\
    actual_length u' = actual_length u + Z.of_nat (length (concat units)).
Proof.
  induction units as [|d ds IH]; intros ep buf rest u i Hh Hlen.
  - exists ep, u. simpl. split; [reflexivity|]. split; [assumption|].
    repeat (split; [reflexivity|]). lia.
  - simpl in Hh, Hlen.
    pose proof (ring_holds_head _ _ _ _ Hh) as Hhead.
    pose proof (rh_room _ _ _ Hh) as Hroom. rewrite encode_cons_length in Hroom.
    destruct (heartbeat_in_packet_eq ep buf u i (rh_wf _ _ _ Hh)) as (tb & Heq);
      [lia|].
    rewrite Hhead in Heq.
    assert (Hh1 : ring_holds
      (set_out_ix ((out_ix ep + 1 + Z.of_nat (length d)) mod buffer_size ep) ep)
      buf (ds ++ rest)).
    { eapply ring_holds_fields; [..|eapply ring_holds_tail; [exact Hh|reflexivity]];
        reflexivity. }
    edestruct (IH _ buf rest
      (set_iso_frame_desc
         (<[i := mk_iso_desc (actual_length u) (Z.of_nat (length d)) 0]>
            (iso_frame_desc u))
         (set_actual_length (actual_length u + Z.of_nat (length d))
            (set_transfer_buffer tb u))) (S i) Hh1)
      as (ep' & u' & Heq' & Hh' & Hbu & Hl' & Hpre & Hmap & Hact).
    { simpl. rewrite length_insert. lia. }
    simpl in Hl', Hpre, Hact, Hbu. rewrite length_insert in Hl'.
    exists ep', u'.
    change (heartbeat_in_packets (length (d :: ds)) i (ep, u))
      with (heartbeat_in_packets (length ds) (S i) (heartbeat_in_packet i (ep, u))).
    rewrite Heq, Heq'.
    split; [reflexivity|]. split; [assumption|]. split; [assumption|].
    split; [assumption|]. split; [|split].
    + intros j Hj. rewrite Hpre by lia. apply list_lookup_insert_ne. lia.
    + assert (Hi : iso_frame_desc u' !! i
                   = Some (mk_iso_desc (actual_length u) (Z.of_nat (length d)) 0)).
      { rewrite Hpre by lia. apply list_lookup_insert_eq. lia. }
      rewrite (drop_S _ _ _ Hi). simpl. rewrite Hmap. reflexivity.
    + rewrite Hact. cbn [concat]. rewrite length_app. lia.
Qed.


(** ** The cursors stay inside the buffer *)

Lemma ring_inv_wf ep :
  ring_inv ep <->
  exists buf, ring_wf ep buf /\ Forall is_u8 buf /\ 256 <= buffer_size ep.
Proof.
  split.
  - intros ([Hi Ho] & Hs & buf & Hb & Hl & Hu). exists buf.
    split; [constructor; assumption|]. split; assumption.
  - intros (buf & [Hb Hl Hi Ho] & Hu & Hs).
    split; [split; assumption|]. split; [assumption|]. exists buf. auto.
Qed.

Lemma ring_inv_fields ep ep' :
  buffer ep' = buffer ep -> buffer_size ep' = buffer_size ep ->
  in_ix ep' = in_ix ep -> out_ix ep' = out_ix ep ->
  ring_inv ep -> ring_inv ep'.
Proof. unfold ring_inv. intros -> -> -> ->. trivial. Qed.

Lemma ring_inv_out ep ox :
  0 <= ox < buffer_size ep -> ring_inv ep -> ring_inv (set_out_ix ox ep).
Proof. unfold ring_inv. simpl. intros ? ([? ?] & ? & ?). auto. Qed.

Lemma rd_u8 buf i : Forall is_u8 buf -> 0 <= rd buf i < 256.
Proof.
  intros Hu. unfold rd. destruct (buf !! Z.to_nat i) as [x|] eqn:E; simpl.
  - exact (proj1 (Forall_lookup _ _) Hu _ _ E).
  - lia.
Qed.

Lemma Forall_list_inserts {A} (P : A -> Prop) (k l : list A) : forall i,
  Forall P l -> Forall P k -> Forall P (list_inserts i k l).
Proof.
  induction k as [|y k IH]; intros i Hl Hk; simpl; [assumption|].
  inversion Hk; subst. apply Forall_insert; auto.
Qed.

Lemma memcpy_u8 dst doff src soff n :
  Forall is_u8 dst -> Forall is_u8 src ->
  Forall is_u8 (memcpy dst doff src soff n).
Proof.
  intros Hd Hs. unfold memcpy. apply Forall_list_inserts; [assumption|].
  apply Forall_take, Forall_drop. assumption.
Qed.

Lemma to_u8_u8 x : is_u8 (to_u8 x).
Proof. unfold is_u8, to_u8. apply Z.mod_pos_bound. lia. Qed.

Lemma buffer_data_u8 ep buf data data_len buf' :
  buffer ep = Some buf -> Forall is_u8 buf -> Forall is_u8 data ->
  buffer (snd (oz_hcd_buffer_data ep data data_len)) = Some buf' ->
  Forall is_u8 buf'.
Proof.
  intros Hb Hu Hd. unfold oz_hcd_buffer_data. rewrite Hb.
  destruct (_ <? data_len + 1); simpl.
  - rewrite Hb. intros [= <-]. assumption.
  - assert (Hins : Forall is_u8 (<[Z.to_nat (in_ix ep) := to_u8 data_len]> buf))
      by (apply Forall_insert; [assumption|apply to_u8_u8]).
    destruct (_ <? data_len); simpl; intros [= <-];
      repeat apply memcpy_u8; assumption.
Qed.

Lemma buffer_data_inv ep data :
  ring_inv ep -> Forall is_u8 data ->
  ring_inv (snd (oz_hcd_buffer_data ep data (Z.of_nat (length data)))).
Proof.
  intros Hinv Hd. pose proof Hinv as Hinv0.
  apply ring_inv_wf in Hinv as (buf & Hwf & Hu & Hs).
  destruct (Z.lt_ge_cases (free_space ep) (Z.of_nat (length data) + 1)) as [Hf|Hf].
  - rewrite (buffer_data_full ep buf data _ Hwf Hf). exact Hinv0.
  - destruct (buffer_data_stored ep buf data _ Hwf eq_refl Hf)
      as (buf' & Heq & Hlen & _).
    pose proof (buffer_data_u8 ep buf data (Z.of_nat (length data)) buf'
                  (wf_buffer _ _ Hwf) Hu Hd) as Hu'.
    rewrite Heq in *. simpl in *. specialize (Hu' eq_refl).
    destruct Hwf as [Hb Hl Hi Ho].
    split; simpl; [split; [apply Z.mod_pos_bound; lia|assumption]|].
    split; [assumption|]. exists buf'. repeat split; [lia|assumption].
Qed.

Lemma complete_buffered_inv ep u :
  ring_inv ep -> 0 <= transfer_buffer_length u ->
  ring_inv (fst (oz_complete_buffered_urb_copy ep u)).
Proof.
  intros Hinv Hb. pose proof Hinv as Hinv0.
  apply ring_inv_wf in Hinv as (buf & Hwf & Hu & Hs).
  pose proof (rd_u8 buf (out_ix ep) Hu) as Hr.
  assert (Ha : 0 <= avail_len buf ep u < buffer_size ep).
  { unfold avail_len. destruct (_ <=? _) eqn:E; [lia|].
    apply Z.leb_gt in E. lia. }
  destruct (complete_buffered_copy_ep ep buf u Hwf Ha) as [-> _].
  eapply (ring_inv_fields (set_out_ix _ ep)); try reflexivity.
  apply ring_inv_out; [apply Z.mod_pos_bound; lia|assumption].
Qed.

Lemma discard_unit_inv ep : ring_inv ep -> ring_inv (discard_unit ep).
Proof.
  intros Hinv. pose proof Hinv as Hinv0.
  apply ring_inv_wf in Hinv as (buf & Hwf & Hu & Hs).
  pose proof (rd_u8 buf (out_ix ep) Hu) as Hr.
  rewrite (discard_unit_eq ep buf Hwf) by lia.
  eapply (ring_inv_fields (set_out_ix _ ep)); try reflexivity.
  apply ring_inv_out; [apply Z.mod_pos_bound; lia|assumption].
Qed.

Lemma discard_loop_inv n : forall ep, ring_inv ep -> ring_inv (discard_loop n ep).
Proof.
  induction n as [|n IH]; intros ep Hinv; simpl; [assumption|].
  destruct (_ >? _); [|assumption]. apply IH, discard_unit_inv, Hinv.
Qed.

(** The discard loop runs until its condition fails. *)
Lemma discard_loop_exit n : forall ep,
  (Z.to_nat (buffered_units ep - max_buffer_units ep) <= n)%nat ->
  buffered_units (discard_loop n ep) <= max_buffer_units (discard_loop n ep).
Proof.
  induction n as [|n IH]; intros ep Hn; simpl; [lia|].
  destruct (Z.gtb_spec (buffered_units ep) (max_buffer_units ep)); [|lia].
  apply IH. unfold discard_unit. simpl. lia.
Qed.

Lemma heartbeat_in_packet_inv i ep u :
  ring_inv ep -> ring_inv (fst (heartbeat_in_packet i (ep, u))).
Proof.
  intros Hinv. pose proof Hinv as Hinv0.
  apply ring_inv_wf in Hinv as (buf & Hwf & Hu & Hs).
  pose proof (rd_u8 buf (out_ix ep) Hu) as Hr.
  destruct (heartbeat_in_packet_eq ep buf u i Hwf) as (tb & ->); [lia|].
  apply ring_inv_out; [apply Z.mod_pos_bound; lia|assumption].
Qed.

Lemma heartbeat_in_packets_inv n : forall i ep u,
  ring_inv ep -> ring_inv (fst (heartbeat_in_packets n i (ep, u))).
Proof.
  induction n as [|n IH]; intros i ep u Hinv; cbn [heartbeat_in_packets];
    [assumption|].
  pose proof (heartbeat_in_packet_inv i ep u Hinv) as H.
  destruct (heartbeat_in_packet i (ep, u)) as [ep' u']. apply IH, H.
Qed.

Lemma heartbeat_in_drain_inv q : forall ep xfr,
  ring_inv ep -> ring_inv (fst (heartbeat_in_drain q ep xfr)).
Proof.
  induction q as [|urbl q IH]; intros ep xfr Hinv; cbn [heartbeat_in_drain];
    [assumption|].
  destruct (_ <? _); [assumption|].
  pose proof (heartbeat_in_packets_inv
    (Z.to_nat (number_of_packets (link_urb urbl))) 0 ep
    (set_actual_length 0 (link_urb urbl)) Hinv) as H.
  destruct (heartbeat_in_packets _ _ _) as [ep' u']. simpl in H.
  apply IH. eapply ring_inv_fields; [..|exact H]; reflexivity.
Qed.

Lemma heartbeat_isoc_in_ep_inv ts ep xfr :
  ring_inv ep -> ring_inv (fst (heartbeat_isoc_in_ep ts ep xfr)).
Proof.
  intros Hinv. unfold heartbeat_isoc_in_ep.
  destruct (ep_buffering ep).
  - destruct (_ >=? _); simpl; [|assumption].
    eapply ring_inv_fields; [..|exact Hinv]; reflexivity.
  - match goal with |- context [heartbeat_in_drain ?q ?e ?x] =>
      pose proof (heartbeat_in_drain_inv q e x) as H;
      destruct (heartbeat_in_drain q e x) as [ep' xfr'] end.
    simpl in H.
    assert (H' : ring_inv ep').
    { apply H. eapply ring_inv_fields; [..|exact Hinv]; reflexivity. }
    destruct (_ =? 0); simpl.
    + eapply ring_inv_fields; [..|exact H']; reflexivity.
    + destruct (_ >=? _); simpl; [|assumption].
      eapply ring_inv_fields; [..|exact H']; reflexivity.
Qed.

Lemma data_ind_ep_inv ep data :
  ring_inv ep -> Forall is_u8 data ->
  ring_inv (fst (oz_hcd_data_ind_ep ep data (Z.of_nat (length data)))).
Proof.
  intros Hinv Hd. unfold oz_hcd_data_ind_ep.
  pose proof (buffer_data_inv ep data Hinv Hd) as Hw.
  destruct (_ || _).
  - destruct (urb_list ep); simpl; [assumption|].
    eapply ring_inv_fields; [..|exact Hinv]; reflexivity.
  - destruct (_ =? USB_ENDPOINT_XFER_ISOC); [|assumption].
    destruct (oz_hcd_buffer_data _ _ _) as [rc ep']. simpl in Hw.
    destruct (negb _); simpl; [|assumption].
    eapply (ring_inv_fields (discard_excess ep')); try reflexivity.
    apply discard_loop_inv, Hw.
Qed.


(** * The ring buffer claims *)

Lemma ep_alloc_ring_inv size : 256 <= size -> ring_inv (oz_ep_alloc size).
Proof.
  intros Hs. unfold ring_inv, oz_ep_alloc.
  destruct (Z.eqb_spec size 0); [lia|].
  cbn [in_ix out_ix buffer_size buffer].
  split; [lia|]. split; [lia|]. eexists. split; [reflexivity|].
  split; [rewrite length_replicate; lia|].
  apply Forall_replicate. unfold is_u8. lia.
Qed.

Lemma ep_alloc_no_buffer : buffer (oz_ep_alloc 0) = None.
Proof. reflexivity. Qed.

(** Every endpoint [oz_build_endpoints_for_interface] gives a buffer
    starts inside the invariant. *)
Lemma build_endpoint_ring_inv ep_addr attr units stream_rc :
  buffer (oz_build_endpoint ep_addr attr units stream_rc) <> None ->
  ring_inv (oz_build_endpoint ep_addr attr units stream_rc).
Proof.
  unfold oz_build_endpoint.
  destruct (negb (Z.land ep_addr USB_DIR_IN =? 0));
    destruct (Z.land attr USB_ENDPOINT_XFERTYPE_MASK =? USB_ENDPOINT_XFER_ISOC);
    try destruct (Z.land attr USB_ENDPOINT_XFERTYPE_MASK =? USB_ENDPOINT_XFER_INT);
    try destruct (negb (stream_rc =? 0));
    cbv zeta; intros H;
    first
      [ eapply ring_inv_fields;
        [..|apply (ep_alloc_ring_inv OZ_EP_BUFFER_SIZE_ISOC); vm_compute; congruence];
        reflexivity
      | eapply ring_inv_fields;
        [..|apply (ep_alloc_ring_inv OZ_EP_BUFFER_SIZE_INT); vm_compute; congruence];
        reflexivity
      | exfalso; apply H; exact ep_alloc_no_buffer ].
Qed.

(** C8.  For an endpoint with an allocated buffer, [oz_hcd_buffer_data]
    returns -1 and leaves the endpoint as it is exactly when the free
    space [(out_ix - in_ix - 1) mod buffer_size] is less than
    [data_len + 1]; otherwise it returns 0, stores the length byte at
    the write cursor and the data behind it (wrapping at the end of the
    array), leaves every other byte alone, moves the write cursor past
    the unit and adds one to the count of buffered units. *)
Theorem oz_hcd_buffer_data_full_or_stored ep buf data data_len :
  ring_wf ep buf ->
  data_len = Z.of_nat (length data) ->
  (free_space ep < data_len + 1 ->
     oz_hcd_buffer_data ep data data_len = (-1, ep)) /\
  (data_len + 1 <= free_space ep ->
     exists buf',
       oz_hcd_buffer_data ep data data_len =
         (0, set_buffered_units (buffered_units ep + 1)
               (set_in_ix ((in_ix ep + 1 + data_len) mod buffer_size ep)
                  (set_buffer (Some buf') ep))) /\
       length buf' = length buf /\
       buf' !! Z.to_nat (in_ix ep) = Some (to_u8 data_len) /\
       (forall j, 0 <= j < data_len ->
          buf' !! Z.to_nat ((in_ix ep + 1 + j) mod buffer_size ep)
          = data !! Z.to_nat j) /\
       (forall p, 0 <= p < buffer_size ep ->
          data_len < (p - in_ix ep) mod buffer_size ep ->
          buf' !! Z.to_nat p = buf !! Z.to_nat p)).
Proof.
  intros Hwf Hlen. split.
  - apply buffer_data_full with buf. assumption.
  - apply buffer_data_stored; assumption.
Qed.

Lemma oz_hcd_buffer_data_full_or_stored_witness :
  ring_wf (ring_at 510 ep_int_in) (replicate 512 0) /\
  exists buf',
    oz_hcd_buffer_data (ring_at 510 ep_int_in) [1; 2; 3] 3 =
      (0, set_buffered_units 1
            (set_in_ix 2 (set_buffer (Some buf') (ring_at 510 ep_int_in)))) /\
    buf' !! 510%nat = Some 3 /\ buf' !! 511%nat = Some 1 /\
    buf' !! 0%nat = Some 2 /\ buf' !! 1%nat = Some 3.
Proof.
  assert (Hwf : ring_wf (ring_at 510 ep_int_in) (replicate 512 0)).
  { constructor; vm_compute; try reflexivity; split; congruence. }
  split; [exact Hwf|].
  destruct (proj2 (oz_hcd_buffer_data_full_or_stored
                     (ring_at 510 ep_int_in) (replicate 512 0) [1; 2; 3] 3
                     Hwf eq_refl))
    as (buf' & Heq & _ & H0 & Hd & _).
  { vm_compute. congruence. }
  exists buf'. split; [exact Heq|].
  split; [exact H0|].
  split; [exact (Hd 0 ltac:(lia))|].
  split; [exact (Hd 1 ltac:(lia))|exact (Hd 2 ltac:(lia))].
Defined.

(** C9.  When the unit at the read cursor has stored length [L] and the
    URB's [transfer_buffer_length] is [B < L], [oz_complete_buffered_urb]
    sets [actual_length] to [B], takes one off the count of buffered
    units and moves the read cursor by [1 + B] modulo [buffer_size]: it
    stops short of the end of the unit, whose last [L - B] bytes stay in
    the ring, which is not written.  Only [B] bytes are copied: in a
    transfer buffer of [B] bytes or more, the first [B] bytes become the
    first [B] bytes of the unit and every byte from [B] on is as it
    was. *)
Theorem oz_complete_buffered_urb_short ep buf u :
  ring_wf ep buf ->
  0 <= transfer_buffer_length u < rd buf (out_ix ep) ->
  rd buf (out_ix ep) < buffer_size ep ->
  let ep' := fst (oz_complete_buffered_urb_copy ep u) in
  let u' := snd (oz_complete_buffered_urb_copy ep u) in
  actual_length u' = transfer_buffer_length u /\
  buffered_units ep' = buffered_units ep - 1 /\
  out_ix ep'
    = (out_ix ep + 1 + transfer_buffer_length u) mod buffer_size ep /\
  out_ix ep' <> (out_ix ep + 1 + rd buf (out_ix ep)) mod buffer_size ep /\
  in_ix ep' = in_ix ep /\
  buffer ep' = buffer ep /\
  (forall tb,
     transfer_buffer u = Some tb ->
     transfer_buffer_length u <= Z.of_nat (length tb) ->
     exists tb',
       transfer_buffer u' = Some tb' /\
       length tb' = length tb /\
       (forall j, 0 <= j < transfer_buffer_length u ->
          tb' !! Z.to_nat j
          = buf !! Z.to_nat ((out_ix ep + 1 + j) mod buffer_size ep)) /\
       (forall j, transfer_buffer_length u <= j ->
          tb' !! Z.to_nat j = tb !! Z.to_nat j)).
Proof.
  intros Hwf HB HL. cbv zeta.
  assert (Ha : avail_len buf ep u = transfer_buffer_length u).
  { unfold avail_len.
    destruct (Z.leb_spec (rd buf (out_ix ep)) (transfer_buffer_length u)); lia. }
  destruct (complete_buffered_copy_ep ep buf u Hwf) as [Hep Hact]; [lia|].
  rewrite Ha in Hep, Hact. rewrite Hep.
  split; [exact Hact|]. split; [reflexivity|]. split; [reflexivity|].
  split; [|split; [reflexivity|split; [reflexivity|]]].
  - cbn [out_ix set_out_ix set_buffered_units]. intros Hmod.
    set (s := buffer_size ep) in *. set (B := transfer_buffer_length u) in *.
    set (L := rd buf (out_ix ep)) in *.
    assert (H0 : (L - B) mod s = 0).
    { replace (L - B) with ((out_ix ep + 1 + L) - (out_ix ep + 1 + B)) by lia.
      rewrite Zminus_mod, Hmod, Z.sub_diag. apply Z.mod_0_l. lia. }
    rewrite Z.mod_small in H0 by lia. lia.
  - intros tb Htb Hlen.
    destruct (complete_buffered_copy_spec ep buf u tb Hwf Htb)
      as (tb' & Heq & Hl' & Hcopy & Hrest); [lia..|].
    rewrite Ha in *. exists tb'. rewrite Heq.
    split; [reflexivity|]. split; [exact Hl'|].
    split; [exact Hcopy|exact Hrest].
Qed.

Lemma oz_complete_buffered_urb_short_witness :
  let u := set_transfer_buffer (Some [9; 9; 9; 9; 9; 9]) (int_urb 1 2) in
  exists ep1,
    write_units (ring_at 510 ep_int_in) [[1; 2; 3; 4]] = Some ep1 /\
    out_ix (fst (oz_complete_buffered_urb_copy ep1 u)) = 1 /\
    actual_length (snd (oz_complete_buffered_urb_copy ep1 u)) = 2 /\
    buffered_units (fst (oz_complete_buffered_urb_copy ep1 u)) = 0 /\
    exists tb',
      transfer_buffer (snd (oz_complete_buffered_urb_copy ep1 u)) = Some tb' /\
      length tb' = 6%nat /\
      tb' !! 0%nat = Some 1 /\ tb' !! 1%nat = Some 2 /\
      tb' !! 2%nat = Some 9 /\ tb' !! 3%nat = Some 9 /\
      tb' !! 4%nat = Some 9 /\ tb' !! 5%nat = Some 9.
Proof.
  intros u.
  assert (Hw : write_units (ring_at 510 ep_int_in) [[1; 2; 3; 4]]
               = Some (default ep_int_in
                         (write_units (ring_at 510 ep_int_in) [[1; 2; 3; 4]])))
    by (vm_compute; reflexivity).
  set (ep1 := default ep_int_in
                (write_units (ring_at 510 ep_int_in) [[1; 2; 3; 4]])) in *.
  exists ep1. split; [exact Hw|].
  destruct (oz_complete_buffered_urb_short ep1 (ep_buf ep1) u)
    as (H1 & H2 & H3 & _ & _ & _ & H7).
  - constructor; vm_compute; try reflexivity; split; congruence.
  - vm_compute. split; [congruence|reflexivity].
  - vm_compute. reflexivity.
  - split; [rewrite H3; vm_compute; reflexivity|].
    split; [rewrite H1; reflexivity|].
    split; [rewrite H2; vm_compute; reflexivity|].
    destruct (H7 [9; 9; 9; 9; 9; 9] eq_refl) as (tb' & T1 & T2 & T3 & T4).
    { vm_compute. congruence. }
    exists tb'. split; [exact T1|]. split; [exact T2|].
    pose proof (T3 0 ltac:(vm_compute; split; congruence)) as X0.
    pose proof (T3 1 ltac:(vm_compute; split; congruence)) as X1.
    pose proof (T4 2 ltac:(vm_compute; congruence)) as X2.
    pose proof (T4 3 ltac:(vm_compute; congruence)) as X3.
    pose proof (T4 4 ltac:(vm_compute; congruence)) as X4.
    pose proof (T4 5 ltac:(vm_compute; congruence)) as X5.
    change (Z.to_nat 0) with 0%nat in X0. change (Z.to_nat 1) with 1%nat in X1.
    change (Z.to_nat 2) with 2%nat in X2. change (Z.to_nat 3) with 3%nat in X3.
    change (Z.to_nat 4) with 4%nat in X4. change (Z.to_nat 5) with 5%nat in X5.
    rewrite X0, X1, X2, X3, X4, X5.
    repeat split; vm_compute; reflexivity.
Defined.

(** C2 (as stated) fails.  On the interrupt IN endpoint as the driver
    builds it, a unit of 4 bytes read back into an URB with a 2-byte
    buffer comes back as 2 bytes, and a unit of 256 bytes, whose write
    succeeds, comes back with length 0: the length byte holds
    [(u8)256 = 0]. *)
Lemma round_trip_counterexample :
  ~ round_trip_claim ep_int_in [[1; 2; 3; 4]] [int_urb 1 2] /\
  ~ round_trip_claim ep_int_in [replicate 256 7] [int_urb 1 300].
Proof.
  split; intros H.
  - pose proof (H (default ep_int_in (write_units ep_int_in [[1; 2; 3; 4]])))
      as H1.
    vm_compute in H1. destruct (H1 eq_refl) as [H2 _]. discriminate H2.
  - pose proof (H (default ep_int_in (write_units ep_int_in [replicate 256 7])))
      as H1.
    vm_compute in H1. destruct (H1 eq_refl) as [_ H2]. discriminate H2.
Qed.

(** C2 (amended).  Units of at most 255 bytes each are written with
    [oz_hcd_buffer_data] to an empty ring, wherever its cursors stand,
    and every write succeeds.  Read back in order with
    [oz_complete_buffered_urb], each into an URB whose transfer buffer is
    at least as long as the unit, they come back with exactly their
    bytes and their lengths, also when a unit wraps past the end of the
    array, and the ring is empty again.  Drained by the heartbeat as the
    packets of one isochronous URB, they come back with exactly their
    lengths in [iso_frame_desc[i].actual_length]. *)
Theorem ring_round_trip ep buf units ep1 :
  ring_wf ep buf ->
  in_ix ep = out_ix ep ->
  Forall (fun d : list Z => Z.of_nat (length d) <= 255) units ->
  write_units ep units = Some ep1 ->
  (forall urbs,
     Forall2 (fun (d : list Z) u => urb_fits (Z.of_nat (length d)) u)
       units urbs ->
     exists ep2 urbs',
       read_units ep1 urbs = (ep2, urbs') /\
       map urb_data urbs' = units /\
       map actual_length urbs'
         = map (fun d : list Z => Z.of_nat (length d)) units /\
       in_ix ep2 = out_ix ep2) /\
  (forall u,
     length (iso_frame_desc u) = length units ->
     exists ep2 u',
       heartbeat_in_packets (length units) 0 (ep1, u) = (ep2, u') /\
       map iso_actual_length (iso_frame_desc u')
         = map (fun d : list Z => Z.of_nat (length d)) units /\
       in_ix ep2 = out_ix ep2).
Proof.
  intros Hwf Hio Hu Hw.
  destruct (write_units_holds units ep buf [] ep1
              (ring_holds_empty ep buf Hwf Hio) Hu Hw) as (buf1 & Hh & _).
  simpl in Hh. split.
  - intros urbs Hf.
    destruct (read_units_holds units ep1 buf1 urbs Hh Hf)
      as (ep2 & urbs' & Heq & Hh2 & Hd & Hl & _).
    exists ep2, urbs'. split; [exact Heq|]. split; [exact Hd|].
    split; [exact Hl|]. exact (ring_holds_nil _ _ Hh2).
  - intros u Hlen.
    destruct (heartbeat_in_packets_spec units ep1 buf1 [] u 0)
      as (ep2 & u' & Heq & Hh2 & _ & Hl' & _ & Hmap & _).
    { rewrite app_nil_r. exact Hh. }
    { lia. }
    exists ep2, u'. split; [exact Heq|]. split; [|exact (ring_holds_nil _ _ Hh2)].
    rewrite <- Hmap. rewrite drop_0, take_ge by lia. reflexivity.
Qed.

Lemma ring_round_trip_witness :
  exists ep1,
    write_units (ring_at 510 ep_int_in) [[1; 2; 3]; [4; 5]] = Some ep1 /\
    in_ix ep1 = 5 /\
    exists ep2 urbs',
      read_units ep1 [int_urb 1 8; int_urb 2 3] = (ep2, urbs') /\
      map urb_data urbs' = [[1; 2; 3]; [4; 5]] /\
      map actual_length urbs' = [3; 2] /\
      in_ix ep2 = out_ix ep2.
Proof.
  assert (Hw : write_units (ring_at 510 ep_int_in) [[1; 2; 3]; [4; 5]]
               = Some (default ep_int_in
                   (write_units (ring_at 510 ep_int_in) [[1; 2; 3]; [4; 5]])))
    by (vm_compute; reflexivity).
  eexists. split; [exact Hw|]. split; [vm_compute; reflexivity|].
  apply (proj1 (ring_round_trip (ring_at 510 ep_int_in) (replicate 512 0)
                  [[1; 2; 3]; [4; 5]] _
                  ltac:(constructor; vm_compute; try reflexivity; split; congruence)
                  eq_refl
                  ltac:(repeat constructor; vm_compute; congruence)
                  Hw)).
  repeat constructor; try (vm_compute; congruence);
    eexists; (split; [reflexivity|vm_compute; congruence]).
Defined.

(** C10.  An endpoint with an allocated buffer whose cursors satisfy
    [0 <= in_ix < buffer_size] and [0 <= out_ix < buffer_size] keeps
    them there through every ring operation: writing a unit, draining a
    unit into an URB, the heartbeat's drain of isochronous IN packets
    (a run of packets and the whole pass over the endpoint), the discard
    loop of the overflow path and the data indication around it. *)
Theorem ring_cursors_preserved ep :
  ring_inv ep ->
  (forall data, Forall is_u8 data ->
     ring_inv (snd (oz_hcd_buffer_data ep data (Z.of_nat (length data))))) /\
  (forall u, 0 <= transfer_buffer_length u ->
     ring_inv (fst (oz_complete_buffered_urb_copy ep u))) /\
  (forall n i u, ring_inv (fst (heartbeat_in_packets n i (ep, u)))) /\
  (forall ts xfr, ring_inv (fst (heartbeat_isoc_in_ep ts ep xfr))) /\
  (forall n, ring_inv (discard_loop n ep)) /\
  (forall data, Forall is_u8 data ->
     ring_inv (fst (oz_hcd_data_ind_ep ep data (Z.of_nat (length data))))).
Proof.
  intros Hinv.
  split; [intros; apply buffer_data_inv; assumption|].
  split; [intros; apply complete_buffered_inv; assumption|].
  split; [intros; apply heartbeat_in_packets_inv; assumption|].
  split; [intros; apply heartbeat_isoc_in_ep_inv; assumption|].
  split; [intros; apply discard_loop_inv; assumption|].
  intros; apply data_ind_ep_inv; assumption.
Qed.

Lemma ring_cursors_preserved_witness :
  ring_inv ep_int_in /\
  ring_inv (snd (oz_hcd_buffer_data ep_int_in [1; 2; 3] 3)) /\
  ring_inv (fst (oz_complete_buffered_urb_copy ep_int_in (int_urb 1 8))).
Proof.
  assert (H : ring_inv ep_int_in).
  { apply build_endpoint_ring_inv. discriminate. }
  split; [exact H|].
  destruct (ring_cursors_preserved ep_int_in H) as (Hw & Hr & _).
  split.
  - apply (Hw [1; 2; 3]). repeat constructor; vm_compute; congruence.
  - apply Hr. vm_compute. congruence.
Defined.


(** * Isochronous OUT credit *)

Lemma to_int_small x : - 2147483648 <= x <= INT_MAX -> to_int x = x.
Proof.
  unfold to_int, INT_MAX. intros H. rewrite Z.mod_small by lia. lia.
Qed.

Lemma to_int_range x : - 2147483648 <= to_int x <= INT_MAX.
Proof.
  unfold to_int, INT_MAX.
  pose proof (Z.mod_pos_bound (x + 2147483648) 4294967296 ltac:(lia)). lia.
Qed.


Lemma packets_app l1 l2 : packets (l1 ++ l2) = packets l1 + packets l2.
Proof. induction l1 as [|x l1 IH]; simpl; [reflexivity|rewrite IH; lia]. Qed.













(** * Isochronous IN buffering *)

Lemma buffering_set f :
  negb (Z.land (Z.lor f OZ_F_EP_BUFFERING) OZ_F_EP_BUFFERING =? 0) = true.
Proof.
  unfold OZ_F_EP_BUFFERING.
  destruct (Z.eqb_spec (Z.land (Z.lor f 1) 1) 0) as [H|H]; [|reflexivity].
  apply (f_equal (fun x => Z.testbit x 0)) in H.
  rewrite Z.land_spec, Z.lor_spec in H. simpl in H.
  rewrite orb_true_r in H. discriminate H.
Qed.

Lemma buffering_cleared f :
  negb (Z.land (Z.land f (Z.lnot OZ_F_EP_BUFFERING)) OZ_F_EP_BUFFERING =? 0)
  = false.
Proof.
  rewrite <- Z.land_assoc.
  change (Z.land (Z.lnot OZ_F_EP_BUFFERING) OZ_F_EP_BUFFERING) with 0.
  rewrite Z.land_0_r. reflexivity.
Qed.

Lemma buffer_data_flags ep data data_len :
  ep_flags (snd (oz_hcd_buffer_data ep data data_len)) = ep_flags ep /\
  max_buffer_units (snd (oz_hcd_buffer_data ep data data_len))
  = max_buffer_units ep.
Proof.
  unfold oz_hcd_buffer_data. destruct (buffer ep); [|auto].
  destruct (_ <? data_len + 1); [auto|].
  destruct (if _ <? data_len then _ else _). auto.
Qed.

Lemma buffer_data_failed ep data data_len :
  fst (oz_hcd_buffer_data ep data data_len) <> 0 ->
  oz_hcd_buffer_data ep data data_len = (-1, ep).
Proof.
  unfold oz_hcd_buffer_data. destruct (buffer ep); [|reflexivity].
  destruct (_ <? data_len + 1); [reflexivity|].
  destruct (if _ <? data_len then _ else _). simpl. congruence.
Qed.

Lemma discard_loop_count n : forall ep,
  n = Z.to_nat (buffered_units ep - max_buffer_units ep) ->
  buffered_units (discard_loop n ep)
    = Z.min (buffered_units ep) (max_buffer_units ep) /\
  max_buffer_units (discard_loop n ep) = max_buffer_units ep /\
  ep_flags (discard_loop n ep) = ep_flags ep.
Proof.
  induction n as [|n IH]; intros ep Hn; cbn [discard_loop].
  - split; [lia|auto].
  - destruct (Z.gtb_spec (buffered_units ep) (max_buffer_units ep)); [|lia].
    destruct (IH (discard_unit ep)) as (H1 & H2 & H3).
    + unfold discard_unit. ep_simpl. lia.
    + rewrite H1, H2, H3. unfold discard_unit. ep_simpl.
      split; [lia|auto].
Qed.

Lemma heartbeat_in_packet_flags i ep u :
  ep_flags (fst (heartbeat_in_packet i (ep, u))) = ep_flags ep.
Proof.
  unfold heartbeat_in_packet.
  destruct (if _ <? rd _ _ then _ else _). reflexivity.
Qed.

Lemma heartbeat_in_packets_flags n : forall i ep u,
  ep_flags (fst (heartbeat_in_packets n i (ep, u))) = ep_flags ep.
Proof.
  induction n as [|n IH]; intros i ep u; cbn [heartbeat_in_packets];
    [reflexivity|].
  pose proof (heartbeat_in_packet_flags i ep u) as H.
  destruct (heartbeat_in_packet i (ep, u)) as [ep' u'].
  rewrite IH. exact H.
Qed.

Lemma heartbeat_in_drain_flags q : forall ep xfr,
  ep_flags (fst (heartbeat_in_drain q ep xfr)) = ep_flags ep.
Proof.
  induction q as [|urbl q IH]; intros ep xfr; cbn [heartbeat_in_drain];
    [reflexivity|].
  destruct (_ <? _); [reflexivity|].
  pose proof (heartbeat_in_packets_flags
    (Z.to_nat (number_of_packets (link_urb urbl))) 0 ep
    (set_actual_length 0 (link_urb urbl))) as H.
  destruct (heartbeat_in_packets _ _ _) as [ep' u'].
  rewrite IH. exact H.
Qed.

Lemma ep_queue_urb_flags e in_dir a urbl ep :
  ep_flags (ep_queue_urb e in_dir a urbl ep) = ep_flags ep.
Proof. unfold ep_queue_urb. destruct (_ && _); reflexivity. Qed.

Lemma remove_urb_flags ep u :
  ep_flags (default ep (snd (oz_remove_urb (Some ep) u))) = ep_flags ep.
Proof.
  unfold oz_remove_urb.
  destruct (take_urb (urb_list ep) u) as [[urbl rest]|]; [|reflexivity].
  destruct (usb_pipeisoc (pipe u)); [|reflexivity].
  ep_simpl. destruct (_ <? 0); reflexivity.
Qed.

(** The heartbeat on an IN endpoint: how the buffering flag moves. *)
Lemma heartbeat_in_flag ts ep xfr :
  (ep_buffering ep = true ->
   ep_buffering (fst (heartbeat_isoc_in_ep ts ep xfr)) = false ->
   max_buffer_units ep <= buffered_units ep) /\
  (ep_buffering ep = false ->
   ep_buffering (fst (heartbeat_isoc_in_ep ts ep xfr)) = true ->
   buffered_units (fst (heartbeat_isoc_in_ep ts ep xfr)) = 0).
Proof.
  unfold heartbeat_isoc_in_ep. destruct (ep_buffering ep) eqn:Hb.
  - split; [|discriminate]. intros _.
    destruct (Z.geb_spec (buffered_units ep) (max_buffer_units ep)); [lia|].
    ep_simpl. congruence.
  - split; [discriminate|]. intros _.
    match goal with |- context [heartbeat_in_drain ?q ?e ?x] =>
      pose proof (heartbeat_in_drain_flags q e x) as Hf;
      destruct (heartbeat_in_drain q e x) as [ep' xfr'] end.
    ep_simpl.
    destruct (Z.eqb_spec (buffered_units ep') 0) as [Hz|Hz]; ep_simpl.
    + intros _. exact Hz.
    + unfold ep_buffering in *.
      destruct (_ >=? 1000); ep_simpl; rewrite Hf; congruence.
Qed.

(** A data indication on an IN endpoint: how the buffering flag moves. *)
Lemma data_ind_flag ep data :
  let ep' := fst (oz_hcd_data_ind_ep ep data (Z.of_nat (length data))) in
  (ep_buffering ep = true -> ep_buffering ep' = true) /\
  (ep_buffering ep = false -> ep_buffering ep' = true ->
   Z.land (attrib ep) USB_ENDPOINT_XFERTYPE_MASK = USB_ENDPOINT_XFER_ISOC /\
   oz_hcd_buffer_data ep data (Z.of_nat (length data)) = (-1, ep) /\
   buffered_units ep' = Z.min (buffered_units ep) (max_buffer_units ep)).
Proof.
  cbv zeta. unfold oz_hcd_data_ind_ep.
  pose proof (buffer_data_flags ep data (Z.of_nat (length data))) as [Hfl _].
  destruct (_ || _).
  - destruct (urb_list ep); unfold ep_buffering in *; ep_simpl.
    + rewrite Hfl. split; [auto|flag_clash].
    + split; [auto|flag_clash].
  - destruct (Z.eqb_spec (Z.land (attrib ep) USB_ENDPOINT_XFERTYPE_MASK)
                USB_ENDPOINT_XFER_ISOC) as [Hi|Hi];
      [|unfold ep_buffering; ep_simpl; split; [auto|flag_clash]].
    pose proof (buffer_data_failed ep data (Z.of_nat (length data))) as Hfail.
    destruct (oz_hcd_buffer_data ep data (Z.of_nat (length data))) as [rc ep1].
    ep_simpl. destruct (Z.eqb_spec rc 0) as [Hz|Hz]; cbn [negb]; ep_simpl.
    + unfold ep_buffering in *. rewrite Hfl. split; [auto|flag_clash].
    + injection (Hfail Hz) as -> ->.
      destruct (discard_loop_count _ ep eq_refl) as (H1 & H2 & H3).
      unfold ep_buffering. ep_simpl. rewrite buffering_set.
      split; [reflexivity|]. intros _ _.
      split; [assumption|]. split; [reflexivity|]. exact H1.
Qed.

(** C4 (as stated) fails.  The IN endpoint has left the buffering state
    and holds 95 units; a data indication that finds the ring full
    discards old units down to [max_buffer_units = 10] and sets the
    buffering flag again with 10 units buffered, not 0. *)
Lemma rebuffer_counterexample :
  ~ rebuffer_claim (DataInd unit255) ep_isoc_in_full.
Proof.
  unfold rebuffer_claim. intros H.
  assert (H1 : ep_buffering ep_isoc_in_full = false) by (vm_compute; reflexivity).
  assert (H2 : ep_buffering (in_step (DataInd unit255) ep_isoc_in_full) = true)
    by (vm_compute; reflexivity).
  specialize (H H1 H2). vm_compute in H. discriminate H.
Qed.

(** C4 (amended).  Whatever happens to an IN isochronous endpoint (a
    heartbeat, a data indication, an URB queued or removed), the
    buffering flag is cleared only by a heartbeat that finds at least
    [max_buffer_units] units buffered; once clear it is set again only
    by a heartbeat that leaves no unit buffered, or by a data indication
    whose write finds the ring full, which first discards the oldest
    units down to [max_buffer_units]. *)
Theorem buffering_hysteresis ev ep :
  (ep_buffering ep = true -> ep_buffering (in_step ev ep) = false ->
     (exists ts, ev = Tick ts) /\ max_buffer_units ep <= buffered_units ep) /\
  (ep_buffering ep = false -> ep_buffering (in_step ev ep) = true ->
     ((exists ts, ev = Tick ts) /\ buffered_units (in_step ev ep) = 0) \/
     (exists data, ev = DataInd data /\
        oz_hcd_buffer_data ep data (Z.of_nat (length data)) = (-1, ep) /\
        buffered_units (in_step ev ep)
          = Z.min (buffered_units ep) (max_buffer_units ep))).
Proof.
  destruct ev as [ts|data|e a urbl|u]; cbn [in_step].
  - destruct (heartbeat_in_flag ts ep []) as [H1 H2]. split.
    + intros Hb Hb'. split; [eauto|auto].
    + intros Hb Hb'. left. split; [eauto|auto].
  - destruct (data_ind_flag ep data) as [H1 H2]. cbv zeta in H1, H2. split.
    + intros Hb Hb'. rewrite (H1 Hb) in Hb'. discriminate Hb'.
    + intros Hb Hb'. right. exists data. split; [reflexivity|].
      destruct (H2 Hb Hb') as (_ & H3 & H4). auto.
  - unfold ep_buffering. rewrite ep_queue_urb_flags.
    split; flag_clash.
  - unfold ep_buffering. rewrite remove_urb_flags.
    split; flag_clash.
Qed.

Lemma buffering_hysteresis_witness :
  (exists ts, DataInd unit255 = Tick ts) /\
    buffered_units (in_step (DataInd unit255) ep_isoc_in_full) = 0
  \/
  (exists data, DataInd unit255 = DataInd data /\
     oz_hcd_buffer_data ep_isoc_in_full data (Z.of_nat (length data))
       = (-1, ep_isoc_in_full) /\
     buffered_units (in_step (DataInd unit255) ep_isoc_in_full)
       = Z.min (buffered_units ep_isoc_in_full)
           (max_buffer_units ep_isoc_in_full)).
Proof.
  apply (proj2 (buffering_hysteresis (DataInd unit255) ep_isoc_in_full)).
  - vm_compute. reflexivity.
  - vm_compute. reflexivity.
Defined.


(** * The controller *)

Lemma free_urb_link_effect w :
  ozhcd (oz_free_urb_link w) = ozhcd w /\
  calls (oz_free_urb_link w) = calls w /\
  hcd_state (oz_free_urb_link w) = hcd_state w.
Proof. unfold oz_free_urb_link. destruct (_ <? _); auto. Qed.

Lemma alloc_urb_link_effect e w :
  ozhcd (snd (oz_alloc_urb_link e w)) = ozhcd w /\
  calls (snd (oz_alloc_urb_link e w)) = calls w.
Proof. unfold oz_alloc_urb_link. destruct (_ <? _); auto. Qed.


(** [oz_complete_urb] hands the URB back with the status it was given
    and leaves the ports and the pending list alone. *)
Lemma complete_urb_effect u st w :
  exists u',
    urb_ptr u' = urb_ptr u /\
    actual_length u' = actual_length u /\
    transfer_buffer u' = transfer_buffer u /\
    calls (oz_complete_urb u st w) = calls w ++ [Giveback u' st] /\
    ports (ozhcd (oz_complete_urb u st w)) = ports (ozhcd w) /\
    conn_port (ozhcd (oz_complete_urb u st w)) = conn_port (ozhcd w) /\
    urb_pending_list (ozhcd (oz_complete_urb u st w))
      = urb_pending_list (ozhcd w).
Proof.
  unfold oz_complete_urb, oz_forget_urb.
  change (negb (0 =? 0)) with false. cbv iota.
  match goal with |- context [oz_uncancel_urb ?l ?x] =>
    set (u1 := x); destruct (oz_uncancel_urb l u1) as [c cl] end.
  exists u1.
  assert (Hu : urb_ptr u1 = urb_ptr u /\ actual_length u1 = actual_length u /\
               transfer_buffer u1 = transfer_buffer u).
  { unfold u1. destruct (usb_pipeisoc (pipe u)); [destruct (st <? 0)|]; auto. }
  destruct Hu as (H1 & H2 & H3).
  split; [exact H1|]. split; [exact H2|]. split; [exact H3|].
  destruct c;
    [unfold oz_free_urb_link; w_simpl;
     destruct (g_link_pool_size w <? OZ_MAX_LINK_POOL_SIZE)|];
    w_simpl; repeat split; reflexivity.
Qed.

Lemma port_at_null_flag h ix flag :
  port_has (port_at h ix) flag = true -> (ix < length (ports h))%nat.
Proof.
  unfold port_at. destruct (ports h !! ix) eqn:E.
  - intros _. eapply lookup_lt_Some, E.
  - discriminate.
Qed.

Lemma port_at_upd_same ix f w :
  (ix < length (ports (ozhcd w)))%nat ->
  port_at (ozhcd (upd_port ix f w)) ix = f (port_at (ozhcd w) ix).
Proof.
  intros H. unfold upd_port, port_at. w_simpl.
  rewrite list_lookup_insert_eq by assumption. reflexivity.
Qed.

Lemma port_at_upd_other ix j f w :
  ix <> j -> port_at (ozhcd (upd_port ix f w)) j = port_at (ozhcd w) j.
Proof.
  intros H. unfold upd_port, port_at. w_simpl.
  rewrite list_lookup_insert_ne by assumption. reflexivity.
Qed.

Lemma upd_port_effect ix f w :
  calls (upd_port ix f w) = calls w /\
  conn_port (ozhcd (upd_port ix f w)) = conn_port (ozhcd w) /\
  urb_pending_list (ozhcd (upd_port ix f w)) = urb_pending_list (ozhcd w) /\
  length (ports (ozhcd (upd_port ix f w))) = length (ports (ozhcd w)).
Proof.
  unfold upd_port. w_simpl. rewrite length_insert. repeat split; reflexivity.
Qed.

Lemma ep_at_store in_dir a ep p ep0 :
  ep_at p in_dir a = Some ep0 ->
  ep_at (store_ep in_dir a ep p) in_dir a = Some ep.
Proof.
  unfold ep_at, store_ep. destruct (negb (in_dir =? 0)); w_simpl; intros H.
  - destruct (in_ep p !! Z.to_nat a) eqn:E; [|discriminate].
    rewrite list_lookup_insert_eq by (eapply lookup_lt_Some, E). reflexivity.
  - destruct (out_ep p !! Z.to_nat a) eqn:E; [|discriminate].
    rewrite list_lookup_insert_eq by (eapply lookup_lt_Some, E). reflexivity.
Qed.

Lemma ep_at_null in_dir a ep : ep_at null_port in_dir a = Some ep -> False.
Proof. unfold ep_at. destruct (negb _); discriminate. Qed.

Lemma ep_at_port_in_range h ix in_dir a ep :
  ep_at (port_at h ix) in_dir a = Some ep -> (ix < length (ports h))%nat.
Proof.
  unfold port_at. destruct (ports h !! ix) eqn:E.
  - intros _. eapply lookup_lt_Some, E.
  - intros H. destruct (ep_at_null _ _ _ H).
Qed.

(** C1.  [oz_hcd_urb_enqueue] returns -ENODEV at once and changes
    nothing, so the URB does not reach the pending list, whenever the
    controller is not running, or the URB's bus address resolves to no
    port, or the port it resolves to does not have its present flag
    set. *)
Theorem urb_enqueue_no_device e u w :
  hcd_state w <> HC_STATE_RUNNING \/
  oz_get_port_from_addr (ozhcd w) (usb_pipedevice (pipe u)) < 0 \/
  port_has
    (port_at (ozhcd w)
       (Z.to_nat (oz_get_port_from_addr (ozhcd w) (usb_pipedevice (pipe u)))))
    OZ_PORT_F_PRESENT = false ->
  oz_hcd_urb_enqueue e u w = (- ENODEV, w) /\
  urb_pending_list (ozhcd (snd (oz_hcd_urb_enqueue e u w)))
    = urb_pending_list (ozhcd w).
Proof.
  intros H.
  assert (Heq : oz_hcd_urb_enqueue e u w = (- ENODEV, w)).
  { unfold oz_hcd_urb_enqueue.
    destruct (Z.eqb_spec (hcd_state w) HC_STATE_RUNNING) as [Hr|Hr];
      [|reflexivity]. cbn [negb].
    destruct (Z.ltb_spec
      (oz_get_port_from_addr (ozhcd w) (usb_pipedevice (pipe u))) 0) as [Hp|Hp];
      [reflexivity|].
    destruct H as [H|[H|H]]; [contradiction|lia|].
    rewrite H. reflexivity. }
  rewrite Heq. split; reflexivity.
Qed.

Lemma urb_enqueue_no_device_witness :
  oz_hcd_urb_enqueue env0 (int_urb 1 8) probed_world = (- ENODEV, probed_world) /\
  urb_pending_list
    (ozhcd (snd (oz_hcd_urb_enqueue env0 (int_urb 1 8) probed_world)))
  = urb_pending_list (ozhcd probed_world).
Proof.
  apply (urb_enqueue_no_device env0 (int_urb 1 8) probed_world).
  right. left. vm_compute. reflexivity.
Defined.


Lemma port_at_ports h h' ix : ports h = ports h' -> port_at h ix = port_at h' ix.
Proof. unfold port_at. intros ->. reflexivity. Qed.

Lemma complete_buffered_copy_count ep u :
  buffered_units (fst (oz_complete_buffered_urb_copy ep u))
    = buffered_units ep - 1 /\
  urb_list (fst (oz_complete_buffered_urb_copy ep u)) = urb_list ep.
Proof.
  unfold oz_complete_buffered_urb_copy.
  destruct (if _ <? _ then _ else _). split; reflexivity.
Qed.

(** C7 (as stated) fails.  The interrupt IN endpoint holds one buffered
    unit; for an URB that was unlinked before it was queued the call
    completes the URB with status 0 and drains nothing: the endpoint
    still holds its unit. *)
Lemma drain_on_enqueue_counterexample :
  ~ drain_on_enqueue_claim env0 2 1 1
      (mk_urb 1 (mk_pipe PIPE_INTERRUPT 5 1 true) 1 (Some 2%nat)
         (Some [0; 0; 0; 0]) 4 0 no_setup 0 0 0 [])
      world_dev5_buffered.
Proof.
  unfold drain_on_enqueue_claim. intros H.
  destruct (H (default ep_int_in
                 (ep_at (port_at (ozhcd world_dev5_buffered) 2) 1 1)))
    as (ep' & H1 & H2).
  - vm_compute. reflexivity.
  - vm_compute. reflexivity.
  - vm_compute. reflexivity.
  - vm_compute in H1. injection H1 as <-. vm_compute in H2. discriminate H2.
Qed.

(** C7 (amended).  A call of [oz_enqueue_ep_urb] with a valid endpoint
    number, for which a link is obtained and whose URB has not been
    unlinked, on an interrupt endpoint that holds at least one buffered
    unit: the call returns 0, the URB gets what
    [oz_complete_buffered_urb] copies of the oldest unit and is handed
    back with status 0 before the call returns, the endpoint's queue is
    as before, and its count of buffered units is one less.  The unit is
    drained into the URB: when the ring of the endpoint has
    [buffer_size] bytes with both cursors inside, and [n], the smaller
    of the length byte [L] at the read cursor and
    [transfer_buffer_length], is below [buffer_size] and not more than
    the transfer buffer holds, the URB handed back has [n] as actual
    length, the first [n] bytes of its transfer buffer are the bytes of
    the unit, read circularly behind the length byte, the bytes behind
    them are as they were, and the read cursor is at
    [(out_ix + 1 + n) mod buffer_size]; the ring itself is not
    written. *)
Theorem enqueue_interrupt_buffered e port ep_addr in_dir u rid w ep :
  ep_addr < OZ_NB_ENDPOINTS ->
  fst (oz_alloc_urb_link e w) = true ->
  unlinked u = 0 ->
  ep_at (port_at (ozhcd w) port) in_dir ep_addr = Some ep ->
  Z.land (attrib ep) USB_ENDPOINT_XFERTYPE_MASK = USB_ENDPOINT_XFER_INT ->
  0 < buffered_units ep ->
  exists ep' u' w',
    oz_complete_buffered_urb_copy ep u = (ep', u') /\
    oz_enqueue_ep_urb e port ep_addr in_dir u rid w = (0, w') /\
    ep_at (port_at (ozhcd w') port) in_dir ep_addr = Some ep' /\
    buffered_units ep' = buffered_units ep - 1 /\
    urb_list ep' = urb_list ep /\
    exists u'',
      urb_ptr u'' = urb_ptr u /\
      actual_length u'' = actual_length u' /\
      transfer_buffer u'' = transfer_buffer u' /\
      calls w' = calls w ++ [Giveback u'' 0] /\
      forall buf tb,
        ring_wf ep buf ->
        transfer_buffer u = Some tb ->
        let n := Z.min (rd buf (out_ix ep)) (transfer_buffer_length u) in
        0 <= n < buffer_size ep ->
        n <= Z.of_nat (length tb) ->
        actual_length u'' = n /\
        out_ix ep' = (out_ix ep + 1 + n) mod buffer_size ep /\
        in_ix ep' = in_ix ep /\
        buffer ep' = buffer ep /\
        exists tb',
          transfer_buffer u'' = Some tb' /\
          length tb' = length tb /\
          (forall j, 0 <= j < n ->
             tb' !! Z.to_nat j
             = buf !! Z.to_nat ((out_ix ep + 1 + j) mod buffer_size ep)) /\
          (forall j, n <= j -> tb' !! Z.to_nat j = tb !! Z.to_nat j).
Proof.
  intros Ha Hgot Hun Hep Hint Hbu.
  pose proof (complete_buffered_copy_count ep u) as [Hc1 Hc2].
  assert (Hptr : urb_ptr (snd (oz_complete_buffered_urb_copy ep u)) = urb_ptr u).
  { unfold oz_complete_buffered_urb_copy.
    destruct (if _ <? _ then _ else _). reflexivity. }
  destruct (oz_complete_buffered_urb_copy ep u) as [ep' u'] eqn:Hcopy.
  cbn [fst snd] in Hc1, Hc2, Hptr.
  unfold oz_enqueue_ep_urb.
  destruct (Z.geb_spec ep_addr OZ_NB_ENDPOINTS); [lia|].
  pose proof (alloc_urb_link_effect e w) as [Hal1 Hal2].
  destruct (oz_alloc_urb_link e w) as [got w1]. cbn [fst snd] in *.
  subst got. cbn [negb]. rewrite Hun. cbn [Z.eqb negb].
  rewrite Hal1, Hep, Hint, Z.eqb_refl.
  destruct (Z.gtb_spec (buffered_units ep) 0); [|lia]. cbn [andb].
  unfold oz_complete_buffered_urb. rewrite Hcopy.
  pose proof (free_urb_link_effect w1) as (Hf1 & Hf2 & _).
  set (w2 := upd_port port (store_ep in_dir ep_addr ep') (oz_free_urb_link w1)).
  destruct (complete_urb_effect u' 0 w2) as (u'' & Hp & Hl & Htb & Hcalls & Hports & _).
  exists ep', u', (oz_complete_urb u' 0 w2).
  split; [reflexivity|]. split; [reflexivity|].
  assert (Hin : (port < length (ports (ozhcd (oz_free_urb_link w1))))%nat).
  { rewrite Hf1, Hal1. eapply ep_at_port_in_range, Hep. }
  split.
  { rewrite (port_at_ports _ _ port Hports). unfold w2.
    rewrite port_at_upd_same by exact Hin.
    eapply ep_at_store. rewrite Hf1. rewrite (port_at_ports _ (ozhcd w)) by congruence.
    exact Hep. }
  split; [exact Hc1|]. split; [exact Hc2|].
  exists u''. split; [congruence|]. split; [exact Hl|]. split; [exact Htb|].
  split.
  { rewrite Hcalls. unfold w2.
    destruct (upd_port_effect port (store_ep in_dir ep_addr ep') (oz_free_urb_link w1))
      as (Hu & _).
    rewrite Hu, Hf2, Hal2. reflexivity. }
  intros buf tb Hwf Hb.
  set (n := Z.min (rd buf (out_ix ep)) (transfer_buffer_length u)).
  intros Hn Hfit.
  assert (Hav : avail_len buf ep u = n).
  { unfold avail_len, n.
    destruct (Z.leb_spec (rd buf (out_ix ep)) (transfer_buffer_length u));
      [rewrite Z.min_l by lia|rewrite Z.min_r by lia]; reflexivity. }
  destruct (complete_buffered_copy_spec ep buf u tb Hwf Hb)
    as (tb' & Heq & Hlen & Hcp & Hrest); [rewrite Hav; lia..|].
  rewrite Hav in Heq, Hcp, Hrest. rewrite Hcopy in Heq.
  injection Heq as Hep' Hu'. subst ep' u'.
  split; [rewrite Hl; reflexivity|].
  split; [reflexivity|]. split; [reflexivity|]. split; [reflexivity|].
  exists tb'. split; [rewrite Htb; reflexivity|].
  split; [exact Hlen|]. split; [exact Hcp|exact Hrest].
Qed.

Lemma enqueue_interrupt_buffered_witness :
  let ep := default ep_int_in
              (ep_at (port_at (ozhcd world_dev5_buffered) 2) 1 1) in
  exists ep' u' w',
    oz_complete_buffered_urb_copy ep (int_urb 1 8) = (ep', u') /\
    oz_enqueue_ep_urb env0 2 1 1 (int_urb 1 8) 0 world_dev5_buffered = (0, w') /\
    ep_at (port_at (ozhcd w') 2) 1 1 = Some ep' /\
    buffered_units ep' = 0 /\
    out_ix ep' = 4 /\
    exists u'' tb',
      calls w' = calls world_dev5_buffered ++ [Giveback u'' 0] /\
      actual_length u'' = 3 /\
      transfer_buffer u'' = Some tb' /\
      length tb' = 8%nat /\
      tb' !! 0%nat = Some 1 /\ tb' !! 1%nat = Some 2 /\
      tb' !! 2%nat = Some 3 /\ tb' !! 3%nat = Some 0.
Proof.
  intros ep.
  destruct (enqueue_interrupt_buffered env0 2 1 1 (int_urb 1 8) 0
              world_dev5_buffered ep)
    as (ep' & u' & w' & H1 & H2 & H3 & H4 & _ & u'' & _ & _ & _ & H8 & H9).
  - vm_compute. reflexivity.
  - vm_compute. reflexivity.
  - vm_compute. reflexivity.
  - vm_compute. reflexivity.
  - vm_compute. reflexivity.
  - vm_compute. reflexivity.
  - destruct (H9 (ep_buf ep) (replicate 8 0))
      as (D1 & D2 & _ & _ & tb' & D5 & D6 & D7 & D8).
    + constructor; vm_compute; try reflexivity; split; congruence.
    + vm_compute. reflexivity.
    + vm_compute. split; congruence.
    + vm_compute. congruence.
    + pose proof (D7 0 ltac:(vm_compute; split; congruence)) as X0.
      pose proof (D7 1 ltac:(vm_compute; split; congruence)) as X1.
      pose proof (D7 2 ltac:(vm_compute; split; congruence)) as X2.
      pose proof (D8 3 ltac:(vm_compute; congruence)) as X3.
      change (Z.to_nat 0) with 0%nat in X0.
      change (Z.to_nat 1) with 1%nat in X1.
      change (Z.to_nat 2) with 2%nat in X2.
      change (Z.to_nat 3) with 3%nat in X3.
      exists ep', u', w'. split; [exact H1|]. split; [exact H2|].
      split; [exact H3|].
      split; [rewrite H4; vm_compute; reflexivity|].
      split; [rewrite D2; vm_compute; reflexivity|].
      exists u'', tb'. split; [exact H8|].
      split; [rewrite D1; vm_compute; reflexivity|].
      split; [exact D5|]. split; [rewrite D6; reflexivity|].
      rewrite X0, X1, X2, X3. repeat split; vm_compute; reflexivity.
Defined.


(** C5 (as stated) fails.  The device at address 5 has no endpoint 1;
    the tasklet finds an URB for that endpoint on the pending list,
    [oz_enqueue_ep_urb] returns -EINVAL, and the URB is handed back with
    -ENOENT, not with -EINVAL. *)
Lemma same_error_counterexample :
  ~ same_error_claim (fun _ => env0)
      (submitted (int_urb 1 8) (world_dev5 false)).
Proof.
  unfold same_error_claim. intros H.
  destruct (H (mk_urbl (set_hcpriv (Some 2%nat) (int_urb 1 8)) None 0 0 0))
    as (u' & Hin).
  - vm_compute. reflexivity.
  - vm_compute. discriminate.
  - vm_compute in Hin. destruct Hin as [Hin|[Hin|[]]]; discriminate Hin.
Qed.

(** What [oz_urb_process] makes of an out-of-memory failure of
    [oz_enqueue_ep_urb]: with the pool empty and [kmalloc] failing the
    enqueue returns -ENOMEM and [oz_urb_process] returns -ENOENT. *)
Lemma urb_process_out_of_memory :
  fst (oz_enqueue_ep_urb (mk_env false 0 0 0) 2 1 128
         (set_hcpriv (Some 2%nat) (int_urb 1 8)) 0 (world_dev5 true))
    = - ENOMEM /\
  fst (oz_urb_process (mk_env false 0 0 0)
         (set_hcpriv (Some 2%nat) (int_urb 1 8)) (world_dev5 true))
    = - ENOENT.
Proof. split; vm_compute; reflexivity. Qed.

(** C5 (amended).  When the tasklet processes a pending URB for an
    endpoint other than endpoint 0, whose buffer is valid and whose port
    is present, and [oz_enqueue_ep_urb] returns an error, whichever it
    is, [oz_urb_process] returns -ENOENT and the tasklet hands the URB
    back at once with -ENOENT, before it goes on with the rest of the
    pending list. *)
Theorem process_pending_enqueue_error es k urbl l w :
  let u := link_urb urbl in
  let port := default (Z.to_nat OZ_NB_PORTS) (hcpriv u) in
  let w1 := oz_free_urb_link
              (set_ozhcd (set_urb_pending_list l (ozhcd w)) w) in
  let r := oz_enqueue_ep_urb (es k) port (usb_pipeendpoint (pipe u))
             (usb_pipein (pipe u)) u 0 w1 in
  (transfer_buffer u <> None \/ transfer_buffer_length u = 0) ->
  port_has (port_at (ozhcd w) port) OZ_PORT_F_PRESENT = true ->
  usb_pipeendpoint (pipe u) <> 0 ->
  fst r <> 0 ->
  oz_urb_process (es k) u w1 = (- ENOENT, snd r) /\
  process_pending es k (urbl :: l) w
    = process_pending es (S k) l (oz_complete_urb u (- ENOENT) (snd r)) /\
  exists u',
    urb_ptr u' = urb_ptr u /\
    calls (oz_complete_urb u (- ENOENT) (snd r))
      = calls (snd r) ++ [Giveback u' (- ENOENT)].
Proof.
  intros u port w1 r Hbuf Hpres Hep Herr.
  assert (Hp : oz_urb_process (es k) u w1 = (- ENOENT, snd r)).
  { unfold oz_urb_process. fold port.
    assert (Hb : bool_decide (transfer_buffer u = None)
                 && negb (transfer_buffer_length u =? 0) = false).
    { destruct Hbuf as [Hb|Hb].
      - rewrite bool_decide_eq_false_2 by assumption. reflexivity.
      - rewrite Hb. apply andb_false_r. }
    rewrite Hb.
    assert (Hports : port_at (ozhcd w1) port = port_at (ozhcd w) port).
    { apply port_at_ports. unfold w1.
      destruct (free_urb_link_effect
        (set_ozhcd (set_urb_pending_list l (ozhcd w)) w)) as (-> & _).
      reflexivity. }
    rewrite Hports, Hpres. cbn [negb].
    destruct (Z.eqb_spec (usb_pipeendpoint (pipe u)) 0); [contradiction|].
    cbn [negb]. fold r. destruct r as [rc w2]. cbn [fst snd] in *.
    destruct (Z.eqb_spec rc 0); [contradiction|]. reflexivity. }
  split; [exact Hp|]. split.
  - cbn [process_pending]. fold u. fold w1. rewrite Hp.
    change (negb (- ENOENT =? 0)) with true. reflexivity.
  - destruct (complete_urb_effect u (- ENOENT) (snd r))
      as (u' & H1 & _ & _ & H2 & _).
    exists u'. split; assumption.
Qed.

Lemma process_pending_enqueue_error_witness :
  exists u',
    urb_ptr u' = 1 /\
    calls (oz_urb_process_tasklet (fun _ => env0)
             (submitted (int_urb 1 8) (world_dev5 false)))
    = [ScheduleProcessTasklet; Giveback u' (- ENOENT)].
Proof.
  destruct (process_pending_enqueue_error (fun _ => env0) 0
              (mk_urbl (set_hcpriv (Some 2%nat) (int_urb 1 8)) None 0 0 0) []
              (submitted (int_urb 1 8) (world_dev5 false)))
    as (_ & Hpp & u' & Hptr & Hcalls).
  - left. discriminate.
  - vm_compute. reflexivity.
  - vm_compute. discriminate.
  - vm_compute. discriminate.
  - exists u'. split; [exact Hptr|].
    change (oz_urb_process_tasklet (fun _ => env0)
              (submitted (int_urb 1 8) (world_dev5 false)))
      with (process_pending (fun _ => env0) 0
              [mk_urbl (set_hcpriv (Some 2%nat) (int_urb 1 8)) None 0 0 0]
              (submitted (int_urb 1 8) (world_dev5 false))).
    rewrite Hpp. cbn [process_pending]. rewrite Hcalls.
    f_equal.
Defined.


(** C6 (as stated) fails.  Port 3 is the connection port; a SET_ADDRESS
    request sent to the device at address 5, which sits on port 2, gives
    the address to port 3 and clears the connection-port slot. *)
Lemma set_address_counterexample :
  ~ set_address_claim env0 (set_address_urb 1 5 9) world_connecting.
Proof.
  unfold set_address_claim. intros H.
  destruct H as [H _].
  - vm_compute. discriminate.
  - vm_compute in H. discriminate H.
Qed.

(** C6 (amended).  A standard SET_ADDRESS request processed for a port
    that is present, not dying and has its peer attached is completed at
    once with status 0.  If there is a connection port, whichever port
    the URB addresses, the low byte of [wValue] becomes the bus address
    of the connection port, the connection-port slot is cleared and no
    other port changes its address; if there is none, the slot and all
    addresses stay as they are. *)
Theorem set_address_effect e u w :
  let port_ix := oz_get_port_from_addr (ozhcd w) (usb_pipedevice (pipe u)) in
  let p := port_at (ozhcd w) (Z.to_nat port_ix) in
  let w' := oz_process_ep0_urb e u w in
  let c := conn_port (ozhcd w) in
  0 <= port_ix ->
  port_has p OZ_PORT_F_PRESENT = true ->
  port_has p OZ_PORT_F_DYING = false ->
  hpd p <> None ->
  is_standard (setup_packet u) = true ->
  bRequest (setup_packet u) = USB_REQ_SET_ADDRESS ->
  (exists u', urb_ptr u' = urb_ptr u /\ calls w' = calls w ++ [Giveback u' 0]) /\
  (0 <= c -> (Z.to_nat c < length (ports (ozhcd w)))%nat ->
     conn_port (ozhcd w') = -1 /\
     bus_addr (port_at (ozhcd w') (Z.to_nat c))
       = to_u8 (wValue (setup_packet u)) /\
     forall ix, ix <> Z.to_nat c ->
       bus_addr (port_at (ozhcd w') ix) = bus_addr (port_at (ozhcd w) ix)) /\
  (c < 0 ->
     conn_port (ozhcd w') = c /\
     forall ix, bus_addr (port_at (ozhcd w') ix) = bus_addr (port_at (ozhcd w) ix)).
Proof.
  intros port_ix p w' c Hix Hpres Hdy Hhpd Hstd Hreq.
  pose proof (port_at_null_flag _ _ _ Hpres) as Hin.
  set (port := Z.to_nat port_ix) in *.
  set (w1 := upd_port port (set_next_req_id (to_u8 (next_req_id p + 1))) w).
  set (w2 := if conn_port (ozhcd w1) >=? 0
             then set_ozhcd (set_conn_port (-1)
                    (ozhcd (upd_port (Z.to_nat (conn_port (ozhcd w1)))
                              (set_bus_addr (to_u8 (wValue (setup_packet u)))) w1)))
                    (upd_port (Z.to_nat (conn_port (ozhcd w1)))
                       (set_bus_addr (to_u8 (wValue (setup_packet u)))) w1)
             else w1).
  assert (Hw' : w' = oz_complete_urb (set_hcpriv (Some port) u) 0 w2).
  { unfold w', oz_process_ep0_urb. fold port_ix.
    destruct (Z.ltb_spec port_ix 0); [lia|]. fold port. fold p.
    rewrite Hpres, Hdy. cbn [negb orb]. fold w1.
    assert (Hp1 : port_at (ozhcd w1) port
                  = set_next_req_id (to_u8 (next_req_id p + 1)) p).
    { unfold w1. rewrite port_at_upd_same by exact Hin. reflexivity. }
    rewrite Hp1. w_simpl.
    destruct (hpd p) as [h|]; [|contradiction].
    rewrite Hstd. unfold ep0_standard. w_simpl. rewrite Hreq, Z.eqb_refl.
    fold w2. reflexivity. }
  destruct (upd_port_effect port (set_next_req_id (to_u8 (next_req_id p + 1))) w)
    as (Hc1 & Hcp1 & _ & Hlen1). fold w1 in Hc1, Hcp1, Hlen1.
  assert (Hb1 : forall ix, bus_addr (port_at (ozhcd w1) ix)
                           = bus_addr (port_at (ozhcd w) ix)).
  { intros ix. unfold w1. destruct (decide (port = ix)) as [<-|Hne].
    - rewrite port_at_upd_same by exact Hin. reflexivity.
    - rewrite port_at_upd_other by exact Hne. reflexivity. }
  destruct (complete_urb_effect (set_hcpriv (Some port) u) 0 w2)
    as (u' & Hptr & _ & _ & Hcalls & Hports & Hconn & _).
  rewrite <- Hw' in Hcalls, Hports, Hconn.
  assert (Hpa : forall ix, port_at (ozhcd w') ix = port_at (ozhcd w2) ix).
  { intros ix. apply port_at_ports, Hports. }
  split; [|split].
  - exists u'. split; [exact Hptr|]. rewrite Hcalls. f_equal.
    unfold w2. destruct (_ >=? 0); [|exact Hc1].
    w_simpl.
    destruct (upd_port_effect (Z.to_nat (conn_port (ozhcd w1)))
                (set_bus_addr (to_u8 (wValue (setup_packet u)))) w1) as (-> & _).
    exact Hc1.
  - intros Hc Hcin. unfold c in *.
    assert (Hw2 : w2 = set_ozhcd (set_conn_port (-1)
                    (ozhcd (upd_port (Z.to_nat (conn_port (ozhcd w)))
                              (set_bus_addr (to_u8 (wValue (setup_packet u)))) w1)))
                    (upd_port (Z.to_nat (conn_port (ozhcd w)))
                       (set_bus_addr (to_u8 (wValue (setup_packet u)))) w1)).
    { unfold w2. rewrite Hcp1.
      destruct (Z.geb_spec (conn_port (ozhcd w)) 0); [reflexivity|lia]. }
    split; [rewrite Hconn, Hw2; reflexivity|].
    assert (Hpa2 : forall ix, port_at (ozhcd w2) ix
              = port_at (ozhcd (upd_port (Z.to_nat (conn_port (ozhcd w)))
                   (set_bus_addr (to_u8 (wValue (setup_packet u)))) w1)) ix).
    { intros ix. rewrite Hw2. apply port_at_ports. reflexivity. }
    split.
    + rewrite Hpa, Hpa2, port_at_upd_same by (rewrite Hlen1; exact Hcin).
      reflexivity.
    + intros ix Hne. rewrite Hpa, Hpa2, port_at_upd_other by congruence.
      apply Hb1.
  - intros Hc. unfold c in *.
    assert (Hw2 : w2 = w1).
    { unfold w2. rewrite Hcp1.
      destruct (Z.geb_spec (conn_port (ozhcd w)) 0); [lia|reflexivity]. }
    split; [rewrite Hconn, Hw2; exact Hcp1|].
    intros ix. rewrite Hpa, Hw2. apply Hb1.
Qed.

Lemma set_address_effect_witness :
  conn_port (ozhcd (oz_process_ep0_urb env0 (set_address_urb 1 0 9)
                      world_connecting)) = -1 /\
  bus_addr (port_at (ozhcd (oz_process_ep0_urb env0 (set_address_urb 1 0 9)
                              world_connecting)) 3) = 9.
Proof.
  destruct (set_address_effect env0 (set_address_urb 1 0 9) world_connecting)
    as (_ & H & _).
  - vm_compute. discriminate.
  - vm_compute. reflexivity.
  - vm_compute. reflexivity.
  - vm_compute. discriminate.
  - vm_compute. reflexivity.
  - vm_compute. reflexivity.
  - destruct H as (H1 & H2 & _).
    + vm_compute. discriminate.
    + vm_compute. lia.
    + split; [exact H1|]. exact H2.
Defined.


(** * The heartbeat on a port *)

(** One millisecond after the URB of two packets was queued on the
    isochronous OUT endpoint, the heartbeat sends it to the peer with
    frame number 1, hands it back with status 0 and leaves the credit at
    0; the port still wants heartbeats. *)
Example heartbeat_releases_out_urb :
  let '(rc, w) := oz_hcd_heartbeat (fun _ => env0) 1000000 2 world_isoc_out in
  rc = 1 /\
  map (fun c => match c with
                | SendIsoc _ n u => (1, n, urb_ptr u, urb_start_frame u)
                | Giveback u st => (2, st, urb_ptr u, urb_start_frame u)
                | _ => (0, 0, 0, 0)
                end) (calls w) = [(1, 3, 1, 1); (2, 0, 1, 1)] /\
  (credit <$> ep_at (port_at (ozhcd w) 2) 0 3) = Some 0.
Proof. vm_compute. repeat split; reflexivity. Qed.

(** The isochronous IN endpoint holds the units [1; 2; 3] and [4; 5] and
    an URB of two packets.  The first heartbeat ends the buffering, the
    second drains both units into the URB: the packet lengths are 3 and
    2 at offsets 0 and 3, and the transfer buffer starts with [4; 5; 3],
    because each packet is copied to the start of the buffer. *)
Example heartbeat_fills_in_urb :
  let w := snd (oz_hcd_heartbeat (fun _ => env0) 2000000 2
                  (snd (oz_hcd_heartbeat (fun _ => env0) 1000000 2
                          world_isoc_in))) in
  map (fun c => match c with
                | Giveback u st =>
                  (st, actual_length u,
                   map iso_actual_length (iso_frame_desc u),
                   map iso_offset (iso_frame_desc u),
                   take 5 (default [] (transfer_buffer u)))
                | _ => (1, 0, [], [], [])
                end) (calls w)
  = [(0, 5, [3; 2], [0; 3], [4; 5; 3; 0; 0])].
Proof. vm_compute. reflexivity. Qed.

(** Why the credit theorem asks for heartbeats whose distance fits an
    [int]: 2^31
    milliseconds after the last heartbeat the accrual wraps and the
    credit of the OUT endpoint becomes negative. *)
Example out_credit_wraps :
  credit (out_step (Tick (2147483648 * 1000000)) ep_isoc_out) = -2147483648.
Proof. vm_compute. reflexivity. Qed.


(** * Port lookup, link pool and submission *)

(** ** Port lookup *)

Lemma scan_ports_spec ps i addr :
  (scan_ports ps i addr = -1 /\ Forall (fun p => bus_addr p <> addr) ps) \/
  (exists k, (k < length ps)%nat /\ scan_ports ps i addr = i + Z.of_nat k /\
     (bus_addr <$> ps !! k) = Some addr /\
     forall k' p, (k' < k)%nat -> ps !! k' = Some p -> bus_addr p <> addr).
Proof.
  revert i; induction ps as [|p ps IH]; intros i.
  - left; split; [reflexivity|constructor].
  - cbn [scan_ports]. destruct (Z.eqb_spec (bus_addr p) addr) as [E|E].
    + right; exists 0%nat. split; [cbn; lia|]. split; [lia|].
      split; [cbn; congruence|]. intros k' q Hk; lia.
    + destruct (IH (i + 1)) as [[H1 H2]|[k [Hk [H1 [H2 H3]]]]].
      * left; split; [exact H1|constructor; assumption].
      * right; exists (S k). split; [cbn; lia|]. split; [lia|].
        split; [exact H2|]. intros [|k'] q Hlt Hq.
        -- cbn in Hq. congruence.
        -- cbn in Hq. apply (H3 k'); [lia|exact Hq].
Qed.

(** X1.  For a bus address other than 0, [oz_get_port_from_addr] returns
    the index of the first port that carries the address, and -1 exactly
    when no port carries it; the index is inside the port array.  The
    address 0 resolves to the connection port. *)
Theorem oz_get_port_from_addr_first_match (h : oz_hcd) (addr : Z) :
  addr <> 0 ->
  let r := oz_get_port_from_addr h addr in
  oz_get_port_from_addr h 0 = conn_port h /\
  ((r = -1 /\ Forall (fun p => bus_addr p <> addr) (ports h)) \/
   (0 <= r < Z.of_nat (length (ports h)) /\
    bus_addr (port_at h (Z.to_nat r)) = addr /\
    forall k, (k < Z.to_nat r)%nat -> bus_addr (port_at h k) <> addr)).
Proof.
  intros Ha r. split; [reflexivity|].
  unfold r, oz_get_port_from_addr.
  destruct (Z.eqb_spec 0 addr) as [E|E]; [congruence|]. cbn [negb].
  destruct (scan_ports_spec (ports h) 0 addr) as [[H1 H2]|[k [Hk [H1 [H2 H3]]]]].
  - left; split; assumption.
  - right. rewrite H1. replace (Z.to_nat (0 + Z.of_nat k)) with k by lia.
    split; [lia|]. unfold port_at.
    destruct (ports h !! k) as [p|] eqn:Ep; [|discriminate H2].
    cbn in H2. split; [cbn; congruence|].
    intros k' Hk'. destruct (ports h !! k') as [q|] eqn:Eq.
    + cbn. apply (H3 k' q); assumption.
    + apply lookup_ge_None in Eq. lia.
Qed.

Lemma oz_get_port_from_addr_first_match_witness :
  let h := ozhcd world_connecting in
  let r := oz_get_port_from_addr h 5 in
  oz_get_port_from_addr h 0 = conn_port h /\
  ((r = -1 /\ Forall (fun p => bus_addr p <> 5) (ports h)) \/
   (0 <= r < Z.of_nat (length (ports h)) /\
    bus_addr (port_at h (Z.to_nat r)) = 5 /\
    forall k, (k < Z.to_nat r)%nat -> bus_addr (port_at h k) <> 5)).
Proof.
  apply (oz_get_port_from_addr_first_match (ozhcd world_connecting) 5). lia.
Defined.

(** ** Submission *)

(** X2.  [oz_hcd_urb_enqueue] never hands the URB back itself.  When it
    returns 0 the URB, with [hcpriv] set to the port its address resolves
    to, is the new tail of the pending list, the pending counter is one
    up and the processing tasklet is scheduled; when it returns an error
    the controller, the counter and the calls are as before. *)
Theorem urb_enqueue_contract e u w :
  let r := oz_hcd_urb_enqueue e u w in
  let port := Z.to_nat (oz_get_port_from_addr (ozhcd w)
                          (usb_pipedevice (pipe u))) in
  (fst r = 0 ->
     urb_pending_list (ozhcd (snd r))
       = urb_pending_list (ozhcd w)
           ++ [mk_urbl (set_hcpriv (Some port) u) None 0 0 0] /\
     port_has (port_at (ozhcd w) port) OZ_PORT_F_PRESENT = true /\
     ports (ozhcd (snd r)) = ports (ozhcd w) /\
     g_pending_urbs (snd r) = g_pending_urbs w + 1 /\
     calls (snd r) = calls w ++ [ScheduleProcessTasklet]) /\
  (fst r <> 0 ->
     ozhcd (snd r) = ozhcd w /\ g_pending_urbs (snd r) = g_pending_urbs w /\
     calls (snd r) = calls w) /\
  (forall u' st, In (Giveback u' st) (calls (snd r)) ->
                 In (Giveback u' st) (calls w)).
Proof.
  intros r port. unfold r, oz_hcd_urb_enqueue. fold port.
  destruct (hcd_state w =? HC_STATE_RUNNING); cbn [negb];
    [|split; [intros H; discriminate H|split; [auto|auto]]].
  destruct (_ <? 0);
    [split; [intros H; discriminate H|split; [auto|auto]]|].
  destruct (port_has (port_at (ozhcd w) port) OZ_PORT_F_PRESENT) eqn:Hp;
    cbn [negb]; [|split; [intros H; discriminate H|split; [auto|auto]]].
  destruct (oz_alloc_urb_link e w) as [got w1] eqn:Ea.
  pose proof (alloc_urb_link_effect e w) as [A1 A2]. rewrite Ea in A1, A2.
  cbn [snd] in A1, A2.
  assert (A3 : g_pending_urbs w1 = g_pending_urbs w).
  { unfold oz_alloc_urb_link in Ea. destruct (0 <? g_link_pool_size w);
      inversion Ea; reflexivity. }
  destruct got; cbn [negb].
  2:{ split; [intros H; discriminate H|].
      split; [intros _; cbn [fst snd]; auto|]. cbn [snd]. rewrite A2; auto. }
  destruct (Z.eqb_spec (link_rc e) 0) as [El|El]; cbn [negb].
  - split; [|split].
    + intros _. w_simpl. rewrite A1, A2, A3. repeat split; reflexivity.
    + intros H; exfalso; apply H; reflexivity.
    + intros u' st. w_simpl. rewrite A2, in_app_iff. intros [H|[H|[]]];
        [exact H|discriminate H].
  - pose proof (free_urb_link_effect w1) as [F1 [F2 _]].
    assert (F3 : g_pending_urbs (oz_free_urb_link w1) = g_pending_urbs w1).
    { unfold oz_free_urb_link. destruct (_ <? _); reflexivity. }
    split; [intros H; cbn [fst] in H; congruence|]. cbn [fst snd].
    rewrite F1, F2, F3, A1, A2, A3. auto.
Qed.

(** ** Completion *)

Lemma uncancel_spec l u :
  (fst (oz_uncancel_urb l u) = None /\ snd (oz_uncancel_urb l u) = l /\
   Forall (fun y => urb_ptr (link_urb y) <> urb_ptr u) l) \/
  (exists l1 x l2,
     l = l1 ++ x :: l2 /\ oz_uncancel_urb l u = (Some x, l1 ++ l2) /\
     urb_ptr (link_urb x) = urb_ptr u /\
     Forall (fun y => urb_ptr (link_urb y) <> urb_ptr u) l1).
Proof.
  induction l as [|y l IH].
  - left. cbn. auto.
  - cbn [oz_uncancel_urb]. destruct (Z.eqb_spec (urb_ptr u) (urb_ptr (link_urb y))) as [E|E].
    + right. exists [], y, l. cbn. auto.
    + destruct IH as [[H1 [H2 H3]]|[l1 [x [l2 [H1 [H2 [H3 H4]]]]]]].
      * left. destruct (oz_uncancel_urb l u) as [r l'']. cbn in *. subst.
        split; [reflexivity|]. split; [reflexivity|].
        constructor; [congruence|assumption].
      * right. exists (y :: l1), x, l2. rewrite H2. cbn. subst l.
        split; [reflexivity|]. split; [reflexivity|]. split; [assumption|].
        constructor; [congruence|assumption].
Qed.

Lemma fail_iso_packets_lookup n st ds i :
  fail_iso_packets n st ds !! i
  = if decide (i < n)%nat
    then (fun d => mk_iso_desc (iso_offset d) 0 st) <$> ds !! i
    else ds !! i.
Proof.
  revert ds i; induction n as [|n IH]; intros ds i.
  - cbn. destruct (decide _); [lia|]. destruct ds; reflexivity.
  - destruct ds as [|d ds]; [cbn; destruct (decide _); reflexivity|].
    cbn [fail_iso_packets]. destruct i as [|i].
    + cbn. destruct (decide _); [reflexivity|lia].
    + cbn [lookup list_lookup]. rewrite IH.
      destruct (decide (i < n)%nat), (decide (S i < S n)%nat); try lia; reflexivity.
Qed.

(** X3.  [oz_complete_urb] hands the URB back exactly once, with
    [hcpriv] cleared, and takes one off the pending counter.  If the
    cancel list holds a link for the URB, the first such link leaves the
    list and its record goes back to the pool; the other links stay in
    their order. *)
Theorem oz_complete_urb_cancel_race u st w :
  let w' := oz_complete_urb u st w in
  let cl := urb_cancel_list (ozhcd w) in
  (exists u', calls w' = calls w ++ [Giveback u' st] /\
     hcpriv u' = None /\ urb_ptr u' = urb_ptr u) /\
  g_pending_urbs w' = g_pending_urbs w - 1 /\
  ((Forall (fun y => urb_ptr (link_urb y) <> urb_ptr u) cl /\
    urb_cancel_list (ozhcd w') = cl /\
    g_link_pool_size w' = g_link_pool_size w) \/
   (exists l1 x l2,
      cl = l1 ++ x :: l2 /\ urb_ptr (link_urb x) = urb_ptr u /\
      Forall (fun y => urb_ptr (link_urb y) <> urb_ptr u) l1 /\
      urb_cancel_list (ozhcd w') = l1 ++ l2 /\
      g_link_pool_size w'
        = if g_link_pool_size w <? OZ_MAX_LINK_POOL_SIZE
          then g_link_pool_size w + 1 else g_link_pool_size w)).
Proof.
  intros w' cl. unfold w', oz_complete_urb.
  set (u1 := set_hcpriv None _).
  assert (Hp : urb_ptr u1 = urb_ptr u).
  { unfold u1. destruct (usb_pipeisoc (pipe u)); [destruct (st <? 0)|]; reflexivity. }
  unfold oz_forget_urb. cbn [Z.eqb negb].
  destruct (uncancel_spec (urb_cancel_list (ozhcd w)) u1)
    as [[H1 [H2 H3]]|[l1 [x [l2 [H1 [H2 [H3 H4]]]]]]].
  - destruct (oz_uncancel_urb (urb_cancel_list (ozhcd w)) u1) as [r l'].
    cbn [fst snd] in H1, H2. subst r l'. w_simpl.
    split; [exists u1; split; [reflexivity|split; [reflexivity|exact Hp]]|].
    split; [reflexivity|]. left. rewrite <- Hp. auto.
  - rewrite H2. unfold oz_free_urb_link. w_simpl.
    split; [|split].
    + exists u1. destruct (g_link_pool_size w <? OZ_MAX_LINK_POOL_SIZE); w_simpl;
        (split; [reflexivity|split; [reflexivity|exact Hp]]).
    + destruct (g_link_pool_size w <? OZ_MAX_LINK_POOL_SIZE); reflexivity.
    + right. exists l1, x, l2. rewrite <- Hp. fold cl in H1.
      destruct (g_link_pool_size w <? OZ_MAX_LINK_POOL_SIZE); w_simpl; auto 10.
Qed.

(** X4.  What [oz_complete_urb] hands back.  An isochronous URB completed
    with a negative status reports no data: its transfer buffer length is
    0 and each of its [number_of_packets] packet descriptors has length 0
    and the status, the descriptors beyond being untouched.  An
    isochronous URB completed without error has its transfer buffer length
    set to its actual length.  Any other URB is handed back as it is, but
    for [hcpriv]. *)
Theorem oz_complete_urb_isoc_failure u st w :
  exists u', calls (oz_complete_urb u st w) = calls w ++ [Giveback u' st] /\
    actual_length u' = actual_length u /\
    transfer_buffer u' = transfer_buffer u /\
    (usb_pipeisoc (pipe u) = true -> st < 0 ->
       transfer_buffer_length u' = 0 /\
       length (iso_frame_desc u') = length (iso_frame_desc u) /\
       forall i : nat,
         iso_frame_desc u' !! i
         = if decide (Z.of_nat i < number_of_packets u)
           then (fun d => mk_iso_desc (iso_offset d) 0 st)
                  <$> iso_frame_desc u !! i
           else iso_frame_desc u !! i) /\
    (usb_pipeisoc (pipe u) = true -> 0 <= st ->
       transfer_buffer_length u' = actual_length u /\
       iso_frame_desc u' = iso_frame_desc u) /\
    (usb_pipeisoc (pipe u) = false -> u' = set_hcpriv None u).
Proof.
  unfold oz_complete_urb. set (u1 := set_hcpriv None _).
  unfold oz_forget_urb. cbn [Z.eqb negb].
  exists u1. split.
  { destruct (oz_uncancel_urb _ _) as [[x|] l']; w_simpl; [|reflexivity].
    unfold oz_free_urb_link; w_simpl.
    destruct (g_link_pool_size w <? OZ_MAX_LINK_POOL_SIZE); reflexivity. }
  unfold u1. destruct (usb_pipeisoc (pipe u)) eqn:Hi.
  - destruct (Z.ltb_spec st 0) as [Hs|Hs]; w_simpl.
    + split; [reflexivity|]. split; [reflexivity|]. split; [|split].
      * intros _ _. split; [reflexivity|]. split.
        -- generalize (Z.to_nat (number_of_packets u)), (iso_frame_desc u).
           intros n; induction n as [|n IH]; intros [|d ds]; cbn; auto.
        -- intros i. rewrite fail_iso_packets_lookup.
           destruct (decide (i < Z.to_nat (number_of_packets u))%nat),
             (decide (Z.of_nat i < number_of_packets u)); try lia; reflexivity.
      * intros _ H; lia.
      * intros H; discriminate H.
    + split; [reflexivity|]. split; [reflexivity|]. split; [|split].
      * intros _ H; lia.
      * intros _ _. split; reflexivity.
      * intros H; discriminate H.
  - split; [reflexivity|]. split; [reflexivity|]. split; [|split].
    + intros H; discriminate H.
    + intros H; discriminate H.
    + intros _. reflexivity.
Qed.


(** * Endpoint queues *)

(** ** What the pool and the completion leave alone *)

Lemma free_link_eq w :
  oz_free_urb_link w
  = set_g_link_pool_size
      (if g_link_pool_size w <? OZ_MAX_LINK_POOL_SIZE
       then g_link_pool_size w + 1 else g_link_pool_size w) w.
Proof.
  unfold oz_free_urb_link.
  destruct (g_link_pool_size w <? OZ_MAX_LINK_POOL_SIZE); [reflexivity|].
  destruct w; reflexivity.
Qed.

Lemma alloc_link_eq e w :
  oz_alloc_urb_link e w
  = (if 0 <? g_link_pool_size w then true else kmalloc_ok e,
     set_g_link_pool_size
       (if 0 <? g_link_pool_size w
        then g_link_pool_size w - 1 else g_link_pool_size w) w).
Proof.
  unfold oz_alloc_urb_link. destruct (0 <? g_link_pool_size w); [reflexivity|].
  destruct w; reflexivity.
Qed.

Lemma completed_ptr u st : urb_ptr (completed u st) = urb_ptr u.
Proof.
  unfold completed. destruct (usb_pipeisoc (pipe u)); [destruct (st <? 0)|];
    reflexivity.
Qed.

Lemma complete_urb_eq u st w :
  let r := oz_uncancel_urb (urb_cancel_list (ozhcd w)) (completed u st) in
  oz_complete_urb u st w
  = mk_world (hcd_state w) (set_urb_cancel_list (snd r) (ozhcd w)) (g_ozhcd w)
      (match fst r with
       | Some _ => if g_link_pool_size w <? OZ_MAX_LINK_POOL_SIZE
                   then g_link_pool_size w + 1 else g_link_pool_size w
       | None => g_link_pool_size w
       end)
      (g_pending_urbs w - 1) (g_usb_frame_number w)
      (calls w ++ [Giveback (completed u st) st]).
Proof.
  intros r. unfold oz_complete_urb, oz_forget_urb.
  change (negb (0 =? 0)) with false. cbv iota.
  fold (completed u st). fold r. destruct r as [[x|] cl]; cbn [fst snd].
  - rewrite free_link_eq. reflexivity.
  - reflexivity.
Qed.

Lemma uncancel_none l u :
  Forall (fun y => urb_ptr (link_urb y) <> urb_ptr u) l ->
  oz_uncancel_urb l u = (None, l).
Proof.
  induction 1 as [|y l Hy _ IH]; [reflexivity|].
  cbn [oz_uncancel_urb]. destruct (Z.eqb_spec (urb_ptr u) (urb_ptr (link_urb y)));
    [congruence|]. rewrite IH. reflexivity.
Qed.

(** ** Endpoint enqueue *)

(** X5.  When [oz_enqueue_ep_urb] returns an error the URB is neither
    queued nor handed back: the controller, the pending counter and the
    calls are as before, and no link record is lost to the pool.  The
    error is -EINVAL for an endpoint number out of range or an endpoint
    that does not exist, -ENOMEM when no link could be obtained, -EPIPE
    when the peer of the port is gone. *)
Theorem oz_enqueue_ep_urb_error e port ep_addr in_dir u rid w :
  let r := oz_enqueue_ep_urb e port ep_addr in_dir u rid w in
  fst r <> 0 ->
  ozhcd (snd r) = ozhcd w /\ calls (snd r) = calls w /\
  g_pending_urbs (snd r) = g_pending_urbs w /\
  (g_link_pool_size w < OZ_MAX_LINK_POOL_SIZE ->
   g_link_pool_size w <= g_link_pool_size (snd r)) /\
  ((fst r = - EINVAL /\
    (OZ_NB_ENDPOINTS <= ep_addr \/
     ep_at (port_at (ozhcd w) port) in_dir ep_addr = None)) \/
   (fst r = - ENOMEM /\ g_link_pool_size w <= 0 /\ kmalloc_ok e = false) \/
   (fst r = - EPIPE /\ hpd (port_at (ozhcd w) port) = None)).
Proof.
  intros r. unfold r, oz_enqueue_ep_urb.
  destruct (Z.geb_spec ep_addr OZ_NB_ENDPOINTS) as [Ha|Ha].
  { intros _. cbn [fst snd].
    split; [reflexivity|]. split; [reflexivity|]. split; [reflexivity|].
    split; [lia|]. left. split; [reflexivity|left; exact Ha]. }
  rewrite alloc_link_eq.
  set (w1 := set_g_link_pool_size _ w).
  assert (Hw1 : ozhcd w1 = ozhcd w) by reflexivity.
  destruct (Z.ltb_spec 0 (g_link_pool_size w)) as [Hp|Hp].
  - cbn [negb].
    destruct (negb (unlinked u =? 0)); [intros H; exfalso; apply H; reflexivity|].
    rewrite Hw1.
    destruct (ep_at (port_at (ozhcd w) port) in_dir ep_addr) as [ep|] eqn:Hep.
    + destruct (_ && _); [intros H; exfalso; apply H; reflexivity|].
      destruct (hpd (port_at (ozhcd w) port)) eqn:Hh;
        [intros H; exfalso; apply H; reflexivity|].
      intros _. cbn [fst snd]. rewrite free_link_eq. unfold w1. w_simpl.
      split; [reflexivity|]. split; [reflexivity|]. split; [reflexivity|].
      split; [pool_arith|]. right; right. auto.
    + intros _. cbn [fst snd]. rewrite free_link_eq. unfold w1. w_simpl.
      split; [reflexivity|]. split; [reflexivity|]. split; [reflexivity|].
      split; [pool_arith|]. left. auto.
  - destruct (kmalloc_ok e) eqn:Hk; cbn [negb].
    + destruct (negb (unlinked u =? 0)); [intros H; exfalso; apply H; reflexivity|].
      rewrite Hw1.
      destruct (ep_at (port_at (ozhcd w) port) in_dir ep_addr) as [ep|] eqn:Hep.
      * destruct (_ && _); [intros H; exfalso; apply H; reflexivity|].
        destruct (hpd (port_at (ozhcd w) port)) eqn:Hh;
          [intros H; exfalso; apply H; reflexivity|].
        intros _. cbn [fst snd]. rewrite free_link_eq. unfold w1. w_simpl.
        split; [reflexivity|]. split; [reflexivity|]. split; [reflexivity|].
        split; [pool_arith|]. right; right. auto.
      * intros _. cbn [fst snd]. rewrite free_link_eq. unfold w1. w_simpl.
        split; [reflexivity|]. split; [reflexivity|]. split; [reflexivity|].
        split; [pool_arith|]. left. auto.
    + intros _. cbn [fst snd]. unfold w1. w_simpl.
      split; [reflexivity|]. split; [reflexivity|]. split; [reflexivity|].
      split; [lia|]. right; left. auto.
Qed.

Lemma oz_enqueue_ep_urb_error_witness :
  let r := oz_enqueue_ep_urb env0 2 1 128 (int_urb 1 8) 0 (world_dev5 false) in
  ozhcd (snd r) = ozhcd (world_dev5 false) /\
  calls (snd r) = calls (world_dev5 false) /\
  g_pending_urbs (snd r) = g_pending_urbs (world_dev5 false) /\
  (g_link_pool_size (world_dev5 false) < OZ_MAX_LINK_POOL_SIZE ->
   g_link_pool_size (world_dev5 false) <= g_link_pool_size (snd r)) /\
  ((fst r = - EINVAL /\
    (OZ_NB_ENDPOINTS <= 1 \/
     ep_at (port_at (ozhcd (world_dev5 false)) 2) 128 1 = None)) \/
   (fst r = - ENOMEM /\ g_link_pool_size (world_dev5 false) <= 0 /\
    kmalloc_ok env0 = false) \/
   (fst r = - EPIPE /\ hpd (port_at (ozhcd (world_dev5 false)) 2) = None)).
Proof.
  apply (oz_enqueue_ep_urb_error env0 2 1 128 (int_urb 1 8) 0 (world_dev5 false)).
  vm_compute. discriminate.
Defined.

Lemma ep_at_upd_store port d a ep ep0 w :
  ep_at (port_at (ozhcd w) port) d a = Some ep0 ->
  ep_at (port_at (ozhcd (upd_port port (store_ep d a ep) w)) port) d a
  = Some ep.
Proof.
  intros H. rewrite port_at_upd_same by (eapply ep_at_port_in_range, H).
  eapply ep_at_store, H.
Qed.

Lemma ep_at_store_other d a ep p d' a' :
  0 <= a -> 0 <= a' ->
  (d' =? 0) <> (d =? 0) \/ a' <> a ->
  ep_at (store_ep d a ep p) d' a' = ep_at p d' a'.
Proof.
  intros Ha Ha' H. unfold ep_at, store_ep.
  destruct (d =? 0) eqn:Ed, (d' =? 0) eqn:Ed'; cbn [negb]; w_simpl;
    try reflexivity.
  - destruct H as [H|H]; [congruence|].
    rewrite list_lookup_insert_ne by lia. reflexivity.
  - destruct H as [H|H]; [congruence|].
    rewrite list_lookup_insert_ne by lia. reflexivity.
Qed.

Lemma ep_at_upd_store_other port d a ep w port' d' a' :
  0 <= a -> 0 <= a' ->
  port' <> port \/ (d' =? 0) <> (d =? 0) \/ a' <> a ->
  ep_at (port_at (ozhcd (upd_port port (store_ep d a ep) w)) port') d' a'
  = ep_at (port_at (ozhcd w) port') d' a'.
Proof.
  intros Ha Ha' H. destruct (decide (port' = port)) as [->|Hn].
  - destruct H as [H|H]; [congruence|].
    destruct (decide (port < length (ports (ozhcd w)))%nat) as [Hl|Hl].
    + rewrite port_at_upd_same by exact Hl. apply ep_at_store_other; assumption.
    + unfold upd_port, port_at. w_simpl.
      rewrite list_insert_ge by lia. reflexivity.
  - rewrite port_at_upd_other by congruence. reflexivity.
Qed.

Lemma enqueue_queued_eq e port ep_addr in_dir u rid w ep h :
  0 <= ep_addr < OZ_NB_ENDPOINTS ->
  fst (oz_alloc_urb_link e w) = true ->
  unlinked u = 0 ->
  ep_at (port_at (ozhcd w) port) in_dir ep_addr = Some ep ->
  (Z.land (attrib ep) USB_ENDPOINT_XFERTYPE_MASK = USB_ENDPOINT_XFER_INT ->
   buffered_units ep <= 0) ->
  hpd (port_at (ozhcd w) port) = Some h ->
  oz_enqueue_ep_urb e port ep_addr in_dir u rid w
  = (0, upd_port port
          (store_ep in_dir ep_addr
             (ep_queue_urb e in_dir ep_addr (mk_urbl u None rid ep_addr 0) ep))
          (snd (oz_alloc_urb_link e w))).
Proof.
  intros Ha Hgot Hun Hep Hint Hh.
  unfold oz_enqueue_ep_urb.
  destruct (Z.geb_spec ep_addr OZ_NB_ENDPOINTS); [lia|].
  rewrite alloc_link_eq in Hgot |- *. cbn [fst] in Hgot. rewrite Hgot.
  cbn [negb snd]. rewrite Hun. cbn [Z.eqb negb].
  set (w1 := set_g_link_pool_size _ w).
  change (ozhcd w1) with (ozhcd w). rewrite Hep, Hh.
  assert (Hno : (Z.land (attrib ep) USB_ENDPOINT_XFERTYPE_MASK
                   =? USB_ENDPOINT_XFER_INT) && (buffered_units ep >? 0) = false).
  { destruct (Z.eqb_spec (Z.land (attrib ep) USB_ENDPOINT_XFERTYPE_MASK)
                USB_ENDPOINT_XFER_INT) as [E|E]; [|reflexivity].
    specialize (Hint E). destruct (Z.gtb_spec (buffered_units ep) 0); [lia|reflexivity]. }
  rewrite Hno. reflexivity.
Qed.

Lemma ep_queue_urb_list e d a urbl ep :
  urb_list (ep_queue_urb e d a urbl ep) = urb_list ep ++ [urbl].
Proof. unfold ep_queue_urb. case_if; reflexivity. Qed.

(** X6.  A call of [oz_enqueue_ep_urb] with a valid endpoint number, for
    which a link is obtained, whose URB has not been unlinked, on an
    existing endpoint of a port whose peer is attached, and which is not
    an interrupt endpoint holding buffered data: the call returns 0 and
    the URB becomes the tail of the endpoint's queue, behind the URBs
    queued before, with the request id it was given.  Nothing is handed
    back, no other endpoint changes, and an OUT endpoint other than
    endpoint 0 whose credit was unset starts at credit 0. *)
Theorem oz_enqueue_ep_urb_queued e port ep_addr in_dir u rid w ep h :
  0 <= ep_addr < OZ_NB_ENDPOINTS ->
  fst (oz_alloc_urb_link e w) = true ->
  unlinked u = 0 ->
  ep_at (port_at (ozhcd w) port) in_dir ep_addr = Some ep ->
  (Z.land (attrib ep) USB_ENDPOINT_XFERTYPE_MASK = USB_ENDPOINT_XFER_INT ->
   buffered_units ep <= 0) ->
  hpd (port_at (ozhcd w) port) = Some h ->
  let r := oz_enqueue_ep_urb e port ep_addr in_dir u rid w in
  exists ep',
    fst r = 0 /\
    ep_at (port_at (ozhcd (snd r)) port) in_dir ep_addr = Some ep' /\
    urb_list ep' = urb_list ep ++ [mk_urbl u None rid ep_addr 0] /\
    credit ep'
      = (if (in_dir =? 0) && negb (ep_addr =? 0) && (credit ep <? 0)
         then 0 else credit ep) /\
    buffered_units ep' = buffered_units ep /\
    calls (snd r) = calls w /\
    g_pending_urbs (snd r) = g_pending_urbs w /\
    forall port' d' a',
      0 <= a' ->
      port' <> port \/ (d' =? 0) <> (in_dir =? 0) \/ a' <> ep_addr ->
      ep_at (port_at (ozhcd (snd r)) port') d' a'
      = ep_at (port_at (ozhcd w) port') d' a'.
Proof.
  intros Ha Hgot Hun Hep Hint Hh r.
  exists (ep_queue_urb e in_dir ep_addr (mk_urbl u None rid ep_addr 0) ep).
  unfold r. rewrite (enqueue_queued_eq e port ep_addr in_dir u rid w ep h)
    by assumption.
  rewrite alloc_link_eq. cbn [fst snd].
  set (w1 := set_g_link_pool_size _ w).
  split; [reflexivity|]. split.
  { apply (ep_at_upd_store port in_dir ep_addr _ ep w1). exact Hep. }
  split; [apply ep_queue_urb_list|].
  split.
  { unfold ep_queue_urb. ep_simpl. case_if; reflexivity. }
  split.
  { unfold ep_queue_urb. case_if; reflexivity. }
  split; [reflexivity|]. split; [reflexivity|].
  intros port' d' a' Ha' Hd.
  apply (ep_at_upd_store_other port in_dir ep_addr _ w1 port' d' a'); [lia|lia|exact Hd].
Qed.

Lemma oz_enqueue_ep_urb_queued_witness :
  let r := oz_enqueue_ep_urb env0 2 1 128 (int_urb 1 8) 0 (world_dev5 true) in
  exists ep',
    fst r = 0 /\
    ep_at (port_at (ozhcd (snd r)) 2) 128 1 = Some ep' /\
    urb_list ep' = urb_list ep_int_in ++ [mk_urbl (int_urb 1 8) None 0 1 0] /\
    credit ep'
      = (if (128 =? 0) && negb (1 =? 0) && (credit ep_int_in <? 0)
         then 0 else credit ep_int_in) /\
    buffered_units ep' = buffered_units ep_int_in /\
    calls (snd r) = calls (world_dev5 true) /\
    g_pending_urbs (snd r) = g_pending_urbs (world_dev5 true) /\
    forall port' d' a',
      0 <= a' ->
      port' <> 2%nat \/ (d' =? 0) <> (128 =? 0) \/ a' <> 1 ->
      ep_at (port_at (ozhcd (snd r)) port') d' a'
      = ep_at (port_at (ozhcd (world_dev5 true)) port') d' a'.
Proof.
  apply (oz_enqueue_ep_urb_queued env0 2 1 128 (int_urb 1 8) 0 (world_dev5 true)
           ep_int_in 77).
  - unfold OZ_NB_ENDPOINTS; lia.
  - reflexivity.
  - reflexivity.
  - reflexivity.
  - intros _. vm_compute. discriminate.
  - reflexivity.
Defined.

(** ** Removing an URB from an endpoint queue *)

Lemma take_urb_found l1 x l2 u :
  urb_ptr (link_urb x) = urb_ptr u ->
  Forall (fun y => urb_ptr (link_urb y) <> urb_ptr u) l1 ->
  take_urb (l1 ++ x :: l2) u = Some (x, l1 ++ l2).
Proof.
  intros Hx H. induction H as [|y l1 Hy _ IH]; cbn [app take_urb].
  - rewrite Hx, Z.eqb_refl. reflexivity.
  - destruct (Z.eqb_spec (urb_ptr (link_urb y)) (urb_ptr u)); [congruence|].
    rewrite IH. reflexivity.
Qed.

Lemma take_urb_absent l u :
  Forall (fun y => urb_ptr (link_urb y) <> urb_ptr u) l ->
  take_urb l u = None.
Proof.
  induction 1 as [|y l Hy _ IH]; cbn [take_urb]; [reflexivity|].
  destruct (Z.eqb_spec (urb_ptr (link_urb y)) (urb_ptr u)); [congruence|].
  rewrite IH. reflexivity.
Qed.

Lemma take_urb_spec l u :
  (take_urb l u = None /\
   Forall (fun y => urb_ptr (link_urb y) <> urb_ptr u) l) \/
  (exists l1 x l2,
     l = l1 ++ x :: l2 /\ take_urb l u = Some (x, l1 ++ l2) /\
     urb_ptr (link_urb x) = urb_ptr u /\
     Forall (fun y => urb_ptr (link_urb y) <> urb_ptr u) l1).
Proof.
  induction l as [|y l IH].
  - left. split; [reflexivity|constructor].
  - cbn [take_urb].
    destruct (Z.eqb_spec (urb_ptr (link_urb y)) (urb_ptr u)) as [E|E].
    + right. exists [], y, l. cbn. auto.
    + destruct IH as [[H1 H2]|[l1 [x [l2 [H1 [H2 [H3 H4]]]]]]].
      * left. rewrite H1. split; [reflexivity|constructor; assumption].
      * right. exists (y :: l1), x, l2. rewrite H2. subst l. cbn.
        split; [reflexivity|]. split; [reflexivity|]. split; [assumption|].
        constructor; assumption.
Qed.

Lemma store_ep_twice d a ep1 ep2 p :
  store_ep d a ep2 (store_ep d a ep1 p) = store_ep d a ep2 p.
Proof.
  unfold store_ep. destruct (negb (d =? 0)); w_simpl;
    rewrite list_insert_insert_eq; reflexivity.
Qed.

Lemma upd_port_twice port f g w :
  (port < length (ports (ozhcd w)))%nat ->
  upd_port port g (upd_port port f w)
  = upd_port port (fun p => g (f p)) w.
Proof.
  intros H. unfold upd_port at 1 3. rewrite port_at_upd_same by exact H.
  unfold upd_port. w_simpl. rewrite list_insert_insert_eq. reflexivity.
Qed.

(** X7.  Round trip of an endpoint queue.  An URB queued by
    [oz_enqueue_ep_urb] on an endpoint whose queue did not hold it is
    found by [oz_dequeue_ep_urb], which returns 0, hands nothing back and
    leaves the queue as it was before the URB was queued; a second
    [oz_dequeue_ep_urb] finds nothing, returns -EIDRM and changes
    nothing. *)
Theorem oz_dequeue_ep_urb_round_trip e port ep_addr in_dir u rid w ep h :
  0 <= ep_addr < OZ_NB_ENDPOINTS ->
  fst (oz_alloc_urb_link e w) = true ->
  unlinked u = 0 ->
  ep_at (port_at (ozhcd w) port) in_dir ep_addr = Some ep ->
  (Z.land (attrib ep) USB_ENDPOINT_XFERTYPE_MASK = USB_ENDPOINT_XFER_INT ->
   buffered_units ep <= 0) ->
  hpd (port_at (ozhcd w) port) = Some h ->
  Forall (fun y => urb_ptr (link_urb y) <> urb_ptr u) (urb_list ep) ->
  let w1 := snd (oz_enqueue_ep_urb e port ep_addr in_dir u rid w) in
  let r := oz_dequeue_ep_urb port ep_addr in_dir u w1 in
  fst r = 0 /\
  (urb_list <$> ep_at (port_at (ozhcd (snd r)) port) in_dir ep_addr)
    = Some (urb_list ep) /\
  calls (snd r) = calls w /\
  g_pending_urbs (snd r) = g_pending_urbs w /\
  oz_dequeue_ep_urb port ep_addr in_dir u (snd r) = (- EIDRM, snd r).
Proof.
  intros Ha Hgot Hun Hep Hint Hh Hnew w1 r.
  assert (Hin : (port < length (ports (ozhcd w)))%nat)
    by (eapply ep_at_port_in_range, Hep).
  unfold r, w1. rewrite (enqueue_queued_eq e port ep_addr in_dir u rid w ep h)
    by assumption.
  rewrite alloc_link_eq. cbn [fst snd].
  set (w0 := set_g_link_pool_size _ w).
  set (ep1 := ep_queue_urb _ _ _ _ _).
  assert (Hep1 : ep_at (port_at (ozhcd (upd_port port (store_ep in_dir ep_addr ep1) w0))
                   port) in_dir ep_addr = Some ep1).
  { apply (ep_at_upd_store port in_dir ep_addr _ ep w0). exact Hep. }
  assert (Ht : take_urb (urb_list ep1) u
               = Some (mk_urbl u None rid ep_addr 0, urb_list ep)).
  { unfold ep1. rewrite ep_queue_urb_list.
    rewrite (take_urb_found (urb_list ep) _ [] u); [|reflexivity|exact Hnew].
    rewrite app_nil_r. reflexivity. }
  set (w2 := upd_port port (store_ep in_dir ep_addr (set_urb_list (urb_list ep) ep1))
               (upd_port port (store_ep in_dir ep_addr ep1) w0)).
  assert (Hr : oz_dequeue_ep_urb port ep_addr in_dir u
                 (upd_port port (store_ep in_dir ep_addr ep1) w0)
               = (0, oz_free_urb_link w2)).
  { unfold oz_dequeue_ep_urb. rewrite Hep1, Ht. reflexivity. }
  rewrite Hr. cbn [fst snd]. rewrite free_link_eq.
  assert (Hep2 : ep_at (port_at (ozhcd w2) port) in_dir ep_addr
                 = Some (set_urb_list (urb_list ep) ep1)).
  { unfold w2. eapply ep_at_upd_store, Hep1. }
  split; [reflexivity|]. w_simpl.
  split; [rewrite Hep2; reflexivity|].
  split; [reflexivity|]. split; [reflexivity|].
  unfold oz_dequeue_ep_urb. w_simpl. rewrite Hep2. ep_simpl.
  rewrite (take_urb_absent _ _ Hnew). reflexivity.
Qed.

Lemma oz_dequeue_ep_urb_round_trip_witness :
  let w1 := snd (oz_enqueue_ep_urb env0 2 1 128 (int_urb 1 8) 0
                   (world_dev5 true)) in
  let r := oz_dequeue_ep_urb 2 1 128 (int_urb 1 8) w1 in
  fst r = 0 /\
  (urb_list <$> ep_at (port_at (ozhcd (snd r)) 2) 128 1)
    = Some (urb_list ep_int_in) /\
  calls (snd r) = calls (world_dev5 true) /\
  g_pending_urbs (snd r) = g_pending_urbs (world_dev5 true) /\
  oz_dequeue_ep_urb 2 1 128 (int_urb 1 8) (snd r) = (- EIDRM, snd r).
Proof.
  apply (oz_dequeue_ep_urb_round_trip env0 2 1 128 (int_urb 1 8) 0
           (world_dev5 true) ep_int_in 77).
  - unfold OZ_NB_ENDPOINTS; lia.
  - reflexivity.
  - reflexivity.
  - reflexivity.
  - intros _. vm_compute. discriminate.
  - reflexivity.
  - constructor.
Defined.


(** * The control path *)

Lemma take_req_found l1 x l2 rid :
  req_id x = rid ->
  Forall (fun y => req_id y <> rid) l1 ->
  take_req (l1 ++ x :: l2) rid = Some (x, l1 ++ l2).
Proof.
  intros Hx H. induction H as [|y l1 Hy _ IH]; cbn [app take_req].
  - rewrite Hx, Z.eqb_refl. reflexivity.
  - destruct (Z.eqb_spec (req_id y) rid); [congruence|].
    rewrite IH. reflexivity.
Qed.

Lemma take_req_absent l rid :
  Forall (fun y => req_id y <> rid) l -> take_req l rid = None.
Proof.
  induction 1 as [|y l Hy _ IH]; cbn [take_req]; [reflexivity|].
  destruct (Z.eqb_spec (req_id y) rid); [congruence|].
  rewrite IH. reflexivity.
Qed.

Lemma take_req_spec l rid :
  (take_req l rid = None /\ Forall (fun y => req_id y <> rid) l) \/
  (exists l1 x l2,
     l = l1 ++ x :: l2 /\ take_req l rid = Some (x, l1 ++ l2) /\
     req_id x = rid /\ Forall (fun y => req_id y <> rid) l1).
Proof.
  induction l as [|y l IH].
  - left. split; [reflexivity|constructor].
  - cbn [take_req]. destruct (Z.eqb_spec (req_id y) rid) as [E|E].
    + right. exists [], y, l. cbn. auto.
    + destruct IH as [[H1 H2]|[l1 [x [l2 [H1 [H2 [H3 H4]]]]]]].
      * left. rewrite H1. split; [reflexivity|constructor; assumption].
      * right. exists (y :: l1), x, l2. rewrite H2. subst l. cbn.
        split; [reflexivity|]. split; [reflexivity|]. split; [assumption|].
        constructor; assumption.
Qed.

Lemma store_ep_hpd d a ep p : hpd (store_ep d a ep p) = hpd p.
Proof. unfold store_ep. case_if; reflexivity. Qed.

(** The requests [oz_process_ep0_urb] answers itself. *)
Lemma ep0_standard_forward port u w :
  bRequest (setup_packet u) <> USB_REQ_SET_ADDRESS ->
  bRequest (setup_packet u) <> USB_REQ_GET_CONFIGURATION ->
  bRequest (setup_packet u) <> USB_REQ_GET_INTERFACE ->
  ep0_standard port u w = (u, w, 0, false).
Proof.
  intros H1 H2 H3. unfold ep0_standard.
  destruct (Z.eqb_spec (bRequest (setup_packet u)) USB_REQ_SET_ADDRESS); [congruence|].
  destruct (Z.eqb_spec (bRequest (setup_packet u)) USB_REQ_GET_CONFIGURATION); [congruence|].
  destruct (Z.eqb_spec (bRequest (setup_packet u)) USB_REQ_GET_INTERFACE); [congruence|].
  reflexivity.
Qed.

(** The request is not one of the three standard requests that
    [oz_process_ep0_urb] answers without the peer. *)
Lemma forwarded_eq e u w ep h :
  let port_ix := oz_get_port_from_addr (ozhcd w) (usb_pipedevice (pipe u)) in
  let port := Z.to_nat port_ix in
  let p := port_at (ozhcd w) port in
  let setup := setup_packet u in
  let rid := next_req_id p in
  let data_len := if Z.land (bRequestType setup) USB_DIR_IN =? 0
                  then wLength setup else 0 in
  let u1 := set_actual_length data_len (set_hcpriv (Some port) u) in
  0 <= port_ix ->
  port_has p OZ_PORT_F_PRESENT = true ->
  port_has p OZ_PORT_F_DYING = false ->
  hpd p = Some h ->
  (is_standard setup = true ->
   bRequest setup <> USB_REQ_SET_ADDRESS /\
   bRequest setup <> USB_REQ_GET_CONFIGURATION /\
   bRequest setup <> USB_REQ_GET_INTERFACE) ->
  control_req_rc e = 0 ->
  fst (oz_alloc_urb_link e w) = true ->
  unlinked u = 0 ->
  ep_at p 0 0 = Some ep ->
  (Z.land (attrib ep) USB_ENDPOINT_XFERTYPE_MASK = USB_ENDPOINT_XFER_INT ->
   buffered_units ep <= 0) ->
  oz_process_ep0_urb e u w
  = log (RequestHeartbeat (Some h))
      (upd_port port
         (store_ep 0 0 (ep_queue_urb e 0 0 (mk_urbl u1 None rid 0 0) ep))
         (snd (oz_alloc_urb_link e
                 (log (ControlReq (Some h) rid setup data_len)
                    (upd_port port (set_next_req_id (to_u8 (rid + 1))) w))))).
Proof.
  intros port_ix port p setup rid data_len u1 Hix Hpres Hdy Hh Hstd Hrc Hgot Hun Hep Hint.
  assert (Hin : (port < length (ports (ozhcd w)))%nat)
    by (eapply port_at_null_flag, Hpres).
  unfold oz_process_ep0_urb. fold port_ix. fold port. fold p.
  destruct (Z.ltb_spec port_ix 0); [lia|].
  rewrite Hpres, Hdy. cbn [negb orb].
  set (w1 := upd_port port (set_next_req_id (to_u8 (next_req_id p + 1))) w).
  assert (Hp1 : port_at (ozhcd w1) port = set_next_req_id (to_u8 (next_req_id p + 1)) p).
  { unfold w1. rewrite port_at_upd_same by exact Hin. reflexivity. }
  rewrite Hp1. g_simpl. rewrite Hh.
  change (setup_packet u) with setup.
  assert (Hst : (if is_standard setup
                 then ep0_standard port (set_hcpriv (Some port) u) w1
                 else (set_hcpriv (Some port) u, w1, 0, false))
                = (set_hcpriv (Some port) u, w1, 0, false)).
  { destruct (is_standard setup) eqn:Es; [|reflexivity].
    destruct (Hstd eq_refl) as (A & B & C).
    apply ep0_standard_forward; assumption. }
  rewrite Hst. cbn [Z.eqb negb andb]. rewrite Hp1. g_simpl. rewrite Hh.
  rewrite Hrc. cbn [Z.eqb negb].
  fold data_len. fold rid. fold u1.
  set (w2 := log (ControlReq (Some h) rid setup data_len) w1).
  assert (Hp2 : port_at (ozhcd w2) port = set_next_req_id (to_u8 (rid + 1)) p)
    by exact Hp1.
  rewrite (enqueue_queued_eq e port 0 0 u1 rid w2 ep h).
  - cbn [Z.eqb negb orb]. rewrite alloc_link_eq. cbn [snd].
    set (w3 := set_g_link_pool_size _ w2).
    assert (Hp3 : hpd (port_at (ozhcd (upd_port port
                    (store_ep 0 0 (ep_queue_urb e 0 0 (mk_urbl u1 None rid 0 0) ep))
                    w3)) port) = Some h).
    { rewrite port_at_upd_same
        by (unfold w3, w2, w1, upd_port; g_simpl; rewrite length_insert; exact Hin).
      rewrite store_ep_hpd. change (ozhcd w3) with (ozhcd w2).
      rewrite Hp2. exact Hh. }
    rewrite Hp3. f_equal. f_equal. unfold w3.
    change (log (ControlReq (Some h) rid setup data_len)
              (upd_port port (set_next_req_id (to_u8 (rid + 1))) w)) with w2.
    rewrite alloc_link_eq. reflexivity.
  - unfold OZ_NB_ENDPOINTS; lia.
  - rewrite alloc_link_eq in Hgot |- *. exact Hgot.
  - exact Hun.
  - rewrite Hp2. exact Hep.
  - exact Hint.
  - rewrite Hp2. exact Hh.
Qed.

(** X8.  A control request that [oz_process_ep0_urb] forwards to the
    peer (the port is present, not dying and attached, the request is
    not one the driver answers itself, the transport takes it and the
    URB can be queued) is sent with the port's next request id, which
    then moves on by one modulo 256, and waits at the tail of the
    endpoint 0 queue under that id with a heartbeat requested.  If no
    older request waits under the same id, [oz_find_urb_by_id] with the
    id finds exactly this URB and takes it off, leaving the queue as it
    was before. *)
Theorem control_request_found_by_id e u w ep h :
  let port_ix := oz_get_port_from_addr (ozhcd w) (usb_pipedevice (pipe u)) in
  let port := Z.to_nat port_ix in
  let p := port_at (ozhcd w) port in
  let setup := setup_packet u in
  let rid := next_req_id p in
  let data_len := if Z.land (bRequestType setup) USB_DIR_IN =? 0
                  then wLength setup else 0 in
  let u1 := set_actual_length data_len (set_hcpriv (Some port) u) in
  let w' := oz_process_ep0_urb e u w in
  let r := oz_find_urb_by_id port 0 rid w' in
  0 <= port_ix ->
  port_has p OZ_PORT_F_PRESENT = true ->
  port_has p OZ_PORT_F_DYING = false ->
  hpd p = Some h ->
  (is_standard setup = true ->
   bRequest setup <> USB_REQ_SET_ADDRESS /\
   bRequest setup <> USB_REQ_GET_CONFIGURATION /\
   bRequest setup <> USB_REQ_GET_INTERFACE) ->
  control_req_rc e = 0 ->
  fst (oz_alloc_urb_link e w) = true ->
  unlinked u = 0 ->
  ep_at p 0 0 = Some ep ->
  (Z.land (attrib ep) USB_ENDPOINT_XFERTYPE_MASK = USB_ENDPOINT_XFER_INT ->
   buffered_units ep <= 0) ->
  Forall (fun y => req_id y <> rid) (urb_list ep) ->
  calls w' = calls w ++ [ControlReq (Some h) rid setup data_len;
                         RequestHeartbeat (Some h)] /\
  next_req_id (port_at (ozhcd w') port) = to_u8 (rid + 1) /\
  (urb_list <$> ep_at (port_at (ozhcd w') port) 0 0)
    = Some (urb_list ep ++ [mk_urbl u1 None rid 0 0]) /\
  fst r = Some u1 /\
  (urb_list <$> ep_at (port_at (ozhcd (snd r)) port) 0 0)
    = Some (urb_list ep) /\
  calls (snd r) = calls w'.
Proof.
  intros port_ix port p setup rid data_len u1 w' r
    Hix Hpres Hdy Hh Hstd Hrc Hgot Hun Hep Hint Hnew.
  assert (Hin : (port < length (ports (ozhcd w)))%nat)
    by (eapply port_at_null_flag, Hpres).
  assert (Hw' : w' = log (RequestHeartbeat (Some h))
      (upd_port port
         (store_ep 0 0 (ep_queue_urb e 0 0 (mk_urbl u1 None rid 0 0) ep))
         (snd (oz_alloc_urb_link e
                 (log (ControlReq (Some h) rid setup data_len)
                    (upd_port port (set_next_req_id (to_u8 (rid + 1))) w))))))
    by (apply forwarded_eq; assumption).
  set (w1 := upd_port port (set_next_req_id (to_u8 (rid + 1))) w) in Hw'.
  set (w2 := log (ControlReq (Some h) rid setup data_len) w1) in Hw'.
  rewrite alloc_link_eq in Hw'. cbn [snd] in Hw'.
  set (w3 := set_g_link_pool_size _ w2) in Hw'.
  set (ep1 := ep_queue_urb e 0 0 (mk_urbl u1 None rid 0 0) ep) in Hw'.
  assert (Hp3 : port_at (ozhcd w3) port = set_next_req_id (to_u8 (rid + 1)) p).
  { change (ozhcd w3) with (ozhcd w1). unfold w1.
    rewrite port_at_upd_same by exact Hin. reflexivity. }
  assert (Hep3 : ep_at (port_at (ozhcd w3) port) 0 0 = Some ep)
    by (rewrite Hp3; exact Hep).
  set (w4 := upd_port port (store_ep 0 0 ep1) w3) in Hw'.
  assert (Hin3 : (port < length (ports (ozhcd w3)))%nat)
    by (eapply ep_at_port_in_range, Hep3).
  assert (Hp4 : port_at (ozhcd w4) port
                = store_ep 0 0 ep1 (set_next_req_id (to_u8 (rid + 1)) p)).
  { unfold w4. rewrite port_at_upd_same by exact Hin3. rewrite Hp3. reflexivity. }
  assert (Hep4 : ep_at (port_at (ozhcd w4) port) 0 0 = Some ep1)
    by (unfold w4; eapply ep_at_upd_store, Hep3).
  assert (Hl1 : urb_list ep1 = urb_list ep ++ [mk_urbl u1 None rid 0 0])
    by apply ep_queue_urb_list.
  assert (Hr : r = (Some u1,
                    oz_free_urb_link
                      (upd_port port
                         (store_ep 0 0 (set_urb_list (urb_list ep) ep1)) w'))).
  { unfold r, oz_find_urb_by_id. rewrite Hw'.
    change (ozhcd (log (RequestHeartbeat (Some h)) w4)) with (ozhcd w4).
    rewrite Hep4, Hl1.
    rewrite (take_req_found (urb_list ep) (mk_urbl u1 None rid 0 0) [] rid);
      [|reflexivity|exact Hnew].
    rewrite app_nil_r. reflexivity. }
  rewrite Hr. cbn [fst snd]. rewrite free_link_eq.
  split; [rewrite Hw'; unfold w4, w3, w2, w1, upd_port; g_simpl;
          rewrite <- app_assoc; reflexivity|].
  split; [rewrite Hw'; change (ozhcd (log (RequestHeartbeat (Some h)) w4))
                         with (ozhcd w4); rewrite Hp4; unfold store_ep;
          reflexivity|].
  split; [rewrite Hw'; change (ozhcd (log (RequestHeartbeat (Some h)) w4))
                         with (ozhcd w4); rewrite Hep4;
          cbn [fmap option_fmap option_map]; rewrite Hl1; reflexivity|].
  split; [reflexivity|].
  split.
  - g_simpl.
    rewrite (ep_at_upd_store port 0 0 (set_urb_list (urb_list ep) ep1) ep1 w').
    + reflexivity.
    + rewrite Hw'. exact Hep4.
  - reflexivity.
Qed.

Lemma control_request_found_by_id_witness :
  let u := vendor_urb 1 5 in
  let w := world_dev5 false in
  let u1 := set_actual_length 4 (set_hcpriv (Some 2%nat) u) in
  let w' := oz_process_ep0_urb env0 u w in
  let r := oz_find_urb_by_id 2 0 0 w' in
  calls w' = calls w ++ [ControlReq (Some 77) 0 (setup_packet u) 4;
                         RequestHeartbeat (Some 77)] /\
  next_req_id (port_at (ozhcd w') 2) = to_u8 (0 + 1) /\
  (urb_list <$> ep_at (port_at (ozhcd w') 2) 0 0)
    = Some ([] ++ [mk_urbl u1 None 0 0 0]) /\
  fst r = Some u1 /\
  (urb_list <$> ep_at (port_at (ozhcd (snd r)) 2) 0 0) = Some [] /\
  calls (snd r) = calls w'.
Proof.
  apply (control_request_found_by_id env0 (vendor_urb 1 5) (world_dev5 false)
           (oz_ep_alloc 0) 77).
  - vm_compute. discriminate.
  - reflexivity.
  - reflexivity.
  - reflexivity.
  - intros H. vm_compute in H. discriminate H.
  - reflexivity.
  - reflexivity.
  - reflexivity.
  - reflexivity.
  - intros H. vm_compute in H. discriminate H.
  - constructor.
Defined.

(** ** Timeouts of endpoint 0 *)

Lemma ep0_timeouts_app a b :
  ep0_timeouts (a ++ b)
  = (fst (ep0_timeouts a) ++ fst (ep0_timeouts b),
     snd (ep0_timeouts a) ++ snd (ep0_timeouts b)).
Proof.
  induction a as [|x a IH]; cbn [app ep0_timeouts].
  - destruct (ep0_timeouts b); reflexivity.
  - rewrite IH. destruct (ep0_timeouts a) as [s m]. cbn [fst snd].
    destruct (submit_counter x >? EP0_TIMEOUT_COUNTER); [reflexivity|].
    destruct (negb (submit_counter x =? 0)); reflexivity.
Qed.

Lemma ep0_timeouts_idle l :
  Forall (fun y => submit_counter y = 0) l -> ep0_timeouts l = (l, []).
Proof.
  induction 1 as [|x l Hx _ IH]; cbn [ep0_timeouts]; [reflexivity|].
  rewrite IH, Hx. reflexivity.
Qed.

Lemma mark_req_found l1 x l2 rid :
  req_id x = rid ->
  Forall (fun y => req_id y <> rid) l1 ->
  mark_req (l1 ++ x :: l2) rid = l1 ++ set_submit_counter 1 x :: l2.
Proof.
  intros Hx H. induction H as [|y l1 Hy _ IH]; cbn [app mark_req].
  - rewrite Hx, Z.eqb_refl. reflexivity.
  - destruct (Z.eqb_spec (req_id y) rid); [congruence|]. rewrite IH. reflexivity.
Qed.

Lemma scan_ep0_marked l1 x l2 c k :
  Forall (fun y => submit_counter y = 0) l1 ->
  Forall (fun y => submit_counter y = 0) l2 ->
  1 <= c -> c + Z.of_nat k <= EP0_TIMEOUT_COUNTER + 1 ->
  scan_ep0 k (l1 ++ set_submit_counter c x :: l2)
  = l1 ++ set_submit_counter (c + Z.of_nat k) x :: l2.
Proof.
  intros H1 H2 Hc. induction k as [|k IH]; intros Hk.
  - cbn [scan_ep0]. rewrite Z.add_0_r. reflexivity.
  - cbn [scan_ep0]. rewrite IH by lia.
    rewrite ep0_timeouts_app, (ep0_timeouts_idle l1 H1). cbn [fst].
    f_equal. cbn [ep0_timeouts]. rewrite (ep0_timeouts_idle l2 H2).
    cbn [submit_counter set_submit_counter].
    destruct (Z.gtb_spec (c + Z.of_nat k) EP0_TIMEOUT_COUNTER); [lia|].
    destruct (Z.eqb_spec (c + Z.of_nat k) 0); [lia|]. cbn [negb fst].
    unfold set_submit_counter at 1. cbn [link_urb link_port req_id link_ep_num].
    unfold set_submit_counter. f_equal. f_equal. lia.
Qed.

(** X9.  The timeout of a control request.  In an endpoint 0 queue with
    no request marked as submitted, [oz_hcd_mark_urb_submitted] marks the
    first link with the request id; the scans of the following thirteen
    heartbeats keep the queue in its order and count the link up, and the
    scan of the fourteenth heartbeat moves exactly this link, its counter
    back at 0, to the list of requests sent again.  A queue with no
    marked request is left as it is by every scan. *)
Theorem marked_request_resent_on_14th_scan l1 x l2 rid k :
  Forall (fun y => submit_counter y = 0) (l1 ++ x :: l2) ->
  req_id x = rid ->
  Forall (fun y => req_id y <> rid) l1 ->
  (k <= 13)%nat ->
  let q := mark_req (l1 ++ x :: l2) rid in
  ep0_timeouts (l1 ++ x :: l2) = (l1 ++ x :: l2, []) /\
  scan_ep0 k q = l1 ++ set_submit_counter (1 + Z.of_nat k) x :: l2 /\
  ep0_timeouts (scan_ep0 13 q) = (l1 ++ l2, [set_submit_counter 0 x]).
Proof.
  intros H0 Hx Hl1 Hk q.
  apply Forall_app in H0 as [H1 H2]. apply Forall_cons in H2 as [Hx0 H2].
  split; [apply ep0_timeouts_idle, Forall_app; split;
          [assumption|constructor; assumption]|].
  unfold q. rewrite (mark_req_found l1 x l2 rid Hx Hl1).
  split; [apply scan_ep0_marked; unfold EP0_TIMEOUT_COUNTER; try assumption; lia|].
  rewrite (scan_ep0_marked l1 x l2 1 13 H1 H2)
    by (unfold EP0_TIMEOUT_COUNTER; lia).
  rewrite ep0_timeouts_app, (ep0_timeouts_idle l1 H1). cbn [fst snd app].
  cbn [ep0_timeouts]. rewrite (ep0_timeouts_idle l2 H2). reflexivity.
Qed.

Lemma marked_request_resent_on_14th_scan_witness :
  let x := mk_urbl (vendor_urb 1 5) None 7 0 0 in
  let y := mk_urbl (vendor_urb 2 5) None 6 0 0 in
  let q := mark_req ([y] ++ x :: [y]) 7 in
  ep0_timeouts ([y] ++ x :: [y]) = ([y] ++ x :: [y], []) /\
  scan_ep0 5 q = [y] ++ set_submit_counter (1 + Z.of_nat 5) x :: [y] /\
  ep0_timeouts (scan_ep0 13 q) = ([y] ++ [y], [set_submit_counter 0 x]).
Proof.
  apply (marked_request_resent_on_14th_scan
           [mk_urbl (vendor_urb 2 5) None 6 0 0]
           (mk_urbl (vendor_urb 1 5) None 7 0 0)
           [mk_urbl (vendor_urb 2 5) None 6 0 0] 7 5).
  - repeat constructor.
  - reflexivity.
  - repeat constructor. cbn. lia.
  - lia.
Defined.


(** * The orphanage and cancellation *)

Lemma clear_orphans_spec l st w :
  let w' := clear_orphans l st w in
  orphanage (ozhcd w') = match l with [] => orphanage (ozhcd w) | _ => [] end /\
  calls w' = calls w
             ++ map (fun x => Giveback (completed (link_urb x) st) st) l /\
  g_pending_urbs w' = g_pending_urbs w - Z.of_nat (length l) /\
  ports (ozhcd w') = ports (ozhcd w) /\
  urb_pending_list (ozhcd w') = urb_pending_list (ozhcd w) /\
  conn_port (ozhcd w') = conn_port (ozhcd w).
Proof.
  revert w; induction l as [|x l IH]; intros w.
  - cbn. rewrite app_nil_r. repeat split; try reflexivity; lia.
  - cbn [clear_orphans].
    set (w1 := oz_free_urb_link _).
    assert (H1 : orphanage (ozhcd w1) = l /\
                 calls w1 = calls w ++ [Giveback (completed (link_urb x) st) st] /\
                 g_pending_urbs w1 = g_pending_urbs w - 1 /\
                 ports (ozhcd w1) = ports (ozhcd w) /\
                 urb_pending_list (ozhcd w1) = urb_pending_list (ozhcd w) /\
                 conn_port (ozhcd w1) = conn_port (ozhcd w)).
    { unfold w1. rewrite free_link_eq, complete_urb_eq. g_simpl.
      repeat split; reflexivity. }
    destruct H1 as (A1 & A2 & A3 & A4 & A5 & A6).
    destruct (IH w1) as (B1 & B2 & B3 & B4 & B5 & B6).
    split.
    { rewrite B1. destruct l; [exact A1|reflexivity]. }
    split.
    { rewrite B2, A2, <- app_assoc. reflexivity. }
    split.
    { rewrite B3, A3. cbn [length]. lia. }
    split; [congruence|]. split; congruence.
Qed.

(** X10.  [oz_hcd_clear_orphanage] hands back every URB of the
    orphanage exactly once, oldest first, each with the status given,
    and leaves the orphanage empty; the pending counter goes down by the
    number of orphans and the ports are not touched. *)
Theorem oz_hcd_clear_orphanage_completes_all st w :
  let w' := oz_hcd_clear_orphanage st w in
  orphanage (ozhcd w') = [] /\
  calls w' = calls w
             ++ map (fun x => Giveback (completed (link_urb x) st) st)
                  (orphanage (ozhcd w)) /\
  g_pending_urbs w'
    = g_pending_urbs w - Z.of_nat (length (orphanage (ozhcd w))) /\
  ports (ozhcd w') = ports (ozhcd w) /\
  urb_pending_list (ozhcd w') = urb_pending_list (ozhcd w).
Proof.
  intros w'. unfold w', oz_hcd_clear_orphanage.
  destruct (clear_orphans_spec (orphanage (ozhcd w)) st w)
    as (B1 & B2 & B3 & B4 & B5 & _).
  split; [rewrite B1; destruct (orphanage (ozhcd w)); reflexivity|].
  auto.
Qed.

(** ** Cancelling one URB *)

Lemma uncancel_absent l u u' :
  urb_ptr u' = urb_ptr u ->
  Forall (fun y => urb_ptr (link_urb y) <> urb_ptr u) l ->
  oz_uncancel_urb l u' = (None, l).
Proof.
  intros Hp H. apply uncancel_none. rewrite Hp. exact H.
Qed.

Lemma remove_urb_list ep u :
  match oz_remove_urb (Some ep) u with
  | (Some _, Some ep') =>
    exists x rest, take_urb (urb_list ep) u = Some (x, rest) /\
                   urb_list ep' = rest
  | (None, Some ep') => take_urb (urb_list ep) u = None /\ ep' = ep
  | _ => False
  end.
Proof.
  unfold oz_remove_urb. destruct (take_urb (urb_list ep) u) as [[x rest]|].
  - exists x, rest. split; [reflexivity|].
    destruct (usb_pipeisoc (pipe u)); [|reflexivity].
    ep_simpl. case_if; reflexivity.
  - auto.
Qed.

Lemma urb_cancel_endpoint_eq port ep_num u w ep l1 x l2 :
  let ix := Z.land ep_num 15 in
  let in_dir := if negb (Z.land ep_num USB_DIR_IN =? 0) && negb (ix =? 0)
                then 1 else 0 in
  Forall (fun y => urb_ptr (link_urb y) <> urb_ptr u) (urb_cancel_list (ozhcd w)) ->
  Forall (fun y => urb_ptr (link_urb y) <> urb_ptr u) (orphanage (ozhcd w)) ->
  ep_at (port_at (ozhcd w) port) in_dir ix = Some ep ->
  urb_list ep = l1 ++ x :: l2 ->
  urb_ptr (link_urb x) = urb_ptr u ->
  Forall (fun y => urb_ptr (link_urb y) <> urb_ptr u) l1 ->
  exists ep',
    urb_list ep' = l1 ++ l2 /\
    oz_urb_cancel (Some port) ep_num u w
    = oz_complete_urb (set_actual_length 0 u) (- ENOENT)
        (oz_free_urb_link (upd_port port (store_ep in_dir ix ep') w)).
Proof.
  intros ix in_dir Hc Ho Hep Hl Hx Hl1.
  unfold oz_urb_cancel. fold ix. fold in_dir.
  rewrite (take_urb_absent _ _ Hc), (take_urb_absent _ _ Ho), Hep.
  pose proof (remove_urb_list ep u) as Hr.
  rewrite Hl, (take_urb_found l1 x l2 u Hx Hl1) in Hr.
  destruct (oz_remove_urb (Some ep) u) as [[y|] [ep'|]]; try contradiction.
  2:{ destruct Hr as [Hr _]; discriminate Hr. }
  destruct Hr as (x' & rest & Hr1 & Hr2). injection Hr1 as <- <-.
  exists ep'. split; [exact Hr2|reflexivity].
Qed.

(** X11.  [oz_urb_cancel] for an URB whose link has left the cancel
    list.  If the orphanage holds the URB, its first link there is taken
    out; else, if the queue of the URB's endpoint holds it, its first link
    there is taken out; in both cases the other links keep their order
    and the URB is handed back once, with -ENOENT and an actual length of
    0.  If neither holds it (the URB is being processed) nothing
    changes. *)
Theorem oz_urb_cancel_search port ep_num u w :
  let w' := oz_urb_cancel (Some port) ep_num u w in
  let ix := Z.land ep_num 15 in
  let in_dir := if negb (Z.land ep_num USB_DIR_IN =? 0) && negb (ix =? 0)
                then 1 else 0 in
  let absent := Forall (fun y => urb_ptr (link_urb y) <> urb_ptr u) in
  let back := Giveback (completed (set_actual_length 0 u) (- ENOENT))
                (- ENOENT) in
  absent (urb_cancel_list (ozhcd w)) ->
  (forall l1 x l2,
     orphanage (ozhcd w) = l1 ++ x :: l2 ->
     urb_ptr (link_urb x) = urb_ptr u -> absent l1 ->
     orphanage (ozhcd w') = l1 ++ l2 /\
     ports (ozhcd w') = ports (ozhcd w) /\
     calls w' = calls w ++ [back]) /\
  (absent (orphanage (ozhcd w)) ->
   forall ep l1 x l2,
     ep_at (port_at (ozhcd w) port) in_dir ix = Some ep ->
     urb_list ep = l1 ++ x :: l2 ->
     urb_ptr (link_urb x) = urb_ptr u -> absent l1 ->
     (urb_list <$> ep_at (port_at (ozhcd w') port) in_dir ix)
       = Some (l1 ++ l2) /\
     orphanage (ozhcd w') = orphanage (ozhcd w) /\
     calls w' = calls w ++ [back]) /\
  (absent (orphanage (ozhcd w)) ->
   (forall ep, ep_at (port_at (ozhcd w) port) in_dir ix = Some ep ->
               absent (urb_list ep)) ->
   w' = w).
Proof.
  intros w' ix in_dir absent back Hc.
  split; [|split].
  - intros l1 x l2 Ho Hx Hl1. unfold w', oz_urb_cancel.
    rewrite (take_urb_absent _ _ Hc).
    rewrite Ho, (take_urb_found l1 x l2 u Hx Hl1).
    rewrite complete_urb_eq, free_link_eq. g_simpl. auto.
  - intros Ho ep l1 x l2 Hep Hl Hx Hl1.
    destruct (urb_cancel_endpoint_eq port ep_num u w ep l1 x l2 Hc Ho Hep Hl Hx Hl1)
      as (ep' & Hr2 & Heq).
    unfold w'. rewrite Heq. fold ix. fold in_dir.
    rewrite complete_urb_eq, free_link_eq. g_simpl.
    split.
    + match goal with |- context [port_at (set_urb_cancel_list ?c ?h) port] =>
        rewrite (port_at_ports (set_urb_cancel_list c h) h) by reflexivity end.
      rewrite (ep_at_upd_store port in_dir ix ep' ep w Hep).
      cbn [fmap option_fmap option_map]. rewrite Hr2. reflexivity.
    + unfold upd_port. g_simpl. auto.
  - intros Ho Hq. unfold w', oz_urb_cancel. fold ix. fold in_dir.
    rewrite (take_urb_absent _ _ Hc), (take_urb_absent _ _ Ho).
    destruct (ep_at (port_at (ozhcd w) port) in_dir ix) as [ep|] eqn:Hep.
    + pose proof (remove_urb_list ep u) as Hr.
      rewrite (take_urb_absent _ _ (Hq ep eq_refl)) in Hr.
      destruct (oz_remove_urb (Some ep) u) as [[y|] [ep'|]]; try contradiction.
      * destruct Hr as (x' & rest & Hr1 & _). discriminate Hr1.
      * reflexivity.
    + reflexivity.
Qed.

Lemma oz_urb_cancel_search_witness :
  let port := 2%nat in
  let ep_num := 129 in
  let u := int_urb 1 8 in
  let w := world_dev5_queued (int_urb 1 8) in
  let w' := oz_urb_cancel (Some port) ep_num u w in
  let ix := Z.land ep_num 15 in
  let in_dir := if negb (Z.land ep_num USB_DIR_IN =? 0) && negb (ix =? 0)
                then 1 else 0 in
  let absent := Forall (fun y => urb_ptr (link_urb y) <> urb_ptr u) in
  let back := Giveback (completed (set_actual_length 0 u) (- ENOENT))
                (- ENOENT) in
  (forall l1 x l2,
     orphanage (ozhcd w) = l1 ++ x :: l2 ->
     urb_ptr (link_urb x) = urb_ptr u -> absent l1 ->
     orphanage (ozhcd w') = l1 ++ l2 /\
     ports (ozhcd w') = ports (ozhcd w) /\
     calls w' = calls w ++ [back]) /\
  (absent (orphanage (ozhcd w)) ->
   forall ep l1 x l2,
     ep_at (port_at (ozhcd w) port) in_dir ix = Some ep ->
     urb_list ep = l1 ++ x :: l2 ->
     urb_ptr (link_urb x) = urb_ptr u -> absent l1 ->
     (urb_list <$> ep_at (port_at (ozhcd w') port) in_dir ix)
       = Some (l1 ++ l2) /\
     orphanage (ozhcd w') = orphanage (ozhcd w) /\
     calls w' = calls w ++ [back]) /\
  (absent (orphanage (ozhcd w)) ->
   (forall ep, ep_at (port_at (ozhcd w) port) in_dir ix = Some ep ->
               absent (urb_list ep)) ->
   w' = w).
Proof.
  apply (oz_urb_cancel_search 2 129 (int_urb 1 8)
           (world_dev5_queued (int_urb 1 8))).
  vm_compute. constructor.
Defined.

(** ** The cancel tasklet *)

Lemma uncancel_length l u :
  (length (snd (oz_uncancel_urb l u)) <= length l)%nat.
Proof.
  induction l as [|y l IH]; cbn [oz_uncancel_urb]; [cbn; lia|].
  case_if; cbn [snd length]; [lia|].
  destruct (oz_uncancel_urb l u) as [r l']. cbn [snd length] in *. lia.
Qed.

Lemma take_urb_length l u x rest :
  take_urb l u = Some (x, rest) -> length l = S (length rest).
Proof.
  revert x rest; induction l as [|y l IH]; intros x rest; cbn [take_urb].
  - discriminate.
  - case_if.
    + intros H; injection H as <- <-. reflexivity.
    + destruct (take_urb l u) as [[x' rest']|]; [|discriminate].
      intros H; injection H as <- <-. cbn [length]. rewrite (IH x' rest' eq_refl).
      reflexivity.
Qed.

Lemma complete_urb_cancel_length u st w :
  (length (urb_cancel_list (ozhcd (oz_complete_urb u st w)))
   <= length (urb_cancel_list (ozhcd w)))%nat.
Proof. rewrite complete_urb_eq. g_simpl. apply uncancel_length. Qed.

Lemma urb_cancel_cancel_length port ep_num u w :
  (length (urb_cancel_list (ozhcd (oz_urb_cancel port ep_num u w)))
   <= length (urb_cancel_list (ozhcd w)))%nat.
Proof.
  unfold oz_urb_cancel. destruct port as [port|]; [|lia].
  destruct (take_urb (urb_cancel_list (ozhcd w)) u) as [[x rest]|] eqn:Hc.
  - etransitivity; [apply complete_urb_cancel_length|].
    rewrite free_link_eq. g_simpl. rewrite (take_urb_length _ _ _ _ Hc). lia.
  - destruct (take_urb (orphanage (ozhcd w)) u) as [[x rest]|] eqn:Ho.
    + etransitivity; [apply complete_urb_cancel_length|].
      rewrite free_link_eq. g_simpl. lia.
    + destruct (oz_remove_urb _ u) as [[y|] [ep'|]]; try lia.
      etransitivity; [apply complete_urb_cancel_length|].
      rewrite free_link_eq. unfold upd_port. g_simpl. lia.
Qed.

Lemma cancel_loop_empties n w :
  (length (urb_cancel_list (ozhcd w)) <= n)%nat ->
  urb_cancel_list (ozhcd (cancel_loop n w)) = [].
Proof.
  revert w; induction n as [|n IH]; intros w Hn.
  - cbn [cancel_loop]. destruct (urb_cancel_list (ozhcd w)); [reflexivity|].
    cbn in Hn; lia.
  - cbn [cancel_loop].
    destruct (urb_cancel_list (ozhcd w)) as [|x rest] eqn:Hc; [exact Hc|].
    apply IH. rewrite free_link_eq. g_simpl.
    set (w1 := set_ozhcd (set_urb_cancel_list rest (ozhcd w)) w).
    assert (H1 : length (urb_cancel_list (ozhcd w1)) = length rest) by reflexivity.
    cbn [length] in Hn.
    case_if.
    + pose proof (urb_cancel_cancel_length (link_port x) (link_ep_num x)
                    (link_urb x) w1). lia.
    + lia.
Qed.

(** X12.  [oz_urb_cancel_tasklet] terminates with the cancel list
    empty: every round takes the head link off and no round adds one.
    Without a controller ([g_ozhcd] NULL) it does nothing. *)
Theorem oz_urb_cancel_tasklet_empties w :
  (g_ozhcd w = true ->
   urb_cancel_list (ozhcd (oz_urb_cancel_tasklet w)) = []) /\
  (g_ozhcd w = false -> oz_urb_cancel_tasklet w = w).
Proof.
  unfold oz_urb_cancel_tasklet. split; intros H; rewrite H; cbn [negb].
  - apply cancel_loop_empties. lia.
  - reflexivity.
Qed.

(** ** Cancelling a queued URB, end to end *)

Lemma land_15_range a : 0 <= Z.land a 15 < 16.
Proof.
  change 15 with (Z.ones 4). rewrite Z.land_ones by lia.
  apply Z.mod_pos_bound. reflexivity.
Qed.

Lemma cancel_ep_num_decode ea pin :
  0 <= ea < 16 ->
  let ep_num := if negb (pin =? 0) then Z.lor ea USB_DIR_IN else ea in
  Z.land ep_num 15 = ea /\
  negb (Z.land ep_num USB_DIR_IN =? 0) = negb (pin =? 0).
Proof.
  intros H ep_num. unfold ep_num.
  assert (Hc : ea = 0 \/ ea = 1 \/ ea = 2 \/ ea = 3 \/ ea = 4 \/ ea = 5 \/
               ea = 6 \/ ea = 7 \/ ea = 8 \/ ea = 9 \/ ea = 10 \/ ea = 11 \/
               ea = 12 \/ ea = 13 \/ ea = 14 \/ ea = 15) by lia.
  destruct (pin =? 0); cbn [negb];
    repeat (destruct Hc as [->|Hc]; [split; reflexivity|]);
    subst ea; split; reflexivity.
Qed.

(** X13.  Cancelling an URB that waits on its endpoint, end to end.
    [oz_hcd_urb_dequeue], when [usb_hcd_check_unlink_urb] accepts the
    unlink, puts the URB on the cancel list and schedules the cancel
    tasklet; [oz_urb_cancel_tasklet] then finds the URB on the queue of
    the endpoint its pipe names (endpoint 0 is always the OUT one), takes
    it off, and hands it back exactly once with -ENOENT and an actual
    length of 0.  The other URBs of the queue keep their order and the
    cancel list ends empty. *)
Theorem cancel_queued_urb e u st m port ep l1 x l2 :
  let w := drv_world m in
  let ep_addr := usb_pipeendpoint (pipe u) in
  let in_dir := if negb (usb_pipein (pipe u) =? 0) && negb (ep_addr =? 0)
                then 1 else 0 in
  let absent := Forall (fun y => urb_ptr (link_urb y) <> urb_ptr u) in
  let r := oz_hcd_urb_dequeue e 0 u st m in
  let w' := oz_urb_cancel_tasklet (drv_world (snd r)) in
  g_ozhcd w = true ->
  hcpriv u = Some port ->
  st <> 0 ->
  fst (oz_alloc_urb_link e w) = true ->
  urb_cancel_list (ozhcd w) = [] ->
  absent (orphanage (ozhcd w)) ->
  ep_at (port_at (ozhcd w) port) in_dir ep_addr = Some ep ->
  urb_list ep = l1 ++ x :: l2 ->
  urb_ptr (link_urb x) = urb_ptr u ->
  absent l1 ->
  fst r = (0, set_unlinked st u) /\
  ext_calls (snd r) = ext_calls m ++ [ScheduleCancelTasklet] /\
  urb_cancel_list (ozhcd w') = [] /\
  (urb_list <$> ep_at (port_at (ozhcd w') port) in_dir ep_addr)
    = Some (l1 ++ l2) /\
  calls w' = calls w
             ++ [Giveback (completed (set_actual_length 0 (set_unlinked st u))
                             (- ENOENT)) (- ENOENT)] /\
  g_pending_urbs w' = g_pending_urbs w - 1.
Proof.
  intros w ep_addr in_dir absent r w' Hg Hpriv Hst Hgot Hcl Ho Hep Hl Hx Hl1.
  pose proof (land_15_range (Z.shiftr (pipe u) 15)) as Hea.
  fold (usb_pipeendpoint (pipe u)) in Hea. fold ep_addr in Hea.
  destruct (cancel_ep_num_decode ep_addr (usb_pipein (pipe u)) Hea) as [Hd1 Hd2].
  set (ep_num := if negb (usb_pipein (pipe u) =? 0)
                 then Z.lor ep_addr USB_DIR_IN else ep_addr) in *.
  set (u' := set_unlinked st u).
  set (urbl := mk_urbl u' (Some port) 0 ep_num 0).
  set (w1 := snd (oz_alloc_urb_link e w)).
  assert (Hr : r = (0, u',
                    tell ScheduleCancelTasklet
                      (on_world
                         (fun w => set_ozhcd
                            (set_urb_cancel_list
                               (urb_cancel_list (ozhcd w) ++ [urbl]) (ozhcd w)) w)
                         (on_world (fun _ => w1) m)))).
  { unfold r, oz_hcd_urb_dequeue. fold w. unfold w1.
    destruct (oz_alloc_urb_link e w) as [got w0]. cbn [fst snd] in *.
    rewrite Hgot. cbn [negb Z.eqb andb]. fold u'.
    change (hcpriv u') with (hcpriv u). rewrite Hpriv.
    rewrite bool_decide_eq_true_2 by discriminate.
    fold ep_addr. fold ep_num. reflexivity. }
  assert (Hw1 : w1 = set_g_link_pool_size
                      (if 0 <? g_link_pool_size w
                       then g_link_pool_size w - 1 else g_link_pool_size w) w).
  { unfold w1. rewrite alloc_link_eq. reflexivity. }
  set (w3 := set_ozhcd (set_urb_cancel_list [] (ozhcd w1)) w1).
  assert (Hw' : w' = oz_free_urb_link (oz_urb_cancel (Some port) ep_num u' w3)).
  { unfold w'. rewrite Hr. cbn [snd]. unfold oz_urb_cancel_tasklet. g_simpl.
    unfold w3. rewrite Hw1. g_simpl.
    rewrite Hg, Hcl. cbn [negb app length cancel_loop]. g_simpl.
    unfold urbl at 1 2 3 4. unfold u' at 1. g_simpl.
    destruct (Z.eqb_spec st 0); [contradiction|]. cbn [negb]. reflexivity. }
  rewrite Hr. cbn [fst snd]. g_simpl.
  split; [reflexivity|]. split; [reflexivity|].
  assert (Hp3 : port_at (ozhcd w3) port = port_at (ozhcd w) port)
    by (unfold w3; rewrite Hw1; reflexivity).
  assert (Ho3 : orphanage (ozhcd w3) = orphanage (ozhcd w))
    by (unfold w3; rewrite Hw1; reflexivity).
  destruct (urb_cancel_endpoint_eq port ep_num u' w3 ep l1 x l2)
    as (ep' & Hl' & Heq).
  { unfold w3. g_simpl. constructor. }
  { rewrite Ho3. exact Ho. }
  { rewrite Hp3, Hd1, Hd2. exact Hep. }
  { exact Hl. }
  { exact Hx. }
  { exact Hl1. }
  rewrite Hd1, Hd2 in Heq. fold in_dir in Heq.
  rewrite Heq, complete_urb_eq, !free_link_eq in Hw'.
  rewrite Hw'. g_simpl.
  split; [unfold upd_port, w3; g_simpl; reflexivity|]. split.
  - match goal with |- context [port_at (set_urb_cancel_list ?c ?h) port] =>
      rewrite (port_at_ports (set_urb_cancel_list c h) h) by reflexivity end.
    rewrite (ep_at_upd_store port in_dir ep_addr ep' ep w3).
    + cbn [fmap option_fmap option_map]. rewrite Hl'. reflexivity.
    + rewrite Hp3. exact Hep.
  - unfold upd_port, w3. g_simpl. rewrite Hw1. g_simpl. split; reflexivity.
Qed.

Lemma cancel_queued_urb_witness :
  let e := env0 in
  let u := set_hcpriv (Some 2%nat) (int_urb 1 8) in
  let st := - ENOENT in
  let m := boot (world_dev5_queued (set_hcpriv (Some 2%nat) (int_urb 1 8))) in
  let port := 2%nat in
  let w := drv_world m in
  let ep_addr := usb_pipeendpoint (pipe u) in
  let in_dir := if negb (usb_pipein (pipe u) =? 0) && negb (ep_addr =? 0)
                then 1 else 0 in
  let r := oz_hcd_urb_dequeue e 0 u st m in
  let w' := oz_urb_cancel_tasklet (drv_world (snd r)) in
  fst r = (0, set_unlinked st u) /\
  ext_calls (snd r) = ext_calls m ++ [ScheduleCancelTasklet] /\
  urb_cancel_list (ozhcd w') = [] /\
  (urb_list <$> ep_at (port_at (ozhcd w') port) in_dir ep_addr)
    = Some ([] ++ []) /\
  calls w' = calls w
             ++ [Giveback (completed (set_actual_length 0 (set_unlinked st u))
                             (- ENOENT)) (- ENOENT)] /\
  g_pending_urbs w' = g_pending_urbs w - 1.
Proof.
  apply (cancel_queued_urb env0 (set_hcpriv (Some 2%nat) (int_urb 1 8))
           (- ENOENT)
           (boot (world_dev5_queued (set_hcpriv (Some 2%nat) (int_urb 1 8))))
           2
           (set_urb_list
              [mk_urbl (set_hcpriv (Some 2%nat) (int_urb 1 8)) None 0 1 0]
              ep_int_in)
           [] (mk_urbl (set_hcpriv (Some 2%nat) (int_urb 1 8)) None 0 1 0) []).
  - reflexivity.
  - reflexivity.
  - vm_compute. discriminate.
  - reflexivity.
  - reflexivity.
  - vm_compute. constructor.
  - vm_compute. reflexivity.
  - reflexivity.
  - reflexivity.
  - constructor.
Defined.


(** * The virtual root hub *)

Lemma hub_fold_inv h k :
  (k <= 8)%nat ->
  let b := foldl (hub_status_bit h) (0, 0) (seq 0 k) in
  0 <= fst b /\ 0 <= snd b /\
  (forall n, 0 <= n ->
     Z.testbit (fst b) n
     = (1 <=? n) && (n <=? 7) && (n <=? Z.of_nat k)
       && port_has (port_at h (Z.to_nat (n - 1))) OZ_PORT_F_CHANGED) /\
  (forall n, 0 <= n ->
     Z.testbit (snd b) n
     = (n =? 0) && (8 <=? Z.of_nat k)
       && port_has (port_at h 7) OZ_PORT_F_CHANGED).
Proof.
  induction k as [|k IH]; intros Hk.
  - cbn [seq foldl fst snd]. split; [lia|]. split; [lia|].
    split; intros n Hn; rewrite Z.bits_0; cmp_cases; bool_done.
  - rewrite seq_S, foldl_app. cbn [Nat.add foldl].
    destruct (IH ltac:(lia)) as (B0 & B1 & T0 & T1). clear IH.
    set (b := foldl (hub_status_bit h) (0, 0) (seq 0 k)) in *.
    unfold hub_status_bit.
    destruct (port_has (port_at h k) OZ_PORT_F_CHANGED) eqn:Ec.
    + destruct (Z.ltb_spec (Z.of_nat k) 7) as [H7|H7]; cbn [fst snd].
      * split; [apply Z.lor_nonneg; split; [exact B0|apply Z.shiftl_nonneg; lia]|].
        split; [exact B1|]. split.
        -- intros n Hn. rewrite Z.lor_spec, T0 by exact Hn.
           rewrite Z.shiftl_1_l, Z.pow2_bits_eqb by lia.
           destruct (Z.eq_dec n (Z.of_nat k + 1)) as [->|Hne].
           ++ replace (Z.to_nat (Z.of_nat k + 1 - 1)) with k by lia.
              rewrite Ec. cmp_cases; bool_done.
           ++ cmp_cases; bool_done.
        -- intros n Hn. rewrite T1 by exact Hn. cmp_cases; bool_done.
      * assert (k = 7%nat) by lia. subst k.
        split; [exact B0|].
        split; [apply Z.lor_nonneg; split; [exact B1|apply Z.shiftl_nonneg; lia]|]. split.
        -- intros n Hn. rewrite T0 by exact Hn. cmp_cases; bool_done.
        -- intros n Hn. rewrite Z.lor_spec, T1 by exact Hn.
           change (Z.shiftl 1 (Z.of_nat 7 - 7)) with (2 ^ 0).
           rewrite Z.pow2_bits_eqb by lia. rewrite Ec.
           cmp_cases; bool_done.
    + split; [exact B0|]. split; [exact B1|]. split.
      * intros n Hn. rewrite T0 by exact Hn.
        destruct (Z.eq_dec n (Z.of_nat k + 1)) as [->|Hne].
        -- replace (Z.to_nat (Z.of_nat k + 1 - 1)) with k by lia.
           rewrite Ec, !andb_false_r. reflexivity.
        -- cmp_cases; bool_done.
      * intros n Hn. rewrite T1 by exact Hn.
        destruct (Nat.eq_dec k 7%nat) as [->|Hne].
        -- rewrite Ec, !andb_false_r. reflexivity.
        -- cmp_cases; bool_done.
Qed.

Lemma bits_bound a n :
  0 <= a -> 0 <= n -> (forall m, n <= m -> Z.testbit a m = false) -> a < 2 ^ n.
Proof.
  intros Ha Hn H. destruct (Z.eq_dec a 0) as [->|Hz].
  - apply Z.pow_pos_nonneg; lia.
  - apply Z.log2_lt_pow2; [lia|].
    destruct (Z.lt_ge_cases (Z.log2 a) n) as [Hl|Hl]; [exact Hl|].
    pose proof (Z.bit_log2 a ltac:(lia)) as Hb.
    rewrite (H _ Hl) in Hb. discriminate Hb.
Qed.

Lemma two_bytes_bit b0 b1 n :
  0 <= b0 < 256 -> 0 <= n ->
  Z.testbit (b0 + 256 * b1) n
  = if n <? 8 then Z.testbit b0 n else Z.testbit b1 (n - 8).
Proof.
  intros H0 Hn. destruct (Z.ltb_spec n 8) as [H8|H8].
  - rewrite <- (Z.mod_pow2_bits_low (b0 + 256 * b1) 8 n) by lia.
    change (2 ^ 8) with 256.
    replace ((b0 + 256 * b1) mod 256) with b0; [reflexivity|].
    Z.div_mod_to_equations. lia.
  - replace n with (n - 8 + 8) at 1 by lia.
    rewrite <- Z.div_pow2_bits by lia. change (2 ^ 8) with 256.
    replace ((b0 + 256 * b1) / 256) with b1; [reflexivity|].
    Z.div_mod_to_equations. lia.
Qed.

(** X14.  The status bitmap of [oz_hcd_hub_status_data], for a buffer of
    at least two bytes: read as the 16-bit number
    [buf[0] + 256 * buf[1]], bit [i + 1] is set exactly when port [i] has
    its changed flag, bit 0 (the hub itself) and the bits above the eight
    ports are never set; the function returns 2 when some port has
    changed and 0 when none has, and writes no other byte. *)
Theorem oz_hcd_hub_status_data_bitmap h buf :
  (2 <= length buf)%nat ->
  let r := oz_hcd_hub_status_data h buf in
  exists b0 b1,
    snd r = b0 :: b1 :: drop 2 buf /\
    0 <= b0 < 256 /\ 0 <= b1 < 256 /\
    (forall i, (i < 8)%nat ->
       Z.testbit (b0 + 256 * b1) (Z.of_nat i + 1)
       = port_has (port_at h i) OZ_PORT_F_CHANGED) /\
    Z.testbit (b0 + 256 * b1) 0 = false /\
    (forall n, 9 <= n -> Z.testbit (b0 + 256 * b1) n = false) /\
    (fst r = 2 <-> exists i, (i < 8)%nat /\
                     port_has (port_at h i) OZ_PORT_F_CHANGED = true) /\
    (fst r = 0 <-> forall i, (i < 8)%nat ->
                     port_has (port_at h i) OZ_PORT_F_CHANGED = false).
Proof.
  intros Hbuf r. unfold r, oz_hcd_hub_status_data.
  change (Z.to_nat OZ_NB_PORTS) with 8%nat.
  destruct (hub_fold_inv h 8 ltac:(lia)) as (B0 & B1 & T0 & T1).
  set (b := foldl (hub_status_bit h) (0, 0) (seq 0 8)) in *.
  cbn [fst snd].
  assert (H0 : fst b < 256).
  { change 256 with (2 ^ 8). apply bits_bound; [exact B0|lia|].
    intros m Hm. rewrite T0 by lia. cmp_cases; bool_done. }
  assert (H1 : snd b < 256).
  { change 256 with (2 ^ 8). apply bits_bound; [exact B1|lia|].
    intros m Hm. rewrite T1 by lia. cmp_cases; bool_done. }
  assert (Hbit : forall i, (i < 8)%nat ->
            Z.testbit (fst b + 256 * snd b) (Z.of_nat i + 1)
            = port_has (port_at h i) OZ_PORT_F_CHANGED).
  { intros i Hi. rewrite two_bytes_bit by lia.
    destruct (Z.ltb_spec (Z.of_nat i + 1) 8) as [H8|H8].
    - rewrite T0 by lia. replace (Z.to_nat (Z.of_nat i + 1 - 1)) with i by lia.
      cmp_cases; bool_done.
    - assert (i = 7%nat) by lia. subst i. rewrite T1 by lia.
      cmp_cases; bool_done. }
  assert (Hnz : forall i, (i < 8)%nat ->
            port_has (port_at h i) OZ_PORT_F_CHANGED = true ->
            fst b + 256 * snd b <> 0).
  { intros i Hi Hc Hz. specialize (Hbit i Hi). rewrite Hz, Z.bits_0, Hc in Hbit.
    discriminate Hbit. }
  assert (Hz : (forall i, (i < 8)%nat ->
                  port_has (port_at h i) OZ_PORT_F_CHANGED = false) ->
               fst b = 0 /\ snd b = 0).
  { intros Hall. split; apply Z.bits_inj_0; intros n;
      (destruct (Z.lt_ge_cases n 0) as [Hneg|Hpos];
       [apply Z.testbit_neg_r; exact Hneg|]).
    - rewrite T0 by exact Hpos.
      destruct (Z.leb_spec 1 n); [|reflexivity].
      destruct (Z.leb_spec n 7); [|reflexivity].
      rewrite (Hall (Z.to_nat (n - 1))) by lia. apply andb_false_r.
    - rewrite T1 by exact Hpos. rewrite (Hall 7%nat) by lia. apply andb_false_r. }
  exists (fst b), (snd b).
  split.
  { destruct buf as [|x [|y buf']]; cbn in Hbuf; try lia. reflexivity. }
  split; [lia|]. split; [lia|]. split; [exact Hbit|].
  split.
  { rewrite two_bytes_bit by lia. cbn [Z.ltb Z.compare]. rewrite T0 by lia.
    reflexivity. }
  split.
  { intros n Hn. rewrite two_bytes_bit by lia.
    destruct (Z.ltb_spec n 8); [lia|]. rewrite T1 by lia.
    cmp_cases; bool_done. }
  assert (Hdec : (exists i, (i < 8)%nat /\
                    port_has (port_at h i) OZ_PORT_F_CHANGED = true) \/
                 (forall i, (i < 8)%nat ->
                    port_has (port_at h i) OZ_PORT_F_CHANGED = false)).
  { destruct (existsb (fun i => port_has (port_at h i) OZ_PORT_F_CHANGED)
                (seq 0 8)) eqn:Ex.
    - left. apply existsb_exists in Ex as (i & Hi & Hc).
      apply in_seq in Hi. exists i. split; [lia|exact Hc].
    - right. intros i Hi.
      destruct (port_has (port_at h i) OZ_PORT_F_CHANGED) eqn:Hc; [|reflexivity].
      assert (Ht : existsb (fun i => port_has (port_at h i) OZ_PORT_F_CHANGED)
                     (seq 0 8) = true).
      { apply existsb_exists. exists i. split; [apply in_seq; lia|exact Hc]. }
      congruence. }
  destruct Hdec as [(i & Hi & Hc)|Hall].
  - pose proof (Hnz i Hi Hc) as Hne.
    assert (Hr : (if negb (snd b =? 0) || negb (fst b =? 0) then 2 else 0) = 2).
    { destruct (Z.eqb_spec (snd b) 0), (Z.eqb_spec (fst b) 0); cbn [negb orb];
        try reflexivity. lia. }
    rewrite Hr. split.
    + split; [intros _; exists i; auto|reflexivity].
    + split; [discriminate|]. intros Hall. rewrite (Hall i Hi) in Hc. discriminate Hc.
  - destruct (Hz Hall) as [Z0 Z1]. rewrite Z0, Z1. cbn [Z.eqb negb orb]. split.
    + split; [discriminate|]. intros (i & Hi & Hc). rewrite (Hall i Hi) in Hc.
      discriminate Hc.
    + split; [intros _; exact Hall|reflexivity].
Qed.

Lemma oz_hcd_hub_status_data_bitmap_witness :
  let h := ozhcd (world_dev5 false) in
  let r := oz_hcd_hub_status_data h [0; 0] in
  exists b0 b1,
    snd r = b0 :: b1 :: drop 2 [0; 0] /\
    0 <= b0 < 256 /\ 0 <= b1 < 256 /\
    (forall i, (i < 8)%nat ->
       Z.testbit (b0 + 256 * b1) (Z.of_nat i + 1)
       = port_has (port_at h i) OZ_PORT_F_CHANGED) /\
    Z.testbit (b0 + 256 * b1) 0 = false /\
    (forall n, 9 <= n -> Z.testbit (b0 + 256 * b1) n = false) /\
    (fst r = 2 <-> exists i, (i < 8)%nat /\
                     port_has (port_at h i) OZ_PORT_F_CHANGED = true) /\
    (fst r = 0 <-> forall i, (i < 8)%nat ->
                     port_has (port_at h i) OZ_PORT_F_CHANGED = false).
Proof.
  apply (oz_hcd_hub_status_data_bitmap (ozhcd (world_dev5 false)) [0; 0]).
  cbn. lia.
Defined.

(** ** Port status and port features *)

Lemma put_le32_round_trip v buf :
  0 <= v < 2 ^ 32 -> (4 <= length buf)%nat ->
  le32 (put_le32 v buf) = v /\ drop 4 (put_le32 v buf) = drop 4 buf /\
  length (put_le32 v buf) = length buf.
Proof.
  intros Hv Hb. destruct buf as [|a [|b [|c [|d buf]]]]; cbn in Hb; try lia.
  unfold put_le32, le32, rd. cbn [insert list_insert lookup list_lookup Z.to_nat
    default from_option id drop length Pos.to_nat Pos.iter_op Nat.add].
  split; [|split; reflexivity].
  unfold to_u8. rewrite !Z.shiftr_div_pow2 by lia.
  change (2 ^ 8) with 256. change (2 ^ 16) with 65536.
  change (2 ^ 24) with 16777216. change (2 ^ 32) with 4294967296 in Hv.
  change (Z.to_nat 0) with 0%nat. change (Z.to_nat 1) with 1%nat.
  change (Z.to_nat 2) with 2%nat. change (Z.to_nat 3) with 3%nat.
  cbn [lookup list_lookup default from_option id].
  Z.div_mod_to_equations. lia.
Qed.

Lemma port_has_clear f a b :
  Z.land (Z.lnot a) b = 0 ->
  negb (Z.land (Z.land f (Z.lnot a)) b =? 0) = false.
Proof.
  intros H. rewrite <- Z.land_assoc, H, Z.land_0_r. reflexivity.
Qed.

Lemma port_has_keep f a b :
  Z.land (Z.lnot a) b = b ->
  negb (Z.land (Z.land f (Z.lnot a)) b =? 0) = negb (Z.land f b =? 0).
Proof.
  intros H. rewrite <- Z.land_assoc, H. reflexivity.
Qed.

(** X15.  [oz_get_port_status].  A port number outside 1..8 gets
    -ENODEV and nothing is written.  For a port number inside, the call
    returns 0, writes the port's 32-bit status word as four bytes, lowest
    first, behind which the buffer is untouched, and clears the changed
    flag of that port, so the port is acknowledged; its other flags, its
    status and the other ports stay as they are. *)
Theorem oz_get_port_status_ack windex buf w :
  let r := oz_get_port_status windex buf w in
  let port := Z.to_nat (windex - 1) in
  let p := port_at (ozhcd w) port in
  let p' := port_at (ozhcd (snd r)) port in
  (windex < 1 \/ OZ_NB_PORTS < windex -> r = (- ENODEV, buf, w)) /\
  (1 <= windex <= OZ_NB_PORTS ->
   (port < length (ports (ozhcd w)))%nat ->
   (4 <= length buf)%nat ->
   0 <= status p < 2 ^ 32 ->
   fst (fst r) = 0 /\
   le32 (snd (fst r)) = status p /\
   drop 4 (snd (fst r)) = drop 4 buf /\
   port_has p' OZ_PORT_F_CHANGED = false /\
   port_has p' OZ_PORT_F_PRESENT = port_has p OZ_PORT_F_PRESENT /\
   port_has p' OZ_PORT_F_DYING = port_has p OZ_PORT_F_DYING /\
   status p' = status p /\ bus_addr p' = bus_addr p /\
   (forall j, j <> port ->
      port_at (ozhcd (snd r)) j = port_at (ozhcd w) j) /\
   calls (snd r) = calls w).
Proof.
  intros r port p p'. unfold p', r, oz_get_port_status. fold port. split.
  - intros [H|H].
    + destruct (Z.ltb_spec windex 1); [reflexivity|lia].
    + destruct (Z.ltb_spec windex 1); [reflexivity|].
      destruct (Z.gtb_spec windex OZ_NB_PORTS); [reflexivity|lia].
  - intros Hw Hin Hbuf Hst.
    destruct (Z.ltb_spec windex 1); [lia|].
    destruct (Z.gtb_spec windex OZ_NB_PORTS); [lia|]. cbn [orb fst snd].
    rewrite port_at_upd_same by exact Hin. fold p. g_simpl.
    destruct (put_le32_round_trip (status p) buf Hst Hbuf) as (L1 & L2 & _).
    split; [reflexivity|]. split; [exact L1|]. split; [exact L2|].
    unfold port_has. g_simpl.
    split; [apply port_has_clear; reflexivity|].
    split; [apply port_has_keep; reflexivity|].
    split; [apply port_has_keep; reflexivity|].
    split; [reflexivity|]. split; [reflexivity|]. split.
    + intros j Hj. apply port_at_upd_other. congruence.
    + reflexivity.
Qed.

(** X16.  [oz_set_port_feature].  The port number is the low byte of
    [wIndex]; outside 1..8 the call returns -ENODEV and changes nothing.
    Setting the reset feature of a port returns 0, takes the port back to
    bus address 0, asks the attached peer, if any, to reset, and in the
    status word sets the enable bit (1) and the reset-change bit (20),
    clears the reset bit (4) and leaves every other bit; setting the
    power feature sets bit 8 only; every other feature changes nothing.
    No other port is touched. *)
Theorem oz_set_port_feature_effect wvalue windex m :
  let port_id := to_u8 windex in
  let port := Z.to_nat (port_id - 1) in
  let r := oz_set_port_feature wvalue windex m in
  let p := port_at (ozhcd (drv_world m)) port in
  let p' := port_at (ozhcd (drv_world (snd r))) port in
  (port_id < 1 \/ OZ_NB_PORTS < port_id -> r = (- ENODEV, m)) /\
  (1 <= port_id <= OZ_NB_PORTS ->
   (port < length (ports (ozhcd (drv_world m))))%nat ->
   fst r = 0 /\
   (forall n, 0 <= n ->
      Z.testbit (status p') n
      = if wvalue =? USB_PORT_FEAT_RESET then
          if (n =? 1) || (n =? 20) then true
          else if n =? 4 then false else Z.testbit (status p) n
        else if wvalue =? USB_PORT_FEAT_POWER then
          if n =? 8 then true else Z.testbit (status p) n
        else Z.testbit (status p) n) /\
   bus_addr p' = (if wvalue =? USB_PORT_FEAT_RESET then 0 else bus_addr p) /\
   ext_calls (snd r)
   = ext_calls m
     ++ (if wvalue =? USB_PORT_FEAT_RESET
         then match hpd p with Some h => [ResetDevice h] | None => [] end
         else []) /\
   port_flags p' = port_flags p /\ hpd p' = hpd p /\
   out_ep p' = out_ep p /\ in_ep p' = in_ep p /\
   (forall j, j <> port ->
      port_at (ozhcd (drv_world (snd r))) j
      = port_at (ozhcd (drv_world m)) j)).
Proof.
  intros port_id port r p p'. unfold p', r, oz_set_port_feature.
  fold port_id. fold port. split.
  - intros [H|H].
    + destruct (Z.ltb_spec port_id 1); [reflexivity|lia].
    + destruct (Z.ltb_spec port_id 1); [reflexivity|].
      destruct (Z.gtb_spec port_id OZ_NB_PORTS); [reflexivity|lia].
  - intros Hw Hin.
    destruct (Z.ltb_spec port_id 1); [lia|].
    destruct (Z.gtb_spec port_id OZ_NB_PORTS); [lia|]. cbn [orb].
    destruct (Z.eqb_spec wvalue USB_PORT_FEAT_RESET) as [Er|Er].
    + assert (Hp1 : port_at (ozhcd (drv_world
                      (on_world (upd_port port (set_bus_addr 0)) m))) port
                    = set_bus_addr 0 p).
      { g_simpl. rewrite port_at_upd_same by exact Hin. reflexivity. }
      rewrite Hp1. g_simpl.
      assert (Hin1 : (port < length (ports (ozhcd
                        (upd_port port (set_bus_addr 0) (drv_world m)))))%nat).
      { unfold upd_port. g_simpl. rewrite length_insert. exact Hin. }
      destruct (hpd p) as [h|] eqn:Hh; eval_const_tests;
        cbn [Z.eqb negb orb fst snd]; g_simpl;
        rewrite port_at_upd_same by exact Hin1;
        rewrite port_at_upd_same by exact Hin; g_simpl;
        (split; [reflexivity|]);
        (split; [intros n Hn;
                 rewrite Z.lor_spec, Z.land_spec, Z.lnot_spec by exact Hn;
                 change USB_PORT_STAT_RESET with (2 ^ 4);
                 change (Z.lor USB_PORT_STAT_ENABLE
                           (Z.shiftl USB_PORT_STAT_C_RESET 16))
                   with (Z.lor (2 ^ 1) (2 ^ 20));
                 rewrite Z.lor_spec, !Z.pow2_bits_eqb by lia;
                 rewrite (Z.eqb_sym 1 n), (Z.eqb_sym 20 n), (Z.eqb_sym 4 n);
                 destruct (n =? 1), (n =? 20), (n =? 4), (Z.testbit _ n);
                 reflexivity|]);
        (split; [reflexivity|]); (split; [try rewrite app_nil_r; reflexivity|]);
        (split; [reflexivity|]); (split; [exact Hh|]);
        (split; [reflexivity|]); (split; [reflexivity|]);
        intros j Hj; rewrite !port_at_upd_other by congruence; reflexivity.
    + destruct (Z.eqb_spec wvalue USB_PORT_FEAT_POWER) as [Ep|Ep];
        eval_const_tests; cbn [Z.eqb negb orb fst snd]; g_simpl.
      * rewrite port_at_upd_same by exact Hin. g_simpl.
        split; [reflexivity|]. split.
        { intros n Hn. rewrite Z.lor_spec, Z.land_spec, Z.lnot_spec by exact Hn.
          change USB_PORT_STAT_POWER with (2 ^ 8).
          rewrite Z.bits_0, Z.pow2_bits_eqb by lia. rewrite (Z.eqb_sym 8 n).
          destruct (n =? 8), (Z.testbit _ n); reflexivity. }
        split; [reflexivity|]. split; [rewrite app_nil_r; reflexivity|].
        split; [reflexivity|]. split; [reflexivity|].
        split; [reflexivity|]. split; [reflexivity|].
        intros j Hj. rewrite port_at_upd_other by congruence. reflexivity.
      * split; [reflexivity|]. split; [intros n Hn; reflexivity|].
        split; [reflexivity|]. split; [rewrite app_nil_r; reflexivity|].
        split; [reflexivity|]. split; [reflexivity|].
        split; [reflexivity|]. split; [reflexivity|].
        intros j Hj. reflexivity.
Qed.

(** X17.  [oz_clear_port_feature].  The port number is the low byte of
    [wIndex]; outside 1..8 the call returns -ENODEV and changes nothing.
    For a port inside, the call returns 0 and clears in the status word:
    bit 1 for the enable feature, bit 8 for power, bit 16 for
    connection-change, bit 17 for enable-change, and for reset-change
    the bits 18 and 20 (the source shifts the feature number 20, not the
    status bit); every other feature clears nothing.  Clearing
    connection-change also sets the port's changed flag.  No other port
    is touched. *)
Theorem oz_clear_port_feature_effect wvalue windex w :
  let port_id := to_u8 windex in
  let port := Z.to_nat (port_id - 1) in
  let r := oz_clear_port_feature wvalue windex w in
  let p := port_at (ozhcd w) port in
  let p' := port_at (ozhcd (snd r)) port in
  (port_id < 1 \/ OZ_NB_PORTS < port_id -> r = (- ENODEV, w)) /\
  (1 <= port_id <= OZ_NB_PORTS ->
   (port < length (ports (ozhcd w)))%nat ->
   fst r = 0 /\
   (forall n, 0 <= n ->
      Z.testbit (status p') n
      = Z.testbit (status p) n
        && negb (if wvalue =? USB_PORT_FEAT_ENABLE then n =? 1
                 else if wvalue =? USB_PORT_FEAT_POWER then n =? 8
                 else if wvalue =? USB_PORT_FEAT_C_CONNECTION then n =? 16
                 else if wvalue =? USB_PORT_FEAT_C_ENABLE then n =? 17
                 else if wvalue =? USB_PORT_FEAT_C_RESET
                      then (n =? 18) || (n =? 20)
                 else false)) /\
   port_flags p'
   = (if wvalue =? USB_PORT_FEAT_C_CONNECTION
      then Z.lor (port_flags p) OZ_PORT_F_CHANGED else port_flags p) /\
   bus_addr p' = bus_addr p /\ hpd p' = hpd p /\
   (forall j, j <> port -> port_at (ozhcd (snd r)) j = port_at (ozhcd w) j) /\
   calls (snd r) = calls w).
Proof.
  intros port_id port r p p'. unfold p', r, oz_clear_port_feature.
  fold port_id. fold port. split.
  - intros [H|H].
    + destruct (Z.ltb_spec port_id 1); [reflexivity|lia].
    + destruct (Z.ltb_spec port_id 1); [reflexivity|].
      destruct (Z.gtb_spec port_id OZ_NB_PORTS); [reflexivity|lia].
  - intros Hw Hin.
    destruct (Z.ltb_spec port_id 1); [lia|].
    destruct (Z.gtb_spec port_id OZ_NB_PORTS); [lia|]. cbn [orb].
    assert (Hin1 : forall f, (port < length (ports (ozhcd (upd_port port f w))))%nat).
    { intros f. unfold upd_port. g_simpl. rewrite length_insert. exact Hin. }
    destruct (Z.eqb_spec wvalue USB_PORT_FEAT_ENABLE) as [E1|E1].
    { subst wvalue. eval_const_tests. cbn [Z.eqb negb fst snd]. g_simpl.
      rewrite port_at_upd_same by exact Hin. g_simpl.
      split; [reflexivity|]. split.
      { intros n Hn. rewrite Z.land_spec, Z.lnot_spec by exact Hn.
        change USB_PORT_STAT_ENABLE with (2 ^ 1).
        rewrite Z.pow2_bits_eqb by lia. rewrite (Z.eqb_sym 1 n). reflexivity. }
      split; [reflexivity|]. split; [reflexivity|]. split; [reflexivity|].
      split; [|reflexivity].
      intros j Hj. rewrite port_at_upd_other by congruence. reflexivity. }
    destruct (Z.eqb_spec wvalue USB_PORT_FEAT_POWER) as [E2|E2].
    { subst wvalue. eval_const_tests. cbn [Z.eqb negb fst snd]. g_simpl.
      rewrite port_at_upd_same by exact Hin. g_simpl.
      split; [reflexivity|]. split.
      { intros n Hn. rewrite Z.land_spec, Z.lnot_spec by exact Hn.
        change USB_PORT_STAT_POWER with (2 ^ 8).
        rewrite Z.pow2_bits_eqb by lia. rewrite (Z.eqb_sym 8 n). reflexivity. }
      split; [reflexivity|]. split; [reflexivity|]. split; [reflexivity|].
      split; [|reflexivity].
      intros j Hj. rewrite port_at_upd_other by congruence. reflexivity. }
    destruct (Z.eqb_spec wvalue USB_PORT_FEAT_C_CONNECTION) as [E3|E3].
    { subst wvalue. eval_const_tests. cbn [Z.eqb negb fst snd]. g_simpl.
      rewrite port_at_upd_same by apply Hin1.
      rewrite port_at_upd_same by exact Hin. g_simpl.
      split; [reflexivity|]. split.
      { intros n Hn. rewrite Z.land_spec, Z.lnot_spec by exact Hn.
        change (Z.shiftl USB_PORT_STAT_C_CONNECTION 16) with (2 ^ 16).
        rewrite Z.pow2_bits_eqb by lia. rewrite (Z.eqb_sym 16 n). reflexivity. }
      split; [reflexivity|]. split; [reflexivity|]. split; [reflexivity|].
      split; [|reflexivity].
      intros j Hj. rewrite !port_at_upd_other by congruence. reflexivity. }
    destruct (Z.eqb_spec wvalue USB_PORT_FEAT_C_ENABLE) as [E4|E4].
    { subst wvalue. eval_const_tests. cbn [Z.eqb negb fst snd]. g_simpl.
      rewrite port_at_upd_same by exact Hin. g_simpl.
      split; [reflexivity|]. split.
      { intros n Hn. rewrite Z.land_spec, Z.lnot_spec by exact Hn.
        change (Z.shiftl USB_PORT_STAT_C_ENABLE 16) with (2 ^ 17).
        rewrite Z.pow2_bits_eqb by lia. rewrite (Z.eqb_sym 17 n). reflexivity. }
      split; [reflexivity|]. split; [reflexivity|]. split; [reflexivity|].
      split; [|reflexivity].
      intros j Hj. rewrite port_at_upd_other by congruence. reflexivity. }
    destruct (Z.eqb_spec wvalue USB_PORT_FEAT_C_RESET) as [E5|E5].
    { subst wvalue. eval_const_tests. cbn [Z.eqb negb fst snd]. g_simpl.
      rewrite port_at_upd_same by exact Hin. g_simpl.
      split; [reflexivity|]. split.
      { intros n Hn. rewrite Z.land_spec, Z.lnot_spec by exact Hn.
        change (Z.shiftl USB_PORT_FEAT_C_RESET 16) with (Z.lor (2 ^ 18) (2 ^ 20)).
        rewrite Z.lor_spec, !Z.pow2_bits_eqb by lia.
        rewrite (Z.eqb_sym 18 n), (Z.eqb_sym 20 n). reflexivity. }
      split; [reflexivity|]. split; [reflexivity|]. split; [reflexivity|].
      split; [|reflexivity].
      intros j Hj. rewrite port_at_upd_other by congruence. reflexivity. }
    eval_const_tests. cbn [Z.eqb negb fst snd].
    split; [reflexivity|]. split; [intros n Hn; rewrite andb_true_r; reflexivity|].
    split; [reflexivity|]. split; [reflexivity|]. split; [reflexivity|].
    split; [|reflexivity]. intros j Hj. reflexivity.
Qed.


(** * Arrival and departure of a peer *)

Lemma pd_scan_spec i j h :
  match pd_scan i j h with
  | Some j' =>
    exists t, (t < i)%nat /\ j' = port_tried t j /\
      port_has (port_at h (Z.to_nat j')) OZ_PORT_F_PRESENT = false /\
      forall t', (t' < t)%nat ->
        port_has (port_at h (Z.to_nat (port_tried t' j))) OZ_PORT_F_PRESENT = true
  | None =>
    forall t, (t < i)%nat ->
      port_has (port_at h (Z.to_nat (port_tried t j))) OZ_PORT_F_PRESENT = true
  end.
Proof.
  revert j; induction i as [|i IH]; intros j; cbn [pd_scan].
  - intros t Ht; lia.
  - fold (next_port j).
    destruct (port_has (port_at h (Z.to_nat (next_port j))) OZ_PORT_F_PRESENT) eqn:Hp.
    + specialize (IH (next_port j)).
      destruct (pd_scan i (next_port j) h) as [j'|].
      * destruct IH as (t & Ht & Hj & Hn & Hall).
        exists (S t). split; [lia|]. split; [exact Hj|]. split; [exact Hn|].
        intros [|t'] Ht'; [exact Hp|]. apply Hall. lia.
      * intros [|t] Ht; [exact Hp|]. apply IH. lia.
    + exists 0%nat. split; [lia|]. split; [reflexivity|]. split; [exact Hp|].
      intros t' Ht'; lia.
Qed.

Lemma port_tried_range t j : 0 <= j -> 0 <= port_tried t j < OZ_NB_PORTS.
Proof.
  revert j; induction t as [|t IH]; intros j Hj; cbn [port_tried].
  - unfold next_port, OZ_NB_PORTS. destruct (Z.geb_spec (j + 1) 8); lia.
  - apply IH. unfold next_port, OZ_NB_PORTS. destruct (Z.geb_spec (j + 1) 8); lia.
Qed.

Lemma port_tried_mod t j :
  0 <= j < OZ_NB_PORTS ->
  port_tried t j = (j + 1 + Z.of_nat t) mod OZ_NB_PORTS.
Proof.
  revert j; induction t as [|t IH]; intros j Hj; cbn [port_tried].
  - unfold next_port, OZ_NB_PORTS in *.
    destruct (Z.geb_spec (j + 1) 8); Z.div_mod_to_equations; lia.
  - rewrite IH.
    + unfold next_port, OZ_NB_PORTS in *.
      destruct (Z.geb_spec (j + 1) 8); Z.div_mod_to_equations; lia.
    + unfold next_port, OZ_NB_PORTS in *. destruct (Z.geb_spec (j + 1) 8); lia.
Qed.

Lemma port_has_lor_set f a b :
  Z.land a b <> 0 -> negb (Z.land (Z.lor f a) b =? 0) = true.
Proof.
  intros H. rewrite Z.land_lor_distr_l.
  destruct (Z.eqb_spec (Z.lor (Z.land f b) (Z.land a b)) 0) as [E|E];
    [|reflexivity].
  apply Z.lor_eq_0_iff in E. destruct E as [_ E]. contradiction.
Qed.

Lemma pd_arrived_eq (ep_ok : bool) (h : Z) (m : driver) (j : Z) :
  let w := drv_world m in
  g_ozhcd w = true -> conn_port (ozhcd w) < 0 ->
  pd_scan (Z.to_nat OZ_NB_PORTS) (pd_arrived_n m) (ozhcd w) = Some j ->
  let port := Z.to_nat j in
  let w1 := upd_port port
              (fun p => set_config_num 0 (set_bus_addr 0 (oz_acquire_port h p)))
              w in
  let w2 := set_ozhcd (set_conn_port j (ozhcd w1)) w1 in
  let w3 := upd_port port
              (fun p : oz_port => set_out_ep
                 (<[0%nat := if ep_ok then Some (oz_ep_alloc 0) else None]>
                    (out_ep p)) p) w2 in
  oz_hcd_pd_arrived ep_ok h m
  = (Some port,
     mk_driver w3 j
       (ext_calls m
        ++ (if negb (Z.land (hcd_flags (ozhcd w)) OZ_HDC_F_SUSPENDED =? 0)
            then [ResumeRootHub] else [])
        ++ [PollRhStatus])).
Proof.
  intros w Hg Hc Hs port w1 w2 w3.
  unfold oz_hcd_pd_arrived. fold w. rewrite Hg. cbn [negb].
  destruct (Z.geb_spec (conn_port (ozhcd w)) 0); [lia|].
  rewrite Hs. fold port. f_equal.
  unfold on_world at 3. cbn [drv_world pd_arrived_n ext_calls]. fold w. fold w1.
  unfold on_world at 2. cbn [drv_world pd_arrived_n ext_calls]. fold w2.
  unfold on_world at 1. cbn [drv_world pd_arrived_n ext_calls]. fold w3.
  change (hcd_flags (ozhcd w3)) with (hcd_flags (ozhcd w)).
  case_if; cbn [negb]; unfold tell, set_pd_arrived_n;
    cbn [drv_world pd_arrived_n ext_calls app]; [rewrite <- app_assoc|];
    reflexivity.
Qed.

(** X18.  [oz_hcd_pd_arrived].  Without a controller, or while another
    port is the connection port, the call fails and changes nothing.
    Otherwise the eight ports are tried in turn, starting behind the
    port the last peer was given: the first one that is not present is
    handed out, every port tried before it being present, and the call
    fails without a change when all eight are present.  The port handed
    out becomes present and changed, has the peer attached, bus address 0
    and no configuration, gets the endpoint 0 object as OUT endpoint 0,
    and is the connection port, so that address 0 resolves to it; no
    other port changes and no URB is handed back. *)
Theorem oz_hcd_pd_arrived_round_robin ep_ok h m :
  let w := drv_world m in
  let n := pd_arrived_n m in
  let r := oz_hcd_pd_arrived ep_ok h m in
  let w' := drv_world (snd r) in
  let present j :=
    port_has (port_at (ozhcd w) (Z.to_nat j)) OZ_PORT_F_PRESENT in
  0 <= n ->
  length (ports (ozhcd w)) = Z.to_nat OZ_NB_PORTS ->
  (g_ozhcd w = false \/ 0 <= conn_port (ozhcd w) -> r = (None, m)) /\
  (g_ozhcd w = true -> conn_port (ozhcd w) < 0 ->
   (fst r = None ->
    snd r = m /\ forall t, (t < 8)%nat -> present (port_tried t n) = true) /\
   (forall port, fst r = Some port ->
      let p := port_at (ozhcd w) port in
      let p' := port_at (ozhcd w') port in
      (exists t, (t < 8)%nat /\ Z.of_nat port = port_tried t n /\
                 forall t', (t' < t)%nat -> present (port_tried t' n) = true) /\
      port_has p OZ_PORT_F_PRESENT = false /\
      port_has p' OZ_PORT_F_PRESENT = true /\
      port_has p' OZ_PORT_F_CHANGED = true /\
      hpd p' = Some h /\ bus_addr p' = 0 /\ config_num p' = 0 /\
      out_ep p'
      = <[0%nat := if ep_ok then Some (oz_ep_alloc 0) else None]> (out_ep p) /\
      conn_port (ozhcd w') = Z.of_nat port /\
      oz_get_port_from_addr (ozhcd w') 0 = Z.of_nat port /\
      pd_arrived_n (snd r) = Z.of_nat port /\
      (forall j, j <> port -> port_at (ozhcd w') j = port_at (ozhcd w) j) /\
      calls w' = calls w)).
Proof.
  intros w n r w' present Hn Hlen.
  unfold w', r. split.
  - unfold oz_hcd_pd_arrived. fold w. intros [H|H].
    + rewrite H. reflexivity.
    + destruct (g_ozhcd w); [|reflexivity]. cbn [negb].
      destruct (Z.geb_spec (conn_port (ozhcd w)) 0); [reflexivity|lia].
  - intros Hg Hc.
    pose proof (pd_scan_spec (Z.to_nat OZ_NB_PORTS) n (ozhcd w)) as Hs.
    pose proof (pd_arrived_eq ep_ok h m) as Heq. fold w n in Heq.
    destruct (pd_scan (Z.to_nat OZ_NB_PORTS) n (ozhcd w)) as [j|] eqn:Escan.
    2:{ split; [|unfold oz_hcd_pd_arrived; fold w n; rewrite Hg, Escan;
                 cbn [negb]; destruct (Z.geb_spec (conn_port (ozhcd w)) 0);
                 [lia|]; intros port Hport; discriminate Hport].
        intros _. split; [|exact Hs].
        unfold oz_hcd_pd_arrived; fold w n; rewrite Hg, Escan.
        cbn [negb]. destruct (Z.geb_spec (conn_port (ozhcd w)) 0); [lia|].
        reflexivity. }
    rewrite (Heq j Hg Hc Escan). clear Heq.
    change (Z.to_nat OZ_NB_PORTS) with 8%nat in Hs.
    + destruct Hs as (t & Ht & Hj & Hnp & Hall). split; [discriminate|].
      intros port Hport. cbn [fst] in Hport. injection Hport as <-.
      pose proof (port_tried_range t n Hn) as Hr. rewrite <- Hj in Hr.
      unfold OZ_NB_PORTS in Hr.
      assert (Hin : (Z.to_nat j < length (ports (ozhcd w)))%nat)
        by (rewrite Hlen; unfold OZ_NB_PORTS; lia).
      cbn [snd]. g_simpl.
      set (f1 := fun p => set_config_num 0 (set_bus_addr 0 (oz_acquire_port h p))).
      set (ep := if ep_ok then Some (oz_ep_alloc 0) else None).
      set (f2 := fun p => set_out_ep (<[0%nat := ep]> (out_ep p)) p).
      set (w1 := upd_port (Z.to_nat j) f1 w).
      set (w2 := set_ozhcd (set_conn_port j (ozhcd w1)) w1).
      assert (Hp1 : port_at (ozhcd w2) (Z.to_nat j) = f1 (port_at (ozhcd w) (Z.to_nat j))).
      { unfold w2. g_simpl. rewrite (port_at_ports _ (ozhcd w1)) by reflexivity.
        unfold w1. apply port_at_upd_same. exact Hin. }
      assert (Hin2 : (Z.to_nat j < length (ports (ozhcd w2)))%nat).
      { unfold w2, w1, upd_port. g_simpl. rewrite length_insert. exact Hin. }
      rewrite port_at_upd_same by exact Hin2. rewrite Hp1.
      split.
      { exists t. split; [exact Ht|]. split; [lia|]. exact Hall. }
      split; [exact Hnp|].
      unfold f2, f1, oz_acquire_port, port_has. g_simpl.
      split; [apply port_has_lor_set; vm_compute; discriminate|].
      split; [apply port_has_lor_set; vm_compute; discriminate|].
      split; [reflexivity|]. split; [reflexivity|]. split; [reflexivity|].
      split; [reflexivity|].
      split; [unfold upd_port, w2; g_simpl; lia|].
      split; [unfold oz_get_port_from_addr, upd_port, w2; cbn [Z.eqb negb]; g_simpl; lia|].
      split; [lia|].
      split.
      { intros i Hi. rewrite port_at_upd_other by congruence.
        unfold w2. g_simpl. rewrite (port_at_ports _ (ozhcd w1)) by reflexivity.
        unfold w1. apply port_at_upd_other. congruence. }
      reflexivity.
Qed.

Lemma oz_hcd_pd_arrived_round_robin_witness :
  let m := boot (world_dev5 false) in
  let w := drv_world m in
  let n := pd_arrived_n m in
  let r := oz_hcd_pd_arrived true 78 m in
  let w' := drv_world (snd r) in
  let present j :=
    port_has (port_at (ozhcd w) (Z.to_nat j)) OZ_PORT_F_PRESENT in
  (g_ozhcd w = false \/ 0 <= conn_port (ozhcd w) -> r = (None, m)) /\
  (g_ozhcd w = true -> conn_port (ozhcd w) < 0 ->
   (fst r = None ->
    snd r = m /\ forall t, (t < 8)%nat -> present (port_tried t n) = true) /\
   (forall port, fst r = Some port ->
      let p := port_at (ozhcd w) port in
      let p' := port_at (ozhcd w') port in
      (exists t, (t < 8)%nat /\ Z.of_nat port = port_tried t n /\
                 forall t', (t' < t)%nat -> present (port_tried t' n) = true) /\
      port_has p OZ_PORT_F_PRESENT = false /\
      port_has p' OZ_PORT_F_PRESENT = true /\
      port_has p' OZ_PORT_F_CHANGED = true /\
      hpd p' = Some 78 /\ bus_addr p' = 0 /\ config_num p' = 0 /\
      out_ep p' = <[0%nat := Some (oz_ep_alloc 0)]> (out_ep p) /\
      conn_port (ozhcd w') = Z.of_nat port /\
      oz_get_port_from_addr (ozhcd w') 0 = Z.of_nat port /\
      pd_arrived_n (snd r) = Z.of_nat port /\
      (forall j, j <> port -> port_at (ozhcd w') j = port_at (ozhcd w) j) /\
      calls w' = calls w)).
Proof.
  apply (oz_hcd_pd_arrived_round_robin true 78 (boot (world_dev5 false))).
  - vm_compute. discriminate.
  - reflexivity.
Defined.

(** ** Enumeration of a new peer *)

Lemma set_address_eq e u w h :
  let port_ix := oz_get_port_from_addr (ozhcd w) (usb_pipedevice (pipe u)) in
  let port := Z.to_nat port_ix in
  let p := port_at (ozhcd w) port in
  0 <= port_ix ->
  port_has p OZ_PORT_F_PRESENT = true ->
  port_has p OZ_PORT_F_DYING = false ->
  hpd p = Some h ->
  is_standard (setup_packet u) = true ->
  bRequest (setup_packet u) = USB_REQ_SET_ADDRESS ->
  0 <= conn_port (ozhcd w) ->
  let w1 := upd_port port (set_next_req_id (to_u8 (next_req_id p + 1))) w in
  let w2 := upd_port (Z.to_nat (conn_port (ozhcd w)))
              (set_bus_addr (to_u8 (wValue (setup_packet u)))) w1 in
  oz_process_ep0_urb e u w
  = oz_complete_urb (set_hcpriv (Some port) u) 0
      (set_ozhcd (set_conn_port (-1) (ozhcd w2)) w2).
Proof.
  intros port_ix port p Hix Hpres Hdy Hh Hstd Hreq Hc w1 w2.
  pose proof (port_at_null_flag _ _ _ Hpres) as Hin.
  unfold oz_process_ep0_urb. fold port_ix.
  destruct (Z.ltb_spec port_ix 0); [lia|]. fold port. fold p.
  rewrite Hpres, Hdy. cbn [negb orb]. fold w1.
  assert (Hp1 : port_at (ozhcd w1) port
                = set_next_req_id (to_u8 (next_req_id p + 1)) p).
  { unfold w1. rewrite port_at_upd_same by exact Hin. reflexivity. }
  rewrite Hp1. g_simpl. rewrite Hh, Hstd.
  unfold ep0_standard. g_simpl. rewrite Hreq, Z.eqb_refl.
  change (conn_port (ozhcd w1)) with (conn_port (ozhcd w)).
  destruct (Z.geb_spec (conn_port (ozhcd w)) 0); [|lia].
  reflexivity.
Qed.

Lemma scan_ports_found ps i addr k p :
  ps !! k = Some p -> bus_addr p = addr ->
  (forall k' q, (k' < k)%nat -> ps !! k' = Some q -> bus_addr q <> addr) ->
  scan_ports ps i addr = i + Z.of_nat k.
Proof.
  revert i k; induction ps as [|q ps IH]; intros i k Hk Hp Hb.
  - discriminate Hk.
  - cbn [scan_ports]. destruct k as [|k].
    + cbn in Hk. injection Hk as ->. rewrite Hp, Z.eqb_refl. lia.
    + destruct (Z.eqb_spec (bus_addr q) addr) as [E|E].
      * exfalso. apply (Hb 0%nat q); [lia|reflexivity|exact E].
      * rewrite (IH (i + 1) k); [lia|exact Hk|exact Hp|].
        intros k' q' Hk' Hq'. apply (Hb (S k') q'); [lia|exact Hq'].
Qed.

(** X19.  Enumeration of a new peer.  After [oz_hcd_pd_arrived] handed
    out a port for the peer, a standard SET_ADDRESS request sent to
    address 0 is completed at once with status 0 by
    [oz_process_ep0_urb]: the port gets the low byte of [wValue] as its
    bus address and the connection-port slot is free again.  When the
    address is not 0 and no other port carries it, the address then
    resolves to this port; the other ports are as before the arrival. *)
Theorem enumerate_new_peer ep_ok h m e u port :
  let w := drv_world m in
  let r := oz_hcd_pd_arrived ep_ok h m in
  let w1 := drv_world (snd r) in
  let a := to_u8 (wValue (setup_packet u)) in
  let w2 := oz_process_ep0_urb e u w1 in
  0 <= pd_arrived_n m ->
  length (ports (ozhcd w)) = Z.to_nat OZ_NB_PORTS ->
  fst r = Some port ->
  port_has (port_at (ozhcd w) port) OZ_PORT_F_DYING = false ->
  usb_pipedevice (pipe u) = 0 ->
  is_standard (setup_packet u) = true ->
  bRequest (setup_packet u) = USB_REQ_SET_ADDRESS ->
  a <> 0 ->
  Forall (fun p => bus_addr p <> a) (ports (ozhcd w)) ->
  conn_port (ozhcd w1) = Z.of_nat port /\
  conn_port (ozhcd w2) = -1 /\
  bus_addr (port_at (ozhcd w2) port) = a /\
  oz_get_port_from_addr (ozhcd w2) a = Z.of_nat port /\
  port_has (port_at (ozhcd w2) port) OZ_PORT_F_PRESENT = true /\
  calls w2 = calls w ++ [Giveback (completed (set_hcpriv (Some port) u) 0) 0] /\
  (forall j, j <> port -> port_at (ozhcd w2) j = port_at (ozhcd w) j).
Proof.
  intros w r w1 a w2 Hn Hlen Hr Hdy Hdev Hstd Hreq Ha Hfree.
  assert (Hg : g_ozhcd w = true /\ conn_port (ozhcd w) < 0).
  { unfold r, oz_hcd_pd_arrived in Hr. fold w in Hr.
    destruct (g_ozhcd w); [|discriminate Hr]. cbn [negb] in Hr.
    destruct (Z.geb_spec (conn_port (ozhcd w)) 0); [discriminate Hr|].
    split; [reflexivity|lia]. }
  destruct Hg as [Hg Hc].
  pose proof (pd_scan_spec (Z.to_nat OZ_NB_PORTS) (pd_arrived_n m) (ozhcd w)) as Hs.
  pose proof (pd_arrived_eq ep_ok h m) as Heq. fold w in Heq.
  destruct (pd_scan (Z.to_nat OZ_NB_PORTS) (pd_arrived_n m) (ozhcd w))
    as [j|] eqn:Escan.
  2:{ unfold r, oz_hcd_pd_arrived in Hr. fold w in Hr.
      rewrite Hg, Escan in Hr. cbn [negb] in Hr.
      destruct (Z.geb_spec (conn_port (ozhcd w)) 0); discriminate Hr. }
  specialize (Heq j Hg Hc Escan). cbv zeta in Heq.
  destruct Hs as (t & Ht & Hj & Hnp & _).
  pose proof (port_tried_range t (pd_arrived_n m) Hn) as Hrange.
  rewrite <- Hj in Hrange. unfold OZ_NB_PORTS in Hrange.
  assert (Hpj : port = Z.to_nat j).
  { unfold r in Hr. rewrite Heq in Hr. cbn [fst] in Hr. congruence. }
  assert (Hin : (port < length (ports (ozhcd w)))%nat)
    by (rewrite Hlen; unfold OZ_NB_PORTS; lia).
  set (f1 := fun p => set_config_num 0 (set_bus_addr 0 (oz_acquire_port h p))) in Heq.
  set (f2 := fun p : oz_port => set_out_ep
               (<[0%nat := if ep_ok then Some (oz_ep_alloc 0) else None]>
                  (out_ep p)) p) in Heq.
  rewrite <- Hpj in Heq.
  set (wa := upd_port port f1 w) in Heq.
  set (wb := set_ozhcd (set_conn_port j (ozhcd wa)) wa) in Heq.
  assert (Hw1 : w1 = upd_port port f2 wb).
  { unfold w1, r. rewrite Heq. reflexivity. }
  assert (Hlenb : length (ports (ozhcd wb)) = length (ports (ozhcd w))).
  { unfold wb, wa, upd_port. g_simpl. apply length_insert. }
  assert (Hp1 : port_at (ozhcd w1) port = f2 (f1 (port_at (ozhcd w) port))).
  { rewrite Hw1. rewrite port_at_upd_same by (rewrite Hlenb; exact Hin).
    f_equal. unfold wb. g_simpl. rewrite (port_at_ports _ (ozhcd wa)) by reflexivity.
    unfold wa. apply port_at_upd_same. exact Hin. }
  assert (Ho1 : forall i, i <> port -> port_at (ozhcd w1) i = port_at (ozhcd w) i).
  { intros i Hi. rewrite Hw1. rewrite port_at_upd_other by congruence.
    unfold wb. g_simpl. rewrite (port_at_ports _ (ozhcd wa)) by reflexivity.
    unfold wa. apply port_at_upd_other. congruence. }
  assert (Hc1 : conn_port (ozhcd w1) = Z.of_nat port).
  { rewrite Hw1. unfold upd_port, wb. g_simpl. lia. }
  assert (Hlen1 : length (ports (ozhcd w1)) = length (ports (ozhcd w))).
  { rewrite Hw1. unfold upd_port. g_simpl. rewrite length_insert. exact Hlenb. }
  assert (Hix : oz_get_port_from_addr (ozhcd w1) (usb_pipedevice (pipe u))
                = Z.of_nat port).
  { rewrite Hdev. unfold oz_get_port_from_addr. cbn [Z.eqb negb]. exact Hc1. }
  pose proof (set_address_eq e u w1 h) as Hsa. cbv zeta in Hsa.
  rewrite Hix, Nat2Z.id, Hp1, Hc1, Nat2Z.id in Hsa.
  assert (Hflags : port_flags (f2 (f1 (port_at (ozhcd w) port)))
                   = Z.lor (port_flags (port_at (ozhcd w) port))
                       (Z.lor OZ_PORT_F_PRESENT OZ_PORT_F_CHANGED)) by reflexivity.
  specialize (Hsa ltac:(lia)).
  assert (Hpres : port_has (f2 (f1 (port_at (ozhcd w) port))) OZ_PORT_F_PRESENT = true).
  { unfold port_has. rewrite Hflags. apply port_has_lor_set. vm_compute. discriminate. }
  assert (Hdy1 : port_has (f2 (f1 (port_at (ozhcd w) port))) OZ_PORT_F_DYING = false).
  { unfold port_has in *. rewrite Hflags, Z.land_lor_distr_l.
    change (Z.land (Z.lor OZ_PORT_F_PRESENT OZ_PORT_F_CHANGED) OZ_PORT_F_DYING) with 0.
    rewrite Z.lor_0_r. exact Hdy. }
  specialize (Hsa Hpres Hdy1 eq_refl Hstd Hreq ltac:(lia)).
  fold a in Hsa.
  set (g := set_next_req_id _) in Hsa.
  set (wc := upd_port port g w1) in Hsa.
  set (wd := upd_port port (set_bus_addr a) wc) in Hsa.
  assert (Hlenc : length (ports (ozhcd wc)) = length (ports (ozhcd w))).
  { unfold wc, upd_port. g_simpl. rewrite length_insert. exact Hlen1. }
  assert (Hpd : port_at (ozhcd wd) port
                = set_bus_addr a (g (f2 (f1 (port_at (ozhcd w) port))))).
  { unfold wd. rewrite port_at_upd_same by (rewrite Hlenc; exact Hin).
    f_equal. unfold wc. rewrite port_at_upd_same by (rewrite Hlen1; exact Hin).
    rewrite Hp1. reflexivity. }
  assert (Hod : forall i, i <> port -> port_at (ozhcd wd) i = port_at (ozhcd w) i).
  { intros i Hi. unfold wd, wc. rewrite !port_at_upd_other by congruence.
    apply Ho1. exact Hi. }
  unfold w2. rewrite Hsa, complete_urb_eq. g_simpl.
  assert (Hpa : forall c i, port_at (set_urb_cancel_list c (set_conn_port (-1) (ozhcd wd))) i
                            = port_at (ozhcd wd) i).
  { intros c i. apply port_at_ports. reflexivity. }
  split; [exact Hc1|]. split; [reflexivity|].
  split; [rewrite Hpa, Hpd; reflexivity|].
  split.
  { unfold oz_get_port_from_addr. destruct (Z.eqb_spec 0 a); [congruence|].
    cbn [negb]. g_simpl.
    assert (Hlk : ports (ozhcd wd) !! port
                  = Some (set_bus_addr a (g (f2 (f1 (port_at (ozhcd w) port)))))).
    { rewrite <- Hpd. unfold port_at.
      destruct (ports (ozhcd wd) !! port) eqn:El; [reflexivity|].
      apply lookup_ge_None in El.
      assert (Hlend : length (ports (ozhcd wd)) = length (ports (ozhcd w))).
      { unfold wd, upd_port. g_simpl. rewrite length_insert. exact Hlenc. }
      lia. }
    rewrite (scan_ports_found _ 0 a port _ Hlk); [lia|reflexivity|].
    intros k' q Hk' Hq.
    assert (Hq' : port_at (ozhcd wd) k' = q) by (unfold port_at; rewrite Hq; reflexivity).
    rewrite Hod in Hq' by lia. subst q.
    rewrite Forall_lookup in Hfree.
    unfold port_at. destruct (ports (ozhcd w) !! k') eqn:El.
    - cbn. apply (Hfree k' o El).
    - apply lookup_ge_None in El. lia. }
  split.
  { rewrite Hpa, Hpd. exact Hpres. }
  split.
  { unfold wd, wc, upd_port. g_simpl. rewrite Hw1. unfold upd_port, wb, wa.
    g_simpl. reflexivity. }
  intros i Hi. rewrite Hpa. apply Hod. exact Hi.
Qed.

Lemma enumerate_new_peer_witness :
  let ep_ok := true in
  let h := 78 in
  let m := boot (world_dev5 false) in
  let e := env0 in
  let u := set_address_urb 1 0 9 in
  let port := 0%nat in
  let w := drv_world m in
  let r := oz_hcd_pd_arrived ep_ok h m in
  let w1 := drv_world (snd r) in
  let a := to_u8 (wValue (setup_packet u)) in
  let w2 := oz_process_ep0_urb e u w1 in
  conn_port (ozhcd w1) = Z.of_nat port /\
  conn_port (ozhcd w2) = -1 /\
  bus_addr (port_at (ozhcd w2) port) = a /\
  oz_get_port_from_addr (ozhcd w2) a = Z.of_nat port /\
  port_has (port_at (ozhcd w2) port) OZ_PORT_F_PRESENT = true /\
  calls w2 = calls w ++ [Giveback (completed (set_hcpriv (Some port) u) 0) 0] /\
  (forall j, j <> port -> port_at (ozhcd w2) j = port_at (ozhcd w) j).
Proof.
  apply (enumerate_new_peer true 78 (boot (world_dev5 false)) env0
           (set_address_urb 1 0 9) 0).
  - vm_compute. discriminate.
  - reflexivity.
  - reflexivity.
  - reflexivity.
  - reflexivity.
  - reflexivity.
  - reflexivity.
  - vm_compute. discriminate.
  - vm_compute. repeat constructor; discriminate.
Defined.


(** * Tearing down endpoints *)

Lemma ep_free_fold port eps m :
  let m' := foldl (fun m ep => oz_ep_free port ep m) m eps in
  drv_world m'
  = set_ozhcd
      (set_orphanage
         (orphanage (ozhcd (drv_world m)) ++ concat (map urb_list eps))
         (ozhcd (drv_world m))) (drv_world m) /\
  ext_calls m'
  = ext_calls m
    ++ stream_deletes (hpd (port_at (ozhcd (drv_world m)) port)) eps /\
  pd_arrived_n m' = pd_arrived_n m.
Proof.
  revert m; induction eps as [|ep eps IH]; intros m; cbn [foldl].
  - cbn [map concat]. unfold stream_deletes. cbn [List.filter map].
    rewrite !app_nil_r. split; [|split; reflexivity].
    destruct m as [[? [] ? ? ? ? ?] ? ?]; reflexivity.
  - destruct (IH (oz_ep_free port ep m)) as (A & B & C). cbv zeta.
    rewrite A, B, C. clear IH A B C.
    unfold oz_ep_free, stream_deletes. cbn [map concat List.filter].
    destruct (negb (Z.land (ep_flags ep) OZ_F_EP_HAVE_STREAM =? 0));
      g_simpl; rewrite <- !app_assoc;
      (split; [reflexivity|split; reflexivity]).
Qed.

Lemma gather_ep_step mask p acc i :
  let r := gather_ep mask (p, acc) i in
  snd r = acc ++ gathered mask p i /\
  (forall j, out_ep (fst r) !! j
             = if bool_decide (j = i) && names_out mask i
               then (fun _ => None) <$> out_ep p !! j else out_ep p !! j) /\
  (forall j, in_ep (fst r) !! j
             = if bool_decide (j = i) && names_in mask i
               then (fun _ => None) <$> in_ep p !! j else in_ep p !! j) /\
  (forall n, n ∈ isoc_out_ep (fst r) <->
             n ∈ isoc_out_ep p /\
             ~ (n = i /\ names_out mask i = true /\ slot (out_ep p) i <> None)) /\
  (forall n, n ∈ isoc_in_ep (fst r) <->
             n ∈ isoc_in_ep p /\
             ~ (n = i /\ names_in mask i = true /\ slot (in_ep p) i <> None)) /\
  port_flags (fst r) = port_flags p /\ status (fst r) = status p /\
  hpd (fst r) = hpd p /\ bus_addr (fst r) = bus_addr p /\
  next_req_id (fst r) = next_req_id p /\ config_num (fst r) = config_num p /\
  num_iface (fst r) = num_iface p /\ iface (fst r) = iface p.
Proof.
  unfold gather_ep, gathered, slot, names_out, names_in.
  set (no := negb (Z.land mask (Z.shiftl 1 (Z.of_nat i)) =? 0)).
  set (ni := negb (Z.land mask (Z.shiftl 1 (Z.of_nat i + OZ_NB_ENDPOINTS)) =? 0)).
  assert (Hins : forall (t : list (option oz_endpoint)) j ep,
            mjoin (t !! i) = Some ep ->
            <[i := None]> t !! j
            = if bool_decide (j = i) then (fun _ => None) <$> t !! j else t !! j).
  { intros t j ep Ht. destruct (decide (j = i)) as [->|Hne].
    - rewrite bool_decide_eq_true_2 by reflexivity.
      destruct (t !! i) as [o|] eqn:Et; [|discriminate Ht].
      rewrite list_lookup_insert_eq by (eapply lookup_lt_Some, Et). reflexivity.
    - rewrite bool_decide_eq_false_2 by exact Hne.
      apply list_lookup_insert_ne. congruence. }
  assert (Hnone : forall (t : list (option oz_endpoint)) j,
            mjoin (t !! i) = None ->
            t !! j = if bool_decide (j = i) then (fun _ => None) <$> t !! j
                     else t !! j).
  { intros t j Ht. destruct (decide (j = i)) as [->|Hne].
    - rewrite bool_decide_eq_true_2 by reflexivity.
      destruct (t !! i) as [[ep|]|]; [discriminate Ht|reflexivity|reflexivity].
    - rewrite bool_decide_eq_false_2 by exact Hne. reflexivity. }
  assert (Hfil : forall (l : list nat) n,
            n ∈ filter (fun n => n <> i) l <-> n ∈ l /\ n <> i).
  { intros l n. rewrite list_elem_of_filter. tauto. }
  destruct (mjoin (out_ep p !! i)) as [epo|] eqn:Eo;
    destruct (mjoin (in_ep p !! i)) as [epi|] eqn:Ei;
    destruct no, ni; g_simpl; rewrite ?Eo, ?Ei; g_simpl;
    cbn [option_list app]; rewrite ?app_nil_r;
    (split; [try rewrite <- app_assoc; reflexivity|]);
    (split; [intros j; rewrite ?andb_true_r, ?andb_false_r;
             first [eapply Hins; eassumption | apply Hnone; assumption
                   | reflexivity]|]);
    (split; [intros j; rewrite ?andb_true_r, ?andb_false_r;
             first [eapply Hins; eassumption | apply Hnone; assumption
                   | reflexivity]|]);
    (split; [intros n; rewrite ?Hfil; split;
             [intros H; repeat split; try tauto;
              try (intros (A & B & C); first [discriminate B
                                              | apply C; reflexivity | tauto])
             |intros [H1 H2]; try split; try tauto;
              try (intros ->; apply H2; repeat split; congruence)]|]);
    (split; [intros n; rewrite ?Hfil; split;
             [intros H; repeat split; try tauto;
              try (intros (A & B & C); first [discriminate B
                                              | apply C; reflexivity | tauto])
             |intros [H1 H2]; try split; try tauto;
              try (intros ->; apply H2; repeat split; congruence)]|]);
    repeat split; reflexivity.
Qed.

Lemma flat_map_ext_in {A B} (f g : A -> list B) l :
  (forall a, a ∈ l -> f a = g a) -> flat_map f l = flat_map g l.
Proof.
  induction l as [|a l IH]; intros H; [reflexivity|].
  cbn [flat_map]. rewrite (H a) by left. rewrite IH; [reflexivity|].
  intros b Hb. apply H. right. exact Hb.
Qed.

Lemma gather_fold mask l :
  NoDup l -> forall p acc,
  let r := foldl (gather_ep mask) (p, acc) l in
  snd r = acc ++ flat_map (gathered mask p) l /\
  (forall j, out_ep (fst r) !! j
             = if bool_decide (j ∈ l) && names_out mask j
               then (fun _ => None) <$> out_ep p !! j else out_ep p !! j) /\
  (forall j, in_ep (fst r) !! j
             = if bool_decide (j ∈ l) && names_in mask j
               then (fun _ => None) <$> in_ep p !! j else in_ep p !! j) /\
  (forall n, n ∈ isoc_out_ep (fst r) <->
             n ∈ isoc_out_ep p /\
             ~ (n ∈ l /\ names_out mask n = true /\ slot (out_ep p) n <> None)) /\
  (forall n, n ∈ isoc_in_ep (fst r) <->
             n ∈ isoc_in_ep p /\
             ~ (n ∈ l /\ names_in mask n = true /\ slot (in_ep p) n <> None)) /\
  port_flags (fst r) = port_flags p /\ status (fst r) = status p /\
  hpd (fst r) = hpd p /\ bus_addr (fst r) = bus_addr p /\
  next_req_id (fst r) = next_req_id p /\ config_num (fst r) = config_num p /\
  num_iface (fst r) = num_iface p /\ iface (fst r) = iface p.
Proof.
  induction 1 as [|i l Hi Hnd IH]; intros p acc.
  - cbn [foldl fst snd flat_map]. rewrite app_nil_r.
    split; [reflexivity|].
    split; [intros j; rewrite bool_decide_eq_false_2 by apply not_elem_of_nil;
            reflexivity|].
    split; [intros j; rewrite bool_decide_eq_false_2 by apply not_elem_of_nil;
            reflexivity|].
    split; [intros n; split; [intros H; split; [exact H|];
                              intros (A & _); apply not_elem_of_nil in A; exact A
                             |tauto]|].
    split; [intros n; split; [intros H; split; [exact H|];
                              intros (A & _); apply not_elem_of_nil in A; exact A
                             |tauto]|].
    repeat split; reflexivity.
  - cbn [foldl].
    destruct (gather_ep_step mask p acc i)
      as (S1 & S2 & S3 & S4 & S5 & F1 & F2 & F3 & F4 & F5 & F6 & F7 & F8).
    destruct (gather_ep mask (p, acc) i) as [p1 acc1]. cbn [fst snd] in *.
    destruct (IH p1 acc1)
      as (I1 & I2 & I3 & I4 & I5 & G1 & G2 & G3 & G4 & G5 & G6 & G7 & G8).
    set (r := foldl (gather_ep mask) (p1, acc1) l) in *.
    assert (Hslo : forall j, j <> i -> slot (out_ep p1) j = slot (out_ep p) j).
    { intros j Hj. unfold slot. rewrite S2, bool_decide_eq_false_2 by exact Hj.
      reflexivity. }
    assert (Hsli : forall j, j <> i -> slot (in_ep p1) j = slot (in_ep p) j).
    { intros j Hj. unfold slot. rewrite S3, bool_decide_eq_false_2 by exact Hj.
      reflexivity. }
    split.
    { rewrite I1, S1, <- app_assoc. cbn [flat_map]. f_equal. f_equal.
      apply flat_map_ext_in. intros j Hj.
      assert (j <> i) by (intros ->; contradiction).
      unfold gathered. rewrite Hslo, Hsli by assumption. reflexivity. }
    split.
    { intros j. rewrite I2, S2. destruct (decide (j = i)) as [->|Hne].
      - rewrite (bool_decide_eq_false_2 (i ∈ l)) by exact Hi.
        rewrite (bool_decide_eq_true_2 (i ∈ i :: l)) by left.
        rewrite bool_decide_eq_true_2 by reflexivity. reflexivity.
      - rewrite (bool_decide_eq_false_2 (j = i)) by exact Hne. cbn [andb].
        destruct (decide (j ∈ l)) as [Hl|Hl].
        + rewrite !bool_decide_eq_true_2 by (try right; exact Hl). reflexivity.
        + rewrite !bool_decide_eq_false_2; [reflexivity| |exact Hl].
          intros H. apply elem_of_cons in H. tauto. }
    split.
    { intros j. rewrite I3, S3. destruct (decide (j = i)) as [->|Hne].
      - rewrite (bool_decide_eq_false_2 (i ∈ l)) by exact Hi.
        rewrite (bool_decide_eq_true_2 (i ∈ i :: l)) by left.
        rewrite bool_decide_eq_true_2 by reflexivity. reflexivity.
      - rewrite (bool_decide_eq_false_2 (j = i)) by exact Hne. cbn [andb].
        destruct (decide (j ∈ l)) as [Hl|Hl].
        + rewrite !bool_decide_eq_true_2 by (try right; exact Hl). reflexivity.
        + rewrite !bool_decide_eq_false_2; [reflexivity| |exact Hl].
          intros H. apply elem_of_cons in H. tauto. }
    split.
    { intros n. rewrite I4, S4. split.
      - intros ((A & B) & C). split; [exact A|]. intros (D & E & F).
        apply elem_of_cons in D. destruct D as [->|D].
        + apply B. auto.
        + apply C. split; [exact D|]. split; [exact E|].
          rewrite Hslo; [exact F|]. intros ->. contradiction.
      - intros (A & B). split; [split; [exact A|]|].
        + intros (-> & E & F). apply B. split; [left|]. auto.
        + intros (D & E & F). apply B. split; [right; exact D|].
          split; [exact E|]. rewrite <- Hslo; [exact F|]. intros ->. contradiction. }
    split.
    { intros n. rewrite I5, S5. split.
      - intros ((A & B) & C). split; [exact A|]. intros (D & E & F).
        apply elem_of_cons in D. destruct D as [->|D].
        + apply B. auto.
        + apply C. split; [exact D|]. split; [exact E|].
          rewrite Hsli; [exact F|]. intros ->. contradiction.
      - intros (A & B). split; [split; [exact A|]|].
        + intros (-> & E & F). apply B. split; [left|]. auto.
        + intros (D & E & F). apply B. split; [right; exact D|].
          split; [exact E|]. rewrite <- Hsli; [exact F|]. intros ->. contradiction. }
    repeat split; congruence.
Qed.

(** The state after [oz_clean_endpoints_for_interface], from the port
    and the endpoints its gathering loop ends with. *)
Lemma clean_interface_eq port if_ix m :
  let w := drv_world m in
  let p := port_at (ozhcd w) port in
  let mask := default 0 (ep_mask <$> (default [] (iface p) !! Z.to_nat if_ix)) in
  let p0 := set_iface (alter (set_ep_mask 0) (Z.to_nat if_ix) <$> iface p) p in
  let r := foldl (gather_ep mask) (p0, []) (seq 0 (Z.to_nat OZ_NB_ENDPOINTS)) in
  if_ix < num_iface p ->
  (port < length (ports (ozhcd w)))%nat ->
  let m' := oz_clean_endpoints_for_interface port if_ix m in
  let w1 := upd_port port (fun _ => fst r) w in
  drv_world m'
  = set_ozhcd
      (set_orphanage (orphanage (ozhcd w) ++ concat (map urb_list (snd r)))
         (ozhcd w1)) w1 /\
  ext_calls m' = ext_calls m ++ stream_deletes (hpd p) (snd r) /\
  pd_arrived_n m' = pd_arrived_n m /\
  hpd (fst r) = hpd p.
Proof.
  intros w p mask p0 r Hif Hin m' w1.
  assert (Hh : hpd (fst r) = hpd p).
  { destruct (gather_fold mask (seq 0 (Z.to_nat OZ_NB_ENDPOINTS))
                (NoDup_seq _ _) p0 [])
      as (_ & _ & _ & _ & _ & _ & _ & F3 & _). exact F3. }
  unfold m', oz_clean_endpoints_for_interface. fold w. fold p.
  destruct (Z.geb_spec if_ix (num_iface p)); [lia|].
  fold mask. fold p0. fold r.
  destruct r as [p1 eps] eqn:Er. cbn [fst snd] in *.
  destruct (ep_free_fold port eps (on_world (upd_port port (fun _ => p1)) m))
    as (A & B & C).
  cbv zeta in A, B, C. rewrite A, B, C. g_simpl. fold w. fold w1.
  split; [reflexivity|]. split; [|split; [reflexivity|exact Hh]].
  f_equal. f_equal. unfold w1. rewrite port_at_upd_same by exact Hin. exact Hh.
Qed.

Lemma slot_cleared (t t' : list (option oz_endpoint)) i :
  t' !! i = (fun _ => None) <$> t !! i -> slot t' i = None.
Proof.
  unfold slot. intros ->. destruct (t !! i); reflexivity.
Qed.

(** X20.  [oz_clean_endpoints_for_interface] for an interface of the
    port.  Every endpoint the interface's mask names (bit [i] the OUT
    endpoint [i], bit [i + 16] the IN endpoint [i]) leaves its table slot,
    which becomes NULL, and the isochronous list it was on; the URBs
    still queued on these endpoints are appended to the orphanage,
    endpoint by endpoint in the order of the gathering loop, and none is
    handed back; the streams of the endpoints that have one are
    released.  The endpoints the mask does not name, the other fields of
    the port and the other ports are untouched, and the mask is left
    empty.  An interface number that is not below [num_iface] changes
    nothing. *)
Theorem oz_clean_endpoints_for_interface_orphans port if_ix m :
  let w := drv_world m in
  let p := port_at (ozhcd w) port in
  let mask := default 0 (ep_mask <$> (default [] (iface p) !! Z.to_nat if_ix)) in
  let eps := flat_map (gathered mask p) (seq 0 (Z.to_nat OZ_NB_ENDPOINTS)) in
  let m' := oz_clean_endpoints_for_interface port if_ix m in
  let w' := drv_world m' in
  let p' := port_at (ozhcd w') port in
  (num_iface p <= if_ix -> m' = m) /\
  (if_ix < num_iface p ->
   (port < length (ports (ozhcd w)))%nat ->
   orphanage (ozhcd w') = orphanage (ozhcd w) ++ concat (map urb_list eps) /\
   calls w' = calls w /\
   ext_calls m' = ext_calls m ++ stream_deletes (hpd p) eps /\
   (forall i, (i < 16)%nat -> names_out mask i = true ->
              slot (out_ep p') i = None) /\
   (forall i, (i < 16)%nat -> names_in mask i = true ->
              slot (in_ep p') i = None) /\
   (forall i, names_out mask i = false -> out_ep p' !! i = out_ep p !! i) /\
   (forall i, names_in mask i = false -> in_ep p' !! i = in_ep p !! i) /\
   (forall n, n ∈ isoc_out_ep p' <->
              n ∈ isoc_out_ep p /\
              ~ ((n < 16)%nat /\ names_out mask n = true /\
                 slot (out_ep p) n <> None)) /\
   (forall n, n ∈ isoc_in_ep p' <->
              n ∈ isoc_in_ep p /\
              ~ ((n < 16)%nat /\ names_in mask n = true /\
                 slot (in_ep p) n <> None)) /\
   iface p' = (alter (set_ep_mask 0) (Z.to_nat if_ix) <$> iface p) /\
   port_flags p' = port_flags p /\ status p' = status p /\
   hpd p' = hpd p /\ bus_addr p' = bus_addr p /\
   num_iface p' = num_iface p /\ config_num p' = config_num p /\
   conn_port (ozhcd w') = conn_port (ozhcd w) /\
   (forall j, j <> port -> port_at (ozhcd w') j = port_at (ozhcd w) j)).
Proof.
  intros w p mask eps m' w' p'. split.
  - intros H. unfold m', oz_clean_endpoints_for_interface. fold w. fold p.
    destruct (Z.geb_spec if_ix (num_iface p)); [reflexivity|lia].
  - intros Hif Hin.
    destruct (clean_interface_eq port if_ix m Hif Hin) as (A & B & _ & _).
    fold w p mask in A, B. cbv zeta in A, B.
    set (p0 := set_iface (alter (set_ep_mask 0) (Z.to_nat if_ix) <$> iface p) p) in *.
    destruct (gather_fold mask (seq 0 (Z.to_nat OZ_NB_ENDPOINTS))
                (NoDup_seq _ _) p0 [])
      as (I1 & I2 & I3 & I4 & I5 & G1 & G2 & G3 & G4 & G5 & G6 & G7 & G8).
    set (r := foldl (gather_ep mask) (p0, []) (seq 0 (Z.to_nat OZ_NB_ENDPOINTS))) in *.
    cbn [app] in I1.
    assert (Hg : snd r = eps).
    { rewrite I1. reflexivity. }
    assert (Hp' : p' = fst r).
    { unfold p', w', m'. rewrite A. g_simpl.
      rewrite (port_at_ports _ (ozhcd (upd_port port (fun _ => fst r) w)))
        by reflexivity.
      apply port_at_upd_same. exact Hin. }
    assert (Hseq : forall i, (i < 16)%nat ->
              bool_decide (i ∈ seq 0 (Z.to_nat OZ_NB_ENDPOINTS)) = true).
    { intros i Hi. apply bool_decide_eq_true_2. apply elem_of_seq.
      change (Z.to_nat OZ_NB_ENDPOINTS) with 16%nat. lia. }
    unfold w', m'. rewrite A, B, Hg. g_simpl. fold w' m' p'. rewrite Hp'.
    split; [reflexivity|]. split; [unfold upd_port; reflexivity|].
    split; [reflexivity|].
    split.
    { intros i Hi Hn. apply (slot_cleared (out_ep p0)).
      rewrite I2, Hseq, Hn by exact Hi. reflexivity. }
    split.
    { intros i Hi Hn. apply (slot_cleared (in_ep p0)).
      rewrite I3, Hseq, Hn by exact Hi. reflexivity. }
    split.
    { intros i Hn. rewrite I2, Hn, andb_false_r. reflexivity. }
    split.
    { intros i Hn. rewrite I3, Hn, andb_false_r. reflexivity. }
    split.
    { intros n. rewrite I4, elem_of_seq.
      change (Z.to_nat OZ_NB_ENDPOINTS) with 16%nat.
      change (isoc_out_ep p0) with (isoc_out_ep p).
      change (out_ep p0) with (out_ep p).
      split; intros [H1 H2]; (split; [exact H1|]); intros (H3 & H4); apply H2;
        (split; [lia|exact H4]). }
    split.
    { intros n. rewrite I5, elem_of_seq.
      change (Z.to_nat OZ_NB_ENDPOINTS) with 16%nat.
      change (isoc_in_ep p0) with (isoc_in_ep p).
      change (in_ep p0) with (in_ep p).
      split; intros [H1 H2]; (split; [exact H1|]); intros (H3 & H4); apply H2;
        (split; [lia|exact H4]). }
    split; [exact G8|]. split; [exact G1|]. split; [exact G2|].
    split; [exact G3|]. split; [exact G4|]. split; [exact G7|].
    split; [exact G6|]. split; [unfold upd_port; reflexivity|].
    intros j Hj.
    rewrite (port_at_ports _ (ozhcd (upd_port port (fun _ => fst r) w)))
      by reflexivity.
    apply port_at_upd_other. congruence.
Qed.


(** * Departure of a peer *)

Lemma kept_or_orphaned_refl (p : oz_port) (o : list oz_urb_link) : kept_or_orphaned p p o.
Proof. intros d i. left. reflexivity. Qed.

Lemma kept_or_orphaned_trans p p1 p2 o1 o2 :
  kept_or_orphaned p p1 o1 -> kept_or_orphaned p1 p2 o2 ->
  (forall x, x ∈ o1 -> x ∈ o2) ->
  kept_or_orphaned p p2 o2.
Proof.
  intros H1 H2 Ho d i. destruct (H1 d i) as [E1|[E1 Q1]], (H2 d i) as [E2|[E2 Q2]].
  - left. congruence.
  - right. split; [exact E2|]. intros ep x Hs Hx. apply (Q2 ep x); [congruence|exact Hx].
  - right. split; [congruence|]. intros ep x Hs Hx. apply Ho, (Q1 ep x Hs Hx).
  - right. split; [exact E2|]. intros ep x Hs Hx. apply Ho, (Q1 ep x Hs Hx).
Qed.

Lemma teardown_frame_refl port m : teardown_frame port m m.
Proof.
  unfold teardown_frame. repeat split; try reflexivity.
  - exists []. rewrite app_nil_r. reflexivity.
  - apply kept_or_orphaned_refl.
Qed.

Lemma teardown_frame_trans port m m1 m2 :
  teardown_frame port m m1 -> teardown_frame port m1 m2 ->
  teardown_frame port m m2.
Proof.
  unfold teardown_frame.
  intros (A1 & A2 & A3 & A4 & A5 & A6 & A7 & A8 & A9 & A10 & A11 & A12 & A13
          & A14 & (mv1 & A15) & A16)
         (B1 & B2 & B3 & B4 & B5 & B6 & B7 & B8 & B9 & B10 & B11 & B12 & B13
          & B14 & (mv2 & B15) & B16).
  split; [congruence|]. split; [congruence|]. split; [congruence|].
  split; [congruence|]. split; [congruence|]. split; [congruence|].
  split; [congruence|].
  split; [intros j Hj; rewrite B8, A8 by exact Hj; reflexivity|].
  split; [congruence|]. split; [congruence|]. split; [congruence|].
  split; [congruence|]. split; [congruence|]. split; [congruence|].
  split.
  - exists (mv1 ++ mv2). rewrite B15, A15, app_assoc. reflexivity.
  - eapply kept_or_orphaned_trans; [exact A16|exact B16|].
    intros x Hx. rewrite B15. apply elem_of_app. left. exact Hx.
Qed.

Lemma gathered_holds (mask : Z) (p : oz_port) (d : bool) (i : nat) (ep : oz_endpoint) :
  (i < 16)%nat ->
  (if d then names_in mask i else names_out mask i) = true ->
  slot_of p d i = Some ep ->
  ep ∈ flat_map (gathered mask p) (seq 0 (Z.to_nat OZ_NB_ENDPOINTS)).
Proof.
  intros Hi Hn Hs. apply list_elem_of_In, in_flat_map. exists i. split.
  - apply in_seq. change (Z.to_nat OZ_NB_ENDPOINTS) with 16%nat. lia.
  - apply list_elem_of_In. unfold gathered, slot_of in *. apply elem_of_app.
    destruct d; [right|left]; rewrite Hn, Hs; cbn; left.
Qed.

Lemma slot_beyond_table (t : list (option oz_endpoint)) i :
  (length t <= i)%nat -> slot t i = None.
Proof.
  intros H. unfold slot. rewrite (proj2 (lookup_ge_None t i)) by exact H.
  reflexivity.
Qed.

Lemma clean_interface_frame port if_ix m :
  (port < length (ports (ozhcd (drv_world m))))%nat ->
  teardown_frame port m (oz_clean_endpoints_for_interface port if_ix m).
Proof.
  intros Hin.
  set (w := drv_world m). set (p := port_at (ozhcd w) port).
  destruct (Z.lt_ge_cases if_ix (num_iface p)) as [Hif|Hif].
  2:{ replace (oz_clean_endpoints_for_interface port if_ix m) with m.
      - apply teardown_frame_refl.
      - unfold oz_clean_endpoints_for_interface. fold w. fold p.
        destruct (Z.geb_spec if_ix (num_iface p)); [reflexivity|lia]. }
  destruct (clean_interface_eq port if_ix m Hif Hin) as (A & B & C & _).
  fold w p in A, B. cbv zeta in A, B.
  set (mask := default 0 (ep_mask <$> (default [] (iface p) !! Z.to_nat if_ix))) in *.
  set (p0 := set_iface (alter (set_ep_mask 0) (Z.to_nat if_ix) <$> iface p) p) in *.
  destruct (gather_fold mask (seq 0 (Z.to_nat OZ_NB_ENDPOINTS))
              (NoDup_seq _ _) p0 [])
    as (I1 & I2 & I3 & I4 & I5 & G1 & G2 & G3 & G4 & G5 & G6 & G7 & G8).
  set (r := foldl (gather_ep mask) (p0, []) (seq 0 (Z.to_nat OZ_NB_ENDPOINTS))) in *.
  cbn [app] in I1.
  set (m' := oz_clean_endpoints_for_interface port if_ix m) in *.
  assert (Hp' : port_at (ozhcd (drv_world m')) port = fst r).
  { rewrite A. g_simpl.
    rewrite (port_at_ports _ (ozhcd (upd_port port (fun _ => fst r) w)))
      by reflexivity.
    apply port_at_upd_same. exact Hin. }
  unfold teardown_frame. fold w. fold p. rewrite Hp'. rewrite A. g_simpl.
  split; [unfold upd_port; reflexivity|]. split; [unfold upd_port; reflexivity|].
  split; [unfold upd_port; reflexivity|]. split; [unfold upd_port; reflexivity|].
  split; [unfold upd_port; reflexivity|]. split; [unfold upd_port; reflexivity|].
  split; [unfold upd_port; g_simpl; apply length_insert|].
  split.
  { intros j Hj.
    rewrite (port_at_ports _ (ozhcd (upd_port port (fun _ => fst r) w)))
      by reflexivity.
    apply port_at_upd_other. congruence. }
  split; [exact G1|]. split; [exact G2|]. split; [exact G3|].
  split; [exact G4|]. split; [exact G6|]. split; [exact G7|].
  split; [eexists; reflexivity|].
  intros d i. unfold slot_of.
  assert (Hcase : forall (t t' : list (option oz_endpoint)) (named : bool),
            t' !! i = (if bool_decide (i ∈ seq 0 (Z.to_nat OZ_NB_ENDPOINTS)) && named
                       then (fun _ => None) <$> t !! i else t !! i) ->
            slot t' i = slot t i \/
            (slot t' i = None /\ (i < 16)%nat /\ named = true)).
  { intros t t' named Ht.
    destruct (decide (i ∈ seq 0 (Z.to_nat OZ_NB_ENDPOINTS))) as [Hl|Hl].
    - rewrite bool_decide_eq_true_2 in Ht by exact Hl. destruct named; cbn [andb] in Ht.
      + right. split; [eapply slot_cleared, Ht|]. apply elem_of_seq in Hl.
        change (Z.to_nat OZ_NB_ENDPOINTS) with 16%nat in Hl. split; [lia|reflexivity].
      + left. unfold slot. rewrite Ht. reflexivity.
    - rewrite bool_decide_eq_false_2 in Ht by exact Hl. left. unfold slot.
      rewrite Ht. reflexivity. }
  destruct d.
  - destruct (Hcase (in_ep p0) (in_ep (fst r)) (names_in mask i) (I3 i))
      as [E|(E & Hi & Hn)]; [left; exact E|].
    right. split; [exact E|]. intros ep x Hs Hx.
    apply elem_of_app. right. rewrite I1.
    apply list_elem_of_In, in_concat. exists (urb_list ep). split.
    + apply in_map, list_elem_of_In. apply (gathered_holds mask p0 true i ep Hi Hn Hs).
    + apply list_elem_of_In. exact Hx.
  - destruct (Hcase (out_ep p0) (out_ep (fst r)) (names_out mask i) (I2 i))
      as [E|(E & Hi & Hn)]; [left; exact E|].
    right. split; [exact E|]. intros ep x Hs Hx.
    apply elem_of_app. right. rewrite I1.
    apply list_elem_of_In, in_concat. exists (urb_list ep). split.
    + apply in_map, list_elem_of_In. apply (gathered_holds mask p0 false i ep Hi Hn Hs).
    + apply list_elem_of_In. exact Hx.
Qed.

Lemma clean_interfaces_frame port (l : list nat) m :
  (port < length (ports (ozhcd (drv_world m))))%nat ->
  teardown_frame port m
    (foldl (fun m i => oz_clean_endpoints_for_interface port (Z.of_nat i) m)
       m l).
Proof.
  revert m. induction l as [|i l IH]; intros m Hin; cbn [foldl].
  - apply teardown_frame_refl.
  - pose proof (clean_interface_frame port (Z.of_nat i) m Hin) as F.
    eapply teardown_frame_trans; [exact F|]. apply IH.
    destruct F as (_ & _ & _ & _ & _ & _ & L & _). cbv zeta in L.
    rewrite L. exact Hin.
Qed.

Lemma status_departed (s : Z) :
  let s' := Z.lor (Z.land s (Z.lnot (Z.lor USB_PORT_STAT_CONNECTION
                                       USB_PORT_STAT_ENABLE)))
              (Z.shiftl USB_PORT_STAT_C_CONNECTION 16) in
  Z.testbit s' 0 = false /\ Z.testbit s' 1 = false /\ Z.testbit s' 16 = true.
Proof.
  cbv zeta. rewrite !Z.lor_spec, !Z.land_spec, !Z.lnot_spec by lia.
  change (Z.testbit (Z.lor USB_PORT_STAT_CONNECTION USB_PORT_STAT_ENABLE) 0)
    with true.
  change (Z.testbit (Z.lor USB_PORT_STAT_CONNECTION USB_PORT_STAT_ENABLE) 1)
    with true.
  change (Z.testbit (Z.shiftl USB_PORT_STAT_C_CONNECTION 16) 0) with false.
  change (Z.testbit (Z.shiftl USB_PORT_STAT_C_CONNECTION 16) 1) with false.
  change (Z.testbit (Z.shiftl USB_PORT_STAT_C_CONNECTION 16) 16) with true.
  cbn [negb]. rewrite !andb_false_r, orb_true_r. repeat split.
Qed.

Lemma masked_bits_clear (f m c b : Z) :
  Z.land b m = b -> Z.land c b = 0 ->
  Z.land (Z.lor (Z.land f (Z.lnot m)) c) b = 0.
Proof.
  intros Hm Hc. apply Z.bits_inj_0. intros n.
  destruct (Z.neg_nonneg_cases n) as [Hn|Hn];
    [apply Z.testbit_neg_r; exact Hn|].
  rewrite Z.land_spec, Z.lor_spec, Z.land_spec, Z.lnot_spec by exact Hn.
  pose proof (f_equal (fun z => Z.testbit z n) Hm) as Hm'.
  pose proof (f_equal (fun z => Z.testbit z n) Hc) as Hc'.
  cbv beta in Hm', Hc'. rewrite Z.land_spec in Hm', Hc'.
  rewrite Z.bits_0 in Hc'.
  destruct (Z.testbit b n), (Z.testbit m n), (Z.testbit c n),
    (Z.testbit f n); cbn in *; congruence.
Qed.

Lemma flags_departed (f : Z) :
  let f' := Z.lor (Z.land f (Z.lnot (Z.lor OZ_PORT_F_PRESENT OZ_PORT_F_DYING)))
              OZ_PORT_F_CHANGED in
  negb (Z.land f' OZ_PORT_F_PRESENT =? 0) = false /\
  negb (Z.land f' OZ_PORT_F_DYING =? 0) = false /\
  negb (Z.land f' OZ_PORT_F_CHANGED =? 0) = true.
Proof.
  cbv zeta. split; [|split].
  - rewrite masked_bits_clear by reflexivity. reflexivity.
  - rewrite masked_bits_clear by reflexivity. reflexivity.
  - apply port_has_lor_set. discriminate.
Qed.


(** X21.  Departure of a peer.  [oz_hcd_pd_departed] on a port of the
    table leaves the port absent: PRESENT and DYING are clear, CHANGED is
    set, the connection and enable bits of the status are clear and its
    connection-change bit is set; the port has no peer, bus address 0xff,
    no configuration and no interface, and its OUT endpoint 0 is gone.
    No URB is given back or dropped: the giveback log is unchanged, the
    orphanage only grows, and every endpoint of the port is as it was or
    is gone with the URBs that were queued on it in the orphanage.  The
    connection port is cleared when it was this port, the other ports are
    untouched, and the last outside call polls the root hub. *)
Theorem oz_hcd_pd_departed_state port m :
  (port < length (ports (ozhcd (drv_world m))))%nat ->
  let w := drv_world m in
  let m' := oz_hcd_pd_departed (Some port) m in
  let w' := drv_world m' in
  let p := port_at (ozhcd w) port in
  let p' := port_at (ozhcd w') port in
  port_has p' OZ_PORT_F_PRESENT = false /\
  port_has p' OZ_PORT_F_DYING = false /\
  port_has p' OZ_PORT_F_CHANGED = true /\
  Z.testbit (status p') 0 = false /\
  Z.testbit (status p') 1 = false /\
  Z.testbit (status p') 16 = true /\
  hpd p' = None /\ bus_addr p' = 255 /\ config_num p' = 0 /\
  num_iface p' = 0 /\ iface p' = None /\
  slot_of p' false 0 = None /\
  kept_or_orphaned p p' (orphanage (ozhcd w')) /\
  (exists moved, orphanage (ozhcd w') = orphanage (ozhcd w) ++ moved) /\
  calls w' = calls w /\
  conn_port (ozhcd w')
  = (if conn_port (ozhcd w) =? Z.of_nat port then -1 else conn_port (ozhcd w)) /\
  urb_pending_list (ozhcd w') = urb_pending_list (ozhcd w) /\
  (forall j, j <> port -> port_at (ozhcd w') j = port_at (ozhcd w) j) /\
  last (ext_calls m') = Some PollRhStatus.
Proof.
  intros Hin w m' w' p p'.
  set (m1 := on_world
      (fun w =>
         if (conn_port (ozhcd w) >=? 0)
            && (conn_port (ozhcd w) =? Z.of_nat port)
         then set_ozhcd (set_conn_port (-1) (ozhcd w)) w else w) m).
  set (m2 := on_world
      (upd_port port
         (fun p => set_port_flags (Z.lor (port_flags p) OZ_PORT_F_DYING) p))
      m1).
  assert (Hports1 : ports (ozhcd (drv_world m1)) = ports (ozhcd w)).
  { unfold m1. g_simpl. fold w. destruct (_ && _); reflexivity. }
  assert (Hin2 : (port < length (ports (ozhcd (drv_world m2))))%nat).
  { unfold m2. g_simpl. unfold upd_port. g_simpl. rewrite length_insert.
    rewrite Hports1. exact Hin. }
  set (n2 := num_iface (port_at (ozhcd (drv_world m2)) port)).
  pose proof (clean_interfaces_frame port (seq 0 (Z.to_nat n2)) m2 Hin2) as F.
  set (m3f := foldl
         (fun m i => oz_clean_endpoints_for_interface port (Z.of_nat i) m)
         m2 (seq 0 (Z.to_nat n2))) in *.
  set (w3f := drv_world m3f) in *.
  set (p3f := port_at (ozhcd w3f) port) in *.
  set (H3 := fun p : oz_port => set_num_iface 0 (set_iface None p)).
  set (ep := slot (out_ep p3f) 0).
  set (G := fun p : oz_port =>
            let p := set_hpd None p in
            let p := set_bus_addr 255 p in
            let p := set_config_num 0 p in
            let p := set_port_flags
              (Z.land (port_flags p)
                 (Z.lnot (Z.lor OZ_PORT_F_PRESENT OZ_PORT_F_DYING))) p in
            let p := set_port_flags
              (Z.lor (port_flags p) OZ_PORT_F_CHANGED) p in
            let p := set_status
              (Z.land (status p)
                 (Z.lnot (Z.lor USB_PORT_STAT_CONNECTION USB_PORT_STAT_ENABLE)))
              p in
            let p := set_status
              (Z.lor (status p) (Z.shiftl USB_PORT_STAT_C_CONNECTION 16)) p in
            match ep with
            | Some _ => set_out_ep (<[0%nat := None]> (out_ep p)) p
            | None => p
            end).
  assert (Hlen3 : (port < length (ports (ozhcd w3f)))%nat).
  { destruct F as (_ & _ & _ & _ & _ & _ & L & _). cbv zeta in L.
    unfold w3f. rewrite L. exact Hin2. }
  assert (Hp3 : port_at (ozhcd (upd_port port H3 w3f)) port = H3 p3f).
  { apply port_at_upd_same. exact Hlen3. }
  assert (Hm' : m' = tell PollRhStatus
            (let m4 := on_world (upd_port port G)
                         (on_world (upd_port port H3) m3f) in
             match ep with
             | Some e0 => oz_ep_free port e0 m4
             | None => m4
             end)).
  { unfold m', oz_hcd_pd_departed, oz_clean_endpoints_for_config.
    cbv zeta. fold m1. fold m2. fold n2. fold m3f. fold H3.
    cbn [drv_world on_world]. fold w3f. rewrite Hp3.
    unfold H3 at 1 2. cbn [out_ep set_num_iface set_iface].
    fold (slot (out_ep p3f) 0). fold ep. fold G. reflexivity. }
  set (w4 := upd_port port (fun p => G (H3 p)) w3f).
  assert (Hw4 : drv_world (on_world (upd_port port G)
                             (on_world (upd_port port H3) m3f)) = w4).
  { cbn [drv_world on_world]. fold w3f. apply upd_port_twice. exact Hlen3. }
  assert (Hw' : ports (ozhcd w') = ports (ozhcd w4) /\
                orphanage (ozhcd w')
                = orphanage (ozhcd w3f) ++ from_option urb_list [] ep /\
                calls w' = calls w3f /\
                conn_port (ozhcd w') = conn_port (ozhcd w3f) /\
                urb_pending_list (ozhcd w') = urb_pending_list (ozhcd w3f)).
  { unfold w'. rewrite Hm'. cbv zeta. cbn [drv_world tell].
    destruct ep as [e0|].
    - unfold oz_ep_free.
      destruct (negb (Z.land (ep_flags e0) OZ_F_EP_HAVE_STREAM =? 0));
        cbn [drv_world on_world tell]; fold w3f;
        rewrite (upd_port_twice port H3 G w3f Hlen3); fold w4;
        g_simpl; unfold w4, upd_port; g_simpl; cbn [from_option];
        repeat split; reflexivity.
    - cbn [drv_world on_world]. fold w3f.
      rewrite (upd_port_twice port H3 G w3f Hlen3). fold w4.
      unfold w4, upd_port; g_simpl; cbn [from_option]; rewrite app_nil_r;
        repeat split; reflexivity. }
  destruct Hw' as (Wp & Wo & Wc & Wn & Wq).
  assert (Hp' : p' = G (H3 p3f)).
  { unfold p'. rewrite (port_at_ports _ (ozhcd w4)) by exact Wp.
    unfold w4. apply port_at_upd_same. exact Hlen3. }
  assert (Hother : forall j, j <> port ->
            port_at (ozhcd w') j = port_at (ozhcd w3f) j).
  { intros j Hj. rewrite (port_at_ports _ (ozhcd w4)) by exact Wp.
    unfold w4. apply port_at_upd_other. congruence. }
  set (DY := fun p : oz_port =>
               set_port_flags (Z.lor (port_flags p) OZ_PORT_F_DYING) p) in *.
  assert (E2 : port_at (ozhcd (drv_world m2)) port = DY p /\
               (forall j, j <> port ->
                  port_at (ozhcd (drv_world m2)) j = port_at (ozhcd w) j) /\
               orphanage (ozhcd (drv_world m2)) = orphanage (ozhcd w) /\
               calls (drv_world m2) = calls w /\
               urb_pending_list (ozhcd (drv_world m2))
               = urb_pending_list (ozhcd w) /\
               conn_port (ozhcd (drv_world m2))
               = (if conn_port (ozhcd w) =? Z.of_nat port then -1
                  else conn_port (ozhcd w))).
  { unfold m2, m1. cbn [drv_world on_world]. fold w.
    assert (Hc : (conn_port (ozhcd w) >=? 0)
                 && (conn_port (ozhcd w) =? Z.of_nat port)
                 = (conn_port (ozhcd w) =? Z.of_nat port)).
    { destruct (Z.eqb_spec (conn_port (ozhcd w)) (Z.of_nat port)) as [E|E];
        [|apply andb_false_r].
      rewrite andb_true_r. rewrite E. apply Z.geb_le. lia. }
    rewrite Hc. clear Hc.
    destruct (conn_port (ozhcd w) =? Z.of_nat port).
    - split; [apply port_at_upd_same; exact Hin|].
      split; [intros j Hj; rewrite port_at_upd_other by congruence;
              reflexivity|].
      unfold upd_port. g_simpl. repeat split; reflexivity.
    - split; [apply port_at_upd_same; exact Hin|].
      split; [intros j Hj; rewrite port_at_upd_other by congruence;
              reflexivity|].
      unfold upd_port. g_simpl. repeat split; reflexivity. }
  destruct E2 as (E2p & E2o & E2orph & E2c & E2q & E2n).
  destruct F as (A1 & A2 & A3 & _ & _ & _ & _ & A8 & _ & _ & _ & _ & _ & _
                 & (mv & A15) & A16).
  fold w3f in A1, A2, A3, A8, A15, A16. fold p3f in A16.
  rewrite E2p in A16.
  assert (K1 : kept_or_orphaned p p3f (orphanage (ozhcd w3f))) by exact A16.
  clear A16.
  destruct (flags_departed (port_flags p3f)) as (F1 & F2 & F3).
  destruct (status_departed (status p3f)) as (S1 & S2 & S3).
  assert (Hfields : port_flags p'
                    = Z.lor (Z.land (port_flags p3f)
                               (Z.lnot (Z.lor OZ_PORT_F_PRESENT OZ_PORT_F_DYING)))
                        OZ_PORT_F_CHANGED /\
                    status p'
                    = Z.lor (Z.land (status p3f)
                               (Z.lnot (Z.lor USB_PORT_STAT_CONNECTION
                                          USB_PORT_STAT_ENABLE)))
                        (Z.shiftl USB_PORT_STAT_C_CONNECTION 16) /\
                    hpd p' = None /\ bus_addr p' = 255 /\ config_num p' = 0 /\
                    num_iface p' = 0 /\ iface p' = None /\
                    in_ep p' = in_ep p3f /\
                    out_ep p' = match ep with
                                | Some _ => <[0%nat := None]> (out_ep p3f)
                                | None => out_ep p3f
                                end).
  { rewrite Hp'. unfold G, H3. destruct ep; cbv zeta; g_simpl;
      repeat split; reflexivity. }
  destruct Hfields as (Q1 & Q2 & Q3 & Q4 & Q5 & Q6 & Q7 & Q8 & Q9).
  unfold port_has. rewrite Q1, Q2.
  split; [exact F1|]. split; [exact F2|]. split; [exact F3|].
  split; [exact S1|]. split; [exact S2|]. split; [exact S3|].
  split; [exact Q3|]. split; [exact Q4|]. split; [exact Q5|].
  split; [exact Q6|]. split; [exact Q7|].
  assert (Hs0 : slot_of p' false 0 = None).
  { unfold slot_of. rewrite Q9. unfold ep. unfold slot.
    destruct (out_ep p3f) as [|[x|] t]; reflexivity. }
  split; [exact Hs0|].
  split.
  { eapply kept_or_orphaned_trans; [exact K1| |].
    - intros d i. unfold slot_of.
      destruct d; [left; rewrite Q8; reflexivity|].
      destruct i as [|i].
      + fold (slot_of p' false 0). rewrite Hs0.
        fold (slot_of p3f false 0).
        right. split; [reflexivity|]. intros e0 x He Hx.
        rewrite Wo. apply elem_of_app. right.
        unfold slot_of in He. fold ep in He. rewrite He. exact Hx.
      + left. rewrite Q9. unfold slot.
        destruct ep; [|reflexivity].
        destruct (out_ep p3f); reflexivity.
    - intros x Hx. rewrite Wo. apply elem_of_app. left. exact Hx. }
  split.
  { exists (mv ++ from_option urb_list [] ep).
    rewrite Wo, A15, E2orph, app_assoc. reflexivity. }
  split; [congruence|]. split; [congruence|]. split; [congruence|].
  split.
  { intros j Hj. rewrite Hother, A8, E2o by exact Hj. reflexivity. }
  rewrite Hm'. cbn [ext_calls tell]. apply last_snoc.
Qed.

Lemma oz_hcd_pd_departed_state_witness :
  let m := boot (world_dev5 true) in
  let port := 2%nat in
  let w := drv_world m in
  let m' := oz_hcd_pd_departed (Some port) m in
  let w' := drv_world m' in
  let p := port_at (ozhcd w) port in
  let p' := port_at (ozhcd w') port in
  port_has p' OZ_PORT_F_PRESENT = false /\
  port_has p' OZ_PORT_F_DYING = false /\
  port_has p' OZ_PORT_F_CHANGED = true /\
  Z.testbit (status p') 0 = false /\
  Z.testbit (status p') 1 = false /\
  Z.testbit (status p') 16 = true /\
  hpd p' = None /\ bus_addr p' = 255 /\ config_num p' = 0 /\
  num_iface p' = 0 /\ iface p' = None /\
  slot_of p' false 0 = None /\
  kept_or_orphaned p p' (orphanage (ozhcd w')) /\
  (exists moved, orphanage (ozhcd w') = orphanage (ozhcd w) ++ moved) /\
  calls w' = calls w /\
  conn_port (ozhcd w')
  = (if conn_port (ozhcd w) =? Z.of_nat port then -1 else conn_port (ozhcd w)) /\
  urb_pending_list (ozhcd w') = urb_pending_list (ozhcd w) /\
  (forall j, j <> port -> port_at (ozhcd w') j = port_at (ozhcd w) j) /\
  last (ext_calls m') = Some PollRhStatus.
Proof.
  apply (oz_hcd_pd_departed_state 2 (boot (world_dev5 true))).
  vm_compute. lia.
Defined.

(** X22.  Reset of a peer.  [oz_hcd_pd_reset] on a port of the table
    sets CHANGED and the reset and reset-change bits of the status and
    tears the configuration's interfaces down, but keeps the peer, the bus
    address and the configuration number of the port.  As at a
    departure no URB is given back or dropped: every endpoint of the port
    is as it was or is gone with its queued URBs in the orphanage. *)
Theorem oz_hcd_pd_reset_keeps_peer port m :
  (port < length (ports (ozhcd (drv_world m))))%nat ->
  let w := drv_world m in
  let m' := oz_hcd_pd_reset port m in
  let w' := drv_world m' in
  let p := port_at (ozhcd w) port in
  let p' := port_at (ozhcd w') port in
  port_flags p' = Z.lor (port_flags p) OZ_PORT_F_CHANGED /\
  port_has p' OZ_PORT_F_CHANGED = true /\
  status p'
  = Z.lor (Z.lor (status p) USB_PORT_STAT_RESET)
      (Z.shiftl USB_PORT_STAT_C_RESET 16) /\
  hpd p' = hpd p /\ bus_addr p' = bus_addr p /\
  config_num p' = config_num p /\
  num_iface p' = 0 /\ iface p' = None /\
  kept_or_orphaned p p' (orphanage (ozhcd w')) /\
  (exists moved, orphanage (ozhcd w') = orphanage (ozhcd w) ++ moved) /\
  calls w' = calls w /\
  conn_port (ozhcd w') = conn_port (ozhcd w) /\
  (forall j, j <> port -> port_at (ozhcd w') j = port_at (ozhcd w) j) /\
  last (ext_calls m') = Some PollRhStatus.
Proof.
  intros Hin w m' w' p p'.
  set (R := fun p : oz_port =>
          let p := set_port_flags (Z.lor (port_flags p) OZ_PORT_F_CHANGED) p in
          let p := set_status (Z.lor (status p) USB_PORT_STAT_RESET) p in
          set_status (Z.lor (status p) (Z.shiftl USB_PORT_STAT_C_RESET 16)) p).
  set (m1 := on_world (upd_port port R) m).
  assert (Hin1 : (port < length (ports (ozhcd (drv_world m1))))%nat).
  { unfold m1. cbn [drv_world on_world]. unfold upd_port. g_simpl.
    rewrite length_insert. exact Hin. }
  set (n1 := num_iface (port_at (ozhcd (drv_world m1)) port)).
  pose proof (clean_interfaces_frame port (seq 0 (Z.to_nat n1)) m1 Hin1) as F.
  set (m2 := foldl
         (fun m i => oz_clean_endpoints_for_interface port (Z.of_nat i) m)
         m1 (seq 0 (Z.to_nat n1))) in *.
  set (w2 := drv_world m2) in *.
  set (p2 := port_at (ozhcd w2) port) in *.
  set (H3 := fun p : oz_port => set_num_iface 0 (set_iface None p)).
  assert (Hm' : m' = tell PollRhStatus (on_world (upd_port port H3) m2))
    by reflexivity.
  assert (E1 : port_at (ozhcd (drv_world m1)) port = R p).
  { unfold m1. cbn [drv_world on_world]. apply port_at_upd_same. exact Hin. }
  assert (E1o : forall j, j <> port ->
            port_at (ozhcd (drv_world m1)) j = port_at (ozhcd w) j).
  { intros j Hj. unfold m1. cbn [drv_world on_world].
    apply port_at_upd_other. congruence. }
  destruct F as (A1 & A2 & _ & _ & _ & _ & L & A8 & A9 & A10 & A11 & A12 & A13
                 & _ & (mv & A15) & A16).
  fold w2 in A1, A2, L, A8, A9, A10, A11, A12, A13, A15, A16.
  fold p2 in A9, A10, A11, A12, A13, A16.
  rewrite E1 in A9, A10, A11, A12, A13, A16.
  assert (K : kept_or_orphaned p p2 (orphanage (ozhcd w2))) by exact A16.
  clear A16.
  assert (Hlen2 : (port < length (ports (ozhcd w2)))%nat)
    by (rewrite L; exact Hin1).
  assert (Hw' : w' = upd_port port H3 w2) by (unfold w'; rewrite Hm'; reflexivity).
  assert (Hp' : p' = H3 p2).
  { unfold p'. rewrite Hw'. apply port_at_upd_same. exact Hlen2. }
  assert (Ho : orphanage (ozhcd w') = orphanage (ozhcd w2)).
  { rewrite Hw'. unfold upd_port. g_simpl. reflexivity. }
  rewrite Ho. unfold port_has. rewrite Hp'. unfold H3. g_simpl.
  rewrite A9, A10, A11, A12, A13. unfold R. cbv zeta. g_simpl.
  split; [reflexivity|].
  split; [apply port_has_lor_set; discriminate|].
  split; [reflexivity|]. split; [reflexivity|]. split; [reflexivity|].
  split; [reflexivity|]. split; [reflexivity|]. split; [reflexivity|].
  split; [exact K|].
  split.
  { exists mv. rewrite A15. unfold m1, upd_port. g_simpl. reflexivity. }
  split.
  { rewrite Hw'. unfold upd_port at 1. g_simpl. rewrite A1.
    unfold m1, upd_port. g_simpl. reflexivity. }
  split.
  { rewrite Hw'. unfold upd_port at 1. g_simpl. rewrite A2.
    unfold m1, upd_port. g_simpl. reflexivity. }
  split.
  { intros j Hj. rewrite Hw'. rewrite port_at_upd_other by congruence.
    rewrite A8, E1o by exact Hj. reflexivity. }
  rewrite Hm'. cbn [ext_calls tell on_world]. apply last_snoc.
Qed.

Lemma oz_hcd_pd_reset_keeps_peer_witness :
  let m := boot (world_dev5 true) in
  let port := 2%nat in
  let w := drv_world m in
  let m' := oz_hcd_pd_reset port m in
  let w' := drv_world m' in
  let p := port_at (ozhcd w) port in
  let p' := port_at (ozhcd w') port in
  port_flags p' = Z.lor (port_flags p) OZ_PORT_F_CHANGED /\
  port_has p' OZ_PORT_F_CHANGED = true /\
  status p'
  = Z.lor (Z.lor (status p) USB_PORT_STAT_RESET)
      (Z.shiftl USB_PORT_STAT_C_RESET 16) /\
  hpd p' = hpd p /\ bus_addr p' = bus_addr p /\
  config_num p' = config_num p /\
  num_iface p' = 0 /\ iface p' = None /\
  kept_or_orphaned p p' (orphanage (ozhcd w')) /\
  (exists moved, orphanage (ozhcd w') = orphanage (ozhcd w) ++ moved) /\
  calls w' = calls w /\
  conn_port (ozhcd w') = conn_port (ozhcd w) /\
  (forall j, j <> port -> port_at (ozhcd w') j = port_at (ozhcd w) j) /\
  last (ext_calls m') = Some PollRhStatus.
Proof.
  apply (oz_hcd_pd_reset_keeps_peer 2 (boot (world_dev5 true))).
  vm_compute. lia.
Defined.


(** * Confirmations from the peer *)

Lemma find_urb_found port rid w ep l1 x l2 :
  ep_at (port_at (ozhcd w) port) 0 0 = Some ep ->
  urb_list ep = l1 ++ x :: l2 ->
  req_id x = rid ->
  Forall (fun y => req_id y <> rid) l1 ->
  oz_find_urb_by_id port 0 rid w
  = (Some (link_urb x),
     oz_free_urb_link
       (upd_port port (store_ep 0 0 (set_urb_list (l1 ++ l2) ep)) w)).
Proof.
  intros Hep Hl Hx Hl1. unfold oz_find_urb_by_id.
  rewrite Hep, Hl, (take_req_found l1 x l2 rid Hx Hl1). reflexivity.
Qed.

Lemma find_urb_absent port rid w :
  (forall ep, ep_at (port_at (ozhcd w) port) 0 0 = Some ep ->
              Forall (fun y => req_id y <> rid) (urb_list ep)) ->
  oz_find_urb_by_id port 0 rid w = (None, w).
Proof.
  intros H. unfold oz_find_urb_by_id.
  destruct (ep_at (port_at (ozhcd w) port) 0 0) as [ep|]; [|reflexivity].
  rewrite (take_req_absent _ _ (H ep eq_refl)). reflexivity.
Qed.

(** The world after a link was taken off the queue of endpoint 0 and the
    URB [u] handed back with [st]. *)
Lemma found_completed_eq port w ep (q : list oz_urb_link) u st :
  ep_at (port_at (ozhcd w) port) 0 0 = Some ep ->
  let w1 := oz_free_urb_link
              (upd_port port (store_ep 0 0 (set_urb_list q ep)) w) in
  let w' := oz_complete_urb u st w1 in
  (urb_list <$> ep_at (port_at (ozhcd w') port) 0 0) = Some q /\
  calls w' = calls w ++ [Giveback (completed u st) st] /\
  g_pending_urbs w' = g_pending_urbs w - 1 /\
  orphanage (ozhcd w') = orphanage (ozhcd w) /\
  (forall j, j <> port -> port_at (ozhcd w') j = port_at (ozhcd w) j).
Proof.
  intros Hep w1 w'. unfold w'. rewrite complete_urb_eq. unfold w1.
  rewrite free_link_eq. g_simpl.
  split.
  { rewrite (port_at_ports _
               (ozhcd (upd_port port (store_ep 0 0 (set_urb_list q ep)) w)))
      by reflexivity.
    rewrite (ep_at_upd_store port 0 0 _ ep w Hep). reflexivity. }
  split; [unfold upd_port; reflexivity|].
  split; [unfold upd_port; reflexivity|].
  split; [unfold upd_port; reflexivity|].
  intros j Hj.
  rewrite (port_at_ports _
             (ozhcd (upd_port port (store_ep 0 0 (set_urb_list q ep)) w)))
    by reflexivity.
  apply port_at_upd_other. congruence.
Qed.

Lemma to_u32_small x : 0 <= x <= INT_MAX -> to_u32 x = x.
Proof. unfold to_u32, INT_MAX. intros H. apply Z.mod_small. lia. Qed.

(** X23.  The reply to a control request.  [oz_hcd_control_cnf] looks
    the request up by its id on the queue of endpoint 0: with no such
    request waiting nothing changes.  A request that is not a standard
    one, or a standard one other than SET_CONFIGURATION and
    SET_INTERFACE, is taken off the queue and handed back exactly once
    with status 0, whatever result code the peer sent.  For a request
    that is not standard the first min(data_len, transfer_buffer_length)
    bytes of the reply are copied to the transfer buffer and are the
    actual length; an empty reply leaves the URB as it was. *)
Theorem oz_hcd_control_cnf_reply be configs port rid rcode data data_len m :
  let w := drv_world m in
  let p := port_at (ozhcd w) port in
  let r := oz_hcd_control_cnf be configs port rid rcode data data_len m in
  ((forall ep, ep_at p 0 0 = Some ep ->
               Forall (fun y => req_id y <> rid) (urb_list ep)) ->
   r = Some m) /\
  (forall ep l1 x l2,
     ep_at p 0 0 = Some ep ->
     urb_list ep = l1 ++ x :: l2 ->
     req_id x = rid ->
     Forall (fun y => req_id y <> rid) l1 ->
     let u := link_urb x in
     let n := Z.min data_len (transfer_buffer_length u) in
     let u' :=
       if is_standard (setup_packet u) || (data_len =? 0) then u
       else set_actual_length n
              (set_transfer_buffer
                 ((fun t => memcpy t 0 data 0 n) <$> transfer_buffer u) u) in
     (is_standard (setup_packet u) = true ->
      bRequest (setup_packet u) <> USB_REQ_SET_CONFIGURATION /\
      bRequest (setup_packet u) <> USB_REQ_SET_INTERFACE) ->
     0 <= data_len <= INT_MAX ->
     0 <= transfer_buffer_length u <= INT_MAX ->
     exists m',
     r = Some m' /\
     let w' := drv_world m' in
     (urb_list <$> ep_at (port_at (ozhcd w') port) 0 0) = Some (l1 ++ l2) /\
     calls w' = calls w ++ [Giveback (completed u' 0) 0] /\
     g_pending_urbs w' = g_pending_urbs w - 1 /\
     ext_calls m' = ext_calls m).
Proof.
  intros w p r. split.
  - intros Habs. unfold r, oz_hcd_control_cnf. fold w.
    rewrite (find_urb_absent port rid w Habs). reflexivity.
  - intros ep l1 x l2 Hep Hl Hx Hl1 u n u' Hstd Hd Ht.
    assert (Hm' : r = Some (on_world
              (oz_complete_urb u' 0)
              (on_world
                 (fun _ => oz_free_urb_link
                    (upd_port port
                       (store_ep 0 0 (set_urb_list (l1 ++ l2) ep)) w)) m))).
    { unfold r, oz_hcd_control_cnf. fold w.
      rewrite (find_urb_found port rid w ep l1 x l2 Hep Hl Hx Hl1).
      fold u. unfold u'.
      destruct (is_standard (setup_packet u)) eqn:Es; cbn [orb].
      - destruct (Hstd eq_refl) as [H1 H2].
        destruct (Z.eqb_spec (bRequest (setup_packet u))
                    USB_REQ_SET_CONFIGURATION); [contradiction|].
        destruct (Z.eqb_spec (bRequest (setup_packet u))
                    USB_REQ_SET_INTERFACE); [contradiction|].
        reflexivity.
      - unfold control_cnf_copy.
        destruct (Z.eqb_spec data_len 0) as [E|E]; cbn [negb]; [reflexivity|].
        rewrite (to_u32_small data_len Hd).
        rewrite (to_int_small (transfer_buffer_length u))
          by (unfold INT_MAX in *; lia).
        unfold n.
        destruct (Z.leb_spec data_len (transfer_buffer_length u)).
        + rewrite Z.min_l by lia. rewrite (to_u32_small data_len Hd).
          reflexivity.
        + rewrite Z.min_r by lia.
          rewrite (to_u32_small (transfer_buffer_length u) Ht). reflexivity. }
    eexists. split; [exact Hm'|]. cbn [drv_world ext_calls on_world].
    destruct (found_completed_eq port w ep (l1 ++ l2) u' 0 Hep)
      as (A & B & C & _).
    split; [exact A|]. split; [exact B|]. split; [exact C|reflexivity].
Qed.




(** * Building and rolling back a configuration *)

(** ** Endpoint masks *)

Lemma bit_pos k : 0 <= k -> Z.shiftl 1 k <> 0.
Proof.
  intros H. rewrite Z.shiftl_1_l. apply Z.pow_nonzero; lia.
Qed.

Lemma mask_lor_mono mask bit b :
  negb (Z.land mask b =? 0) = true ->
  negb (Z.land (Z.lor mask bit) b =? 0) = true.
Proof.
  intros H. rewrite Z.land_lor_distr_l.
  destruct (Z.eqb_spec (Z.lor (Z.land mask b) (Z.land bit b)) 0) as [E|E];
    [|reflexivity].
  apply Z.lor_eq_0_iff in E. destruct E as [E _]. rewrite E in H.
  discriminate H.
Qed.

Lemma mask_lor_self mask b :
  b <> 0 -> negb (Z.land (Z.lor mask b) b =? 0) = true.
Proof.
  intros H. apply port_has_lor_set.
  rewrite Z.land_diag. exact H.
Qed.

Lemma names_lor_mono dir mask bit n :
  names dir mask n = true -> names dir (Z.lor mask bit) n = true.
Proof.
  unfold names, names_in, names_out. destruct dir; apply mask_lor_mono.
Qed.

Lemma desc_num_range d : 0 <= desc_num d < 16.
Proof. apply land_15_range. Qed.

Lemma names_lor_self mask d :
  names (desc_in d)
    (Z.lor mask (Z.shiftl 1 (if desc_in d then desc_num d + OZ_NB_ENDPOINTS
                             else desc_num d)))
    (Z.to_nat (desc_num d)) = true.
Proof.
  pose proof (desc_num_range d) as R.
  unfold names, names_in, names_out. rewrite Z2Nat.id by lia.
  destruct (desc_in d); apply mask_lor_self, bit_pos;
    unfold OZ_NB_ENDPOINTS; lia.
Qed.

Lemma names_zero dir n : names dir 0 n = false.
Proof. destruct dir; reflexivity. Qed.

(** ** One endpoint stored *)

Lemma store_built_fields if_ix d ep p :
  let p' := store_built if_ix d ep p in
  let bit := Z.shiftl 1 (if desc_in d then desc_num d + OZ_NB_ENDPOINTS
                         else desc_num d) in
  port_flags p' = port_flags p /\ status p' = status p /\
  hpd p' = hpd p /\ bus_addr p' = bus_addr p /\
  config_num p' = config_num p /\ num_iface p' = num_iface p /\
  iface p' = (alter (fun f => set_ep_mask (Z.lor (ep_mask f) bit) f)
                (Z.to_nat if_ix) <$> iface p) /\
  in_ep p' = (if desc_in d then <[Z.to_nat (desc_num d) := Some ep]> (in_ep p)
              else in_ep p) /\
  out_ep p' = (if desc_in d then out_ep p
               else <[Z.to_nat (desc_num d) := Some ep]> (out_ep p)).
Proof.
  unfold store_built.
  destruct (desc_in d),
    (Z.land (attrib ep) USB_ENDPOINT_XFERTYPE_MASK =? USB_ENDPOINT_XFER_ISOC);
    cbv zeta; g_simpl; repeat split; reflexivity.
Qed.

Lemma store_built_slot if_ix d ep p dir n :
  slot_of (store_built if_ix d ep p) dir n = slot_of p dir n \/
  (dir = desc_in d /\ n = Z.to_nat (desc_num d) /\
   slot_of (store_built if_ix d ep p) dir n = Some ep).
Proof.
  destruct (store_built_fields if_ix d ep p)
    as (_ & _ & _ & _ & _ & _ & _ & Hi & Ho).
  unfold slot_of, slot. rewrite Hi, Ho.
  destruct dir, (desc_in d); try (left; reflexivity).
  - destruct (decide (n = Z.to_nat (desc_num d))) as [->|Hn].
    + destruct (decide (Z.to_nat (desc_num d) < length (in_ep p))%nat).
      * right. rewrite list_lookup_insert_eq by assumption. auto.
      * left. rewrite list_insert_ge by lia. reflexivity.
    + left. rewrite list_lookup_insert_ne by congruence. reflexivity.
  - destruct (decide (n = Z.to_nat (desc_num d))) as [->|Hn].
    + destruct (decide (Z.to_nat (desc_num d) < length (out_ep p))%nat).
      * right. rewrite list_lookup_insert_eq by assumption. auto.
      * left. rewrite list_insert_ge by lia. reflexivity.
    + left. rewrite list_lookup_insert_ne by congruence. reflexivity.
Qed.

Lemma store_built_slot_self if_ix d ep p :
  length (out_ep p) = 16%nat -> length (in_ep p) = 16%nat ->
  slot_of (store_built if_ix d ep p) (desc_in d) (Z.to_nat (desc_num d))
  = Some ep.
Proof.
  intros Lo Li. pose proof (desc_num_range d) as R.
  destruct (store_built_fields if_ix d ep p)
    as (_ & _ & _ & _ & _ & _ & _ & Hi & Ho).
  unfold slot_of, slot. rewrite Hi, Ho.
  destruct (desc_in d); rewrite list_lookup_insert_eq by lia; reflexivity.
Qed.

Lemma store_built_lengths if_ix d ep p :
  length (out_ep (store_built if_ix d ep p)) = length (out_ep p) /\
  length (in_ep (store_built if_ix d ep p)) = length (in_ep p).
Proof.
  destruct (store_built_fields if_ix d ep p)
    as (_ & _ & _ & _ & _ & _ & _ & Hi & Ho).
  rewrite Hi, Ho. destruct (desc_in d); rewrite ?length_insert; auto.
Qed.

Lemma store_built_iface_wf if_ix d ep p :
  iface_wf p -> iface_wf (store_built if_ix d ep p).
Proof.
  intros (ifs & H1 & H2).
  destruct (store_built_fields if_ix d ep p)
    as (_ & _ & _ & _ & _ & Hn & Hf & _).
  rewrite H1 in Hf. cbn [fmap option_fmap option_map] in Hf.
  eexists. split; [exact Hf|]. rewrite length_alter, Hn. exact H2.
Qed.

Lemma store_built_named_mono if_ix d ep p k dir n :
  named_by p k dir n -> named_by (store_built if_ix d ep p) k dir n.
Proof.
  intros (f & Hf & Hk & Hn & Hnm).
  destruct (store_built_fields if_ix d ep p)
    as (_ & _ & _ & _ & _ & Hni & Hif & _).
  unfold named_by. rewrite Hni, Hif.
  destruct (iface p) as [ifs|]; cbn [fmap option_fmap option_map default from_option id] in *;
    [|rewrite lookup_nil in Hf; discriminate Hf].
  destruct (decide (k = Z.to_nat if_ix)) as [->|Hne].
  - eexists. split; [rewrite list_lookup_alter_eq, Hf; reflexivity|].
    split; [exact Hk|]. split; [exact Hn|]. cbn [ep_mask set_ep_mask].
    apply names_lor_mono. exact Hnm.
  - exists f. split; [rewrite list_lookup_alter_ne by congruence; exact Hf|].
    auto.
Qed.

Lemma store_built_named_self if_ix d ep p :
  iface_wf p -> 0 <= if_ix < num_iface p ->
  named_by (store_built if_ix d ep p) (Z.to_nat if_ix) (desc_in d)
    (Z.to_nat (desc_num d)).
Proof.
  intros (ifs & H1 & H2) Hix. pose proof (desc_num_range d) as R.
  destruct (store_built_fields if_ix d ep p)
    as (_ & _ & _ & _ & _ & Hni & Hif & _).
  unfold named_by. rewrite Hni, Hif, H1.
  cbn [fmap option_fmap option_map default from_option id].
  destruct (lookup_lt_is_Some_2 ifs (Z.to_nat if_ix)) as [f Hf]; [lia|].
  eexists. split; [rewrite list_lookup_alter_eq, Hf; reflexivity|].
  split; [lia|]. split; [lia|]. cbn [ep_mask set_ep_mask].
  apply names_lor_self.
Qed.

Lemma build_endpoint_fresh a attr units rc :
  let ep := oz_build_endpoint a attr units rc in
  ep_num ep = Z.land a USB_ENDPOINT_NUMBER_MASK /\ urb_list ep = [].
Proof.
  unfold oz_build_endpoint, oz_ep_alloc.
  repeat match goal with
         | |- context [if ?c then _ else _] => destruct c
         end; split; reflexivity.
Qed.

(** ** What building leaves alone *)

Lemma build_frame_refl port m : build_frame port m m.
Proof.
  unfold build_frame. split.
  - exists []. rewrite app_nil_r. split; [reflexivity|constructor].
  - repeat split; reflexivity.
Qed.

Lemma build_frame_trans port m m1 m2 :
  build_frame port m m1 -> build_frame port m1 m2 -> build_frame port m m2.
Proof.
  unfold build_frame.
  intros ((hb1 & A1 & A1') & A2 & A3 & A4 & A5 & A6 & A7 & A8 & A9 & A10)
         ((hb2 & B1 & B1') & B2 & B3 & B4 & B5 & B6 & B7 & B8 & B9 & B10).
  split.
  { exists (hb1 ++ hb2). rewrite B1, A1, app_assoc.
    split; [reflexivity|]. apply Forall_app. split; assumption. }
  split; [congruence|].
  split; [intros j Hj; rewrite B3, A3 by exact Hj; reflexivity|].
  repeat split; congruence.
Qed.

Lemma build_ep_frame be port if_ix d m rh :
  (port < length (ports (ozhcd (drv_world m))))%nat ->
  let r := build_ep be port if_ix d (m, rh) in
  let ep := oz_build_endpoint (bEndpointAddress d) (bmAttributes d)
              (up_max_buffer_units be) (stream_create_rc be (desc_num d)) in
  build_frame port m (fst r) /\
  port_at (ozhcd (drv_world (fst r))) port
  = store_built if_ix d ep (port_at (ozhcd (drv_world m)) port).
Proof.
  intros Hin r ep.
  set (w := drv_world m). set (p := port_at (ozhcd w) port).
  set (w1 := upd_port port (store_built if_ix d ep) w).
  assert (Hr : ozhcd (drv_world (fst r)) = ozhcd w1 /\
               exists hb, calls (drv_world (fst r)) = calls w ++ hb /\
                          Forall is_heartbeat_request hb).
  { unfold r, build_ep. fold w. fold p. fold ep. cbv zeta.
    destruct (_ && negb (desc_in d)); cbn [drv_world tell on_world fst];
      fold w; fold w1;
      (destruct (rh || _);
       [destruct (hpd p); cbn [drv_world on_world fst]|
        cbn [drv_world on_world fst]]);
      (split; [reflexivity|]);
      first [ exists []; rewrite app_nil_r;
              split; [unfold w1, upd_port; reflexivity|constructor]
            | eexists; split; [unfold w1, upd_port; reflexivity|];
              constructor; [exact I|constructor] ]. }
  destruct Hr as (Ho & Hc).
  assert (Hp : port_at (ozhcd (drv_world (fst r))) port = store_built if_ix d ep p).
  { rewrite Ho. unfold w1. apply port_at_upd_same. exact Hin. }
  split; [|exact Hp].
  destruct (store_built_fields if_ix d ep p)
    as (F1 & F2 & F3 & F4 & F5 & _).
  destruct (store_built_lengths if_ix d ep p) as (L1 & L2).
  unfold build_frame. fold w. fold p. rewrite Hp, Ho.
  split; [exact Hc|].
  split; [unfold w1, upd_port; g_simpl; apply length_insert|].
  split; [intros j Hj; unfold w1; apply port_at_upd_other; congruence|].
  repeat split; assumption.
Qed.

Lemma lookup_same_length {A} (t t' : list A) :
  (forall j, is_Some (t' !! j) <-> is_Some (t !! j)) -> length t' = length t.
Proof.
  intros H.
  destruct (Nat.lt_trichotomy (length t') (length t)) as [L|[L|L]];
    [|exact L|].
  - assert (X : is_Some (t' !! length t')) by (apply H, lookup_lt_is_Some; lia).
    apply lookup_lt_is_Some in X. lia.
  - assert (X : is_Some (t !! length t)) by (apply H, lookup_lt_is_Some; lia).
    apply lookup_lt_is_Some in X. lia.
Qed.

Lemma cleared_same_length (t t' : list (option oz_endpoint)) (c : nat -> bool) :
  (forall j, t' !! j = if c j then (fun _ => None) <$> t !! j else t !! j) ->
  length t' = length t.
Proof.
  intros H. apply lookup_same_length. intros j. rewrite H.
  destruct (c j); [|reflexivity]. rewrite fmap_is_Some. reflexivity.
Qed.

(** The port after [oz_clean_endpoints_for_interface] ran for one of its
    interfaces. *)
Lemma clean_interface_port port if_ix m :
  let p := port_at (ozhcd (drv_world m)) port in
  let p' := port_at
              (ozhcd (drv_world (oz_clean_endpoints_for_interface port if_ix m)))
              port in
  let mask := default 0 (ep_mask <$> (default [] (iface p) !! Z.to_nat if_ix)) in
  (port < length (ports (ozhcd (drv_world m))))%nat ->
  if_ix < num_iface p ->
  (forall dir n, slot_of p' dir n
                 = if (n <? 16)%nat && names dir mask n then None
                   else slot_of p dir n) /\
  iface p' = (alter (set_ep_mask 0) (Z.to_nat if_ix) <$> iface p) /\
  num_iface p' = num_iface p /\
  length (out_ep p') = length (out_ep p) /\
  length (in_ep p') = length (in_ep p).
Proof.
  intros p p' mask Hin Hif.
  destruct (clean_interface_eq port if_ix m Hif Hin) as (A & _).
  fold p in A. cbv zeta in A. fold mask in A.
  set (p0 := set_iface (alter (set_ep_mask 0) (Z.to_nat if_ix) <$> iface p) p)
    in *.
  destruct (gather_fold mask (seq 0 (Z.to_nat OZ_NB_ENDPOINTS))
              (NoDup_seq _ _) p0 [])
    as (_ & I2 & I3 & _ & _ & _ & _ & _ & _ & _ & _ & G7 & G8).
  set (r := foldl (gather_ep mask) (p0, []) (seq 0 (Z.to_nat OZ_NB_ENDPOINTS)))
    in *.
  assert (Hp' : p' = fst r).
  { unfold p'. rewrite A. g_simpl.
    rewrite (port_at_ports _
               (ozhcd (upd_port port (fun _ => fst r) (drv_world m))))
      by reflexivity.
    apply port_at_upd_same. exact Hin. }
  assert (Hmem : forall n, bool_decide (n ∈ seq 0 (Z.to_nat OZ_NB_ENDPOINTS))
                           = (n <? 16)%nat).
  { intros n. change (Z.to_nat OZ_NB_ENDPOINTS) with 16%nat.
    destruct (Nat.ltb_spec n 16).
    - apply bool_decide_eq_true_2, elem_of_seq. lia.
    - apply bool_decide_eq_false_2. rewrite elem_of_seq. lia. }
  rewrite Hp'.
  split.
  { intros dir n. unfold slot_of, slot, names.
    destruct dir.
    - rewrite I3, Hmem. destruct ((n <? 16)%nat && names_in mask n);
        [destruct (in_ep p0 !! n)|]; reflexivity.
    - rewrite I2, Hmem. destruct ((n <? 16)%nat && names_out mask n);
        [destruct (out_ep p0 !! n)|]; reflexivity. }
  split; [rewrite G8; reflexivity|].
  split; [rewrite G7; reflexivity|].
  split.
  - apply (cleared_same_length (out_ep p0) _
             (fun j => bool_decide (j ∈ seq 0 (Z.to_nat OZ_NB_ENDPOINTS))
                       && names_out mask j)). exact I2.
  - apply (cleared_same_length (in_ep p0) _
             (fun j => bool_decide (j ∈ seq 0 (Z.to_nat OZ_NB_ENDPOINTS))
                       && names_in mask j)). exact I3.
Qed.

Lemma teardown_build_frame port m m' :
  teardown_frame port m m' ->
  length (out_ep (port_at (ozhcd (drv_world m')) port))
  = length (out_ep (port_at (ozhcd (drv_world m)) port)) ->
  length (in_ep (port_at (ozhcd (drv_world m')) port))
  = length (in_ep (port_at (ozhcd (drv_world m)) port)) ->
  build_frame port m m'.
Proof.
  unfold teardown_frame, build_frame.
  intros (A1 & _ & _ & _ & _ & _ & A7 & A8 & A9 & A10 & A11 & A12 & A13 & _)
         Lo Li.
  split.
  { exists []. rewrite app_nil_r. split; [exact A1|constructor]. }
  repeat split; assumption.
Qed.

Lemma clean_interface_build_frame port if_ix m :
  (port < length (ports (ozhcd (drv_world m))))%nat ->
  build_frame port m (oz_clean_endpoints_for_interface port if_ix m).
Proof.
  intros Hin.
  destruct (Z.lt_ge_cases if_ix
              (num_iface (port_at (ozhcd (drv_world m)) port))) as [Hif|Hif].
  - destruct (clean_interface_port port if_ix m Hin Hif)
      as (_ & _ & _ & Lo & Li).
    apply teardown_build_frame;
      [apply clean_interface_frame; exact Hin|exact Lo|exact Li].
  - replace (oz_clean_endpoints_for_interface port if_ix m) with m.
    + apply build_frame_refl.
    + unfold oz_clean_endpoints_for_interface.
      destruct (Z.geb_spec if_ix
                  (num_iface (port_at (ozhcd (drv_world m)) port)));
        [reflexivity|lia].
Qed.

(** ** What a teardown does to the named endpoints *)

Lemma clean_interface_absent port if_ix m :
  num_iface (port_at (ozhcd (drv_world m)) port) <= if_ix ->
  oz_clean_endpoints_for_interface port if_ix m = m.
Proof.
  intros H. unfold oz_clean_endpoints_for_interface.
  destruct (Z.geb_spec if_ix (num_iface (port_at (ozhcd (drv_world m)) port)));
    [reflexivity|lia].
Qed.

Lemma clean_interface_iface_wf port if_ix m :
  (port < length (ports (ozhcd (drv_world m))))%nat ->
  iface_wf (port_at (ozhcd (drv_world m)) port) ->
  iface_wf (port_at
              (ozhcd (drv_world (oz_clean_endpoints_for_interface port if_ix m)))
              port).
Proof.
  intros Hin (ifs & H1 & H2).
  destruct (Z.lt_ge_cases if_ix
              (num_iface (port_at (ozhcd (drv_world m)) port))) as [Hif|Hif].
  - destruct (clean_interface_port port if_ix m Hin Hif)
      as (_ & Hi & Hn & _).
    rewrite H1 in Hi. cbn [fmap option_fmap option_map] in Hi.
    eexists. split; [exact Hi|]. rewrite length_alter, Hn. exact H2.
  - rewrite clean_interface_absent by lia. exists ifs. auto.
Qed.

Lemma clean_interface_named_other port if_ix m k dir n :
  (port < length (ports (ozhcd (drv_world m))))%nat ->
  if_ix < num_iface (port_at (ozhcd (drv_world m)) port) ->
  k <> Z.to_nat if_ix ->
  named_by (port_at (ozhcd (drv_world m)) port) k dir n ->
  named_by (port_at
              (ozhcd (drv_world (oz_clean_endpoints_for_interface port if_ix m)))
              port) k dir n.
Proof.
  intros Hin Hif Hk (f & Hf & Hlt & Hn & Hnm).
  destruct (clean_interface_port port if_ix m Hin Hif)
    as (_ & Hi & Hni & _).
  unfold named_by. rewrite Hni, Hi.
  destruct (iface (port_at (ozhcd (drv_world m)) port)) as [ifs|];
    cbn [fmap option_fmap option_map default from_option id] in *;
    [|rewrite lookup_nil in Hf; discriminate Hf].
  exists f. split; [rewrite list_lookup_alter_ne by congruence; exact Hf|].
  auto.
Qed.

(** A slot that the mask of the cleaned interface names is gone. *)
Lemma clean_interface_named_gone port if_ix m dir n :
  (port < length (ports (ozhcd (drv_world m))))%nat ->
  if_ix < num_iface (port_at (ozhcd (drv_world m)) port) ->
  named_by (port_at (ozhcd (drv_world m)) port) (Z.to_nat if_ix) dir n ->
  slot_of (port_at
             (ozhcd (drv_world (oz_clean_endpoints_for_interface port if_ix m)))
             port) dir n = None.
Proof.
  intros Hin Hif (f & Hf & Hlt & Hn & Hnm).
  destruct (clean_interface_port port if_ix m Hin Hif) as (Hs & _).
  rewrite Hs, Hf. cbn [fmap option_fmap option_map default from_option id].
  destruct (Nat.ltb_spec n 16); [|lia]. rewrite Hnm. reflexivity.
Qed.

Lemma clean_interface_slot_cases port if_ix m dir n :
  (port < length (ports (ozhcd (drv_world m))))%nat ->
  let p := port_at (ozhcd (drv_world m)) port in
  let p' := port_at
              (ozhcd (drv_world (oz_clean_endpoints_for_interface port if_ix m)))
              port in
  slot_of p' dir n = None \/
  (slot_of p' dir n = slot_of p dir n /\
   ~ (if_ix < num_iface p /\ named_by p (Z.to_nat if_ix) dir n)).
Proof.
  intros Hin p p'.
  destruct (Z.lt_ge_cases if_ix (num_iface p)) as [Hif|Hif].
  - destruct (clean_interface_port port if_ix m Hin Hif) as (Hs & _).
    fold p p' in Hs.
    destruct ((n <? 16)%nat
              && names dir
                   (default 0 (ep_mask <$> default [] (iface p) !! Z.to_nat if_ix))
                   n) eqn:E.
    + left. rewrite Hs, E. reflexivity.
    + right. split; [rewrite Hs, E; reflexivity|].
      intros (_ & Hnamed).
      pose proof (clean_interface_named_gone port if_ix m dir n Hin Hif Hnamed)
        as Hg.
      fold p' in Hg.
      destruct Hnamed as (f & Hf & _ & Hn & Hnm).
      fold p in Hf. rewrite Hf in E.
      cbn [fmap option_fmap option_map default from_option id] in E.
      destruct (Nat.ltb_spec n 16); [|lia]. rewrite Hnm in E. discriminate E.
  - right. unfold p'. rewrite clean_interface_absent by (fold p; lia).
    split; [reflexivity|]. intros (H & _). lia.
Qed.

Lemma clean_interface_kgn port if_ix m p0 :
  (port < length (ports (ozhcd (drv_world m))))%nat ->
  kept_gone_or_named p0 (port_at (ozhcd (drv_world m)) port) ->
  kept_gone_or_named p0
    (port_at (ozhcd (drv_world (oz_clean_endpoints_for_interface port if_ix m)))
       port).
Proof.
  intros Hin K dir n.
  destruct (clean_interface_slot_cases port if_ix m dir n Hin) as [E|[E Hnn]];
    [right; left; exact E|].
  rewrite E. destruct (K dir n) as [H|[H|[k H]]]; [auto|auto|].
  right. right. exists k.
  destruct (Z.lt_ge_cases if_ix
              (num_iface (port_at (ozhcd (drv_world m)) port))) as [Hif|Hif].
  - destruct (decide (k = Z.to_nat if_ix)) as [->|Hne].
    + exfalso. apply Hnn. split; assumption.
    + apply clean_interface_named_other; assumption.
  - rewrite clean_interface_absent by lia. exact H.
Qed.

(** After the interfaces [l] were cleaned one after the other, a slot
    is gone, or it is as before and none of them named it. *)
Lemma clean_interfaces_unnamed port (l : list nat) :
  NoDup l -> forall m,
  (port < length (ports (ozhcd (drv_world m))))%nat ->
  let p := port_at (ozhcd (drv_world m)) port in
  let m' := foldl
              (fun m i => oz_clean_endpoints_for_interface port (Z.of_nat i) m)
              m l in
  let p' := port_at (ozhcd (drv_world m')) port in
  forall dir n,
    slot_of p' dir n = None \/
    (slot_of p' dir n = slot_of p dir n /\
     forall k, k ∈ l -> ~ named_by p k dir n).
Proof.
  induction 1 as [|k l Hk Hnd IH]; intros m Hin p m' p' dir n.
  - right. split; [reflexivity|]. intros k Hk. apply not_elem_of_nil in Hk.
    contradiction.
  - cbn [foldl] in m'.
    set (m1 := oz_clean_endpoints_for_interface port (Z.of_nat k) m) in *.
    assert (Hin1 : (port < length (ports (ozhcd (drv_world m1))))%nat).
    { destruct (clean_interface_build_frame port (Z.of_nat k) m Hin)
        as (_ & L & _). fold m1 in L. rewrite L. exact Hin. }
    destruct (IH m1 Hin1 dir n) as [E|[E Hnn]]; [left; exact E|].
    fold m' in E. fold p' in E.
    destruct (clean_interface_slot_cases port (Z.of_nat k) m dir n Hin)
      as [E1|[E1 Hn1]]; fold m1 in E1; fold p in E1.
    + left. rewrite E. exact E1.
    + right. split; [rewrite E; exact E1|].
      fold p in Hn1. rewrite Nat2Z.id in Hn1.
      intros k' Hk' Hnamed. apply elem_of_cons in Hk' as [->|Hk'].
      * apply Hn1. split; [|exact Hnamed].
        destruct Hnamed as (_ & _ & Hlt & _). exact Hlt.
      * apply (Hnn k' Hk').
        assert (Hne : k' <> k) by (intros ->; contradiction).
        assert (Hif : Z.of_nat k < num_iface p \/ num_iface p <= Z.of_nat k)
          by lia.
        destruct Hif as [Hif|Hif].
        -- apply clean_interface_named_other;
             [exact Hin|exact Hif|rewrite Nat2Z.id; exact Hne|exact Hnamed].
        -- unfold m1. rewrite clean_interface_absent by exact Hif.
           exact Hnamed.
Qed.

Lemma clean_interfaces_build_frame port (l : list nat) m :
  (port < length (ports (ozhcd (drv_world m))))%nat ->
  build_frame port m
    (foldl (fun m i => oz_clean_endpoints_for_interface port (Z.of_nat i) m)
       m l).
Proof.
  revert m. induction l as [|i l IH]; intros m Hin; cbn [foldl].
  - apply build_frame_refl.
  - pose proof (clean_interface_build_frame port (Z.of_nat i) m Hin) as F.
    eapply build_frame_trans; [exact F|]. apply IH.
    destruct F as (_ & L & _). rewrite L. exact Hin.
Qed.

(** The port after [oz_clean_endpoints_for_config]: it has no interface
    left, and each of its endpoints is gone, or is as before and no
    mask named it. *)
Lemma clean_config_port port m :
  (port < length (ports (ozhcd (drv_world m))))%nat ->
  let p := port_at (ozhcd (drv_world m)) port in
  let m' := oz_clean_endpoints_for_config port m in
  let p' := port_at (ozhcd (drv_world m')) port in
  build_frame port m m' /\
  num_iface p' = 0 /\ iface p' = None /\
  (forall dir n,
     slot_of p' dir n = None \/
     (slot_of p' dir n = slot_of p dir n /\ forall k, ~ named_by p k dir n)).
Proof.
  intros Hin p m' p'.
  set (l := seq 0 (Z.to_nat (num_iface p))).
  set (mf := foldl
         (fun m i => oz_clean_endpoints_for_interface port (Z.of_nat i) m)
         m l).
  pose proof (clean_interfaces_build_frame port l m Hin) as F. fold mf in F.
  assert (Hinf : (port < length (ports (ozhcd (drv_world mf))))%nat).
  { destruct F as (_ & L & _). rewrite L. exact Hin. }
  set (H3 := fun p : oz_port => set_num_iface 0 (set_iface None p)).
  assert (Hm' : m' = on_world (upd_port port H3) mf) by reflexivity.
  assert (Hp' : p' = H3 (port_at (ozhcd (drv_world mf)) port)).
  { unfold p'. rewrite Hm'. cbn [drv_world on_world].
    apply port_at_upd_same. exact Hinf. }
  split.
  { eapply build_frame_trans; [exact F|].
    unfold build_frame. rewrite Hm'. cbn [drv_world on_world].
    rewrite port_at_upd_same by exact Hinf.
    split.
    { exists []. rewrite app_nil_r. split; [reflexivity|constructor]. }
    split; [unfold upd_port; g_simpl; apply length_insert|].
    split; [intros j Hj; apply port_at_upd_other; congruence|].
    repeat split; reflexivity. }
  rewrite Hp'. split; [reflexivity|]. split; [reflexivity|].
  intros dir n.
  destruct (clean_interfaces_unnamed port l (NoDup_seq _ _) m Hin dir n)
    as [E|[E Hnn]]; fold mf in E.
  - left. exact E.
  - right. split; [exact E|]. intros k Hnamed. apply (Hnn k); [|exact Hnamed].
    destruct Hnamed as (_ & _ & Hlt & _). fold p in Hlt.
    unfold l. apply elem_of_seq. lia.
Qed.

(** ** The loops that build *)

Lemma store_built_fresh if_ix d ep p dir n :
  ep_num ep = desc_num d -> urb_list ep = [] ->
  fresh_slot p dir n -> fresh_slot (store_built if_ix d ep p) dir n.
Proof.
  intros He Hq ((ep0 & Hs & Hn & Hl) & (k & Hk)).
  pose proof (desc_num_range d) as R.
  split; [|exists k; apply store_built_named_mono; exact Hk].
  destruct (store_built_slot if_ix d ep p dir n) as [E|(_ & -> & E)].
  - exists ep0. rewrite E. auto.
  - exists ep. split; [exact E|]. split; [|exact Hq].
    rewrite He, Z2Nat.id by lia. reflexivity.
Qed.

Lemma store_built_kgn if_ix d ep p p0 :
  iface_wf p -> 0 <= if_ix < num_iface p ->
  kept_gone_or_named p0 p -> kept_gone_or_named p0 (store_built if_ix d ep p).
Proof.
  intros Hwf Hix K dir n.
  destruct (store_built_slot if_ix d ep p dir n) as [E|(-> & -> & E)].
  - rewrite E. destruct (K dir n) as [H|[H|[k H]]]; [auto|auto|].
    right. right. exists k. apply store_built_named_mono. exact H.
  - right. right. exists (Z.to_nat if_ix).
    apply store_built_named_self; assumption.
Qed.

Lemma build_eps_spec be port if_ix i p0 ds :
  forall j rh m,
  (port < length (ports (ozhcd (drv_world m))))%nat ->
  let p := port_at (ozhcd (drv_world m)) port in
  iface_wf p -> 0 <= if_ix < num_iface p ->
  kept_gone_or_named p0 p ->
  let r := build_eps be port if_ix i j rh ds m in
  let p' := port_at (ozhcd (drv_world (snd r))) port in
  build_frame port m (snd r) /\
  iface_wf p' /\ num_iface p' = num_iface p /\
  kept_gone_or_named p0 p' /\
  (fst r = 0 \/ fst r = - ENOMEM) /\
  (fst r = 0 ->
   length (out_ep p) = 16%nat -> length (in_ep p) = 16%nat ->
   (forall dir n, fresh_slot p dir n -> fresh_slot p' dir n) /\
   Forall (fun d => fresh_slot p' (desc_in d) (Z.to_nat (desc_num d))) ds) /\
  ((forall k, ep_alloc_ok be i k = true) -> fst r = 0).
Proof.
  induction ds as [|d ds IH]; intros j rh m Hin p Hwf Hix K r p'.
  - unfold p', r. cbn [build_eps fst snd]. fold p.
    split; [apply build_frame_refl|]. split; [exact Hwf|].
    split; [reflexivity|]. split; [exact K|]. split; [left; reflexivity|].
    split; [|reflexivity]. intros _ _ _. split; [auto|constructor].
  - unfold p', r. cbn [build_eps].
    destruct (ep_alloc_ok be i j) eqn:Ea; cbn [negb].
    + destruct (build_ep be port if_ix d (m, rh)) as [m1 rh1] eqn:Eb.
      destruct (build_ep_frame be port if_ix d m rh Hin) as (F & Hp1).
      rewrite Eb in F, Hp1. cbn [fst] in F, Hp1. fold p in Hp1.
      set (ep := oz_build_endpoint (bEndpointAddress d) (bmAttributes d)
                   (up_max_buffer_units be) (stream_create_rc be (desc_num d)))
        in *.
      destruct (store_built_fields if_ix d ep p)
        as (_ & _ & _ & _ & _ & Hni & _).
      destruct (store_built_lengths if_ix d ep p) as (Lo & Li).
      destruct (build_endpoint_fresh (bEndpointAddress d) (bmAttributes d)
                  (up_max_buffer_units be) (stream_create_rc be (desc_num d)))
        as (Hen & Heq). fold ep in Hen, Heq. fold (desc_num d) in Hen.
      assert (Hin1 : (port < length (ports (ozhcd (drv_world m1))))%nat).
      { destruct F as (_ & L & _). rewrite L. exact Hin. }
      assert (Hwf1 : iface_wf (port_at (ozhcd (drv_world m1)) port))
        by (rewrite Hp1; apply store_built_iface_wf; exact Hwf).
      assert (Hix1 : 0 <= if_ix < num_iface (port_at (ozhcd (drv_world m1)) port))
        by (rewrite Hp1, Hni; exact Hix).
      assert (K1 : kept_gone_or_named p0 (port_at (ozhcd (drv_world m1)) port))
        by (rewrite Hp1; apply store_built_kgn; assumption).
      destruct (IH (S j) rh1 m1 Hin1 Hwf1 Hix1 K1)
        as (G1 & G2 & G3 & G4 & G5 & G6 & G7).
      split; [eapply build_frame_trans; [exact F|exact G1]|].
      split; [exact G2|].
      split; [rewrite G3, Hp1, Hni; reflexivity|].
      split; [exact G4|]. split; [exact G5|].
      split; [|intros Hall; apply G7; exact Hall].
      intros Hz L16o L16i.
      destruct (G6 Hz) as (P1 & P2);
        [rewrite Hp1, Lo; exact L16o|rewrite Hp1, Li; exact L16i|].
      split.
      * intros dir n Hf. apply P1. rewrite Hp1.
        apply store_built_fresh; assumption.
      * constructor; [|exact P2]. apply P1. rewrite Hp1.
        pose proof (desc_num_range d) as R.
        split.
        -- exists ep. split; [apply store_built_slot_self; assumption|].
           split; [rewrite Hen, Z2Nat.id by lia; reflexivity|exact Heq].
        -- exists (Z.to_nat if_ix). apply store_built_named_self; assumption.
    + cbn [fst snd].
      assert (Hlt : if_ix < num_iface p) by lia.
      destruct (clean_interface_port port if_ix m Hin Hlt)
        as (_ & _ & Hni & _).
      split; [apply clean_interface_build_frame; exact Hin|].
      split; [apply clean_interface_iface_wf; assumption|].
      split; [exact Hni|].
      split; [apply clean_interface_kgn; assumption|].
      split; [right; reflexivity|].
      split; [intros Hz; discriminate Hz|].
      intros Hall. rewrite Hall in Ea. discriminate Ea.
Qed.

Lemma build_interface_spec be port i intf p0 m :
  (port < length (ports (ozhcd (drv_world m))))%nat ->
  let p := port_at (ozhcd (drv_world m)) port in
  iface_wf p -> 0 <= bInterfaceNumber intf ->
  kept_gone_or_named p0 p ->
  let r := oz_build_endpoints_for_interface be port i (Some intf) m in
  let p' := port_at (ozhcd (drv_world (snd r))) port in
  build_frame port m (snd r) /\
  iface_wf p' /\ num_iface p' = num_iface p /\
  kept_gone_or_named p0 p' /\
  (fst r = 0 \/ fst r = - ENOMEM) /\
  (fst r = 0 ->
   length (out_ep p) = 16%nat -> length (in_ep p) = 16%nat ->
   (forall dir n, fresh_slot p dir n -> fresh_slot p' dir n) /\
   Forall (fun d => fresh_slot p' (desc_in d) (Z.to_nat (desc_num d)))
     (endpoint intf)) /\
  ((forall k, ep_alloc_ok be i k = true) ->
   bInterfaceNumber intf < num_iface p -> fst r = 0).
Proof.
  intros Hin p Hwf Hnn K r p'.
  unfold p', r, oz_build_endpoints_for_interface. fold p.
  destruct Hwf as (ifs & Hifs & Hlen).
  rewrite Hifs. rewrite orb_false_r.
  destruct (Z.geb_spec (bInterfaceNumber intf) (num_iface p)) as [Hge|Hlt].
  - cbn [fst snd]. fold p.
    split; [apply build_frame_refl|].
    split; [exists ifs; auto|]. split; [reflexivity|]. split; [exact K|].
    split; [right; reflexivity|].
    split; [intros Hz; discriminate Hz|]. intros _ H. lia.
  - assert (Hwf : iface_wf p) by (exists ifs; auto).
    destruct (build_eps_spec be port (bInterfaceNumber intf) i p0
                (endpoint intf) 0%nat false m Hin Hwf (conj Hnn Hlt) K)
      as (G1 & G2 & G3 & G4 & G5 & G6 & G7).
    split; [exact G1|]. split; [exact G2|]. split; [exact G3|].
    split; [exact G4|]. split; [exact G5|]. split; [exact G6|].
    intros Hall _. apply G7. exact Hall.
Qed.

Lemma build_ifaces_spec be port config p0 ixs :
  forall m,
  (port < length (ports (ozhcd (drv_world m))))%nat ->
  let p := port_at (ozhcd (drv_world m)) port in
  iface_wf p ->
  (forall i, i ∈ ixs ->
     exists intf, intf_at config i 0 = Some intf /\ 0 <= bInterfaceNumber intf) ->
  kept_gone_or_named p0 p ->
  exists r,
  build_ifaces be port config ixs m = Some r /\
  build_frame port m (snd r) /\
  iface_wf (port_at (ozhcd (drv_world (snd r))) port) /\
  num_iface (port_at (ozhcd (drv_world (snd r))) port) = num_iface p /\
  kept_gone_or_named p0 (port_at (ozhcd (drv_world (snd r))) port) /\
  (fst r = false ->
   length (out_ep p) = 16%nat -> length (in_ep p) = 16%nat ->
   (forall dir n, fresh_slot p dir n ->
      fresh_slot (port_at (ozhcd (drv_world (snd r))) port) dir n) /\
   forall i intf, i ∈ ixs -> intf_at config i 0 = Some intf ->
     Forall (fun d => fresh_slot (port_at (ozhcd (drv_world (snd r))) port)
                        (desc_in d) (Z.to_nat (desc_num d)))
       (endpoint intf)) /\
  ((forall i k, ep_alloc_ok be i k = true) ->
   (forall i intf, i ∈ ixs -> intf_at config i 0 = Some intf ->
      bInterfaceNumber intf < num_iface p) ->
   fst r = false).
Proof.
  induction ixs as [|i ixs IH]; intros m Hin p Hwf Hnn K.
  - exists (false, m). split; [reflexivity|]. cbn [fst snd]. fold p.
    split; [apply build_frame_refl|]. split; [exact Hwf|].
    split; [reflexivity|]. split; [exact K|].
    split; [|reflexivity]. intros _ _ _. split; [auto|].
    intros i intf Hi. apply not_elem_of_nil in Hi. contradiction.
  - cbn [build_ifaces].
    destruct (Hnn i) as (intf & Hi & Hnni); [left|].
    rewrite Hi.
    destruct (build_interface_spec be port i intf p0 m
                Hin Hwf Hnni K) as (G1 & G2 & G3 & G4 & G5 & G6 & G7).
    destruct (oz_build_endpoints_for_interface be port i (Some intf) m)
      as [rc m1] eqn:Eb.
    cbn [fst snd] in G1, G2, G3, G4, G5, G6, G7. fold p in G3, G6, G7.
    destruct (Z.eqb_spec rc 0) as [Hz|Hz]; cbn [negb].
    + assert (Hin1 : (port < length (ports (ozhcd (drv_world m1))))%nat).
      { destruct G1 as (_ & L & _). rewrite L. exact Hin. }
      assert (Hnn1 : forall i', i' ∈ ixs ->
                exists intf', intf_at config i' 0 = Some intf' /\
                              0 <= bInterfaceNumber intf')
        by (intros i' Hi'; apply Hnn; right; exact Hi').
      destruct (IH m1 Hin1 G2 Hnn1 G4)
        as (r & Hr & J1 & J2 & J3 & J4 & J5 & J6).
      exists r. split; [exact Hr|].
      split; [eapply build_frame_trans; [exact G1|exact J1]|].
      split; [exact J2|]. split; [rewrite J3, G3; reflexivity|].
      split; [exact J4|].
      split.
      * intros Hf L16o L16i.
        destruct (G6 Hz L16o L16i) as (P1 & P2).
        destruct G1 as (_ & _ & _ & _ & _ & _ & _ & _ & Lo & Li).
        destruct (J5 Hf) as (Q1 & Q2);
          [rewrite Lo; exact L16o|rewrite Li; exact L16i|].
        split; [intros dir n H; apply Q1, P1, H|].
        intros i' intf' Hi' Hintf'. apply elem_of_cons in Hi' as [->|Hi'].
        -- assert (intf' = intf) by congruence. subst intf'.
           eapply Forall_impl; [exact P2|]. intros d Hd. apply Q1, Hd.
        -- eapply Q2; eassumption.
      * intros Hall Hlt. apply J6; [exact Hall|].
        intros i' intf' Hi' Hintf'. rewrite G3. eapply Hlt; [right|]; eassumption.
    + exists (true, m1). split; [reflexivity|]. cbn [fst snd].
      split; [exact G1|]. split; [exact G2|]. split; [exact G3|].
      split; [exact G4|].
      split; [intros Hf; discriminate Hf|].
      intros Hall Hlt. exfalso. apply Hz. apply G7; [apply Hall|].
      eapply Hlt; [left|exact Hi].
Qed.

Lemma upd_port_build_frame port f m :
  (port < length (ports (ozhcd (drv_world m))))%nat ->
  (forall p, port_flags (f p) = port_flags p /\ status (f p) = status p /\
             hpd (f p) = hpd p /\ bus_addr (f p) = bus_addr p /\
             config_num (f p) = config_num p /\
             out_ep (f p) = out_ep p /\ in_ep (f p) = in_ep p) ->
  build_frame port m (on_world (upd_port port f) m).
Proof.
  intros Hin Hf. unfold build_frame. cbn [drv_world on_world].
  rewrite port_at_upd_same by exact Hin.
  destruct (Hf (port_at (ozhcd (drv_world m)) port))
    as (F1 & F2 & F3 & F4 & F5 & F6 & F7).
  split.
  { exists []. rewrite app_nil_r. split; [reflexivity|constructor]. }
  split; [unfold upd_port; g_simpl; apply length_insert|].
  split; [intros j Hj; apply port_at_upd_other; congruence|].
  rewrite F6, F7. repeat split; assumption.
Qed.

(** A configuration as the USB core parses it has a first alternate
    setting for each of its interfaces. *)
Lemma config_wf_intf c i :
  config_wf c -> (i < Z.to_nat (bNumInterfaces c))%nat ->
  exists intf, intf_at c i 0 = Some intf /\
               0 <= bInterfaceNumber intf < bNumInterfaces c.
Proof.
  intros (Hn & Hl & Hall) Hi. unfold intf_at.
  destruct (lookup_lt_is_Some_2 (intf_cache c) i) as [alts Ha]; [lia|].
  rewrite Ha.
  rewrite Forall_lookup in Hall. destruct (Hall i alts Ha) as (Hne & Hb).
  destruct alts as [|a alts]; [contradiction|].
  exists a. split; [reflexivity|].
  apply Forall_cons in Hb as [Hb _]. exact Hb.
Qed.

Lemma build_config_spec be port config m :
  (port < length (ports (ozhcd (drv_world m))))%nat ->
  config_wf config ->
  let n := bNumInterfaces config in
  let p := port_at (ozhcd (drv_world m)) port in
  exists r,
  oz_build_endpoints_for_config be port config m = Some r /\
  build_frame port m (snd r) /\
  (fst r <> 0 ->
   (forall dir k,
      slot_of (port_at (ozhcd (drv_world (snd r))) port) dir k = slot_of p dir k \/
      slot_of (port_at (ozhcd (drv_world (snd r))) port) dir k = None) /\
   (num_iface p = 0 -> iface p = None ->
    num_iface (port_at (ozhcd (drv_world (snd r))) port) = 0 /\
    iface (port_at (ozhcd (drv_world (snd r))) port) = None)) /\
  (fst r = 0 ->
   length (out_ep p) = 16%nat -> length (in_ep p) = 16%nat ->
   (n <> 0 -> num_iface (port_at (ozhcd (drv_world (snd r))) port) = n) /\
   (n = 0 -> snd r = m) /\
   forall i intf, (i < Z.to_nat n)%nat -> intf_at config i 0 = Some intf ->
     Forall (fun d => fresh_slot (port_at (ozhcd (drv_world (snd r))) port)
                        (desc_in d) (Z.to_nat (desc_num d)))
       (endpoint intf)) /\
  ((n <> 0 -> iface_alloc_ok be = true) ->
   (forall i k, ep_alloc_ok be i k = true) -> fst r = 0) /\
  (n <> 0 -> iface_alloc_ok be = false -> fst r <> 0).
Proof.
  intros Hin Hwf n p.
  assert (Hn0 : 0 <= n) by (destruct Hwf as (H & _); exact H).
  unfold oz_build_endpoints_for_config. fold n.
  destruct (Z.eqb_spec n 0) as [Hz|Hz]; cbn [negb andb].
  - (* no interface: nothing is built *)
    rewrite Hz. cbn [Z.to_nat seq build_ifaces fst snd].
    exists (0, m). split; [reflexivity|]. cbn [fst snd]. fold p.
    split; [apply build_frame_refl|].
    split; [intros H; contradiction|].
    split.
    { intros _ _ _. split; [intros H; contradiction|].
      split; [reflexivity|]. intros i intf Hi. lia. }
    split; [reflexivity|]. intros H. contradiction.
  - destruct (iface_alloc_ok be) eqn:Ea; cbn [negb].
    + set (f0 := fun p : oz_port =>
                   set_num_iface n
                     (set_iface (Some (replicate (Z.to_nat n) (mk_iface 0 0))) p)).
      set (m0 := on_world (upd_port port f0) m).
      assert (F0 : build_frame port m m0).
      { apply upd_port_build_frame; [exact Hin|].
        intros q. repeat split; reflexivity. }
      assert (Hin0 : (port < length (ports (ozhcd (drv_world m0))))%nat).
      { destruct F0 as (_ & L & _). rewrite L. exact Hin. }
      assert (Hp0 : port_at (ozhcd (drv_world m0)) port = f0 p).
      { unfold m0. cbn [drv_world on_world]. apply port_at_upd_same.
        exact Hin. }
      assert (Hwf0 : iface_wf (port_at (ozhcd (drv_world m0)) port)).
      { rewrite Hp0. eexists. split; [reflexivity|].
        rewrite length_replicate. unfold f0. g_simpl. lia. }
      assert (K0 : kept_gone_or_named p (port_at (ozhcd (drv_world m0)) port)).
      { rewrite Hp0. intros dir k. left. reflexivity. }
      assert (Hnn : forall i, i ∈ seq 0 (Z.to_nat n) ->
                      exists intf, intf_at config i 0 = Some intf /\
                                   0 <= bInterfaceNumber intf).
      { intros i Hi. apply elem_of_seq in Hi.
        destruct (config_wf_intf config i Hwf) as (intf & E & R);
          [fold n; lia|].
        exists intf. split; [exact E|lia]. }
      assert (Hbound : forall i intf, i ∈ seq 0 (Z.to_nat n) ->
                intf_at config i 0 = Some intf -> bInterfaceNumber intf < n).
      { intros i intf Hi E. apply elem_of_seq in Hi.
        destruct (config_wf_intf config i Hwf) as (intf' & E' & R);
          [fold n; lia|].
        assert (intf' = intf) by congruence. subst intf'. fold n in R. lia. }
      destruct (build_ifaces_spec be port config p (seq 0 (Z.to_nat n))
                  m0 Hin0 Hwf0 Hnn K0)
        as (r0 & Eb & G1 & G2 & G3 & G4 & G5 & G6).
      rewrite Eb. destruct r0 as [failed m3].
      cbn [fst snd] in G1, G2, G3, G4, G5, G6.
      assert (Hin3 : (port < length (ports (ozhcd (drv_world m3))))%nat).
      { destruct G1 as (_ & L & _). rewrite L. exact Hin0. }
      destruct failed.
      * exists (-1, oz_clean_endpoints_for_config port m3).
        split; [reflexivity|]. cbn [fst snd].
        destruct (clean_config_port port m3 Hin3) as (C1 & C2 & C3 & C4).
        split; [eapply build_frame_trans;
                [exact F0|eapply build_frame_trans; [exact G1|exact C1]]|].
        split.
        { intros _. split; [|intros _ _; split; assumption].
          intros dir k. destruct (C4 dir k) as [E|[E Hnamed]]; [auto|].
          rewrite E. destruct (G4 dir k) as [H|[H|[k' H]]]; [auto|auto|].
          exfalso. apply (Hnamed k'). exact H. }
        split; [intros H; discriminate H|].
        split; [|intros _ _ H; discriminate H].
        intros _ Hall. exfalso.
        assert (X : true = false); [|discriminate X].
        apply G6; [exact Hall|].
        intros i intf Hi E. rewrite Hp0. unfold f0. g_simpl.
        eapply Hbound; eassumption.
      * exists (0, m3). split; [reflexivity|]. cbn [fst snd].
        split; [eapply build_frame_trans; [exact F0|exact G1]|].
        split; [intros H; contradiction|].
        split; [|split; [reflexivity|intros _ H; discriminate H]].
        intros _ L16o L16i.
        destruct F0 as (_ & _ & _ & _ & _ & _ & _ & _ & Lo & Li).
        destruct (G5 eq_refl) as (_ & Q2);
          [rewrite Lo; exact L16o|rewrite Li; exact L16i|].
        split; [intros _; rewrite G3, Hp0; reflexivity|].
        split; [intros H; contradiction|].
        intros i intf Hi E. eapply Q2; [|exact E]. apply elem_of_seq. lia.
    + exists (- ENOMEM, m). split; [reflexivity|]. cbn [fst snd]. fold p.
      split; [apply build_frame_refl|].
      split.
      { intros _. split; [intros dir k; left; reflexivity|auto]. }
      split; [intros H; discriminate H|].
      split; [intros H; specialize (H Hz); discriminate H|].
      intros _ _ H. discriminate H.
Qed.

(** * The stream calls of teardown and build *)

Lemma stream_deletes_are h eps : Forall (is_stream_delete h) (stream_deletes h eps).
Proof.
  unfold stream_deletes. apply Forall_forall. intros c Hc.
  apply list_elem_of_In in Hc. apply in_map_iff in Hc as (ep & <- & _).
  eexists. reflexivity.
Qed.

Lemma stream_delete_call h c : is_stream_delete h c -> is_stream_call h c.
Proof. intros (n & ->). exists n. right. reflexivity. Qed.

Lemma desc_streams_are h d : Forall (is_stream_call h) (desc_streams h d).
Proof.
  unfold desc_streams. destruct (_ && _); [|constructor].
  constructor; [|constructor]. eexists. left. reflexivity.
Qed.

Lemma attrib_built a attr units rc :
  attrib (oz_build_endpoint a attr units rc) = to_u8 attr.
Proof.
  unfold oz_build_endpoint, oz_ep_alloc.
  repeat match goal with
         | |- context [if ?c then _ else _] => destruct c
         end; reflexivity.
Qed.

(** [oz_clean_endpoints_for_interface] only releases streams. *)
Lemma clean_interface_ext port if_ix m :
  (port < length (ports (ozhcd (drv_world m))))%nat ->
  let h := hpd (port_at (ozhcd (drv_world m)) port) in
  let m' := oz_clean_endpoints_for_interface port if_ix m in
  pd_arrived_n m' = pd_arrived_n m /\
  exists dels, ext_calls m' = ext_calls m ++ dels /\
               Forall (is_stream_delete h) dels.
Proof.
  intros Hin h m'.
  destruct (Z.lt_ge_cases if_ix (num_iface (port_at (ozhcd (drv_world m)) port)))
    as [Hlt|Hge].
  - destruct (clean_interface_eq port if_ix m Hlt Hin) as (_ & B & C & _).
    split; [exact C|]. eexists. split; [exact B|]. apply stream_deletes_are.
  - unfold m', oz_clean_endpoints_for_interface.
    destruct (Z.geb_spec if_ix (num_iface (port_at (ozhcd (drv_world m)) port)));
      [|lia].
    split; [reflexivity|]. exists []. rewrite app_nil_r.
    split; [reflexivity|constructor].
Qed.

Lemma clean_interfaces_ext port ixs :
  forall m,
  (port < length (ports (ozhcd (drv_world m))))%nat ->
  let h := hpd (port_at (ozhcd (drv_world m)) port) in
  let m' := foldl (fun m i => oz_clean_endpoints_for_interface port (Z.of_nat i) m)
              m ixs in
  pd_arrived_n m' = pd_arrived_n m /\
  exists dels, ext_calls m' = ext_calls m ++ dels /\
               Forall (is_stream_delete h) dels.
Proof.
  induction ixs as [|i ixs IH]; intros m Hin h; cbn [foldl].
  - split; [reflexivity|]. exists []. rewrite app_nil_r.
    split; [reflexivity|constructor].
  - destruct (clean_interface_ext port (Z.of_nat i) m Hin)
      as (P1 & d1 & E1 & D1).
    pose proof (clean_interface_build_frame port (Z.of_nat i) m Hin)
      as (_ & L & _ & _ & _ & Hh & _).
    set (m1 := oz_clean_endpoints_for_interface port (Z.of_nat i) m) in *.
    assert (Hin1 : (port < length (ports (ozhcd (drv_world m1))))%nat)
      by (rewrite L; exact Hin).
    destruct (IH m1 Hin1) as (P2 & d2 & E2 & D2).
    split; [rewrite P2; exact P1|].
    exists (d1 ++ d2). split; [rewrite E2, E1, app_assoc; reflexivity|].
    apply Forall_app. split; [exact D1|]. rewrite Hh in D2. exact D2.
Qed.

Lemma clean_config_ext port m :
  (port < length (ports (ozhcd (drv_world m))))%nat ->
  let h := hpd (port_at (ozhcd (drv_world m)) port) in
  let m' := oz_clean_endpoints_for_config port m in
  pd_arrived_n m' = pd_arrived_n m /\
  exists dels, ext_calls m' = ext_calls m ++ dels /\
               Forall (is_stream_delete h) dels.
Proof.
  intros Hin h m'. unfold m', oz_clean_endpoints_for_config.
  cbn [on_world ext_calls pd_arrived_n].
  apply clean_interfaces_ext. exact Hin.
Qed.

(** One round of the build loop creates the stream of its descriptor. *)
Lemma build_ep_ext be port if_ix d m rh :
  let h := hpd (port_at (ozhcd (drv_world m)) port) in
  let r := build_ep be port if_ix d (m, rh) in
  pd_arrived_n (fst r) = pd_arrived_n m /\
  ext_calls (fst r) = ext_calls m ++ desc_streams h d.
Proof.
  intros h r. unfold r, build_ep, desc_streams. cbv zeta.
  rewrite attrib_built. fold h.
  destruct (_ && negb (desc_in d)); destruct (rh || _);
    try destruct h;
    cbn [fst drv_world pd_arrived_n ext_calls on_world tell];
    rewrite ?app_nil_r; split; reflexivity.
Qed.

Lemma build_eps_ext be port if_ix i ds :
  forall j rh m,
  (port < length (ports (ozhcd (drv_world m))))%nat ->
  let h := hpd (port_at (ozhcd (drv_world m)) port) in
  let r := build_eps be port if_ix i j rh ds m in
  build_frame port m (snd r) /\
  pd_arrived_n (snd r) = pd_arrived_n m /\
  exists ec, ext_calls (snd r) = ext_calls m ++ ec /\
             Forall (is_stream_call h) ec /\
             (fst r = 0 -> ec = flat_map (desc_streams h) ds).
Proof.
  induction ds as [|d ds IH]; intros j rh m Hin h r.
  - unfold r. cbn [build_eps fst snd flat_map].
    split; [apply build_frame_refl|]. split; [reflexivity|].
    exists []. rewrite app_nil_r.
    split; [reflexivity|]. split; [constructor|reflexivity].
  - unfold r. cbn [build_eps flat_map].
    destruct (ep_alloc_ok be i j); cbn [negb].
    + destruct (build_ep_frame be port if_ix d m rh Hin) as (F & _).
      destruct (build_ep_ext be port if_ix d m rh) as (P1 & E1).
      fold h in E1.
      destruct (build_ep be port if_ix d (m, rh)) as [m1 rh1].
      cbn [fst] in F, P1, E1.
      assert (Hin1 : (port < length (ports (ozhcd (drv_world m1))))%nat).
      { destruct F as (_ & L & _). rewrite L. exact Hin. }
      assert (Hh : hpd (port_at (ozhcd (drv_world m1)) port) = h).
      { destruct F as (_ & _ & _ & _ & _ & H & _). exact H. }
      destruct (IH (S j) rh1 m1 Hin1) as (F2 & P2 & ec & E2 & D2 & X2).
      rewrite Hh in D2, X2.
      split; [eapply build_frame_trans; [exact F|exact F2]|].
      split; [rewrite P2; exact P1|].
      exists (desc_streams h d ++ ec).
      split; [rewrite E2, E1, app_assoc; reflexivity|].
      split; [apply Forall_app; split; [apply desc_streams_are|exact D2]|].
      intros Hz. rewrite (X2 Hz). reflexivity.
    + cbn [fst snd].
      destruct (clean_interface_ext port if_ix m Hin) as (P1 & dels & E1 & D1).
      split; [apply clean_interface_build_frame; exact Hin|].
      split; [exact P1|].
      exists dels. split; [exact E1|].
      split; [eapply Forall_impl; [exact D1|apply stream_delete_call]|].
      intros Hz. unfold ENOMEM in Hz. discriminate Hz.
Qed.

Lemma build_interface_ext be port i intf m :
  (port < length (ports (ozhcd (drv_world m))))%nat ->
  let h := hpd (port_at (ozhcd (drv_world m)) port) in
  let r := oz_build_endpoints_for_interface be port i (Some intf) m in
  build_frame port m (snd r) /\
  pd_arrived_n (snd r) = pd_arrived_n m /\
  exists ec, ext_calls (snd r) = ext_calls m ++ ec /\
             Forall (is_stream_call h) ec /\
             (fst r = 0 -> ec = intf_streams h intf).
Proof.
  intros Hin h r. unfold r, oz_build_endpoints_for_interface.
  destruct (_ || _).
  - cbn [fst snd]. split; [apply build_frame_refl|]. split; [reflexivity|].
    exists []. rewrite app_nil_r. split; [reflexivity|].
    split; [constructor|]. intros Hz. unfold ENOMEM in Hz. discriminate Hz.
  - apply build_eps_ext. exact Hin.
Qed.

Lemma build_ifaces_ext be port config ixs :
  forall m r,
  (port < length (ports (ozhcd (drv_world m))))%nat ->
  build_ifaces be port config ixs m = Some r ->
  let h := hpd (port_at (ozhcd (drv_world m)) port) in
  build_frame port m (snd r) /\
  pd_arrived_n (snd r) = pd_arrived_n m /\
  exists ec, ext_calls (snd r) = ext_calls m ++ ec /\
             Forall (is_stream_call h) ec /\
             (fst r = false ->
              ec = flat_map
                     (fun i => from_option (intf_streams h) []
                                 (intf_at config i 0)) ixs).
Proof.
  induction ixs as [|i ixs IH]; intros m r Hin Hr h.
  - cbn [build_ifaces] in Hr. injection Hr as <-. cbn [fst snd flat_map].
    split; [apply build_frame_refl|]. split; [reflexivity|].
    exists []. rewrite app_nil_r.
    split; [reflexivity|]. split; [constructor|reflexivity].
  - cbn [build_ifaces flat_map] in Hr |- *.
    destruct (intf_at config i 0) as [intf|]; [|discriminate Hr].
    cbn [from_option].
    destruct (build_interface_ext be port i intf m Hin)
      as (F & P1 & ec1 & E1 & D1 & X1).
    fold h in D1, X1.
    destruct (oz_build_endpoints_for_interface be port i (Some intf) m)
      as [rc m1].
    cbn [fst snd] in F, P1, E1, X1.
    destruct (Z.eqb_spec rc 0) as [Hz|Hz]; cbn [negb] in Hr.
    + assert (Hin1 : (port < length (ports (ozhcd (drv_world m1))))%nat).
      { destruct F as (_ & L & _). rewrite L. exact Hin. }
      assert (Hh : hpd (port_at (ozhcd (drv_world m1)) port) = h).
      { destruct F as (_ & _ & _ & _ & _ & H & _). exact H. }
      destruct (IH m1 r Hin1 Hr) as (F2 & P2 & ec & E2 & D2 & X2).
      rewrite Hh in D2, X2.
      split; [eapply build_frame_trans; [exact F|exact F2]|].
      split; [rewrite P2; exact P1|].
      exists (ec1 ++ ec).
      split; [rewrite E2, E1, app_assoc; reflexivity|].
      split; [apply Forall_app; split; assumption|].
      intros Hf. rewrite (X2 Hf), (X1 Hz). reflexivity.
    + injection Hr as <-. cbn [fst snd].
      split; [exact F|]. split; [exact P1|].
      exists ec1. split; [exact E1|]. split; [exact D1|].
      intros Hf. discriminate Hf.
Qed.

(** [oz_build_endpoints_for_config] creates and releases streams only,
    and when it succeeds it created those of the configuration. *)
Lemma build_config_ext be port config m r :
  (port < length (ports (ozhcd (drv_world m))))%nat ->
  oz_build_endpoints_for_config be port config m = Some r ->
  let h := hpd (port_at (ozhcd (drv_world m)) port) in
  pd_arrived_n (snd r) = pd_arrived_n m /\
  exists ec, ext_calls (snd r) = ext_calls m ++ ec /\
             Forall (is_stream_call h) ec /\
             (fst r = 0 -> ec = config_streams h config).
Proof.
  intros Hin Hr h. unfold oz_build_endpoints_for_config in Hr.
  set (n := bNumInterfaces config) in *.
  set (m0 := if negb (n =? 0)
             then on_world
                    (upd_port port
                       (fun p => set_num_iface n
                          (set_iface
                             (Some (replicate (Z.to_nat n) (mk_iface 0 0))) p)))
                    m
             else m) in *.
  destruct (negb (n =? 0) && negb (iface_alloc_ok be)).
  - injection Hr as <-. cbn [fst snd]. split; [reflexivity|].
    exists []. rewrite app_nil_r. split; [reflexivity|].
    split; [constructor|]. intros Hz. unfold ENOMEM in Hz. discriminate Hz.
  - assert (F0 : build_frame port m m0 /\ pd_arrived_n m0 = pd_arrived_n m /\
                 ext_calls m0 = ext_calls m).
    { unfold m0. destruct (negb (n =? 0)).
      - split; [|split; reflexivity].
        apply upd_port_build_frame; [exact Hin|].
        intros q. repeat split; reflexivity.
      - split; [apply build_frame_refl|split; reflexivity]. }
    destruct F0 as (F0 & P0 & E0).
    assert (Hin0 : (port < length (ports (ozhcd (drv_world m0))))%nat).
    { destruct F0 as (_ & L & _). rewrite L. exact Hin. }
    assert (Hh0 : hpd (port_at (ozhcd (drv_world m0)) port) = h).
    { destruct F0 as (_ & _ & _ & _ & _ & H & _). exact H. }
    destruct (build_ifaces be port config (seq 0 (Z.to_nat n)) m0)
      as [[failed m3]|] eqn:Eb; [|discriminate Hr].
    destruct (build_ifaces_ext be port config (seq 0 (Z.to_nat n)) m0
                (failed, m3) Hin0 Eb) as (F3 & P3 & ec & E3 & D3 & X3).
    cbn [fst snd] in F3, P3, E3, X3. rewrite Hh0 in D3, X3.
    injection Hr as <-.
    destruct failed; cbn [fst snd].
    + assert (Hin3 : (port < length (ports (ozhcd (drv_world m3))))%nat).
      { destruct F3 as (_ & L & _). rewrite L. exact Hin0. }
      assert (Hh3 : hpd (port_at (ozhcd (drv_world m3)) port) = h).
      { destruct F3 as (_ & _ & _ & _ & _ & H & _). rewrite H. exact Hh0. }
      destruct (clean_config_ext port m3 Hin3) as (P4 & dels & E4 & D4).
      rewrite Hh3 in D4.
      split; [rewrite P4, P3; exact P0|].
      exists (ec ++ dels).
      split; [rewrite E4, E3, E0, app_assoc; reflexivity|].
      split.
      { apply Forall_app. split; [exact D3|].
        eapply Forall_impl; [exact D4|apply stream_delete_call]. }
      intros Hz. discriminate Hz.
    + split; [rewrite P3; exact P0|].
      exists ec. split; [rewrite E3, E0; reflexivity|].
      split; [exact D3|]. intros _. rewrite (X3 eq_refl). reflexivity.
Qed.

(** * SET_CONFIGURATION confirmed *)

(** The steps of [oz_hcd_complete_set_config] after a success code, up
    to the build of the configuration [cfg] names. *)
Lemma set_config_steps be configs port u cfg m :
  (port < length (ports (ozhcd (drv_world m))))%nat ->
  let p := port_at (ozhcd (drv_world m)) port in
  let m1 := on_world (upd_port port (set_config_num cfg)) m in
  let m2 := oz_clean_endpoints_for_config port m1 in
  let p2 := port_at (ozhcd (drv_world m2)) port in
  (config_at configs (cfg - 1) = None ->
   oz_hcd_complete_set_config be configs port u 0 cfg m = None) /\
  (forall config r,
     config_at configs (cfg - 1) = Some config ->
     oz_build_endpoints_for_config be port config m2 = Some r ->
     oz_hcd_complete_set_config be configs port u 0 cfg m
     = Some (on_world
               (oz_complete_urb u (if negb (fst r =? 0) then - ENOMEM else 0))
               (snd r))) /\
  (port < length (ports (ozhcd (drv_world m2))))%nat /\
  calls (drv_world m2) = calls (drv_world m) /\
  (forall j, j <> port ->
     port_at (ozhcd (drv_world m2)) j = port_at (ozhcd (drv_world m)) j) /\
  port_flags p2 = port_flags p /\ status p2 = status p /\
  hpd p2 = hpd p /\ bus_addr p2 = bus_addr p /\
  config_num p2 = cfg /\ num_iface p2 = 0 /\ iface p2 = None /\
  length (out_ep p2) = length (out_ep p) /\
  length (in_ep p2) = length (in_ep p) /\
  (forall dir k, slot_of p2 dir k = slot_of p dir k \/ slot_of p2 dir k = None) /\
  pd_arrived_n m2 = pd_arrived_n m /\
  (exists dels, ext_calls m2 = ext_calls m ++ dels /\
                Forall (is_stream_delete (hpd p)) dels).
Proof.
  intros Hin p m1 m2 p2.
  assert (Hin1 : (port < length (ports (ozhcd (drv_world m1))))%nat).
  { unfold m1. cbn [drv_world on_world]. unfold upd_port. g_simpl.
    rewrite length_insert. exact Hin. }
  assert (Hp1 : port_at (ozhcd (drv_world m1)) port = set_config_num cfg p).
  { unfold m1. cbn [drv_world on_world]. apply port_at_upd_same. exact Hin. }
  destruct (clean_config_port port m1 Hin1) as (F & N2 & I2 & S2).
  destruct (clean_config_ext port m1 Hin1) as (X1 & dels & X2 & X3).
  fold m2 in F, N2, I2, S2, X1, X2. fold p2 in N2, I2, S2.
  destruct F as ((hb & Hc & Hhb) & L & Ho & F1 & F2 & F3 & F4 & F5 & Lo & Li).
  fold p2 in F1, F2, F3, F4, F5, Lo, Li.
  rewrite Hp1 in F1, F2, F3, F4, F5, Lo, Li, S2, X3.
  g_simpl.
  assert (Hcn : config_num p2 = cfg) by exact F5.
  split.
  { intros Hnone. unfold oz_hcd_complete_set_config. cbn [Z.eqb]. fold m1.
    fold m2. fold p2. rewrite Hcn, Hnone. reflexivity. }
  split.
  { intros config r Hcfg Hr. unfold oz_hcd_complete_set_config. cbn [Z.eqb].
    fold m1. fold m2. fold p2. rewrite Hcn, Hcfg, Hr.
    destruct r as [rc m3]. reflexivity. }
  split; [rewrite L; exact Hin1|].
  split.
  { destruct (clean_interfaces_frame port
                (seq 0 (Z.to_nat (num_iface (port_at (ozhcd (drv_world m1)) port))))
                m1 Hin1) as (A1 & _).
    unfold m2, oz_clean_endpoints_for_config. cbn [drv_world on_world].
    unfold upd_port at 1. g_simpl. rewrite A1. unfold m1.
    cbn [drv_world on_world]. unfold upd_port. reflexivity. }
  split.
  { intros j Hj. rewrite Ho by exact Hj. unfold m1. cbn [drv_world on_world].
    apply port_at_upd_other. congruence. }
  split; [exact F1|]. split; [exact F2|]. split; [exact F3|].
  split; [exact F4|]. split; [exact Hcn|]. split; [exact N2|].
  split; [exact I2|]. split; [exact Lo|]. split; [exact Li|].
  split.
  { intros dir k.
    destruct (S2 dir k) as [E|[E _]]; [right; exact E|left; exact E]. }
  split; [rewrite X1; reflexivity|].
  exists dels. split; [rewrite X2; reflexivity|exact X3].
Qed.

(** X25.  A configuration is built.  The peer confirms
    SET_CONFIGURATION with success for a configuration number between
    1 and the number of configurations of the device; that
    configuration is as the USB core parses it: [bNumInterfaces]
    interfaces, each with at least one alternate setting, every
    interface number at least 0 and below [bNumInterfaces]; the
    endpoint tables of the port have their 16 slots, and every
    allocation succeeds.  Then [oz_hcd_complete_set_config] hands the
    URB back once with status 0.  Before that it asks the peer for
    heartbeats only, and the transport only to release streams of the
    port's peer and then to create one stream for every isochronous OUT
    endpoint descriptor of the first alternate settings, in the order
    of the descriptors.  The port then carries the configuration number
    and [bNumInterfaces] interfaces, and every endpoint descriptor of
    the first alternate setting of every interface has a fresh endpoint
    in the table of its direction under its number: nothing is queued
    on it and the mask of an interface names it, so that a later
    teardown finds it. *)
Theorem set_configuration_builds be configs port u cfg config m :
  let w := drv_world m in
  let p := port_at (ozhcd w) port in
  let n := bNumInterfaces config in
  (port < length (ports (ozhcd w)))%nat ->
  length (out_ep p) = 16%nat -> length (in_ep p) = 16%nat ->
  config_at configs (cfg - 1) = Some config ->
  config_wf config ->
  iface_alloc_ok be = true ->
  (forall i k, ep_alloc_ok be i k = true) ->
  exists m',
    oz_hcd_complete_set_config be configs port u 0 cfg m = Some m' /\
    let w' := drv_world m' in
    let p' := port_at (ozhcd w') port in
    (exists hb, calls w' = calls w ++ hb ++ [Giveback (completed u 0) 0] /\
                Forall is_heartbeat_request hb) /\
    (exists dels,
       ext_calls m' = ext_calls m ++ dels ++ config_streams (hpd p) config /\
       Forall (is_stream_delete (hpd p)) dels) /\
    pd_arrived_n m' = pd_arrived_n m /\
    config_num p' = cfg /\ num_iface p' = n /\
    (forall i intf d,
       (i < Z.to_nat n)%nat -> intf_at config i 0 = Some intf ->
       d ∈ endpoint intf ->
       fresh_slot p' (desc_in d) (Z.to_nat (desc_num d))) /\
    hpd p' = hpd p /\ bus_addr p' = bus_addr p /\
    port_flags p' = port_flags p /\
    (forall j, j <> port -> port_at (ozhcd w') j = port_at (ozhcd w) j).
Proof.
  intros w p n Hin L16o L16i Hcfg Hwf Ha Hall.
  destruct (set_config_steps be configs port u cfg m Hin)
    as (_ & Hm' & Hin2 & Hc2 & Ho2 & F1 & F2 & F3 & F4 & Hcn & N2 & I2 & Lo & Li
        & _ & X1 & dels & X2 & X3).
  fold w p in Hm', Hc2, Ho2, F1, F2, F3, F4, Lo, Li, X3.
  set (m2 := oz_clean_endpoints_for_config port
               (on_world (upd_port port (set_config_num cfg)) m)) in *.
  set (p2 := port_at (ozhcd (drv_world m2)) port) in *.
  destruct (build_config_spec be port config m2 Hin2 Hwf)
    as (r & Hr & B1 & _ & B3 & B4 & _).
  fold n p2 in B3, B4.
  destruct (build_config_ext be port config m2 r Hin2 Hr)
    as (Y1 & ec & Y2 & _ & Y4).
  fold p2 in Y4. rewrite F3 in Y4.
  assert (Hz : fst r = 0) by (apply B4; [intros _; exact Ha|exact Hall]).
  specialize (Hm' config r Hcfg Hr). rewrite Hz in Hm'.
  cbn [Z.eqb negb] in Hm'.
  destruct (B3 Hz) as (Bn & Bz & Bf); [rewrite Lo; exact L16o|rewrite Li; exact L16i|].
  set (w3 := drv_world (snd r)) in *.
  exists (on_world (oz_complete_urb u 0) (snd r)).
  split; [exact Hm'|].
  intros w' p'.
  cbn [drv_world on_world ext_calls pd_arrived_n] in w' |- *. fold w3 in w'.
  assert (Hp' : p' = port_at (ozhcd w3) port).
  { unfold p', w'. rewrite complete_urb_eq. reflexivity. }
  destruct B1 as ((hb & Hc & Hhb) & _ & Ho & G1 & G2 & G3 & G4 & G5 & _).
  fold w3 in Hc, Ho, G1, G2, G3, G4, G5. fold p2 in G1, G2, G3, G4, G5.
  split.
  { exists hb. split; [|exact Hhb].
    unfold w'. rewrite complete_urb_eq. g_simpl. rewrite Hc, Hc2, app_assoc.
    reflexivity. }
  split.
  { exists dels. split; [|exact X3].
    rewrite Y2, X2, (Y4 Hz), app_assoc. reflexivity. }
  split; [rewrite Y1; exact X1|].
  rewrite Hp'.
  split; [rewrite G5; exact Hcn|].
  split.
  { destruct (Z.eq_dec n 0) as [Hn|Hn].
    - unfold w3. rewrite (Bz Hn). fold p2. rewrite N2, Hn. reflexivity.
    - apply Bn. exact Hn. }
  split.
  { intros i intf d Hi Hintf Hd. specialize (Bf i intf Hi Hintf).
    rewrite Forall_forall in Bf. apply Bf. exact Hd. }
  split; [rewrite G3; exact F3|]. split; [rewrite G4; exact F4|].
  split; [rewrite G1; exact F1|].
  intros j Hj. unfold w'. rewrite complete_urb_eq.
  rewrite (port_at_ports _ (ozhcd w3)) by reflexivity.
  rewrite Ho, Ho2 by exact Hj. reflexivity.
Qed.

Lemma sample_config_iso_wf : config_wf sample_config_iso.
Proof.
  split; [vm_compute; discriminate|]. split; [reflexivity|].
  constructor; [|constructor]. split; [discriminate|].
  constructor; [|constructor].
  split; vm_compute; [discriminate|reflexivity].
Qed.

Lemma sample_config_wf : config_wf sample_config.
Proof.
  split; [vm_compute; discriminate|]. split; [reflexivity|].
  constructor; [|constructor]. split; [discriminate|].
  constructor; [|constructor].
  split; vm_compute; [discriminate|reflexivity].
Qed.

Lemma set_configuration_builds_witness :
  let be := be_ok in
  let configs := [sample_config_iso] in
  let port := 2%nat in
  let u := vendor_urb 1 5 in
  let cfg := 1 in
  let config := sample_config_iso in
  let m := boot (world_dev5 false) in
  let w := drv_world m in
  let p := port_at (ozhcd w) port in
  let n := bNumInterfaces config in
  exists m',
    oz_hcd_complete_set_config be configs port u 0 cfg m = Some m' /\
    let w' := drv_world m' in
    let p' := port_at (ozhcd w') port in
    (exists hb, calls w' = calls w ++ hb ++ [Giveback (completed u 0) 0] /\
                Forall is_heartbeat_request hb) /\
    (exists dels,
       ext_calls m' = ext_calls m ++ dels ++ [StreamCreate (Some 77) 2] /\
       Forall (is_stream_delete (hpd p)) dels) /\
    pd_arrived_n m' = pd_arrived_n m /\
    config_num p' = cfg /\ num_iface p' = n /\
    (forall i intf d,
       (i < Z.to_nat n)%nat -> intf_at config i 0 = Some intf ->
       d ∈ endpoint intf ->
       fresh_slot p' (desc_in d) (Z.to_nat (desc_num d))) /\
    hpd p' = hpd p /\ bus_addr p' = bus_addr p /\
    port_flags p' = port_flags p /\
    (forall j, j <> port -> port_at (ozhcd w') j = port_at (ozhcd w) j).
Proof.
  apply (set_configuration_builds be_ok [sample_config_iso] 2 (vendor_urb 1 5) 1
           sample_config_iso (boot (world_dev5 false))).
  - vm_compute. lia.
  - reflexivity.
  - reflexivity.
  - reflexivity.
  - exact sample_config_iso_wf.
  - reflexivity.
  - reflexivity.
Defined.

(** X26.  The outcome of SET_CONFIGURATION.  After a success code
    [oz_hcd_complete_set_config] reads the configuration
    [config_num - 1] of the device: for a number that is not between 1
    and the number of configurations, as 0, it reads outside the array
    and has no result.  After a failure code, or a success code for a
    configuration of the device that is as the USB core parses it (as
    in X25), it hands the URB back exactly once, with status 0 or
    -ENOMEM, touches no other port, asks the peer for heartbeats only
    and the transport only to create and release streams of the port's
    peer.  A failure code gives -ENOMEM, no call to the transport, and
    leaves the ports as they are.  After a success code the port
    carries the new configuration number whether or not the endpoints
    could be built; when the interface array cannot be allocated the
    status is -ENOMEM; and whenever the status is -ENOMEM the port is
    left without interfaces and every endpoint of it is as before the
    confirmation or gone: nothing that was built stays, and the
    configuration that was there before is not restored. *)
Theorem set_configuration_rollback be configs port u rcode cfg m :
  let w := drv_world m in
  let p := port_at (ozhcd w) port in
  let r := oz_hcd_complete_set_config be configs port u rcode cfg m in
  (port < length (ports (ozhcd w)))%nat ->
  (rcode = 0 -> config_at configs (cfg - 1) = None -> r = None) /\
  (rcode <> 0 \/
   (exists config, config_at configs (cfg - 1) = Some config /\
                   config_wf config) ->
   exists m' st hb ec,
     r = Some m' /\
     let w' := drv_world m' in
     let p' := port_at (ozhcd w') port in
     calls w' = calls w ++ hb ++ [Giveback (completed u st) st] /\
     Forall is_heartbeat_request hb /\
     ext_calls m' = ext_calls m ++ ec /\
     Forall (is_stream_call (hpd p)) ec /\
     pd_arrived_n m' = pd_arrived_n m /\
     (st = 0 \/ st = - ENOMEM) /\
     (rcode <> 0 ->
      st = - ENOMEM /\ ports (ozhcd w') = ports (ozhcd w) /\ ec = []) /\
     (rcode = 0 ->
      config_num p' = cfg /\
      (forall config,
         config_at configs (cfg - 1) = Some config ->
         bNumInterfaces config <> 0 -> iface_alloc_ok be = false ->
         st = - ENOMEM) /\
      (st = - ENOMEM ->
       num_iface p' = 0 /\ iface p' = None /\
       forall dir k,
         slot_of p' dir k = slot_of p dir k \/ slot_of p' dir k = None)) /\
     (forall j, j <> port -> port_at (ozhcd w') j = port_at (ozhcd w) j)).
Proof.
  intros w p r Hin. split.
  { intros -> Hnone. unfold r.
    destruct (set_config_steps be configs port u cfg m Hin) as (H & _).
    apply H. exact Hnone. }
  intros Hcase.
  destruct (Z.eq_dec rcode 0) as [Hz|Hnz].
  - subst rcode. destruct Hcase as [H|(config & Hcfg & Hwf)]; [contradiction|].
    destruct (set_config_steps be configs port u cfg m Hin)
      as (_ & Hm' & Hin2 & Hc2 & Ho2 & _ & _ & F3 & _ & Hcn & N2 & I2 & _ & _
          & S2 & X1 & dels & X2 & X3).
    fold w p in Hm', Hc2, Ho2, S2, F3, X3.
    set (m2 := oz_clean_endpoints_for_config port
                 (on_world (upd_port port (set_config_num cfg)) m)) in *.
    set (p2 := port_at (ozhcd (drv_world m2)) port) in *.
    destruct (build_config_spec be port config m2 Hin2 Hwf)
      as (r0 & Hr & B1 & B2 & _ & _ & B5).
    fold p2 in B2, B5.
    destruct (build_config_ext be port config m2 r0 Hin2 Hr)
      as (Y1 & ec & Y2 & Y3 & _).
    fold p2 in Y3. rewrite F3 in Y3.
    specialize (Hm' config r0 Hcfg Hr).
    set (st := if negb (fst r0 =? 0) then - ENOMEM else 0) in *.
    set (w3 := drv_world (snd r0)) in *.
    exists (on_world (oz_complete_urb u st) (snd r0)), st.
    destruct B1 as ((hb & Hc & Hhb) & _ & Ho & _ & _ & _ & _ & G5 & _).
    fold w3 in Hc, Ho, G5. fold p2 in G5.
    exists hb, (dels ++ ec).
    split; [exact Hm'|].
    intros w' p'.
    cbn [drv_world on_world ext_calls pd_arrived_n] in w' |- *. fold w3 in w'.
    assert (Hp' : p' = port_at (ozhcd w3) port).
    { unfold p', w'. rewrite complete_urb_eq. reflexivity. }
    split.
    { unfold w'. rewrite complete_urb_eq. g_simpl.
      rewrite Hc, Hc2, app_assoc. reflexivity. }
    split; [exact Hhb|].
    split; [rewrite Y2, X2, app_assoc; reflexivity|].
    split.
    { apply Forall_app. split; [|exact Y3].
      eapply Forall_impl; [exact X3|apply stream_delete_call]. }
    split; [rewrite Y1; exact X1|].
    split; [unfold st; destruct (negb (fst r0 =? 0)); auto|].
    split; [intros H; contradiction|].
    split.
    { intros _. rewrite Hp'.
      split; [rewrite G5; exact Hcn|].
      split.
      { intros config' Hcfg' Hn Ha.
        assert (config' = config) by congruence. subst config'.
        specialize (B5 Hn Ha). unfold st.
        destruct (Z.eqb_spec (fst r0) 0); [contradiction|reflexivity]. }
      intros Hst.
      assert (Hr0 : fst r0 <> 0).
      { intros E. unfold st in Hst. rewrite E in Hst. cbn [Z.eqb negb] in Hst.
        unfold ENOMEM in Hst. discriminate Hst. }
      destruct (B2 Hr0) as (Bs & Bi). destruct (Bi N2 I2) as (Bn & Bf).
      split; [exact Bn|]. split; [exact Bf|].
      intros dir k. destruct (Bs dir k) as [E|E]; [|right; exact E].
      rewrite E. apply S2. }
    intros j Hj. unfold w'. rewrite complete_urb_eq.
    rewrite (port_at_ports _ (ozhcd w3)) by reflexivity.
    rewrite Ho, Ho2 by exact Hj. reflexivity.
  - assert (Hm' : r = Some (on_world (oz_complete_urb u (- ENOMEM)) m)).
    { unfold r, oz_hcd_complete_set_config.
      destruct (Z.eqb_spec rcode 0); [contradiction|reflexivity]. }
    exists (on_world (oz_complete_urb u (- ENOMEM)) m), (- ENOMEM), [], [].
    split; [exact Hm'|].
    intros w' p'.
    cbn [drv_world on_world ext_calls pd_arrived_n] in w' |- *. fold w in w'.
    split; [unfold w'; rewrite complete_urb_eq; reflexivity|].
    split; [constructor|].
    split; [rewrite app_nil_r; reflexivity|].
    split; [constructor|].
    split; [reflexivity|].
    split; [right; reflexivity|].
    split.
    { intros _. split; [reflexivity|]. split; [|reflexivity].
      unfold w'. rewrite complete_urb_eq. reflexivity. }
    split; [intros H; contradiction|].
    intros j Hj. unfold w'. rewrite complete_urb_eq. reflexivity.
Qed.

Lemma set_configuration_rollback_witness :
  let be := be_second_fails in
  let configs := [sample_config] in
  let port := 2%nat in
  let u := vendor_urb 1 5 in
  let cfg := 1 in
  let m := boot (world_dev5 true) in
  let w := drv_world m in
  let p := port_at (ozhcd w) port in
  oz_hcd_complete_set_config be configs port u 0 0 m = None /\
  exists m' st hb ec,
    oz_hcd_complete_set_config be configs port u 0 cfg m = Some m' /\
    let w' := drv_world m' in
    let p' := port_at (ozhcd w') port in
    calls w' = calls w ++ hb ++ [Giveback (completed u st) st] /\
    Forall is_heartbeat_request hb /\
    ext_calls m' = ext_calls m ++ ec /\
    Forall (is_stream_call (hpd p)) ec /\
    pd_arrived_n m' = pd_arrived_n m /\
    (st = 0 \/ st = - ENOMEM) /\
    (0 <> 0 ->
     st = - ENOMEM /\ ports (ozhcd w') = ports (ozhcd w) /\ ec = []) /\
    (0 = 0 ->
     config_num p' = cfg /\
     (forall config,
        config_at configs (cfg - 1) = Some config ->
        bNumInterfaces config <> 0 -> iface_alloc_ok be = false ->
        st = - ENOMEM) /\
     (st = - ENOMEM ->
      num_iface p' = 0 /\ iface p' = None /\
      forall dir k,
        slot_of p' dir k = slot_of p dir k \/ slot_of p' dir k = None)) /\
    (forall j, j <> port -> port_at (ozhcd w') j = port_at (ozhcd w) j).
Proof.
  split.
  - apply (set_configuration_rollback be_second_fails [sample_config] 2
             (vendor_urb 1 5) 0 0 (boot (world_dev5 true)));
      [vm_compute; lia|reflexivity|reflexivity].
  - apply (set_configuration_rollback be_second_fails [sample_config] 2
             (vendor_urb 1 5) 0 1 (boot (world_dev5 true)));
      [vm_compute; lia|].
    right. exists sample_config. split; [reflexivity|exact sample_config_wf].
Defined.

(** In the sample state the second endpoint of the configuration cannot
    be allocated: the URB comes back with -ENOMEM, the interrupt
    endpoint the port had is gone with the one just built, and the port
    reports configuration 1 without any interface. *)
Example set_configuration_rolled_back :
  exists m',
  oz_hcd_complete_set_config be_second_fails [sample_config] 2
    (vendor_urb 1 5) 0 1 (boot (world_dev5 true)) = Some m' /\
  let p' := port_at (ozhcd (drv_world m')) 2 in
  last (calls (drv_world m'))
  = Some (Giveback (completed (vendor_urb 1 5) (- ENOMEM)) (- ENOMEM)) /\
  config_num p' = 1 /\ num_iface p' = 0 /\ iface p' = None /\
  slot_of p' true 1 = None /\ slot_of p' false 2 = None /\
  slot_of p' false 0 = slot_of (port_at (ozhcd (world_dev5 true)) 2) false 0.
Proof. eexists. split; [vm_compute; reflexivity|]. vm_compute. repeat split; reflexivity. Qed.

(** * SET_INTERFACE confirmed *)

Lemma set_alt_fresh a k p dir n :
  fresh_slot p dir n ->
  fresh_slot (set_iface (alter (set_alt a) k <$> iface p) p) dir n.
Proof.
  intros (Hs & (k' & f & Hf & Hlt & Hn & Hnm)). split; [exact Hs|].
  exists k'. unfold named_by. g_simpl.
  destruct (iface p) as [ifs|];
    cbn [fmap option_fmap option_map default from_option id] in *;
    [|rewrite lookup_nil in Hf; discriminate Hf].
  destruct (decide (k' = k)) as [->|Hne].
  - exists (set_alt a f).
    split; [rewrite list_lookup_alter_eq, Hf; reflexivity|]. auto.
  - exists f. split; [rewrite list_lookup_alter_ne by congruence; exact Hf|].
    auto.
Qed.

(** X27.  An alternate setting is built.  A failure code of the peer,
    or a port without configuration, makes
    [oz_hcd_complete_set_interface] hand the URB back with -ENOMEM,
    with no call to the transport and the ports as they are.  After a
    success code on a configured port it reads the alternate setting
    [alt] of the interface [if_num] in the configuration
    [config_num - 1] of the device, and has no result when that is
    outside the descriptor tree.  When the setting is there, the port
    has its [num_iface] interfaces and its 16 endpoint slots per
    direction, [if_num] and the interface number of the setting are at
    least 0 and below [num_iface], and every endpoint allocation
    succeeds, it tears down the endpoints of the interface, builds
    those of the setting, records the alternate setting and hands the
    URB back once with status 0; before that it asks the peer for
    heartbeats only, and the transport only to release streams and
    then to create one stream for every isochronous OUT endpoint
    descriptor of the setting.  Every endpoint descriptor of the
    setting then has a fresh endpoint in the table of its direction;
    the configuration number, the number of interfaces and the other
    ports are as before. *)
Theorem set_interface_builds be configs port u rcode if_num alt_num m :
  let w := drv_world m in
  let p := port_at (ozhcd w) port in
  let r := oz_hcd_complete_set_interface be configs port u rcode if_num
             alt_num m in
  (port < length (ports (ozhcd w)))%nat ->
  (rcode <> 0 \/ config_num p <= 0 ->
   exists m',
     r = Some m' /\
     calls (drv_world m')
     = calls w ++ [Giveback (completed u (- ENOMEM)) (- ENOMEM)] /\
     ports (ozhcd (drv_world m')) = ports (ozhcd w) /\
     ext_calls m' = ext_calls m) /\
  (rcode = 0 -> 0 < config_num p ->
   config_at configs (config_num p - 1) = None \/
   (exists config,
      config_at configs (config_num p - 1) = Some config /\
      intf_at config (Z.to_nat if_num) (Z.to_nat alt_num) = None) ->
   r = None) /\
  (forall config intf,
   rcode = 0 -> 0 < config_num p ->
   config_at configs (config_num p - 1) = Some config ->
   intf_at config (Z.to_nat if_num) (Z.to_nat alt_num) = Some intf ->
   iface_wf p ->
   length (out_ep p) = 16%nat -> length (in_ep p) = 16%nat ->
   0 <= if_num < num_iface p ->
   0 <= bInterfaceNumber intf < num_iface p ->
   (forall k, ep_alloc_ok be (Z.to_nat if_num) k = true) ->
   exists m',
     r = Some m' /\
     let w' := drv_world m' in
     let p' := port_at (ozhcd w') port in
     (exists hb, calls w' = calls w ++ hb ++ [Giveback (completed u 0) 0] /\
                 Forall is_heartbeat_request hb) /\
     (exists dels,
        ext_calls m' = ext_calls m ++ dels ++ intf_streams (hpd p) intf /\
        Forall (is_stream_delete (hpd p)) dels) /\
     pd_arrived_n m' = pd_arrived_n m /\
     (alt <$> (default [] (iface p') !! Z.to_nat if_num)) = Some alt_num /\
     Forall (fun d => fresh_slot p' (desc_in d) (Z.to_nat (desc_num d)))
       (endpoint intf) /\
     config_num p' = config_num p /\ num_iface p' = num_iface p /\
     (forall j, j <> port -> port_at (ozhcd w') j = port_at (ozhcd w) j)).
Proof.
  intros w p r Hin.
  set (m1 := oz_clean_endpoints_for_interface port if_num m).
  pose proof (clean_interface_build_frame port if_num m Hin) as F1.
  fold m1 in F1.
  set (p1 := port_at (ozhcd (drv_world m1)) port) in *.
  destruct F1 as ((hb1 & Hc1 & Hhb1) & L1 & Ho1 & _ & _ & Hh1 & _ & Hcn1
                  & Lo1 & Li1).
  fold w in Hc1, L1, Ho1. fold p1 in Hcn1, Lo1, Li1, Hh1.
  change (port_at (ozhcd (drv_world m)) port) with p in Hcn1, Lo1, Li1, Hh1.
  split; [|split].
  - intros Hfail.
    exists (on_world (oz_complete_urb u (- ENOMEM)) m).
    split.
    { unfold r, oz_hcd_complete_set_interface. fold w. fold p.
      destruct (Z.eqb_spec rcode 0); [|reflexivity].
      destruct (Z.gtb_spec (config_num p) 0); [|reflexivity].
      destruct Hfail; [contradiction|lia]. }
    cbn [drv_world on_world ext_calls]. fold w.
    rewrite complete_urb_eq. repeat split; reflexivity.
  - intros -> Hcn Hnone.
    unfold r, oz_hcd_complete_set_interface. fold w. fold p. cbn [Z.eqb].
    destruct (Z.gtb_spec (config_num p) 0); [|lia].
    fold m1. fold p1. rewrite Hcn1.
    destruct Hnone as [->|(config & -> & ->)]; reflexivity.
  - intros config intf Hz Hcn Hcfg Hintf Hwf L16o L16i Hif Hbi Hall.
    assert (Hlt : if_num < num_iface p) by lia.
    destruct (clean_interface_port port if_num m Hin Hlt)
      as (_ & _ & Hn1 & _).
    fold m1 in Hn1. fold p1 in Hn1.
    change (port_at (ozhcd (drv_world m)) port) with p in Hn1.
    pose proof (clean_interface_iface_wf port if_num m Hin Hwf) as Hwf1.
    fold m1 in Hwf1. fold p1 in Hwf1.
    destruct (clean_interface_ext port if_num m Hin) as (X1 & dels & X2 & X3).
    fold m1 in X1, X2. fold w p in X3.
    assert (Hin1 : (port < length (ports (ozhcd (drv_world m1))))%nat)
      by (rewrite L1; exact Hin).
    assert (K1 : kept_gone_or_named p1 p1) by (intros dir k; left; reflexivity).
    assert (Hnn : 0 <= bInterfaceNumber intf) by lia.
    destruct (build_interface_spec be port (Z.to_nat if_num) intf p1 m1
                Hin1 Hwf1 Hnn K1) as (G1 & G2 & G3 & _ & _ & G6 & G7).
    fold p1 in G3, G6, G7.
    destruct (build_interface_ext be port (Z.to_nat if_num) intf m1 Hin1)
      as (_ & Y1 & ec & Y2 & _ & Y4).
    fold p1 in Y4. rewrite Hh1 in Y4.
    set (r1 := oz_build_endpoints_for_interface be port (Z.to_nat if_num)
                 (Some intf) m1) in *.
    assert (Hr : fst r1 = 0) by (apply G7; [exact Hall|rewrite Hn1; lia]).
    destruct (G6 Hr) as (_ & Gf); [rewrite Lo1; exact L16o|rewrite Li1; exact L16i|].
    set (m2 := snd r1) in *. set (p2 := port_at (ozhcd (drv_world m2)) port) in *.
    destruct G1 as ((hb2 & Hc2 & Hhb2) & L2 & Ho2 & _ & _ & _ & _ & Hcn2 & _).
    fold p2 in Hcn2. fold p1 in Hcn2.
    assert (Hin2 : (port < length (ports (ozhcd (drv_world m2))))%nat)
      by (rewrite L2; exact Hin1).
    set (fa := fun q : oz_port =>
                 set_iface (alter (set_alt alt_num) (Z.to_nat if_num)
                              <$> iface q) q).
    destruct G2 as (ifs & Hifs & Hlen). fold p2 in Hifs, Hlen.
    destruct (lookup_lt_is_Some_2 ifs (Z.to_nat if_num)) as [f Hf];
      [rewrite G3, Hn1 in Hlen; lia|].
    exists (on_world (oz_complete_urb u 0) (on_world (upd_port port fa) m2)).
    split.
    { unfold r, oz_hcd_complete_set_interface. fold w. fold p.
      rewrite Hz. cbn [Z.eqb].
      destruct (Z.gtb_spec (config_num p) 0); [|lia].
      fold m1. fold p1. rewrite Hcn1, Hcfg, Hintf. fold r1.
      destruct r1 as [rc m2'] eqn:Er. cbn [fst snd] in *. subst rc.
      cbn [Z.eqb negb].
      change (port_at (ozhcd (drv_world m2')) port) with p2.
      rewrite Hifs. cbn [default from_option id]. rewrite Hf. reflexivity. }
    intros w' p'.
    cbn [drv_world on_world ext_calls pd_arrived_n] in w' |- *.
    assert (Hp' : p' = fa p2).
    { unfold p', w'. rewrite complete_urb_eq.
      rewrite (port_at_ports _ (ozhcd (upd_port port fa (drv_world m2))))
        by reflexivity.
      apply port_at_upd_same. exact Hin2. }
    split.
    { exists (hb1 ++ hb2). split; [|apply Forall_app; split; assumption].
      unfold w'. rewrite complete_urb_eq. g_simpl. unfold upd_port at 1.
      g_simpl. rewrite Hc2, Hc1, <- !app_assoc. reflexivity. }
    split.
    { exists dels. split; [|exact X3].
      rewrite Y2, X2, (Y4 Hr), app_assoc. reflexivity. }
    split; [rewrite Y1; exact X1|].
    rewrite Hp'.
    split.
    { unfold fa. g_simpl. rewrite Hifs.
      cbn [fmap option_fmap option_map default from_option id].
      rewrite list_lookup_alter_eq, Hf. reflexivity. }
    split.
    { eapply Forall_impl; [exact Gf|]. intros d Hd. apply set_alt_fresh.
      exact Hd. }
    split; [unfold fa; g_simpl; rewrite Hcn2, Hcn1; reflexivity|].
    split; [unfold fa; g_simpl; fold p2 in G3; rewrite G3, Hn1; reflexivity|].
    intros j Hj. unfold w'. rewrite complete_urb_eq.
    rewrite (port_at_ports _ (ozhcd (upd_port port fa (drv_world m2))))
      by reflexivity.
    rewrite port_at_upd_other by congruence.
    rewrite Ho2, Ho1 by exact Hj. reflexivity.
Qed.

(** The sample state of a configured port: the confirmation of
    SET_CONFIGURATION 1 has a result, which created the stream of the
    isochronous OUT endpoint 2. *)
Example configured_driver_state :
  oz_hcd_complete_set_config be_ok [sample_config_iso] 2 (vendor_urb 1 5) 0 1
    (boot (world_dev5 false)) = Some configured_driver /\
  let p := port_at (ozhcd (drv_world configured_driver)) 2 in
  config_num p = 1 /\ iface_wf p /\ num_iface p = 1 /\ hpd p = Some 77 /\
  length (out_ep p) = 16%nat /\ length (in_ep p) = 16%nat /\
  ext_calls configured_driver = [StreamCreate (Some 77) 2].
Proof.
  split; [vm_compute; reflexivity|]. cbv zeta.
  split; [vm_compute; reflexivity|].
  split.
  { eexists. split; [vm_compute; reflexivity|]. vm_compute. reflexivity. }
  repeat split; vm_compute; reflexivity.
Qed.

Lemma set_interface_builds_witness :
  let be := be_ok in
  let configs := [sample_config_iso] in
  let port := 2%nat in
  let u := vendor_urb 2 5 in
  let m := configured_driver in
  let w := drv_world m in
  let p := port_at (ozhcd w) port in
  let intf := mk_intf 0 [mk_ep_desc 129 3; mk_ep_desc 2 1] in
  oz_hcd_complete_set_interface be configs port u 0 0 1 m = None /\
  exists m',
    oz_hcd_complete_set_interface be configs port u 0 0 0 m = Some m' /\
    let w' := drv_world m' in
    let p' := port_at (ozhcd w') port in
    (exists hb, calls w' = calls w ++ hb ++ [Giveback (completed u 0) 0] /\
                Forall is_heartbeat_request hb) /\
    (exists dels,
       ext_calls m' = ext_calls m ++ dels ++ [StreamCreate (Some 77) 2] /\
       Forall (is_stream_delete (Some 77)) dels) /\
    pd_arrived_n m' = pd_arrived_n m /\
    (alt <$> (default [] (iface p') !! 0%nat)) = Some 0 /\
    Forall (fun d => fresh_slot p' (desc_in d) (Z.to_nat (desc_num d)))
      (endpoint intf) /\
    config_num p' = config_num p /\ num_iface p' = num_iface p /\
    (forall j, j <> port -> port_at (ozhcd w') j = port_at (ozhcd w) j).
Proof.
  intros be configs port u m w p intf.
  assert (Hin : (port < length (ports (ozhcd w)))%nat) by (vm_compute; lia).
  split.
  - destruct (set_interface_builds be configs port u 0 0 1 m Hin)
      as (_ & H & _).
    apply H; [reflexivity|vm_compute; reflexivity|].
    right. exists sample_config_iso. split; reflexivity.
  - destruct (set_interface_builds be configs port u 0 0 0 m Hin)
      as (_ & _ & H).
    apply (H sample_config_iso intf).
    + reflexivity.
    + vm_compute. reflexivity.
    + reflexivity.
    + reflexivity.
    + eexists. split; [vm_compute; reflexivity|]. vm_compute. reflexivity.
    + reflexivity.
    + reflexivity.
    + vm_compute. split; [discriminate|reflexivity].
    + vm_compute. split; [discriminate|reflexivity].
    + reflexivity.
Defined.


(** * The controller as a whole *)

Lemma scan_ports_none ps i addr :
  Forall (fun p => bus_addr p <> addr) ps -> scan_ports ps i addr = -1.
Proof.
  intros H. revert i. induction H as [|p ps Hp _ IH]; intros i;
    cbn [scan_ports]; [reflexivity|].
  destruct (Z.eqb_spec (bus_addr p) addr); [contradiction|]. apply IH.
Qed.

(** X28.  The controller as probed.  [oz_plat_probe] fails with -ENOMEM
    when the controller cannot be created and with -1 when it cannot be
    added, and changes nothing then.  Otherwise it returns 0 and
    registers the controller: its lists are empty, there is no
    connection port and every port is absent with the address 0xff, so
    that no bus address of an URB resolves to a port.  Until a peer
    arrives every submission is refused with -ENODEV and leaves the
    state as it is. *)
Theorem oz_plat_probe_no_device created add_rc w :
  let r := oz_plat_probe created add_rc w in
  let w' := snd r in
  (created = false -> r = (- ENOMEM, w)) /\
  (created = true -> add_rc <> 0 -> r = (-1, w)) /\
  (created = true -> add_rc = 0 ->
   fst r = 0 /\ g_ozhcd w' = true /\
   urb_pending_list (ozhcd w') = [] /\ urb_cancel_list (ozhcd w') = [] /\
   orphanage (ozhcd w') = [] /\ conn_port (ozhcd w') = -1 /\
   length (ports (ozhcd w')) = Z.to_nat OZ_NB_PORTS /\
   (forall i, (i < 8)%nat ->
      port_has (port_at (ozhcd w') i) OZ_PORT_F_PRESENT = false /\
      bus_addr (port_at (ozhcd w') i) = 255 /\
      hpd (port_at (ozhcd w') i) = None) /\
   (forall addr, 0 <= addr <= 127 ->
      oz_get_port_from_addr (ozhcd w') addr = -1) /\
   (forall e u, oz_hcd_urb_enqueue e u w' = (- ENODEV, w')) /\
   calls w' = calls w).
Proof.
  intros r w'. split; [intros ->; reflexivity|]. split.
  - intros -> Hrc. unfold r, oz_plat_probe. cbn [negb].
    destruct (Z.eqb_spec add_rc 0); [contradiction|reflexivity].
  - intros -> ->. unfold w', r, oz_plat_probe. cbn [negb Z.eqb fst snd].
    set (h := mk_hcd [] [] [] (-1) (replicate (Z.to_nat OZ_NB_PORTS) probe_port) 0).
    assert (Hres : forall addr, 0 <= addr <= 127 ->
              oz_get_port_from_addr h addr = -1).
    { intros addr Ha. unfold oz_get_port_from_addr.
      destruct (Z.eqb_spec 0 addr); cbn [negb]; [reflexivity|].
      apply scan_ports_none. unfold h. cbn [ports].
      apply Forall_forall. intros q Hq. apply elem_of_replicate in Hq as [-> _].
      cbn. lia. }
    g_simpl.
    split; [reflexivity|]. split; [reflexivity|].
    split; [reflexivity|]. split; [reflexivity|]. split; [reflexivity|].
    split; [reflexivity|]. split; [reflexivity|].
    split.
    { intros i Hi. unfold port_at, h. cbn [ports].
      rewrite lookup_replicate_2 by (change (Z.to_nat OZ_NB_PORTS) with 8%nat; lia).
      repeat split; reflexivity. }
    split; [exact Hres|].
    split; [|reflexivity].
    intros e u. unfold oz_hcd_urb_enqueue.
    destruct (negb (hcd_state _ =? HC_STATE_RUNNING)); [reflexivity|].
    g_simpl. rewrite Hres.
    + reflexivity.
    + unfold usb_pipedevice. change 127 with (Z.ones 7).
      rewrite Z.land_ones by lia.
      pose proof (Z.mod_pos_bound (Z.shiftr (pipe u) 8) (2 ^ 7) eq_refl) as B.
      change (Z.ones 7) with 127. change (2 ^ 7) with 128 in B |- *. lia.
Qed.

(** X29.  Removal of the controller.  [oz_plat_remove] fails with -1
    and changes nothing for a device without controller.  Otherwise it
    unregisters the controller, hands back every URB of the orphanage
    exactly once with -ENODEV, oldest first, and empties the link pool;
    the ports are not touched.  A peer that arrives afterwards is
    refused. *)
Theorem oz_plat_remove_releases has_hcd w :
  let r := oz_plat_remove has_hcd w in
  let w' := snd r in
  (has_hcd = false -> r = (-1, w)) /\
  (has_hcd = true ->
   fst r = 0 /\ g_ozhcd w' = false /\
   orphanage (ozhcd w') = [] /\ g_link_pool_size w' = 0 /\
   calls w' = calls w
              ++ map (fun x => Giveback (completed (link_urb x) (- ENODEV))
                                 (- ENODEV))
                   (orphanage (ozhcd w)) /\
   g_pending_urbs w'
     = g_pending_urbs w - Z.of_nat (length (orphanage (ozhcd w))) /\
   ports (ozhcd w') = ports (ozhcd w) /\
   forall ep_ok h n ext,
     oz_hcd_pd_arrived ep_ok h (mk_driver w' n ext)
     = (None, mk_driver w' n ext)).
Proof.
  intros r w'. split.
  - intros ->. reflexivity.
  - intros ->. unfold w', r, oz_plat_remove, oz_hcd_clear_orphanage,
      oz_empty_link_pool. cbn [negb fst snd].
    set (w0 := set_g_ozhcd false w).
    destruct (clear_orphans_spec (orphanage (ozhcd w0)) (- ENODEV) w0)
      as (B1 & B2 & B3 & B4 & _).
    cbv zeta in B1, B2, B3, B4.
    set (w1 := clear_orphans (orphanage (ozhcd w0)) (- ENODEV) w0) in *.
    assert (Hg : g_ozhcd w1 = false).
    { unfold w1. generalize (orphanage (ozhcd w0)). intros l.
      assert (G : forall l v, g_ozhcd v = false ->
                  g_ozhcd (clear_orphans l (- ENODEV) v) = false).
      { clear. induction l as [|x l IH]; intros v Hv; cbn [clear_orphans];
          [exact Hv|].
        apply IH. rewrite free_link_eq, complete_urb_eq. exact Hv. }
      apply G. reflexivity. }
    split; [reflexivity|]. g_simpl.
    split; [exact Hg|].
    split; [rewrite B1; destruct (orphanage (ozhcd w0)); reflexivity|].
    split; [reflexivity|]. split; [exact B2|]. split; [exact B3|].
    split; [exact B4|].
    intros ep_ok h n ext. unfold oz_hcd_pd_arrived. cbn [drv_world].
    g_simpl. rewrite Hg. reflexivity.
Qed.

(** X30.  Suspending the bus.  After [oz_hcd_bus_suspend] every
    submission is refused with -ENODEV and leaves the state as it is,
    and a peer that arrives resumes the root hub before the hub is
    polled.  [oz_hcd_bus_resume] makes the controller run again, and
    gives back the state before the suspension when the controller was
    running then and not marked suspended. *)
Theorem bus_suspend_resume w :
  let ws := snd (oz_hcd_bus_suspend w) in
  let wr := snd (oz_hcd_bus_resume ws) in
  (forall e u, oz_hcd_urb_enqueue e u ws = (- ENODEV, ws)) /\
  (forall ep_ok h n ext port,
     fst (oz_hcd_pd_arrived ep_ok h (mk_driver ws n ext)) = Some port ->
     ext_calls (snd (oz_hcd_pd_arrived ep_ok h (mk_driver ws n ext)))
     = ext ++ [ResumeRootHub; PollRhStatus]) /\
  hcd_state wr = HC_STATE_RUNNING /\
  Z.land (hcd_flags (ozhcd wr)) OZ_HDC_F_SUSPENDED = 0 /\
  ports (ozhcd wr) = ports (ozhcd w) /\ calls wr = calls w /\
  (hcd_state w = HC_STATE_RUNNING ->
   Z.land (hcd_flags (ozhcd w)) OZ_HDC_F_SUSPENDED = 0 ->
   wr = w).
Proof.
  intros ws wr.
  assert (Hclr : forall f, Z.land (Z.land (Z.lor f OZ_HDC_F_SUSPENDED)
                                     (Z.lnot OZ_HDC_F_SUSPENDED))
                             OZ_HDC_F_SUSPENDED = 0).
  { intros f. rewrite <- Z.land_assoc.
    rewrite (Z.land_comm (Z.lnot _)), Z.land_lnot_diag. apply Z.land_0_r. }
  split.
  { intros e u. unfold oz_hcd_urb_enqueue. reflexivity. }
  split.
  { intros ep_ok h n ext port Hp.
    set (m := mk_driver ws n ext) in *.
    assert (Hg : g_ozhcd (drv_world m) = true /\ conn_port (ozhcd (drv_world m)) < 0).
    { unfold oz_hcd_pd_arrived in Hp.
      destruct (g_ozhcd (drv_world m)); [|discriminate Hp]. cbn [negb] in Hp.
      destruct (Z.geb_spec (conn_port (ozhcd (drv_world m))) 0);
        [discriminate Hp|]. split; [reflexivity|lia]. }
    destruct Hg as (Hg & Hc).
    destruct (pd_scan (Z.to_nat OZ_NB_PORTS) (pd_arrived_n m) (ozhcd (drv_world m)))
      as [j|] eqn:Es.
    - rewrite (pd_arrived_eq ep_ok h m j Hg Hc Es). cbn [snd ext_calls].
      unfold m. cbn [drv_world ext_calls]. unfold ws, oz_hcd_bus_suspend.
      g_simpl.
      rewrite (port_has_lor_set (hcd_flags (ozhcd w)) OZ_HDC_F_SUSPENDED
                 OZ_HDC_F_SUSPENDED) by discriminate.
      reflexivity.
    - unfold oz_hcd_pd_arrived in Hp. rewrite Hg in Hp. cbn [negb] in Hp.
      destruct (Z.geb_spec (conn_port (ozhcd (drv_world m))) 0);
        [discriminate Hp|]. rewrite Es in Hp. discriminate Hp. }
  unfold wr, ws, oz_hcd_bus_resume, oz_hcd_bus_suspend. g_simpl.
  split; [reflexivity|]. split; [apply Hclr|].
  split; [reflexivity|]. split; [reflexivity|].
  intros Hs Hf. destruct w as [st [pl cl orph cp ps fl] g pool pend fr cs].
  cbn [hcd_state ozhcd hcd_flags] in Hs, Hf. subst st.
  unfold set_hcd_state, set_ozhcd, set_hcd_flags.
  cbn [hcd_state ozhcd g_ozhcd g_link_pool_size g_pending_urbs
       g_usb_frame_number calls urb_pending_list urb_cancel_list orphanage
       conn_port ports hcd_flags].
  f_equal. f_equal.
  apply Z.bits_inj'. intros k Hk.
  rewrite Z.land_spec, Z.lor_spec, Z.lnot_spec by exact Hk.
  pose proof (f_equal (fun z => Z.testbit z k) Hf) as Hb. cbv beta in Hb.
  rewrite Z.land_spec, Z.bits_0 in Hb.
  destruct (Z.testbit fl k), (Z.testbit OZ_HDC_F_SUSPENDED k);
    cbn in *; congruence.
Qed.
